(** * TimeRate-Tracker: the workbook assembly engine

    A shallow embedding of [src/automate_excel.py] and [src/work_log.py]
    together with the properties their specification states about them.

    The two scripts drive two libraries, openpyxl (worksheets, cells,
    merged ranges, styles) and pandas (the record table).  The part of
    those libraries the scripts touch is modelled first; the scripts
    themselves follow, one module per file, function by function. *)

From Stdlib Require Import ZArith String Ascii List Lia DecimalString.
From Stdlib Require QArith DecimalNat.
From Stdlib Require Import Sorting.Sorted.
From stdpp Require Import base option gmap strings list sorting.

Open Scope string_scope.
Open Scope list_scope.

(** ** Exceptions and the error monad

    The scripts never catch an exception raised while a workbook is being
    assembled: the run stops.  A computation is therefore either a result
    or the exception that ended it. *)

Inductive Exception :=
| AttributeError   (* assignment to [MergedCell.value], a read-only attribute *)
| KeyError         (* [wb[name]] for a missing sheet *)
| ValueError       (* an invalid sheet title *)
| IndexError       (* [date_list[0]] on an empty list *)
| SystemExit.      (* [exit(1)] *)

Inductive result (A : Type) :=
| Ok (a : A)
| Raise (e : Exception).
Arguments Ok {A} a.
Arguments Raise {A} e.

#[global] Instance result_bind : MBind result := fun A B k m =>
  match m with
  | Ok a => k a
  | Raise e => Raise e
  end.

(** [for x in xs: body] over a state. *)
Fixpoint for_each {S A} (body : S -> A -> result S) (xs : list A) (s : S) : result S :=
  match xs with
  | [] => Ok s
  | x :: rest => s' ← body s x; for_each body rest s'
  end.

(** ** Python values *)

(** [datetime.date]. *)
Record date := mkdate { year : nat; month : nat; day : nat }.

#[global] Instance date_eq_dec : EqDecision date.
Proof. solve_decision. Defined.

(** The values that reach a cell: table entries, labels, formulas and the
    rate.  A float is kept as a rational (the scripts never compute with
    one); [PyNaN] is pandas' blank entry. *)
Inductive PyValue :=
| PyNone
| PyStr (s : string)
| PyInt (n : Z)
| PyFloat (q : QArith_base.Q)
| PyNaN
| PyDate (d : date).

#[global] Instance Q_eq_dec : EqDecision QArith_base.Q.
Proof. solve_decision. Defined.
#[global] Instance PyValue_eq_dec : EqDecision PyValue.
Proof. solve_decision. Defined.

(** *** [str.lower], [str.strip], [str(int)]

    Strings are byte strings.  On the ASCII letters [str.lower] maps [A-Z]
    to [a-z]; no character outside ASCII lowers to an ASCII letter of
    "yes" or "no", so the comparisons below are decided by the ASCII part. *)

Definition ascii_lower (c : ascii) : ascii :=
  let n := nat_of_ascii c in
  if (65 <=? n)%nat && (n <=? 90)%nat then ascii_of_nat (n + 32) else c.

Fixpoint lower (s : string) : string :=
  match s with
  | EmptyString => EmptyString
  | String c s' => String (ascii_lower c) (lower s')
  end.

(** [str.isspace] on one ASCII character: tab, line feed, vertical tab,
    form feed, carriage return, the four separators 0x1c-0x1f and space.
    Python's [str.strip] removes other blanks as well (U+0085, U+00A0,
    U+2003, ...): [strip] below is [str.strip] on ASCII text
    ([ascii_value]). *)
Definition is_space (c : ascii) : bool :=
  let n := nat_of_ascii c in
  ((9 <=? n)%nat && (n <=? 13)%nat) || ((28 <=? n)%nat && (n <=? 32)%nat).

Fixpoint lstrip (s : string) : string :=
  match s with
  | EmptyString => EmptyString
  | String c s' => if is_space c then lstrip s' else s
  end.

Fixpoint rstrip (s : string) : string :=
  match s with
  | EmptyString => EmptyString
  | String c s' =>
      match rstrip s' with
      | EmptyString => if is_space c then EmptyString else String c EmptyString
      | r => String c r
      end
  end.

Definition strip (s : string) : string := lstrip (rstrip s).

(** [str(n)] / [f"{n}"] for an [int]. *)
Definition str_of_Z (z : Z) : string := NilZero.string_of_int (Z.to_int z).
Definition str_of_pos (p : positive) : string := str_of_Z (Zpos p).
Definition str_of_nat (n : nat) : string := NilZero.string_of_uint (Nat.to_uint n).

(** Zero padding to a width, as [%m], [%d] and [%Y] do. *)
Fixpoint zeros (n : nat) : string :=
  match n with
  | O => EmptyString
  | S n' => String "0" (zeros n')
  end.

Definition zfill (width : nat) (s : string) : string :=
  zeros (width - String.length s) ++ s.

(** [d.strftime("%m-%d-%Y")], for the years from 1000 on
    ([four_digit_date] below): a year below 1000 is printed with or without
    zeros before it, depending on the C library. *)
Definition strftime_mdY (d : date) : string :=
  zfill 2 (str_of_nat (month d)) ++ "-" ++ zfill 2 (str_of_nat (day d)) ++ "-"
  ++ zfill 4 (str_of_nat (year d)).

(** ** The openpyxl model

    What the scripts rely on, as openpyxl implements it:
    - a worksheet keeps its cells in a dictionary keyed by (row, column);
      [ws.cell(row, column)] and [ws["B3"]] return the cell stored there and
      create an empty ordinary cell when there is none;
    - a cell object is either an ordinary [Cell] or a [MergedCell]; the
      latter has no value of its own ([.value] reads [None]) and assigning
      to [.value] raises [AttributeError];
    - [ws.merged_cells.ranges] is the list of recorded merged ranges;
    - [ws.max_row] and [ws.max_column] are the largest row and column of a
      stored cell, 1 for a sheet without cells;
    - [wb.copy_worksheet] adds a sheet titled "<title> Copy" and rebuilds
      every stored cell of the source as an ordinary cell with the source's
      value and style, then copies the list of merged ranges;
    - assigning a sheet title rejects the characters of
      [INVALID_TITLE_REGEX] and renames through [avoid_duplicate_name].
    A cell reference such as [B3] is kept as the pair (row, column) it
    denotes.  Two limits of openpyxl are left out: sheets are taken to be
    unbounded (openpyxl stops at row 1048576), and a value is stored as it
    is (openpyxl refuses strings with control characters and values of
    types it cannot convert). *)

Abbreviation coord := (positive * positive)%type.

Definition col_A : positive := 1.
Definition col_B : positive := 2.
Definition col_C : positive := 3.
Definition col_D : positive := 4.
Definition col_E : positive := 5.

(** [Font]: the colour and, abstractly, all the other attributes. *)
Record Font := mkFont { font_color : option string; font_other : nat }.

(** [Font(color=rgb)]. *)
Definition Font_color (rgb : string) : Font := mkFont (Some rgb) 0.
Definition default_font : Font := mkFont None 0.

(** The style of a cell: the six attributes [copy_cell_style] copies. *)
Record Style := mkStyle {
  font : Font;
  border : nat;
  fill : nat;
  number_format : nat;
  protection : nat;
  alignment : nat
}.

Definition default_style : Style := mkStyle default_font 0 0 0 0 0.

#[global] Instance Font_eq_dec : EqDecision Font.
Proof. solve_decision. Defined.
#[global] Instance Style_eq_dec : EqDecision Style.
Proof. solve_decision. Defined.

Inductive Cell :=
| PlainCell (value : PyValue) (style : Style)
| MergedCell (style : Style).

Definition default_cell : Cell := PlainCell PyNone default_style.

(** [cell.value], [cell.has_style] and the style of a cell object. *)
Definition cell_value (c : Cell) : PyValue :=
  match c with
  | PlainCell v _ => v
  | MergedCell _ => PyNone
  end.

Definition cell_style (c : Cell) : Style :=
  match c with
  | PlainCell _ st => st
  | MergedCell st => st
  end.

Definition has_style (st : Style) : bool := negb (bool_decide (st = default_style)).

(** [isinstance(cell, MergedCell)]. *)
Definition isinstance_MergedCell (c : Cell) : bool :=
  match c with
  | PlainCell _ _ => false
  | MergedCell _ => true
  end.

(** [CellRange]: a recorded merged range. *)
Record CellRange := mkRange {
  min_row : positive;
  min_col : positive;
  max_row_of : positive;
  max_col_of : positive
}.

(** [coordinate in merged_range]. *)
Definition range_contains (r : CellRange) (c : coord) : bool :=
  (min_row r <=? c.1)%positive && (c.1 <=? max_row_of r)%positive &&
  (min_col r <=? c.2)%positive && (c.2 <=? max_col_of r)%positive.

(** The top-left cell of a range. *)
Definition anchor (r : CellRange) : coord := (min_row r, min_col r).

Inductive SheetState := visible | hidden.

Record Worksheet := mkSheet {
  title : string;
  cells : gmap coord Cell;
  merged_ranges : list CellRange;
  freeze_panes : option coord;
  sheet_state : SheetState
}.

Definition set_cells (ws : Worksheet) (m : gmap coord Cell) : Worksheet :=
  mkSheet (title ws) m (merged_ranges ws) (freeze_panes ws) (sheet_state ws).

Definition set_title_raw (ws : Worksheet) (t : string) : Worksheet :=
  mkSheet t (cells ws) (merged_ranges ws) (freeze_panes ws) (sheet_state ws).

Definition set_sheet_state (ws : Worksheet) (st : SheetState) : Worksheet :=
  mkSheet (title ws) (cells ws) (merged_ranges ws) (freeze_panes ws) st.

(** Storing a cell object at a coordinate. *)
Definition put_cell (ws : Worksheet) (c : coord) (x : Cell) : Worksheet :=
  set_cells ws (<[c := x]> (cells ws)).

(** The cell object at a coordinate, as a read sees it. *)
Definition cell_at (ws : Worksheet) (c : coord) : Cell :=
  default default_cell (cells ws !! c).

Definition value_at (ws : Worksheet) (c : coord) : PyValue := cell_value (cell_at ws c).
Definition style_at (ws : Worksheet) (c : coord) : Style := cell_style (cell_at ws c).

(** [ws.cell(row, column)] and [ws[ref]]: the cell is created when the
    sheet stores none there.  The cell object is denoted by its coordinate
    in the returned sheet. *)
Definition ws_cell (ws : Worksheet) (c : coord) : Worksheet :=
  match cells ws !! c with
  | Some _ => ws
  | None => put_cell ws c default_cell
  end.

(** [cell.value = v] for the cell object stored at [c].  The values are
    those openpyxl stores as they are ([storable] below): it refuses a
    string with a control character ([IllegalCharacterError]) and cuts a
    string of more than 32767 characters, so the properties of the writes of
    a table are stated for tables within these limits
    ([table_within_limits]). *)
Definition set_value (ws : Worksheet) (c : coord) (v : PyValue) : result Worksheet :=
  match cell_at ws c with
  | PlainCell _ st => Ok (put_cell ws c (PlainCell v st))
  | MergedCell _ => Raise AttributeError
  end.

(** [ws.cell(row, column).value = v] and [ws[ref] = v]. *)
Definition assign_value (ws : Worksheet) (c : coord) (v : PyValue) : result Worksheet :=
  set_value (ws_cell ws c) c v.

(** Assigning style attributes works on both kinds of cell object. *)
Definition set_style (ws : Worksheet) (c : coord) (st : Style) : Worksheet :=
  match cell_at ws c with
  | PlainCell v _ => put_cell ws c (PlainCell v st)
  | MergedCell _ => put_cell ws c (MergedCell st)
  end.

(** [cell.font = f]. *)
Definition set_font (ws : Worksheet) (c : coord) (f : Font) : Worksheet :=
  let st := style_at ws c in
  set_style ws c (mkStyle f (border st) (fill st) (number_format st) (protection st) (alignment st)).

(** [ws.freeze_panes = cell]: freezing at [A1] means no frozen pane. *)
Definition set_freeze_panes (ws : Worksheet) (c : coord) : Worksheet :=
  mkSheet (title ws) (cells ws) (merged_ranges ws)
    (if bool_decide (c = (1, 1)%positive) then None else Some c) (sheet_state ws).

(** [ws.max_row] and [ws.max_column]. *)
Definition max_row (ws : Worksheet) : positive :=
  foldr Pos.max 1%positive ((fun kv => kv.1.1) <$> map_to_list (cells ws)).

Definition max_column (ws : Worksheet) : positive :=
  foldr Pos.max 1%positive ((fun kv => kv.1.2) <$> map_to_list (cells ws)).

(** [range(a, b + 1)] over row or column numbers. *)
Definition pos_range (a b : positive) : list positive :=
  Pos.of_nat <$> seq (Pos.to_nat a) (S (Pos.to_nat b) - Pos.to_nat a).

(** [ws.iter_rows(min_row=a, max_row=b)]: the rows [a..b], each over the
    columns [1..ws.max_column]; the bounds are read when the call is made. *)
Definition iter_rows (ws : Worksheet) (a b : positive) : list (list coord) :=
  let cols := pos_range 1 (max_column ws) in
  (fun r => (fun c => (r, c)) <$> cols) <$> pos_range a b.

(** A row yielded by [iter_rows] has had its cells created. *)
Definition touch_row (ws : Worksheet) (row : list coord) : Worksheet :=
  foldl ws_cell ws row.

(** *** Workbooks

    A workbook is the list of its sheets; a sheet object held by the
    script is its position in that list, so that writes through the object
    are writes to the workbook's sheet. *)
Abbreviation Workbook := (list Worksheet).

Definition sheetnames (wb : Workbook) : list string := title <$> wb.

(** The position of the first sheet titled [name]. *)
Fixpoint index_of (name : string) (names : list string) : option nat :=
  match names with
  | [] => None
  | n :: rest => if bool_decide (n = name) then Some 0%nat else S <$> index_of name rest
  end.

(** [wb[name]]. *)
Definition wb_getitem (wb : Workbook) (name : string) : result nat :=
  match index_of name (sheetnames wb) with
  | Some i => Ok i
  | None => Raise KeyError
  end.

(** [INVALID_TITLE_REGEX]: one of the characters \ * ? : / [ ]. *)
Definition invalid_title_char (c : ascii) : bool :=
  bool_decide (c ∈ ["\"%char; "*"%char; "?"%char; ":"%char; "/"%char; "["%char; "]"%char]).

Fixpoint has_invalid_char (s : string) : bool :=
  match s with
  | EmptyString => false
  | String c s' => invalid_title_char c || has_invalid_char s'
  end.

Definition is_digit (c : ascii) : bool :=
  let n := nat_of_ascii c in (48 <=? n)%nat && (n <=? 57)%nat.

(** The rest of [s] after [p] when [s] starts with [p], letter case
    ignored. *)
Fixpoint strip_prefix_ci (p s : string) : option string :=
  match p, s with
  | EmptyString, _ => Some s
  | String a p', String b s' =>
      if bool_decide (ascii_lower a = ascii_lower b) then strip_prefix_ci p' s' else None
  | String _ _, EmptyString => None
  end.

(** The longest run of digits at the head of [s], and what follows. *)
Fixpoint span_digits (s : string) : string * string :=
  match s with
  | String c s' =>
      if is_digit c then let '(d, r) := span_digits s' in (String c d, r) else (EmptyString, s)
  | EmptyString => (EmptyString, EmptyString)
  end.

(** [re.findall] of the title followed by digits and an optional comma,
    case ignored: the digit groups of the matches, left to right.  [skip]
    counts the characters still covered by the previous match. *)
Fixpoint findall_counts (value s : string) (skip : nat) : list string :=
  match skip, s with
  | S k, String _ s' => findall_counts value s' k
  | _, EmptyString => []
  | O, String _ s' =>
      match strip_prefix_ci value s with
      | Some after_title =>
          let '(digits, after_digits) := span_digits after_title in
          let comma := match after_digits with String "," _ => 1%nat | _ => 0%nat end in
          digits :: findall_counts value s'
                      (String.length value + String.length digits + comma - 1)
      | None => findall_counts value s' 0
      end
  end.

Definition int_of_digits (s : string) : nat :=
  match NilZero.uint_of_string s with
  | Some u => Nat.of_uint u
  | None => 0%nat
  end.

(** [avoid_duplicate_name(names, value)], for a non-empty [value]: when a
    name equals it up to case, the value followed by one more than the
    highest count found among the names. *)
Definition avoid_duplicate_name (names : list string) (value : string) : string :=
  match filter (fun n => lower n = lower value) names with
  | [] => value
  | _ :: _ =>
      match findall_counts value (String.concat "," names) 0 with
      | [] => value
      | matches =>
          let counts := int_of_digits <$> filter (fun idx => idx <> EmptyString) matches in
          let highest := foldr Nat.max 0%nat counts in
          value ++ str_of_nat (highest + 1)
      end
  end.

(** [sheet.title = value] for the sheet at position [i], [value] not
    empty (the titles the scripts set are dates and [Total]). *)
Definition set_title (wb : Workbook) (i : nat) (value : string) : result Workbook :=
  match wb !! i with
  | None => Raise KeyError
  | Some ws =>
      if has_invalid_char value then Raise ValueError
      else
        let value' := if bool_decide (title ws = value) then value
                      else avoid_duplicate_name (sheetnames wb) value in
        Ok (<[i := set_title_raw ws value']> wb)
  end.

(** [wb.create_sheet(title)]: the new sheet is appended; its position is
    returned. *)
Definition create_sheet (wb : Workbook) (t : string) : result (Workbook * nat) :=
  if has_invalid_char t then Raise ValueError
  else
    let ws := mkSheet (avoid_duplicate_name (sheetnames wb) t) ∅ [] None visible in
    Ok (wb ++ [ws], length wb).

(** What [WorksheetCopy] makes of one stored cell. *)
Definition copy_cell (c : Cell) : Cell :=
  PlainCell (cell_value c) (if has_style (cell_style c) then cell_style c else default_style).

(** [wb.copy_worksheet(wb[i])]. *)
Definition copy_worksheet (wb : Workbook) (i : nat) : result (Workbook * nat) :=
  match wb !! i with
  | None => Raise KeyError
  | Some src =>
      '(wb', j) ← create_sheet wb (title src ++ " Copy");
      match wb' !! j with
      | None => Raise KeyError
      | Some target =>
          let target' :=
            mkSheet (title target) (copy_cell <$> cells src) (merged_ranges src)
                    (freeze_panes target) (sheet_state target) in
          Ok (<[j := target']> wb', j)
      end
  end.

(** A write through the sheet object at position [i]. *)
Definition on_sheet {A} (wb : Workbook) (i : nat)
    (f : Worksheet -> result (Worksheet * A)) : result (Workbook * A) :=
  match wb !! i with
  | None => Raise KeyError
  | Some ws => '(ws', a) ← f ws; Ok (<[i := ws']> wb, a)
  end.

(** ** Text from the prompts and the data files

    The text typed at a prompt and the lines of a data file are taken to
    be ASCII. *)

(** [not s] for a string. *)
Definition is_empty (s : string) : bool :=
  match s with
  | EmptyString => true
  | String _ _ => false
  end.

(** [s.startswith(p)]. *)
Fixpoint startswith (p s : string) : bool :=
  match p, s with
  | EmptyString, _ => true
  | String a p', String b s' => bool_decide (a = b) && startswith p' s'
  | String _ _, EmptyString => false
  end.

(** [sub in s]. *)
Fixpoint contains (sub s : string) : bool :=
  startswith sub s ||
  match s with
  | EmptyString => false
  | String _ s' => contains sub s'
  end.

(** [s.split(sep)] for a separator of one character. *)
Fixpoint split_on (sep : ascii) (s : string) : list string :=
  match s with
  | EmptyString => [EmptyString]
  | String c s' =>
      if bool_decide (c = sep) then EmptyString :: split_on sep s'
      else match split_on sep s' with
           | piece :: pieces => String c piece :: pieces
           | [] => [String c EmptyString]
           end
  end.

(** [s.strip(ch)] for one character [ch]. *)
Fixpoint lstrip_char (ch : ascii) (s : string) : string :=
  match s with
  | EmptyString => EmptyString
  | String c s' => if bool_decide (c = ch) then lstrip_char ch s' else s
  end.

Fixpoint rstrip_char (ch : ascii) (s : string) : string :=
  match s with
  | EmptyString => EmptyString
  | String c s' =>
      match rstrip_char ch s' with
      | EmptyString => if bool_decide (c = ch) then EmptyString else String c EmptyString
      | r => String c r
      end
  end.

Definition strip_char (ch : ascii) (s : string) : string := lstrip_char ch (rstrip_char ch s).

(** The double quote. *)
Definition dquote : ascii := ascii_of_nat 34.

(** [int(s)] for the text a directive has matched: digits, with blanks
    around them allowed. *)
Definition int_of_text (s : string) : nat := int_of_digits (strip s).

(** ** The pandas model

    A table is its column names and its rows; a row, as
    [to_dict(orient="records")] returns it, maps column names to values. *)
Record DataFrame := mkDataFrame {
  columns : list string;
  records : list (gmap string PyValue)
}.

(** [pd.DataFrame()]. *)
Definition empty_DataFrame : DataFrame := mkDataFrame [] [].

(** [df.empty]: no column or no row. *)
Definition df_empty (df : DataFrame) : bool :=
  match columns df, records df with
  | [], _ | _, [] => true
  | _, _ => false
  end.

(** ["Date" in df.columns]. *)
Definition has_column (name : string) (df : DataFrame) : bool :=
  bool_decide (name ∈ columns df).

(** [df[df["Date"] == date_obj]]. *)
Definition eq_date (d : date) (v : option PyValue) : bool :=
  match v with
  | Some (PyDate d') => bool_decide (d' = d)
  | _ => false
  end.

Definition filter_date_eq (df : DataFrame) (d : date) : DataFrame :=
  mkDataFrame (columns df) (filter (fun r => eq_date d (r !! "Date")) (records df)).

(** [row_dict.get(key, "")]. *)
Definition dict_get (r : gmap string PyValue) (key : string) : PyValue :=
  default (PyStr "") (r !! key).

(** ** Dates and the inputs of a run

    [datetime.date] comparison and [current += timedelta(days=1)]. *)
Definition is_leap (y : nat) : bool :=
  ((y mod 4 =? 0) && (negb (y mod 100 =? 0) || (y mod 400 =? 0)))%nat.

Definition days_in_month (y m : nat) : nat :=
  match m with
  | 2 => if is_leap y then 29 else 28
  | 4 | 6 | 9 | 11 => 30
  | _ => 31
  end%nat.

Definition next_day (d : date) : date :=
  if (day d <? days_in_month (year d) (month d))%nat then mkdate (year d) (month d) (S (day d))
  else if (month d <? 12)%nat then mkdate (year d) (S (month d)) 1
  else mkdate (S (year d)) 1 1.

Definition date_leb (a b : date) : bool :=
  ((year a <? year b) ||
   ((year a =? year b) && ((month a <? month b) ||
                           ((month a =? month b) && (day a <=? day b)))))%nat.

(** [a < b] on dates. *)
Definition date_ltb (a b : date) : bool :=
  ((year a <? year b) ||
   ((year a =? year b) && ((month a <? month b) ||
                           ((month a =? month b) && (day a <? day b)))))%nat.

(** The dates [datetime.date(year, month, day)] accepts. *)
Definition valid_date (d : date) : bool :=
  ((1 <=? year d) && (Z.of_nat (year d) <=? 9999)%Z && (1 <=? month d) && (month d <=? 12) &&
   (1 <=? day d) && (day d <=? days_in_month (year d) (month d)))%nat.

(** *** [datetime.strptime(s, "%m-%d-%Y").date()]

    [strptime] turns the format into a regular expression, one group per
    directive, and matches it at the start of the text; a text that is not
    matched, or not to its end, is refused, and so is a day the month does
    not have.  A matcher gives the ways a pattern matches at the start of a
    text, each with the text matched and the rest, in the order in which
    the regular expression engine tries them. *)
Definition Matcher : Type := string -> list (string * string).

Definition one_of (P : ascii -> bool) : Matcher := fun s =>
  match s with
  | String c s' => if P c then [(String c EmptyString, s')] else []
  | EmptyString => []
  end.

Definition char_is (a : ascii) : ascii -> bool := fun c => bool_decide (c = a).

Definition char_in (lo hi : ascii) : ascii -> bool := fun c =>
  ((nat_of_ascii lo <=? nat_of_ascii c) && (nat_of_ascii c <=? nat_of_ascii hi))%nat.

Definition then_ (p q : Matcher) : Matcher := fun s =>
  '(a, r) ← p s; '(b, r') ← q r; [((a ++ b)%string, r')].

Definition or_else (p q : Matcher) : Matcher := fun s => (p s ++ q s)%list.

(** [%m]: 1[0-2]|0[1-9]|[1-9]. *)
Definition directive_m : Matcher :=
  or_else (then_ (one_of (char_is "1")) (one_of (char_in "0" "2")))
    (or_else (then_ (one_of (char_is "0")) (one_of (char_in "1" "9")))
       (one_of (char_in "1" "9"))).

(** [%d]: 3[0-1]|[1-2]\d|0[1-9]|[1-9]| [1-9]. *)
Definition directive_d : Matcher :=
  or_else (then_ (one_of (char_is "3")) (one_of (char_in "0" "1")))
    (or_else (then_ (one_of (char_in "1" "2")) (one_of is_digit))
       (or_else (then_ (one_of (char_is "0")) (one_of (char_in "1" "9")))
          (or_else (one_of (char_in "1" "9"))
             (then_ (one_of (char_is " ")) (one_of (char_in "1" "9")))))).

(** [%Y]: \d\d\d\d. *)
Definition directive_Y : Matcher :=
  then_ (one_of is_digit) (then_ (one_of is_digit) (then_ (one_of is_digit) (one_of is_digit))).

(** The first match of the format [%m-%d-%Y]: the three groups and the
    text left over. *)
Definition match_mdY (s : string) : option (string * string * string * string) :=
  head ('(m, r) ← directive_m s;
        '(_, r) ← one_of (char_is "-") r;
        '(d, r) ← directive_d r;
        '(_, r) ← one_of (char_is "-") r;
        '(y, r) ← directive_Y r;
        [(m, d, y, r)]).

(** [None] stands for [ValueError]. *)
Definition strptime_mdY (s : string) : option date :=
  match match_mdY s with
  | None => None
  | Some (m, d, y, rest) =>
      if negb (is_empty rest) then None
      else
        let date_ := mkdate (int_of_text y) (int_of_text m) (int_of_text d) in
        if valid_date date_ then Some date_ else None
  end.

(** The inputs of a run, as the prompting and file-reading functions hand
    them to [main]: the dates [prompt_date_range] returns, the combined table, the rate,
    the workbook loaded from the template file, today's date, and the date
    parser behind [pd.to_datetime]. *)
Inductive DateRange :=
| NoDates                          (* [(None, None)] *)
| StartOnly (start_date : date)    (* [(start_date, None)] *)
| Range (start_date end_date : date).

Record Inputs := mkInputs {
  date_range : DateRange;
  combined_df : DataFrame;
  rate_in : PyValue;
  loaded_wb : Workbook;
  today_date : date;
  to_datetime : PyValue -> option date
}.

(** [df["Date"] = pd.to_datetime(df["Date"], errors="coerce").dt.date]. *)
Definition parse_date_column (parse : PyValue -> option date) (df : DataFrame) : DataFrame :=
  mkDataFrame (columns df)
    ((fun r => match r !! "Date" with
               | Some v => <["Date" := from_option PyDate PyNone (parse v)]> r
               | None => r
               end) <$> records df).

(** [sorted(daily_info.items())]: the names are the keys of a dictionary,
    hence distinct, and the order of the pairs is the order of the names. *)
Definition item_le (a b : string * (Z * Z)) : Prop := String.le a.1 b.1.

Definition sorted_items (daily_info : gmap string (Z * Z)) : list (string * (Z * Z)) :=
  merge_sort item_le (map_to_list daily_info).

(** The [while current <= end_date] loop; the days between two dates are
    fewer than 372 for every year touched.  The loop is the one of the
    source as long as the day after [end_d] is a date: adding a day to
    9999-12-31 raises [OverflowError], so the properties of the loop and of
    [main] are stated for an end date before that day
    ([dates_from_prompt]). *)
Fixpoint date_list_from (fuel : nat) (current end_d : date) : list date :=
  match fuel with
  | O => []
  | S fuel' =>
      if date_leb current end_d then current :: date_list_from fuel' (next_day current) end_d
      else []
  end.

(** ** src/automate_excel.py *)
Module AutomateExcel.

Definition TEMPLATE_SHEET_NAME : string := "Template".
Definition TOTAL_SHEET_NAME : string := "Total".

(** The [for merged_range in ws.merged_cells.ranges] loop of
    [safe_set_cell]: the first range holding the coordinate gets the value
    in its top-left cell; when the loop ends without one, nothing is
    written. *)
Fixpoint write_top_left (ws : Worksheet) (cell : coord) (value : PyValue)
    (ranges : list CellRange) : result Worksheet :=
  match ranges with
  | [] => Ok ws
  | merged_range :: rest =>
      if range_contains merged_range cell then
        let top_left := (min_row merged_range, min_col merged_range) in
        set_value (ws_cell ws top_left) top_left value
      else write_top_left ws cell value rest
  end.

Definition safe_set_cell (ws : Worksheet) (cell_ref : coord) (value : PyValue)
    : result Worksheet :=
  let ws := ws_cell ws cell_ref in
  if isinstance_MergedCell (cell_at ws cell_ref) then
    write_top_left ws cell_ref value (merged_ranges ws)
  else
    set_value ws cell_ref value.

Definition clear_sheet_data (sheet : Worksheet) (start_row : positive) : result Worksheet :=
  for_each
    (fun ws row => for_each (fun ws cell => set_value ws cell PyNone) row (touch_row ws row))
    (iter_rows sheet start_row (max_row sheet)) sheet.

Definition required_columns : list string :=
  ["Number"; "Daily Work Description"; "Hr"; "Min"; "Complete"; "Follow up";
   "Supervisor Comments"].

(** [all(col in line for col in required_columns)]. *)
Definition has_required_columns (line : string) : bool :=
  forallb (fun col => contains col line) required_columns.

(** [check_file_format(file_path)].  [readlines] is the file system: the
    lines of the file at a path, or [None] when opening or reading it
    raises. *)
Definition check_file_format (readlines : string -> option (list string)) (file_path : string)
    : result unit :=
  match readlines file_path with
  | None => Raise SystemExit
  | Some lines =>
      let header_found := existsb (fun line => has_required_columns (strip line)) lines in
      if negb header_found then Raise SystemExit else Ok ()
  end.

(** [prompt_date_range()], given the two lines typed at the prompts. *)
Definition prompt_date_range (start_input end_input : string) : result DateRange :=
  let start_date_str := strip start_input in
  let end_date_str := strip end_input in
  if is_empty start_date_str && is_empty end_date_str then Ok NoDates
  else if negb (is_empty start_date_str) && is_empty end_date_str then
    match strptime_mdY start_date_str with
    | Some start_date => Ok (StartOnly start_date)
    | None => Raise SystemExit
    end
  else
    match strptime_mdY start_date_str with
    | None => Raise SystemExit
    | Some start_date =>
        match strptime_mdY end_date_str with
        | None => Raise SystemExit
        | Some end_date =>
            if date_ltb end_date start_date then Raise SystemExit
            else Ok (Range start_date end_date)
        end
    end.

(** [prompt_file_paths()], given the line typed at the prompt;
    [path_exists] is [os.path.exists]. *)
Definition prompt_file_paths (path_exists : string -> bool) (input : string)
    : result (list string) :=
  let file_paths_str := strip input in
  if is_empty file_paths_str then Ok []
  else
    let file_paths := (fun fp => strip_char dquote (strip fp)) <$> split_on "," file_paths_str in
    if forallb path_exists file_paths then Ok file_paths else Raise SystemExit.

(** The search for the header line in [read_csv_data] (lines 212-218):
    the position of the first line that is not blank and holds every
    required column name, 0 when there is none. *)
Fixpoint find_header_line (lines : list string) (i : nat) : option nat :=
  match lines with
  | [] => None
  | line :: rest =>
      if negb (is_empty (strip line)) && has_required_columns line then Some i
      else find_header_line rest (S i)
  end.

Definition header_line_index (lines : list string) : nat :=
  match find_header_line lines 0 with
  | Some i => i
  | None => 0%nat
  end.

Definition create_date_list (start_d end_d : date) : list date :=
  date_list_from (372 * S (year end_d - year start_d)) start_d end_d.

Definition headers : list string :=
  ["Number"; "Daily Work Description"; "Hr"; "Min"; "Complete"; "Follow up";
   "Supervisor Comments"].

(** [enumerate(xs, start=1)]. *)
Definition enumerate1 {A} (xs : list A) : list (positive * A) :=
  zip (Pos.of_nat <$> seq 1 (length xs)) xs.

(** The records [fill_daily_sheet] writes (lines 298-305). *)
Definition day_records (date_obj : date) (data_rows : DataFrame) (is_dataframe : bool)
    : list (gmap string PyValue) :=
  if is_dataframe && negb (df_empty data_rows) then
    let day_df := if has_column "Date" data_rows then filter_date_eq data_rows date_obj
                  else data_rows in
    records day_df
  else [].

(** The font the Complete cell is given, if any (lines 330-334). *)
Definition complete_font (complete_val : PyValue) : option Font :=
  match complete_val with
  | PyStr s =>
      if bool_decide (lower s = "yes") then Some (Font_color "008000")
      else if bool_decide (lower s = "no") then Some (Font_color "FF0000")
      else None
  | _ => None
  end.

(** One pass of the [for row_dict in records] loop (lines 322-337). *)
Definition write_record (sheet : Worksheet) (current_row : positive)
    (row_dict : gmap string PyValue) : result Worksheet :=
  ws ← assign_value sheet (current_row, 1%positive) (dict_get row_dict "Number");
  ws ← assign_value ws (current_row, 2%positive) (dict_get row_dict "Daily Work Description");
  ws ← assign_value ws (current_row, 3%positive) (dict_get row_dict "Hr");
  ws ← assign_value ws (current_row, 4%positive) (dict_get row_dict "Min");
  let complete_val := dict_get row_dict "Complete" in
  let complete_cell := (current_row, 5%positive) in
  ws ← set_value (ws_cell ws complete_cell) complete_cell complete_val;
  let ws := match complete_font complete_val with
            | Some f => set_font ws complete_cell f
            | None => ws
            end in
  ws ← assign_value ws (current_row, 6%positive) (dict_get row_dict "Follow up");
  assign_value ws (current_row, 7%positive) (dict_get row_dict "Supervisor Comments").

Fixpoint write_records (sheet : Worksheet) (current_row : positive)
    (recs : list (gmap string PyValue)) : result (Worksheet * positive) :=
  match recs with
  | [] => Ok (sheet, current_row)
  | row_dict :: rest =>
      ws ← write_record sheet current_row row_dict;
      write_records ws (Pos.succ current_row) rest
  end.

Definition fill_daily_sheet (today : date) (sheet : Worksheet) (date_obj : date)
    (data_rows : DataFrame) (is_dataframe : bool) (start_row : positive)
    (fallback_date : option date) : result (Worksheet * Z) :=
  let recs := day_records date_obj data_rows is_dataframe in
  ws ← match recs with
       | [] =>
           ws ← assign_value sheet (1%positive, col_B) (PyStr (strftime_mdY today));
           match fallback_date with
           | Some fd => assign_value ws (3%positive, col_B) (PyStr (strftime_mdY fd))
           | None => Ok ws
           end
       | _ :: _ => assign_value sheet (1%positive, col_B) (PyStr (strftime_mdY date_obj))
       end;
  let ws := set_freeze_panes (ws_cell ws (7%positive, col_A)) (7%positive, col_A) in
  ws ← for_each (fun ws '(col_idx, header) => assign_value ws (6%positive, col_idx) (PyStr header))
         (enumerate1 headers) ws;
  '(ws, current_row) ← write_records ws start_row recs;
  let last_row := (Zpos current_row - 1)%Z in
  Ok (ws, last_row).

(** The f-string of lines 362-365. *)
Definition hour_formula (sheet_name : string) (start_row last_row : Z) : string :=
  "=SUM('" ++ sheet_name ++ "'!C" ++ str_of_Z start_row ++ ":C" ++ str_of_Z last_row ++ ") + "
  ++ "(SUM('" ++ sheet_name ++ "'!D" ++ str_of_Z start_row ++ ":D" ++ str_of_Z last_row
  ++ ")/60)".

(** The loop over [sorted(daily_info.items())] (lines 357-370). *)
Fixpoint write_summary_rows (total_sheet : Worksheet) (row_idx : positive)
    (rate : PyValue) (items : list (string * (Z * Z))) : result Worksheet :=
  match items with
  | [] => Ok total_sheet
  | (sheet_name, (start_row, last_row)) :: rest =>
      if (last_row <? start_row)%Z then write_summary_rows total_sheet row_idx rate rest
      else
        ws ← safe_set_cell total_sheet (row_idx, col_B) (PyStr sheet_name);
        ws ← safe_set_cell ws (row_idx, col_C)
               (PyStr (hour_formula sheet_name start_row last_row));
        ws ← safe_set_cell ws (row_idx, col_D) rate;
        ws ← safe_set_cell ws (row_idx, col_E)
               (PyStr ("=C" ++ str_of_pos row_idx ++ "*D" ++ str_of_pos row_idx));
        write_summary_rows ws (Pos.succ row_idx) rate rest
  end.

Definition update_total_sheet (total_sheet : Worksheet) (daily_info : gmap string (Z * Z))
    (rate : PyValue) : result Worksheet :=
  ws ← for_each
         (fun ws row => for_each (fun ws cell => set_value ws cell PyNone) row (touch_row ws row))
         (iter_rows total_sheet 4 (max_row total_sheet)) total_sheet;
  write_summary_rows ws 4 rate (sorted_items daily_info).

Definition create_or_update_total_sheet (wb : Workbook) (daily_info : gmap string (Z * Z))
    (rate : PyValue) : result Workbook :=
  '(wb, total_sheet) ←
      (if bool_decide (TOTAL_SHEET_NAME ∈ sheetnames wb) then
         i ← wb_getitem wb TOTAL_SHEET_NAME; Ok (wb, i)
       else create_sheet wb TOTAL_SHEET_NAME);
  '(wb, _) ← on_sheet wb total_sheet (fun ws =>
      ws ← safe_set_cell ws (3%positive, col_B) (PyStr "Date");
      ws ← safe_set_cell ws (3%positive, col_C) (PyStr "Hour");
      ws ← safe_set_cell ws (3%positive, col_D) (PyStr "Rate");
      ws ← safe_set_cell ws (3%positive, col_E) (PyStr "Total Cost");
      ws ← update_total_sheet ws daily_info rate;
      Ok (set_freeze_panes (ws_cell ws (4%positive, col_A)) (4%positive, col_A), ()));
  Ok wb.

(** Lines 429-434, 456-461 and 486-492: one daily sheet.  The first two
    lines are the clone of the template under the new name. *)
Definition clone_template (wb : Workbook) (sheet_name : string) : result (Workbook * nat) :=
  tmpl ← wb_getitem wb TEMPLATE_SHEET_NAME;
  '(wb, new_sheet) ← copy_worksheet wb tmpl;
  wb ← set_title wb new_sheet sheet_name;
  Ok (wb, new_sheet).

Definition add_daily_sheet (today : date) (data_rows : DataFrame) (fallback : option date)
    (st : Workbook * gmap string (Z * Z)) (day_ : date)
    : result (Workbook * gmap string (Z * Z)) :=
  let '(wb, daily_info) := st in
  let sheet_name := strftime_mdY day_ in
  '(wb, new_sheet) ← clone_template wb sheet_name;
  '(wb, last_row) ← on_sheet wb new_sheet (fun ws =>
      ws ← clear_sheet_data ws 7;
      fill_daily_sheet today ws day_ data_rows true 7 fallback);
  Ok (wb, <[sheet_name := (7%Z, last_row)]> daily_info).

(** The end of each scenario: the Total sheet, then the template hidden. *)
Definition finish (wb : Workbook) (daily_info : gmap string (Z * Z)) (rate : PyValue)
    : result Workbook :=
  wb ← create_or_update_total_sheet wb daily_info rate;
  tmpl ← wb_getitem wb TEMPLATE_SHEET_NAME;
  '(wb, _) ← on_sheet wb tmpl (fun ws => Ok (set_sheet_state ws hidden, ()));
  Ok wb.

Definition date_between (a b : date) (v : option PyValue) : bool :=
  match v with
  | Some (PyDate d) => date_leb a d && date_leb d b
  | _ => false
  end.

(** [df[(df["Date"] >= start_date) & (df["Date"] <= end_date)]]. *)
Definition filter_date_between (df : DataFrame) (a b : date) : DataFrame :=
  mkDataFrame (columns df) (filter (fun r => date_between a b (r !! "Date")) (records df)).

(** [filter_df_by_date(df, start_date, end_date)]: the table returned and
    the flag [has_date_column]. *)
Definition filter_df_by_date (parse : PyValue -> option date) (df : DataFrame)
    (start_date end_date : date) : DataFrame * bool :=
  if df_empty df then (df, false)
  else if has_column "Date" df then
    (filter_date_between (parse_date_column parse df) start_date end_date, true)
  else (df, false).

(** The name of the file the workbook is saved to (lines 437, 464 and
    497-500). *)
Definition output_filename (dr : DateRange) (today : date) : string :=
  match dr with
  | NoDates => (strftime_mdY today ++ ".xlsx")%string
  | StartOnly single_date => (strftime_mdY single_date ++ ".xlsx")%string
  | Range start_date end_date =>
      if bool_decide (start_date = end_date) then (strftime_mdY start_date ++ ".xlsx")%string
      else (strftime_mdY start_date ++ "_to_" ++ strftime_mdY end_date ++ ".xlsx")%string
  end.

(** [main], from the loaded workbook to the workbook that is saved. *)
Definition main (inp : Inputs) : result Workbook :=
  let wb := loaded_wb inp in
  if negb (bool_decide (TEMPLATE_SHEET_NAME ∈ sheetnames wb)) then Raise SystemExit
  else
    let df := combined_df inp in
    let daily_info : gmap string (Z * Z) := ∅ in
    match date_range inp with
    | NoDates =>
        let single_date := today_date inp in
        '(wb, daily_info) ←
            add_daily_sheet (today_date inp) df (Some single_date) (wb, daily_info) single_date;
        finish wb daily_info (rate_in inp)
    | StartOnly sd =>
        let single_date := sd in
        let df := if negb (df_empty df) && has_column "Date" df
                  then filter_date_eq (parse_date_column (to_datetime inp) df) single_date
                  else df in
        '(wb, daily_info) ←
            add_daily_sheet (today_date inp) df (Some single_date) (wb, daily_info) single_date;
        finish wb daily_info (rate_in inp)
    | Range sd ed =>
        let df := if negb (df_empty df) && has_column "Date" df
                  then filter_date_between (parse_date_column (to_datetime inp) df) sd ed
                  else df in
        '(wb, daily_info) ←
            for_each (fun st day_ =>
                        add_daily_sheet (today_date inp) df
                          (if bool_decide (sd = ed) then Some day_ else None) st day_)
              (create_date_list sd ed) (wb, daily_info);
        finish wb daily_info (rate_in inp)
    end.

End AutomateExcel.

(** ** src/work_log.py *)
Module WorkLog.

Definition TEMPLATE_SHEET_NAME : string := "Template".
Definition TOTAL_SHEET_NAME : string := "Total".
Definition TEMPLATE_STYLE_ROW : positive := 7.

Fixpoint write_top_left (ws : Worksheet) (cell : coord) (value : PyValue)
    (ranges : list CellRange) : result Worksheet :=
  match ranges with
  | [] => Ok ws
  | merged_range :: rest =>
      if range_contains merged_range cell then
        let top_left := (min_row merged_range, min_col merged_range) in
        set_value (ws_cell ws top_left) top_left value
      else write_top_left ws cell value rest
  end.

Definition safe_set_cell (ws : Worksheet) (cell_ref : coord) (value : PyValue)
    : result Worksheet :=
  let ws := ws_cell ws cell_ref in
  if isinstance_MergedCell (cell_at ws cell_ref) then
    write_top_left ws cell_ref value (merged_ranges ws)
  else
    set_value ws cell_ref value.

(** [copy_cell_style(src_cell, dst_cell)]: the six attributes, each
    copied by value. *)
Definition copy_cell_style (ws : Worksheet) (src_cell dst_cell : coord) : Worksheet :=
  let src := style_at ws src_cell in
  if has_style src then
    set_style ws dst_cell
      (mkStyle (font src) (border src) (fill src) (number_format src) (protection src)
               (alignment src))
  else ws.

Definition clear_sheet_data (ws : Worksheet) (start_row : positive) : result Worksheet :=
  for_each
    (fun ws row => for_each (fun ws cell => safe_set_cell ws cell PyNone) row (touch_row ws row))
    (iter_rows ws start_row (max_row ws)) ws.

Definition headers : list string :=
  ["Number"; "Daily Work Description"; "Hr"; "Min"; "Complete"; "Follow up";
   "Supervisor Comments"].

Definition enumerate1 {A} (xs : list A) : list (positive * A) :=
  zip (Pos.of_nat <$> seq 1 (length xs)) xs.

Definition apply_consistent_layout (today : date) (ws : Worksheet) (date_label : string)
    : result Worksheet :=
  let today_str := strftime_mdY today in
  ws ← safe_set_cell ws (1%positive, col_A) (PyStr "DATE");
  ws ← safe_set_cell ws (1%positive, col_B) (PyStr today_str);
  ws ← safe_set_cell ws (2%positive, col_A) (PyStr "Daily Recap ( - LA Office )");
  ws ← safe_set_cell ws (3%positive, col_A) (PyStr "Date");
  ws ← safe_set_cell ws (3%positive, col_B) (PyStr date_label);
  ws ← safe_set_cell ws (4%positive, col_A) (PyStr "Name");
  ws ← safe_set_cell ws (5%positive, col_A) (PyStr "Department");
  ws ← for_each (fun ws '(col_idx, header) =>
                   let cell_ref := (6%positive, col_idx) in
                   safe_set_cell (ws_cell ws cell_ref) cell_ref (PyStr header))
         (enumerate1 headers) ws;
  Ok (set_freeze_panes ws (7%positive, col_A)).

Definition required_columns : list string :=
  ["Number"; "Daily Work Description"; "Hr"; "Min"; "Complete"; "Follow up";
   "Supervisor Comments"].

Definition has_required_columns (line : string) : bool :=
  forallb (fun col => contains col line) required_columns.

Definition check_file_format (readlines : string -> option (list string)) (file_path : string)
    : result unit :=
  match readlines file_path with
  | None => Raise SystemExit
  | Some lines =>
      let header_found := existsb (fun line => has_required_columns (strip line)) lines in
      if negb header_found then Raise SystemExit else Ok ()
  end.

Definition prompt_date_range (start_input end_input : string) : result DateRange :=
  let start_str := strip start_input in
  let end_str := strip end_input in
  if is_empty start_str && is_empty end_str then Ok NoDates
  else if negb (is_empty start_str) && is_empty end_str then
    match strptime_mdY start_str with
    | Some sd => Ok (StartOnly sd)
    | None => Raise SystemExit
    end
  else
    match strptime_mdY start_str with
    | None => Raise SystemExit
    | Some sd =>
        match strptime_mdY end_str with
        | None => Raise SystemExit
        | Some ed => if date_ltb ed sd then Raise SystemExit else Ok (Range sd ed)
        end
    end.

Definition prompt_file_paths (path_exists : string -> bool) (input : string)
    : result (list string) :=
  let paths_str := strip input in
  if is_empty paths_str then Ok []
  else
    let file_paths := (fun fp => strip_char dquote (strip fp)) <$> split_on "," paths_str in
    if forallb path_exists file_paths then Ok file_paths else Raise SystemExit.

(** The search for the header line in [read_csv_data] (lines 203-209). *)
Fixpoint find_header_line (lines : list string) (i : nat) : option nat :=
  match lines with
  | [] => None
  | line :: rest =>
      if negb (is_empty (strip line)) && has_required_columns line then Some i
      else find_header_line rest (S i)
  end.

Definition header_index (lines : list string) : nat :=
  match find_header_line lines 0 with
  | Some i => i
  | None => 0%nat
  end.

Definition create_date_list (start_d end_d : date) : list date :=
  date_list_from (372 * S (year end_d - year start_d)) start_d end_d.

(** The records [fill_daily_sheet] writes (lines 259-263). *)
Definition day_records (date_obj : date) (data_df : DataFrame) : list (gmap string PyValue) :=
  let day_df := if negb (df_empty data_df) && has_column "Date" data_df
                then filter_date_eq data_df date_obj
                else data_df in
  records day_df.

(** The font the Complete cell is given, if any (lines 275-279). *)
Definition complete_font (val : PyValue) : option Font :=
  match val with
  | PyStr s =>
      if bool_decide (lower (strip s) = "yes") then Some (Font_color "008000")
      else if bool_decide (lower (strip s) = "no") then Some (Font_color "FF0000")
      else None
  | _ => None
  end.

(** The body of the loop over the seven columns (lines 267-279). *)
Definition write_field (rec : gmap string PyValue) (current : positive) (sheet : Worksheet)
    (ck : positive * string) : result Worksheet :=
  let '(col_idx, key) := ck in
  let dest_cell := (current, col_idx) in
  ws ← set_value (ws_cell sheet dest_cell) dest_cell (dict_get rec key);
  let src_cell := (TEMPLATE_STYLE_ROW, col_idx) in
  let ws := copy_cell_style (ws_cell ws src_cell) src_cell dest_cell in
  if bool_decide (key = "Complete") then
    match complete_font (dict_get rec key) with
    | Some f => Ok (set_font ws dest_cell f)
    | None => Ok ws
    end
  else Ok ws.

Definition write_record (sheet : Worksheet) (current : positive) (rec : gmap string PyValue)
    : result Worksheet :=
  for_each (write_field rec current) (enumerate1 headers) sheet.

Fixpoint write_records (sheet : Worksheet) (current : positive)
    (recs : list (gmap string PyValue)) : result (Worksheet * positive) :=
  match recs with
  | [] => Ok (sheet, current)
  | rec :: rest =>
      ws ← write_record sheet current rec;
      write_records ws (Pos.succ current) rest
  end.

Definition fill_daily_sheet (sheet : Worksheet) (date_obj : date) (data_df : DataFrame)
    (start_row : positive) : result (Worksheet * Z) :=
  let recs := day_records date_obj data_df in
  '(ws, current) ← write_records sheet start_row recs;
  let last_row := (Zpos current - 1)%Z in
  Ok (ws, last_row).

Definition hour_formula (sheet_name : string) (start_row last_row : Z) : string :=
  "=SUM('" ++ sheet_name ++ "'!C" ++ str_of_Z start_row ++ ":C" ++ str_of_Z last_row ++ ") + "
  ++ "(SUM('" ++ sheet_name ++ "'!D" ++ str_of_Z start_row ++ ":D" ++ str_of_Z last_row
  ++ ")/60)".

Fixpoint write_summary_rows (total_sheet : Worksheet) (row_idx : positive)
    (rate : PyValue) (items : list (string * (Z * Z))) : result Worksheet :=
  match items with
  | [] => Ok total_sheet
  | (sheet_name, (start_row, last_row)) :: rest =>
      if (last_row <? start_row)%Z then write_summary_rows total_sheet row_idx rate rest
      else
        ws ← safe_set_cell total_sheet (row_idx, col_B) (PyStr sheet_name);
        ws ← safe_set_cell ws (row_idx, col_C)
               (PyStr (hour_formula sheet_name start_row last_row));
        ws ← safe_set_cell ws (row_idx, col_D) rate;
        ws ← safe_set_cell ws (row_idx, col_E)
               (PyStr ("=C" ++ str_of_pos row_idx ++ "*D" ++ str_of_pos row_idx));
        write_summary_rows ws (Pos.succ row_idx) rate rest
  end.

Definition update_total_sheet (total_sheet : Worksheet) (daily_info : gmap string (Z * Z))
    (rate : PyValue) : result Worksheet :=
  ws ← for_each
         (fun ws row => for_each (fun ws cell => set_value ws cell PyNone) row (touch_row ws row))
         (iter_rows total_sheet 4 (max_row total_sheet)) total_sheet;
  write_summary_rows ws 4 rate (sorted_items daily_info).

Definition create_or_update_total_sheet (wb : Workbook) (daily_info : gmap string (Z * Z))
    (rate : PyValue) : result Workbook :=
  '(wb, total_sheet) ←
      (if bool_decide (TOTAL_SHEET_NAME ∈ sheetnames wb) then
         i ← wb_getitem wb TOTAL_SHEET_NAME; Ok (wb, i)
       else create_sheet wb TOTAL_SHEET_NAME);
  '(wb, _) ← on_sheet wb total_sheet (fun ws =>
      ws ← safe_set_cell ws (3%positive, col_B) (PyStr "Date");
      ws ← safe_set_cell ws (3%positive, col_C) (PyStr "Hour");
      ws ← safe_set_cell ws (3%positive, col_D) (PyStr "Rate");
      ws ← safe_set_cell ws (3%positive, col_E) (PyStr "Total Cost");
      ws ← update_total_sheet ws daily_info rate;
      Ok (set_freeze_panes (ws_cell ws (4%positive, col_A)) (4%positive, col_A), ()));
  Ok wb.

(** Lines 384-385: the clone of the template under the new name. *)
Definition clone_template (wb : Workbook) (sheet_name : string) : result (Workbook * nat) :=
  tmpl ← wb_getitem wb TEMPLATE_SHEET_NAME;
  '(wb, new_sheet) ← copy_worksheet wb tmpl;
  wb ← set_title wb new_sheet sheet_name;
  Ok (wb, new_sheet).

(** One pass of the [for day in date_list] loop (lines 383-393). *)
Definition add_daily_sheet (today : date) (data_df : DataFrame) (date_label : string)
    (st : Workbook * gmap string (Z * Z)) (day_ : date)
    : result (Workbook * gmap string (Z * Z)) :=
  let '(wb, daily_info) := st in
  let sheet_name := strftime_mdY day_ in
  '(wb, new_sheet) ← clone_template wb sheet_name;
  '(wb, last_row) ← on_sheet wb new_sheet (fun ws =>
      ws ← apply_consistent_layout today ws date_label;
      ws ← clear_sheet_data ws 7;
      '(ws, last_row) ← fill_daily_sheet ws day_ data_df 7;
      ws ← (if (7 <=? last_row)%Z then
              assign_value ws (4%positive, col_C)
                (PyStr ("=SUM(C7:C" ++ str_of_Z last_row ++ ") + (SUM(D7:D" ++ str_of_Z last_row
                        ++ ")/60)"))
            else assign_value ws (4%positive, col_C) (PyInt 0));
      Ok (ws, last_row));
  Ok (wb, <[sheet_name := (7%Z, last_row)]> daily_info).

(** The name of the file the workbook is saved to (lines 398-401);
    [None] stands for the [IndexError] of [date_list[0]] on an empty list. *)
Definition output_filename (date_list : list date) : option string :=
  if bool_decide (length date_list = 1%nat) then
    first_day ← date_list !! 0%nat; Some (strftime_mdY first_day ++ ".xlsx")%string
  else
    first_day ← date_list !! 0%nat;
    last_day ← last date_list;
    Some (strftime_mdY first_day ++ "_to_" ++ strftime_mdY last_day ++ ".xlsx")%string.

(** [main], from the loaded workbook to the workbook that is saved.  The
    table arrives with its Date column already parsed ([combine_csv_data]);
    the name of the file is made before the workbook is saved. *)
Definition main (inp : Inputs) : result Workbook :=
  let wb := loaded_wb inp in
  if negb (bool_decide (TEMPLATE_SHEET_NAME ∈ sheetnames wb)) then Raise SystemExit
  else
    let daily_info : gmap string (Z * Z) := ∅ in
    let '(date_label, date_list) :=
      match date_range inp with
      | NoDates => (strftime_mdY (today_date inp), [today_date inp])
      | StartOnly sd => (strftime_mdY sd, [sd])
      | Range sd ed => ((strftime_mdY sd ++ "_to_" ++ strftime_mdY ed)%string, create_date_list sd ed)
      end in
    '(wb, daily_info) ←
        for_each (add_daily_sheet (today_date inp) (combined_df inp) date_label) date_list
          (wb, daily_info);
    wb ← create_or_update_total_sheet wb daily_info (rate_in inp);
    tmpl ← wb_getitem wb TEMPLATE_SHEET_NAME;
    '(wb, _) ← on_sheet wb tmpl (fun ws => Ok (set_sheet_state ws hidden, ()));
    match output_filename date_list with
    | Some _ => Ok wb
    | None => Raise IndexError
    end.

End WorkLog.

(** * The vocabulary of the properties *)

(** The cell object at [c] is an ordinary cell. *)
Definition plain_at (ws : Worksheet) (c : coord) : Prop :=
  isinstance_MergedCell (cell_at ws c) = false.

(** The sheet stores no [MergedCell] object. *)
Definition all_plain (ws : Worksheet) : Prop := forall c, plain_at ws c.

(** No [MergedCell] object from row [n] down. *)
Definition plain_from (n : positive) (ws : Worksheet) : Prop :=
  forall r c, (n <= r)%positive -> plain_at ws (r, c).

(** What a sheet keeps besides its cells. *)
Definition sheet_meta (ws : Worksheet) : string * list CellRange * option coord * SheetState :=
  (title ws, merged_ranges ws, freeze_panes ws, sheet_state ws).

(** [wr] writes [v] into an ordinary cell it is pointed at, and leaves
    the rest of the sheet as it is. *)
Definition direct_writer (wr : Worksheet -> coord -> result Worksheet) (v : PyValue) : Prop :=
  forall ws c, plain_at ws c ->
    exists ws', wr ws c = Ok ws' /\
      (forall c', cell_at ws' c' =
                  if decide (c = c') then PlainCell v (style_at ws c) else cell_at ws c') /\
      sheet_meta ws' = sheet_meta ws.

(** Rows [n] and below hold no value; rows above [n], every style and the
    rest of the sheet are as before. *)
Definition wiped (n : positive) (ws ws' : Worksheet) : Prop :=
  (forall r c, (n <= r)%positive -> value_at ws' (r, c) = PyNone) /\
  (forall r c, (r < n)%positive -> cell_at ws' (r, c) = cell_at ws (r, c)) /\
  (forall c, style_at ws' c = style_at ws c) /\
  (forall c, plain_at ws c -> plain_at ws' c) /\
  sheet_meta ws' = sheet_meta ws.

(** [c] lies in a recorded merged range and is not its top-left cell. *)
Definition non_anchor_member (ws : Worksheet) (c : coord) : Prop :=
  exists r, r ∈ merged_ranges ws /\ range_contains r c = true /\ c <> anchor r.

(** Every [MergedCell] object lies inside some recorded merged range. *)
Definition merged_cells_recorded (ws : Worksheet) : Prop :=
  forall c, isinstance_MergedCell (cell_at ws c) = true ->
            exists r, r ∈ merged_ranges ws /\ range_contains r c = true.

(** A sheet as [merge_cells] builds it from ranges that do not overlap:
    the [MergedCell] objects are exactly the cells of the recorded ranges
    other than their top-left cells, and every top-left cell is an ordinary
    cell. *)
Definition normal_sheet (ws : Worksheet) : Prop :=
  (forall c, isinstance_MergedCell (cell_at ws c) = true <-> non_anchor_member ws c) /\
  (forall r, r ∈ merged_ranges ws -> plain_at ws (anchor r)).

(** A decidable test for [all_plain]. *)
Definition all_plainb (ws : Worksheet) : bool :=
  forallb (fun kv => negb (isinstance_MergedCell kv.2)) (map_to_list (cells ws)).


(** The effect of a write to an ordinary cell. *)
Definition write_plain (ws : Worksheet) (c : coord) (v : PyValue) : Worksheet :=
  put_cell (ws_cell ws c) c (PlainCell v (style_at ws c)).

(** A style with its font replaced. *)
Definition with_font (f : Font) (st : Style) : Style :=
  mkStyle f (border st) (fill st) (number_format st) (protection st) (alignment st).

(** Row [R + i]. *)
Definition row_add (R : positive) (i : nat) : positive := Pos.of_nat (Pos.to_nat R + i).

(** The style [copy_cell_style] leaves on a data cell of column [k] in
    row [r]: that of the style row if it has one, else the cell's own. *)
Definition propagated_style (ws : Worksheet) (r k : positive) : Style :=
  let src := style_at ws (WorkLog.TEMPLATE_STYLE_ROW, k) in
  if has_style src then src else style_at ws (r, k).

(** The style and font a data cell of [work_log.py] ends with, given the
    style propagated to it. *)
Definition worklog_styled (rec : gmap string PyValue) (key : string) (st : Style) : Style :=
  if bool_decide (key = "Complete") then
    match WorkLog.complete_font (dict_get rec key) with
    | Some f => with_font f st
    | None => st
    end
  else st.

(** The row the Populator is to return: [R + N - 1], and [R - 1] when no
    record was written. *)
Definition expected_last_row (R : positive) (N : nat) : Z :=
  if (N =? 0)%nat then (Zpos R - 1)%Z else (Zpos R + Z.of_nat N - 1)%Z.

(** The range of a daily sheet holds at least one row. *)
Definition non_degenerate (it : string * (Z * Z)) : Prop := (it.2.1 <= it.2.2)%Z.

#[global] Instance non_degenerate_dec it : Decision (non_degenerate it).
Proof. unfold non_degenerate. apply _. Defined.

(** The sheets that get a summary row, in the order of the rows. *)
Definition summary_items (daily_info : gmap string (Z * Z)) : list (string * (Z * Z)) :=
  filter non_degenerate (sorted_items daily_info).

(** Row [row] of the Total sheet is the summary row of the daily sheet
    [name] with the range [(first_row, last_row)] and the rate [rate]. *)
Definition summary_row (ws : Worksheet) (row : positive) (name : string)
    (first_row last_row : Z) (rate : PyValue) : Prop :=
  value_at ws (row, col_B) = PyStr name /\
  value_at ws (row, col_C) =
    PyStr ("=SUM('" ++ name ++ "'!C" ++ str_of_Z first_row ++ ":C" ++ str_of_Z last_row
           ++ ") + (SUM('" ++ name ++ "'!D" ++ str_of_Z first_row ++ ":D"
           ++ str_of_Z last_row ++ ")/60)") /\
  value_at ws (row, col_D) = rate /\
  value_at ws (row, col_E) = PyStr ("=C" ++ str_of_pos row ++ "*D" ++ str_of_pos row).

(** No cell from row [n] down holds a value. *)
Definition empty_from (n : positive) (ws : Worksheet) : Prop :=
  forall r c, (n <= r)%positive -> value_at ws (r, c) = PyNone.

(** *** Completion flags *)

Definition ascii_upper (c : ascii) : ascii :=
  let n := nat_of_ascii c in
  if (97 <=? n)%nat && (n <=? 122)%nat then ascii_of_nat (n - 32) else c.

(** The spellings of a word in every casing of its letters. *)
Fixpoint casings (w : string) : list string :=
  match w with
  | EmptyString => [EmptyString]
  | String c w' =>
      s ← casings w'; [String (ascii_lower c) s; String (ascii_upper c) s]
  end.

(** The value is the string [w] in some casing. *)
Definition says (w : string) (v : PyValue) : Prop :=
  exists s, v = PyStr s /\ s ∈ casings w.

(** A string of whitespace only. *)
Fixpoint all_space (s : string) : bool :=
  match s with
  | EmptyString => true
  | String c s' => is_space c && all_space s'
  end.

(** The value is the string [w] in some casing, with whitespace allowed
    before and after. *)
Definition says_padded (w : string) (v : PyValue) : Prop :=
  exists pre s post, v = PyStr (pre ++ s ++ post) /\
    all_space pre = true /\ all_space post = true /\ s ∈ casings w.

Definition green : Font := Font_color "008000".
Definition red : Font := Font_color "FF0000".

(** A value with [str.strip] applied when it is a string. *)
Definition strip_value (v : PyValue) : PyValue :=
  match v with
  | PyStr s => PyStr (strip s)
  | _ => v
  end.

(** The title a clone of the template ends with when it is renamed to
    [name]: [copy_worksheet] first titles it "Template Copy" (made fresh),
    then the title setter makes [name] fresh among the titles. *)
Definition provisional_title (wb : Workbook) : string :=
  avoid_duplicate_name (sheetnames wb) "Template Copy".

Definition clone_title (wb : Workbook) (name : string) : string :=
  if bool_decide (provisional_title wb = name) then name
  else avoid_duplicate_name (sheetnames wb ++ [provisional_title wb]) name.

(** The sheet [copy_worksheet] makes of [src], under the title [t]. *)
Definition clone_of (src : Worksheet) (t : string) : Worksheet :=
  mkSheet t (copy_cell <$> cells src) (merged_ranges src) None visible.

(** Every character of the string passes the test. *)
Fixpoint string_forall (P : ascii -> bool) (s : string) : bool :=
  match s with
  | EmptyString => true
  | String c s' => P c && string_forall P s'
  end.

(** The characters of a date written as [%m-%d-%Y]. *)
Definition date_char (c : ascii) : bool := is_digit c || bool_decide (c = "-"%char).

(** No sheet of the workbook is titled [name], in any casing. *)
Definition no_sheet_named (wb : Workbook) (name : string) : Prop :=
  forall n, n ∈ sheetnames wb -> lower n <> lower name.

(** A decidable test for [merged_cells_recorded]. *)
Definition merged_cells_recordedb (ws : Worksheet) : bool :=
  forallb (fun kv => negb (isinstance_MergedCell kv.2)
                     || existsb (fun r => range_contains r kv.1) (merged_ranges ws))
    (map_to_list (cells ws)).

(** A decidable test for [empty_from]. *)
Definition empty_fromb (n : positive) (ws : Worksheet) : bool :=
  forallb (fun kv => (kv.1.1 <? n)%positive || bool_decide (cell_value kv.2 = PyNone))
    (map_to_list (cells ws)).

(** *** The calendar *)

(** A month of the year and a day of that month. *)
Definition calendar_day (d : date) : Prop :=
  (1 <= month d <= 12)%nat /\ (1 <= day d <= days_in_month (year d) (month d))%nat.

(** A number that grows with the date: every month is given 31 places. *)
Definition day_number (d : date) : Z :=
  (372 * Z.of_nat (year d) + 31 * (Z.of_nat (month d) - 1) + Z.of_nat (day d))%Z.

(** The [i]-th day after [d]. *)
Definition days_after (d : date) (i : nat) : date := Nat.iter i next_day d.

(** *** Sheets as [main] builds them *)

(** A list of writes into ordinary cells, in order. *)
Definition write_all (ws : Worksheet) (l : list (coord * PyValue)) : Worksheet :=
  foldl (fun w cv => write_plain w cv.1 cv.2) ws l.

(** The header row: the seven column names in row 6. *)
Definition header_cells : list (coord * PyValue) :=
  (fun kh : positive * string => ((6%positive, kh.1), PyStr kh.2))
    <$> AutomateExcel.enumerate1 AutomateExcel.headers.

(** The labels [apply_consistent_layout] writes above the header row. *)
Definition label_cells (today_str date_label : string) : list (coord * PyValue) :=
  [((1, col_A)%positive, PyStr "DATE"); ((1, col_B)%positive, PyStr today_str);
   ((2, col_A)%positive, PyStr "Daily Recap ( - LA Office )");
   ((3, col_A)%positive, PyStr "Date"); ((3, col_B)%positive, PyStr date_label);
   ((4, col_A)%positive, PyStr "Name"); ((5, col_A)%positive, PyStr "Department")].

(** The characters openpyxl refuses in a string, and the values it stores
    as they are: strings without such a character and of at most 32767
    characters, and every value that is not a string. *)
Definition illegal_character (c : ascii) : bool :=
  let n := nat_of_ascii c in
  ((n <=? 8) || ((11 <=? n) && (n <=? 12)) || ((14 <=? n) && (n <=? 31)))%nat.

Definition storable (v : PyValue) : bool :=
  match v with
  | PyStr s => string_forall (fun c => negb (illegal_character c)) s
               && (Z.of_nat (String.length s) <=? 32767)%Z
  | _ => true
  end.

(** A table whose values openpyxl stores as they are, with fewer rows
    than a sheet has below the header. *)
Definition table_within_limits (df : DataFrame) : Prop :=
  (Z.of_nat (length (records df)) < 1048570)%Z /\
  forall rec key v, rec ∈ records df -> rec !! key = Some v -> storable v = true.

(** The cell [(r, k)] is one of the data cells of [n] records written
    from row [R]. *)
Definition data_cell (R : positive) (n : nat) (r k : positive) : Prop :=
  (R <= r)%positive /\ (Zpos r < Zpos R + Z.of_nat n)%Z /\ (k <= 7)%positive.

(** The field of a record that goes to column [k]. *)
Definition field_of (rec : gmap string PyValue) (k : positive) : PyValue :=
  dict_get rec (default EmptyString (AutomateExcel.headers !! (Pos.to_nat k - 1)%nat)).

(** The cells [fill_daily_sheet] of automate_excel.py stamps above the
    header row: B1, and B3 when there is no record and a fallback date. *)
Definition stamp_cells (today date_obj : date) (fallback_date : option date)
    (no_records : bool) : list (coord * PyValue) :=
  if no_records then
    ((1, col_B)%positive, PyStr (strftime_mdY today)) ::
    match fallback_date with
    | Some fd => [((3, col_B)%positive, PyStr (strftime_mdY fd))]
    | None => []
    end
  else [((1, col_B)%positive, PyStr (strftime_mdY date_obj))].

(** What the writes of a fill make of [sheet]: the cells of [written]
    hold their values, the data cells hold the fields of the records from
    row [R] on, and every other cell, the title, the merged ranges and the
    visibility are as in [sheet]. *)
Definition sheet_written (written : list (coord * PyValue)) (R : positive)
    (recs : list (gmap string PyValue)) (sheet ws' : Worksheet) : Prop :=
  all_plain ws' /\ title ws' = title sheet /\ merged_ranges ws' = merged_ranges sheet /\
  sheet_state ws' = sheet_state sheet /\
  (forall c v, (c, v) ∈ written -> value_at ws' c = v) /\
  (forall i rec k, recs !! i = Some rec -> (k <= 7)%positive ->
     value_at ws' (row_add R i, k) = field_of rec k) /\
  (forall r k, (r, k) ∉ written.*1 -> ~ data_cell R (length recs) r k ->
     cell_at ws' (r, k) = cell_at sheet (r, k)).

(** A daily sheet made from the template sheet [src] under the title
    [t]: a sheet of ordinary cells with the merged ranges of the template,
    visible, frozen above row 7; the cells of [written] hold their values;
    rows 7 and below hold the fields of the records and nothing else; the
    other cells of rows 1 to 6 are those of the template, copied. *)
Definition daily_sheet (written : list (coord * PyValue))
    (recs : list (gmap string PyValue)) (src : Worksheet) (t : string)
    (ws' : Worksheet) : Prop :=
  all_plain ws' /\ title ws' = t /\ merged_ranges ws' = merged_ranges src /\
  sheet_state ws' = visible /\ freeze_panes ws' = Some (7%positive, col_A) /\
  (forall c v, (c, v) ∈ written -> value_at ws' c = v) /\
  (forall i rec k, recs !! i = Some rec -> (k <= 7)%positive ->
     value_at ws' (row_add 7 i, k) = field_of rec k) /\
  (forall r k, (7 <= r)%positive -> ~ data_cell 7 (length recs) r k ->
     value_at ws' (r, k) = PyNone) /\
  (forall r k, (r < 7)%positive -> (r, k) ∉ written.*1 ->
     cell_at ws' (r, k) = cell_at (clone_of src t) (r, k)).

(** What work_log.py puts into C4 of a daily sheet (lines 390-393). *)
Definition c4_value (last_row : Z) : PyValue :=
  if (7 <=? last_row)%Z then
    PyStr ("=SUM(C7:C" ++ str_of_Z last_row ++ ") + (SUM(D7:D" ++ str_of_Z last_row ++ ")/60)")
  else PyInt 0.

(** The cells work_log.py writes above row 7 of a daily sheet. *)
Definition worklog_cells (today : date) (date_label : string) (last_row : Z)
    : list (coord * PyValue) :=
  label_cells (strftime_mdY today) date_label ++ header_cells
  ++ [((4, col_C)%positive, c4_value last_row)].

(** The labels of the Total sheet, in row 3. *)
Definition total_headers : list (coord * PyValue) :=
  [((3, col_B)%positive, PyStr "Date"); ((3, col_C)%positive, PyStr "Hour");
   ((3, col_D)%positive, PyStr "Rate"); ((3, col_E)%positive, PyStr "Total Cost")].

(** What [create_or_update_total_sheet] makes of the sheet [old]: the
    labels in row 3, one summary row from row 4 on for every daily sheet
    with a range that is not empty, in the order of the names, no value
    below them, the pane frozen above row 4; the other cells of rows 1 to 3,
    the title, the merged ranges and the visibility are those of [old]. *)
Definition total_sheet (daily_info : gmap string (Z * Z)) (rate : PyValue)
    (old ws' : Worksheet) : Prop :=
  title ws' = title old /\ merged_ranges ws' = merged_ranges old /\
  sheet_state ws' = sheet_state old /\ freeze_panes ws' = Some (4%positive, col_A) /\
  (forall c v, (c, v) ∈ total_headers -> value_at ws' c = v) /\
  (forall k name first_row last_row,
     summary_items daily_info !! k = Some (name, (first_row, last_row)) ->
     summary_row ws' (row_add 4 k) name first_row last_row rate) /\
  empty_from (row_add 4 (length (summary_items daily_info))) ws' /\
  (forall r k, (r < 4)%positive -> (r, k) ∉ total_headers.*1 ->
     cell_at ws' (r, k) = cell_at old (r, k)).

(** The sheet [wb.create_sheet] adds. *)
Definition new_sheet (t : string) : Worksheet := mkSheet t ∅ [] None visible.

(** *** A run of [main] *)

(** The days a run makes sheets for. *)
Definition run_days (inp : Inputs) : list date :=
  match date_range inp with
  | NoDates => [today_date inp]
  | StartOnly sd => [sd]
  | Range sd ed => AutomateExcel.create_date_list sd ed
  end.

(** The table [main] of automate_excel.py fills the sheets from: the
    combined table, cut down to the dates asked for when it has rows and a
    Date column. *)
Definition automate_table (inp : Inputs) : DataFrame :=
  let df := combined_df inp in
  match date_range inp with
  | NoDates => df
  | StartOnly sd =>
      if negb (df_empty df) && has_column "Date" df
      then filter_date_eq (parse_date_column (to_datetime inp) df) sd
      else df
  | Range sd ed =>
      if negb (df_empty df) && has_column "Date" df
      then AutomateExcel.filter_date_between (parse_date_column (to_datetime inp) df) sd ed
      else df
  end.

(** The fallback date [main] of automate_excel.py passes for a day. *)
Definition automate_fallback (inp : Inputs) (day_ : date) : option date :=
  match date_range inp with
  | Range sd ed => if bool_decide (sd = ed) then Some day_ else None
  | _ => Some day_
  end.

(** The label [main] of work_log.py writes into B3 of every sheet. *)
Definition worklog_label (inp : Inputs) : string :=
  match date_range inp with
  | NoDates => strftime_mdY (today_date inp)
  | StartOnly sd => strftime_mdY sd
  | Range sd ed => (strftime_mdY sd ++ "_to_" ++ strftime_mdY ed)%string
  end.

(** [daily_info] after the loop over the days: for each day the range
    from row 7 to the last row of the [count] records written. *)
Definition add_range (count : date -> nat) (daily_info : gmap string (Z * Z)) (day_ : date)
    : gmap string (Z * Z) :=
  <[strftime_mdY day_ := (7%Z, expected_last_row 7 (count day_))]> daily_info.

Definition daily_ranges (count : date -> nat) (days : list date) : gmap string (Z * Z) :=
  foldl (add_range count) ∅ days.

(** The daily sheet of a day in a run of automate_excel.py and of
    work_log.py: its title is the day, followed by a count when the title
    was taken. *)
Definition automate_daily (inp : Inputs) (src : Worksheet) (day_ : date) (sheet : Worksheet)
    : Prop :=
  let recs := AutomateExcel.day_records day_ (automate_table inp) true in
  exists suffix : string,
    daily_sheet
      (stamp_cells (today_date inp) day_ (automate_fallback inp day_) (bool_decide (recs = []))
       ++ header_cells)
      recs src (strftime_mdY day_ ++ suffix)%string sheet.

Definition worklog_daily (inp : Inputs) (src : Worksheet) (day_ : date) (sheet : Worksheet)
    : Prop :=
  let recs := WorkLog.day_records day_ (combined_df inp) in
  exists suffix : string,
    daily_sheet
      (worklog_cells (today_date inp) (worklog_label inp) (expected_last_row 7 (length recs)))
      recs src (strftime_mdY day_ ++ suffix)%string sheet.

(** The dates of a run are dates [prompt_date_range] can have returned:
    a range is made of dates of the calendar, the start not later than the
    end, and the end not the last day [datetime.date] has. *)
Definition dates_from_prompt (dr : DateRange) : Prop :=
  match dr with
  | NoDates => True
  | StartOnly sd => valid_date sd = true
  | Range sd ed =>
      valid_date sd = true /\ valid_date ed = true /\ valid_date (next_day ed) = true /\
      date_leb sd ed = true
  end.

(** No value of the Date column is a date: the column is as [read_csv]
    has read it, not parsed. *)
Definition dates_unparsed (df : DataFrame) : Prop :=
  forall rec d, rec ∈ records df -> rec !! "Date" <> Some (PyDate d).

(** The cell [safe_set_cell] writes to when it is pointed at [c]: the
    cell itself, or, for a [MergedCell] object, the top-left cell of the
    first recorded range that holds it. *)
Definition write_target (ws : Worksheet) (c : coord) : coord :=
  if isinstance_MergedCell (cell_at ws c) then
    match List.find (fun r => range_contains r c) (merged_ranges ws) with
    | Some r => anchor r
    | None => c
    end
  else c.

(** The top-left cell of every recorded range is an ordinary cell. *)
Definition anchors_plain (ws : Worksheet) : Prop :=
  forall r, r ∈ merged_ranges ws -> plain_at ws (anchor r).

(** A cell object with its value replaced, when it has one. *)
Definition with_value (v : PyValue) (x : Cell) : Cell :=
  match x with
  | PlainCell _ st => PlainCell v st
  | MergedCell st => MergedCell st
  end.

(** A decidable test for [anchors_plain]. *)
Definition anchors_plainb (ws : Worksheet) : bool :=
  forallb (fun r => negb (isinstance_MergedCell (cell_at ws (anchor r)))) (merged_ranges ws).

(** Text of ASCII characters, on which [strip] and [lower] are
    [str.strip] and [str.lower]. *)
Definition ascii_value (v : PyValue) : bool :=
  match v with
  | PyStr s => string_forall (fun c => (nat_of_ascii c <? 128)%nat) s
  | _ => true
  end.

Definition table_ascii (df : DataFrame) : Prop :=
  forall rec key v, rec ∈ records df -> rec !! key = Some v -> ascii_value v = true.

(** A decidable test for [table_ascii]. *)
Definition table_asciib (df : DataFrame) : bool :=
  forallb (fun rec : gmap string PyValue =>
             forallb (fun kv => ascii_value kv.2) (map_to_list rec))
    (records df).

(** A date of the calendar with a year of four digits, as [%Y] prints
    the years from 1000 on. *)
Definition four_digit_date (d : date) : Prop :=
  valid_date d = true /\ (1000 <= Z.of_nat (year d))%Z.

(** A test for the numbers of four digits: the [k] numbers from the one
    with the digits [u], the lowest first, on. *)
Fixpoint four_digits_from (k : nat) (u : Decimal.uint) : bool :=
  match k with
  | O => true
  | S k' =>
      (String.length (NilZero.string_of_uint (Decimal.rev u)) =? 4)%nat
      && four_digits_from k' (Decimal.Little.succ u)
  end.

(** A decidable test for [table_within_limits]. *)
Definition table_within_limitsb (df : DataFrame) : bool :=
  (Z.of_nat (length (records df)) <? 1048570)%Z &&
  forallb (fun rec : gmap string PyValue => forallb (fun kv => storable kv.2) (map_to_list rec))
    (records df).

(** * Sample data *)

(** A template sheet as [load_workbook] hands it over: labels in rows 1
    to 6, a styled sample row 7 whose first two cells are merged, and a
    stray value in row 8. *)
Definition sample_style : Style := mkStyle (mkFont None 3) 1 0 0 0 0.

Definition sample_template : Worksheet :=
  mkSheet "Template"
    (list_to_map
       [((1, 1)%positive, PlainCell (PyStr "DATE") default_style);
        ((6, 5)%positive, PlainCell (PyStr "Complete") default_style);
        ((7, 1)%positive, PlainCell (PyStr "sample") sample_style);
        ((7, 2)%positive, MergedCell sample_style);
        ((7, 5)%positive, PlainCell (PyStr "No") sample_style);
        ((8, 5)%positive, PlainCell (PyInt 4) default_style)])
    [mkRange 7 1 7 2] None visible.

(** The sheet [copy_worksheet] makes of it: the same values, styles and
    merged ranges, every cell object an ordinary cell. *)
Definition sample_clone : Worksheet :=
  mkSheet "Template Copy" (copy_cell <$> cells sample_template)
    (merged_ranges sample_template) None visible.

Definition sample_day : date := mkdate 2024 1 2.

Definition sample_record (number : Z) (complete : string) : gmap string PyValue :=
  list_to_map
    [("Number", PyInt number); ("Daily Work Description", PyStr "filing");
     ("Hr", PyInt 2); ("Min", PyInt 30); ("Complete", PyStr complete);
     ("Follow up", PyStr ""); ("Supervisor Comments", PyStr "");
     ("Date", PyDate sample_day)].

Definition sample_columns : list string :=
  ["Number"; "Daily Work Description"; "Hr"; "Min"; "Complete"; "Follow up";
   "Supervisor Comments"; "Date"].

Definition sample_data : DataFrame :=
  mkDataFrame sample_columns [sample_record 1 "Yes"; sample_record 2 "maybe"].

(** One record whose flag is "yes" behind a space. *)
Definition padded_data : DataFrame :=
  mkDataFrame sample_columns [sample_record 1 " yes"].

Definition sample_ranges : gmap string (Z * Z) :=
  list_to_map [("01-02-2024", (7, 8)%Z); ("01-01-2024", (7, 6)%Z); ("01-03-2024", (7, 7)%Z)].

Definition empty_total : Worksheet := mkSheet "Total" ∅ [] None visible.

Definition sample_rate : PyValue := PyFloat (QArith_base.Qmake 25 1).

(** A workbook that already holds a sheet for the sample day. *)
Definition sample_workbook : Workbook :=
  [sample_template; clone_of sample_template "01-02-2024"].

(** The inputs of a run without dates and without files. *)
Definition no_dates_no_files (wb : Workbook) (today : date) (rate : PyValue)
    (parse : PyValue -> option date) : Inputs :=
  mkInputs NoDates empty_DataFrame rate wb today parse.

(** The workbook of the template file, and a run on 2 January 2024. *)
Definition template_workbook : Workbook := [sample_template].

Definition sample_run : Inputs :=
  no_dates_no_files template_workbook sample_day sample_rate (fun _ => None).

(** A sheet after [merge_cells("B2:C3")] and then [merge_cells("A1:B2")]:
    the two ranges overlap in B2, the anchor of the first, which the second
    merge has turned into a merged-cell object.  The list of the ranges
    stands for the order in which openpyxl iterates over them; C3 lies in
    one range only. *)
Definition overlapping_sheet : Worksheet :=
  mkSheet "Sheet"
    (list_to_map
       [((1, 1)%positive, PlainCell (PyStr "a") default_style);
        ((1, 2)%positive, MergedCell default_style);
        ((2, 1)%positive, MergedCell default_style);
        ((2, 2)%positive, MergedCell default_style);
        ((2, 3)%positive, MergedCell default_style);
        ((3, 2)%positive, MergedCell default_style);
        ((3, 3)%positive, MergedCell default_style)])
    [mkRange 2 2 3 3; mkRange 1 1 2 2] None visible.

(** The lines of a data file: two lines of preamble, the header line
    with blanks before it, one record. *)
Definition newline : string := String (ascii_of_nat 10) EmptyString.

Definition sample_lines : list string :=
  ["Daily Recap" ++ newline;
   newline;
   "  Number,Daily Work Description,Hr,Min,Complete,Follow up,Supervisor Comments" ++ newline;
   "1,filing,2,30,Yes,," ++ newline]%string.

Definition sample_readlines (path : string) : option (list string) :=
  if bool_decide (path = "log.csv") then Some sample_lines else None.

(** A file system that holds log.csv and nothing else. *)
Definition sample_path_exists (path : string) : bool := bool_decide (path = "log.csv").

(** A date parser that knows dates only. *)
Definition sample_parse (v : PyValue) : option date :=
  match v with
  | PyDate d => Some d
  | _ => None
  end.

(** A line typed at the prompt for the files: the same path twice, once
    with blanks around it, once in double quotes. *)
Definition sample_paths_line : string :=
  (" log.csv ," ++ String dquote ("log.csv" ++ String dquote EmptyString))%string.

(** A sheet that stores a merged-cell object at B2 and records no merged
    range. *)
Definition stray_merged_sheet : Worksheet :=
  mkSheet "Sheet"
    (list_to_map
       [((1, 1)%positive, PlainCell (PyStr "a") default_style);
        ((2, 2)%positive, MergedCell default_style)])
    [] None visible.

(** A workbook that holds a Total sheet already. *)
Definition workbook_with_total : Workbook := [sample_template; empty_total].

(** A run over three days of January 2024 with the sample table, whose
    two records are of 2 January. *)
Definition sample_range_run : Inputs :=
  mkInputs (Range (mkdate 2024 1 1) (mkdate 2024 1 3)) sample_data sample_rate
    template_workbook sample_day sample_parse.

(** The run over the same three days without a file. *)
Definition empty_range_run : Inputs :=
  mkInputs (Range (mkdate 2024 1 1) (mkdate 2024 1 3)) empty_DataFrame sample_rate
    template_workbook sample_day sample_parse.

(** A sheet as [load_workbook] builds it from a file where A6:A7 is
    merged: the header cell A6 is the top-left cell of the range, A7 a
    merged-cell object. *)
Definition straddling_sheet : Worksheet :=
  mkSheet "Template"
    (list_to_map
       [((6, 1)%positive, PlainCell (PyStr "Number") default_style);
        ((7, 1)%positive, MergedCell default_style);
        ((7, 2)%positive, PlainCell (PyStr "filing") default_style)])
    [mkRange 6 1 7 1] None visible.

(** The sample table as [read_csv] hands it over: the dates are text. *)
Definition raw_record (number : Z) (complete : string) : gmap string PyValue :=
  <["Date" := PyStr "01-02-2024"]> (sample_record number complete).

Definition raw_data : DataFrame :=
  mkDataFrame sample_columns [raw_record 1 "Yes"; raw_record 2 "maybe"].

(** A run without dates, on 2 January 2024, with that table. *)
Definition raw_no_dates_run : Inputs :=
  mkInputs NoDates raw_data sample_rate template_workbook sample_day sample_parse.
(** * Properties

    ** Reading and writing cells *)

Section sheet_facts.
Implicit Types (ws : Worksheet) (c : coord) (v : PyValue).

Lemma cell_at_put ws c x c' :
  cell_at (put_cell ws c x) c' = if decide (c = c') then x else cell_at ws c'.
Proof.
  unfold cell_at, put_cell; simpl. rewrite lookup_insert.
  destruct (decide (c = c')); reflexivity.
Qed.

Lemma cell_at_put_eq ws c x : cell_at (put_cell ws c x) c = x.
Proof. rewrite cell_at_put. destruct (decide (c = c)); congruence. Qed.

Lemma cell_at_put_ne ws c x c' : c <> c' -> cell_at (put_cell ws c x) c' = cell_at ws c'.
Proof. intros. rewrite cell_at_put. destruct (decide (c = c')); congruence. Qed.

Lemma cell_at_ws_cell ws c c' : cell_at (ws_cell ws c) c' = cell_at ws c'.
Proof.
  unfold ws_cell. destruct (cells ws !! c) eqn:E; [reflexivity|].
  rewrite cell_at_put. destruct (decide (c = c')) as [<-|]; [|reflexivity].
  unfold cell_at. rewrite E. reflexivity.
Qed.

Lemma merged_ranges_ws_cell ws c : merged_ranges (ws_cell ws c) = merged_ranges ws.
Proof. unfold ws_cell. destruct (cells ws !! c); reflexivity. Qed.

Lemma title_ws_cell ws c : title (ws_cell ws c) = title ws.
Proof. unfold ws_cell. destruct (cells ws !! c); reflexivity. Qed.

Lemma plain_at_ws_cell ws c c' : plain_at (ws_cell ws c) c' <-> plain_at ws c'.
Proof. unfold plain_at. rewrite cell_at_ws_cell. reflexivity. Qed.

Lemma cell_at_touch_row row : forall ws c', cell_at (touch_row ws row) c' = cell_at ws c'.
Proof.
  unfold touch_row. induction row as [|c row IH]; intros ws c'; simpl; [reflexivity|].
  rewrite IH. apply cell_at_ws_cell.
Qed.

Lemma merged_ranges_touch_row row : forall ws,
  merged_ranges (touch_row ws row) = merged_ranges ws.
Proof.
  unfold touch_row. induction row as [|c row IH]; intros ws; simpl; [reflexivity|].
  rewrite IH. apply merged_ranges_ws_cell.
Qed.

Lemma title_touch_row row : forall ws, title (touch_row ws row) = title ws.
Proof.
  unfold touch_row. induction row as [|c row IH]; intros ws; simpl; [reflexivity|].
  rewrite IH. apply title_ws_cell.
Qed.

(** A write to an ordinary cell succeeds and changes that cell's value
    only. *)
Lemma set_value_plain ws c v :
  plain_at ws c -> set_value ws c v = Ok (put_cell ws c (PlainCell v (style_at ws c))).
Proof.
  unfold plain_at, set_value, style_at. destruct (cell_at ws c); simpl; [reflexivity|discriminate].
Qed.

Lemma set_value_merged ws c v :
  isinstance_MergedCell (cell_at ws c) = true -> set_value ws c v = Raise AttributeError.
Proof. unfold set_value. destruct (cell_at ws c); simpl; [discriminate|reflexivity]. Qed.

Lemma set_value_inv ws c v ws' :
  set_value ws c v = Ok ws' -> plain_at ws c /\ ws' = put_cell ws c (PlainCell v (style_at ws c)).
Proof.
  unfold set_value, plain_at, style_at. destruct (cell_at ws c); simpl; [|discriminate].
  intros [= <-]. split; reflexivity.
Qed.

Lemma assign_value_plain ws c v :
  plain_at ws c ->
  assign_value ws c v = Ok (put_cell (ws_cell ws c) c (PlainCell v (style_at ws c))).
Proof.
  intros H. unfold assign_value. rewrite set_value_plain by (apply plain_at_ws_cell, H).
  unfold style_at. rewrite cell_at_ws_cell. reflexivity.
Qed.

Lemma plain_at_put ws c x c' :
  isinstance_MergedCell x = false -> plain_at ws c' -> plain_at (put_cell ws c x) c'.
Proof.
  unfold plain_at. intros Hx H. rewrite cell_at_put. destruct (decide (c = c')); assumption.
Qed.

Lemma all_plain_put ws c x :
  isinstance_MergedCell x = false -> all_plain ws -> all_plain (put_cell ws c x).
Proof. intros Hx H c'. apply plain_at_put; [assumption|apply H]. Qed.

Lemma all_plain_ws_cell ws c : all_plain ws -> all_plain (ws_cell ws c).
Proof. intros H c'. apply plain_at_ws_cell, H. Qed.

Lemma all_plain_touch_row ws row : all_plain ws -> all_plain (touch_row ws row).
Proof. intros H c'. unfold plain_at. rewrite cell_at_touch_row. apply H. Qed.

Lemma value_at_absent ws c : cells ws !! c = None -> value_at ws c = PyNone.
Proof. unfold value_at, cell_at. intros ->. reflexivity. Qed.

Lemma foldr_max_ge (l : list positive) (x : positive) :
  x ∈ l -> (x <= foldr Pos.max 1 l)%positive.
Proof.
  induction l as [|y l IH]; intros Hin; [inversion Hin|].
  apply elem_of_cons in Hin as [->|Hin]; simpl; [lia|].
  specialize (IH Hin). lia.
Qed.

(** A stored cell lies within [max_row] and [max_column]. *)
Lemma stored_within_bounds ws r k x :
  cells ws !! (r, k) = Some x -> (r <= max_row ws)%positive /\ (k <= max_column ws)%positive.
Proof.
  intros H. apply elem_of_map_to_list in H. split.
  - apply foldr_max_ge. apply list_elem_of_fmap. exists ((r, k), x). split; [reflexivity|exact H].
  - apply foldr_max_ge. apply list_elem_of_fmap. exists ((r, k), x). split; [reflexivity|exact H].
Qed.

Lemma elem_of_pos_range a b x :
  x ∈ pos_range a b <-> (a <= x)%positive /\ (x <= b)%positive.
Proof.
  unfold pos_range. rewrite list_elem_of_fmap. split.
  - intros (n & -> & Hn). apply elem_of_seq in Hn. lia.
  - intros [H1 H2]. exists (Pos.to_nat x). split; [symmetry; apply Pos2Nat.id|].
    apply elem_of_seq. lia.
Qed.

(** The coordinates [iter_rows] yields. *)
Lemma elem_of_iter_rows ws a b r k :
  (r, k) ∈ mjoin (iter_rows ws a b) <->
  ((a <= r)%positive /\ (r <= b)%positive) /\ (k <= max_column ws)%positive.
Proof.
  unfold iter_rows. rewrite list_elem_of_join. split.
  - intros (row & Hin & Hrow). apply list_elem_of_fmap in Hrow as (r' & -> & Hr').
    apply list_elem_of_fmap in Hin as (k' & [= -> ->] & Hk').
    apply elem_of_pos_range in Hr', Hk'. lia.
  - intros [Hr Hk]. eexists. split.
    2: { apply list_elem_of_fmap. exists r. split; [reflexivity|].
         apply elem_of_pos_range. lia. }
    apply list_elem_of_fmap. exists k. split; [reflexivity|].
    apply elem_of_pos_range. lia.
Qed.
End sheet_facts.

(** ** Loops that write one value into many cells *)

Section writers.
Implicit Types (ws : Worksheet) (c : coord) (v : PyValue).

Lemma sheet_meta_put ws c x : sheet_meta (put_cell ws c x) = sheet_meta ws.
Proof. reflexivity. Qed.

Lemma sheet_meta_ws_cell ws c : sheet_meta (ws_cell ws c) = sheet_meta ws.
Proof. unfold ws_cell. destruct (cells ws !! c); reflexivity. Qed.

Lemma sheet_meta_touch_row row : forall ws, sheet_meta (touch_row ws row) = sheet_meta ws.
Proof.
  unfold touch_row. induction row as [|c row IH]; intros ws; simpl; [reflexivity|].
  rewrite IH. apply sheet_meta_ws_cell.
Qed.

Lemma sheet_meta_merged_ranges ws ws' :
  sheet_meta ws' = sheet_meta ws -> merged_ranges ws' = merged_ranges ws.
Proof. unfold sheet_meta. congruence. Qed.

Lemma sheet_meta_title ws ws' : sheet_meta ws' = sheet_meta ws -> title ws' = title ws.
Proof. unfold sheet_meta. congruence. Qed.

Lemma set_value_direct_writer v : direct_writer (fun ws c => set_value ws c v) v.
Proof.
  intros ws c Hc. eexists. split; [apply set_value_plain, Hc|]. split.
  - intros c'. apply cell_at_put.
  - apply sheet_meta_put.
Qed.

Lemma assign_value_direct_writer v : direct_writer (fun ws c => assign_value ws c v) v.
Proof.
  intros ws c Hc. eexists. split; [apply assign_value_plain, Hc|]. split.
  - intros c'. rewrite cell_at_put, cell_at_ws_cell. reflexivity.
  - rewrite sheet_meta_put. apply sheet_meta_ws_cell.
Qed.

Variable wr : Worksheet -> coord -> result Worksheet.
Variable v : PyValue.
Hypothesis wr_direct : direct_writer wr v.

Lemma for_each_cells (l : list coord) : forall ws,
  (forall c, c ∈ l -> plain_at ws c) ->
  exists ws', for_each wr l ws = Ok ws' /\
    (forall c', cell_at ws' c' =
                if decide (c' ∈ l) then PlainCell v (style_at ws c') else cell_at ws c') /\
    sheet_meta ws' = sheet_meta ws.
Proof.
  induction l as [|c l IH]; intros ws Hl; simpl.
  - exists ws. split; [reflexivity|]. split; [|reflexivity].
    intros c'. destruct (decide (c' ∈ [])) as [H|]; [inversion H|reflexivity].
  - destruct (wr_direct ws c (Hl c (list_elem_of_here _ _))) as (ws1 & -> & Hcell & Hmeta).
    simpl. destruct (IH ws1) as (ws' & -> & Hcell' & Hmeta').
    { intros c' Hc'. unfold plain_at. rewrite Hcell.
      destruct (decide (c = c')); [reflexivity|]. apply Hl. apply list_elem_of_further. exact Hc'. }
    exists ws'. split; [reflexivity|]. split; [|congruence].
    intros c'. rewrite Hcell'. unfold style_at. rewrite !Hcell.
    destruct (decide (c' ∈ l)) as [H1|H1], (decide (c' ∈ c :: l)) as [H2|H2],
      (decide (c = c')) as [->|H3];
      try reflexivity; exfalso;
      apply H2 || (apply elem_of_cons in H2 as [H2|H2]; congruence);
      apply elem_of_cons; auto.
Qed.

Lemma for_each_rows (rows : list (list coord)) : forall ws,
  (forall c, c ∈ mjoin rows -> plain_at ws c) ->
  exists ws', for_each (fun ws row => for_each wr row (touch_row ws row)) rows ws = Ok ws' /\
    (forall c', cell_at ws' c' =
                if decide (c' ∈ mjoin rows) then PlainCell v (style_at ws c')
                else cell_at ws c') /\
    sheet_meta ws' = sheet_meta ws.
Proof.
  induction rows as [|row rows IH]; intros ws Hl; simpl.
  - exists ws. split; [reflexivity|]. split; [|reflexivity].
    intros c'. destruct (decide (c' ∈ [])) as [H|]; [inversion H|reflexivity].
  - destruct (for_each_cells row (touch_row ws row)) as (ws1 & -> & Hcell & Hmeta).
    { intros c Hc. unfold plain_at. rewrite cell_at_touch_row.
      apply Hl. apply elem_of_app. left. exact Hc. }
    simpl. rewrite sheet_meta_touch_row in Hmeta.
    assert (Hcell1 : forall c', cell_at ws1 c' =
              if decide (c' ∈ row) then PlainCell v (style_at ws c') else cell_at ws c').
    { intros c'. rewrite Hcell. unfold style_at. rewrite !cell_at_touch_row. reflexivity. }
    clear Hcell.
    destruct (IH ws1) as (ws' & -> & Hcell' & Hmeta').
    { intros c' Hc'. unfold plain_at. rewrite Hcell1.
      destruct (decide (c' ∈ row)); [reflexivity|]. apply Hl. apply elem_of_app. right. exact Hc'. }
    exists ws'. split; [reflexivity|]. split; [|congruence].
    intros c'. rewrite Hcell'. unfold style_at. rewrite !Hcell1.
    change (mjoin (row :: rows)) with (row ++ mjoin rows).
    destruct (decide (c' ∈ mjoin rows)) as [H1|H1], (decide (c' ∈ row)) as [H2|H2],
      (decide (c' ∈ row ++ mjoin rows)) as [H3|H3];
      try reflexivity; exfalso; apply H3 || (apply elem_of_app in H3 as [H3|H3]; contradiction);
      apply elem_of_app; auto.
Qed.

(** The wipe loop of [clear_sheet_data] and of [update_total_sheet]. *)
Lemma wipe_rows (n : positive) ws :
  v = PyNone -> plain_from n ws ->
  exists ws',
    for_each (fun ws row => for_each wr row (touch_row ws row))
      (iter_rows ws n (max_row ws)) ws = Ok ws' /\ wiped n ws ws'.
Proof.
  intros Hv Hplain.
  destruct (for_each_rows (iter_rows ws n (max_row ws)) ws) as (ws' & Hrun & Hcell & Hmeta).
  { intros [r k] Hin. apply elem_of_iter_rows in Hin. apply Hplain. lia. }
  exists ws'. split; [exact Hrun|]. repeat split.
  - intros r k Hr. unfold value_at. rewrite Hcell.
    destruct (decide ((r, k) ∈ mjoin (iter_rows ws n (max_row ws)))) as [|Hout].
    + rewrite Hv. reflexivity.
    + destruct (cells ws !! (r, k)) as [x|] eqn:E.
      * exfalso. apply Hout. apply elem_of_iter_rows.
        apply stored_within_bounds in E. lia.
      * unfold cell_at. rewrite E. reflexivity.
  - intros r k Hr. rewrite Hcell. rewrite decide_False; [reflexivity|].
    intros Hin. apply elem_of_iter_rows in Hin. lia.
  - intros c. unfold style_at. rewrite Hcell.
    destruct (decide (c ∈ mjoin (iter_rows ws n (max_row ws)))); reflexivity.
  - intros c Hc. unfold plain_at. rewrite Hcell.
    destruct (decide (c ∈ mjoin (iter_rows ws n (max_row ws)))); [reflexivity|exact Hc].
  - exact Hmeta.
Qed.
End writers.

(** ** [safe_set_cell] *)

Section safe_set_cell_facts.
Implicit Types (ws : Worksheet) (c : coord) (v : PyValue).

Lemma all_plainb_sound ws : all_plainb ws = true -> all_plain ws.
Proof.
  unfold all_plainb. rewrite forallb_forall. intros H c. unfold plain_at, cell_at.
  destruct (cells ws !! c) as [x|] eqn:E; [|reflexivity]. simpl.
  apply elem_of_map_to_list, list_elem_of_In in E. apply H in E. simpl in E.
  destruct (isinstance_MergedCell x); [discriminate|reflexivity].
Qed.

Lemma merged_cells_recordedb_sound ws :
  merged_cells_recordedb ws = true -> merged_cells_recorded ws.
Proof.
  unfold merged_cells_recordedb. rewrite forallb_forall. intros H c Hc. unfold cell_at in Hc.
  destruct (cells ws !! c) as [x|] eqn:E; [|discriminate Hc]. simpl in Hc.
  apply elem_of_map_to_list, list_elem_of_In in E. apply H in E. simpl in E.
  rewrite Hc in E. simpl in E. apply existsb_exists in E as (r & Hr & Hin).
  exists r. split; [apply list_elem_of_In, Hr|exact Hin].
Qed.

Lemma safe_set_cell_same : WorkLog.safe_set_cell = AutomateExcel.safe_set_cell.
Proof. reflexivity. Qed.

Lemma update_total_sheet_same : WorkLog.update_total_sheet = AutomateExcel.update_total_sheet.
Proof. reflexivity. Qed.

Lemma safe_set_cell_plain ws c v :
  plain_at ws c ->
  AutomateExcel.safe_set_cell ws c v
  = Ok (put_cell (ws_cell ws c) c (PlainCell v (style_at ws c))).
Proof.
  intros H. unfold AutomateExcel.safe_set_cell.
  assert (H' : plain_at (ws_cell ws c) c) by (apply plain_at_ws_cell, H).
  unfold plain_at in H'. rewrite H'. rewrite set_value_plain by exact H'.
  unfold style_at. rewrite cell_at_ws_cell. reflexivity.
Qed.

Lemma safe_set_cell_direct_writer v :
  direct_writer (fun ws c => AutomateExcel.safe_set_cell ws c v) v.
Proof.
  intros ws c Hc. eexists. split; [apply safe_set_cell_plain, Hc|]. split.
  - intros c'. rewrite cell_at_put, cell_at_ws_cell. reflexivity.
  - rewrite sheet_meta_put. apply sheet_meta_ws_cell.
Qed.

(** The loop stops at the first recorded range that holds the cell. *)
Lemma write_top_left_first ws c v (ranges : list CellRange) :
  (exists r, r ∈ ranges /\ range_contains r c = true) ->
  exists r0, r0 ∈ ranges /\ range_contains r0 c = true /\
    AutomateExcel.write_top_left ws c v ranges
    = set_value (ws_cell ws (anchor r0)) (anchor r0) v.
Proof.
  induction ranges as [|r ranges IH]; intros (r1 & Hin & Hc); [inversion Hin|].
  simpl. destruct (range_contains r c) eqn:E.
  - exists r. split; [apply list_elem_of_here|]. split; [exact E|reflexivity].
  - apply elem_of_cons in Hin as [->|Hin]; [congruence|].
    destruct IH as (r0 & Hin0 & Hc0 & Heq); [exists r1; split; assumption|].
    exists r0. split; [apply list_elem_of_further, Hin0|]. split; assumption.
Qed.

(** A [MergedCell] object outside every recorded range: the value is
    dropped. *)
Lemma write_top_left_none ws c v (ranges : list CellRange) :
  (forall r, r ∈ ranges -> range_contains r c = false) ->
  AutomateExcel.write_top_left ws c v ranges = Ok ws.
Proof.
  induction ranges as [|r ranges IH]; intros H; [reflexivity|].
  simpl. rewrite (H r) by apply list_elem_of_here.
  apply IH. intros r' Hr'. apply H, list_elem_of_further, Hr'.
Qed.
End safe_set_cell_facts.

(** [safe_set_cell] on a sheet as [load_workbook] builds it: the
    [MergedCell] objects are exactly the non-anchor members of the recorded
    merged ranges and the range anchors are ordinary cells.  There
    [safe_set_cell] (the same function in both files) succeeds; when the
    address is a non-anchor member of a merged range, the anchor of a
    recorded range holding it receives the value and the addressed cell
    keeps its value; otherwise the addressed cell receives the value; in
    both cases every other cell of the sheet is unchanged. *)
Theorem safe_set_cell_on_loaded_sheet :
  forall (ws : Worksheet) (c : coord) (v : PyValue),
    normal_sheet ws ->
    exists ws',
      AutomateExcel.safe_set_cell ws c v = Ok ws' /\
      WorkLog.safe_set_cell ws c v = Ok ws' /\
      (non_anchor_member ws c ->
         exists r, r ∈ merged_ranges ws /\ range_contains r c = true /\ c <> anchor r /\
           value_at ws' (anchor r) = v /\
           value_at ws' c = value_at ws c /\
           forall c', c' <> anchor r -> cell_at ws' c' = cell_at ws c') /\
      (~ non_anchor_member ws c ->
         value_at ws' c = v /\
         forall c', c' <> c -> cell_at ws' c' = cell_at ws c').
Proof.
  intros ws c v [Hiff Hanchor]. rewrite safe_set_cell_same.
  destruct (isinstance_MergedCell (cell_at ws c)) eqn:Hkind.
  - (* a [MergedCell] object: the write goes to the anchor *)
    pose proof (proj1 (Hiff c) Hkind) as Hmem.
    destruct (write_top_left_first (ws_cell ws c) c v (merged_ranges ws))
      as (r0 & Hin0 & Hc0 & Hrun).
    { destruct Hmem as (r & Hr & Hc & _). exists r. split; assumption. }
    assert (Hne : c <> anchor r0).
    { intros ->. specialize (Hanchor r0 Hin0). unfold plain_at in Hanchor. congruence. }
    assert (Hpl : plain_at (ws_cell (ws_cell ws c) (anchor r0)) (anchor r0)).
    { apply plain_at_ws_cell, plain_at_ws_cell, Hanchor, Hin0. }
    assert (Hsafe : AutomateExcel.safe_set_cell ws c v
                    = Ok (put_cell (ws_cell (ws_cell ws c) (anchor r0)) (anchor r0)
                            (PlainCell v (style_at (ws_cell (ws_cell ws c) (anchor r0))
                                            (anchor r0))))).
    { unfold AutomateExcel.safe_set_cell. rewrite cell_at_ws_cell, Hkind.
      rewrite merged_ranges_ws_cell, Hrun. apply set_value_plain, Hpl. }
    eexists. split; [exact Hsafe|]. split; [exact Hsafe|]. split.
    + intros _. exists r0. repeat split; try assumption.
      * unfold value_at. rewrite cell_at_put_eq. reflexivity.
      * unfold value_at. rewrite cell_at_put_ne by congruence.
        rewrite !cell_at_ws_cell. reflexivity.
      * intros c' Hc'. rewrite cell_at_put_ne by congruence.
        rewrite !cell_at_ws_cell. reflexivity.
    + intros Hnot. contradiction.
  - (* an ordinary cell: the write is direct *)
    pose proof (safe_set_cell_plain ws c v Hkind) as Hsafe.
    eexists. split; [exact Hsafe|]. split; [exact Hsafe|]. split.
    + intros Hmem. apply Hiff in Hmem. congruence.
    + intros _. split.
      * unfold value_at. rewrite cell_at_put_eq. reflexivity.
      * intros c' Hc'. rewrite cell_at_put_ne by congruence. apply cell_at_ws_cell.
Qed.

(** ** Writing into sheets that hold ordinary cells only *)

Section plain_sheets.
Implicit Types (ws : Worksheet) (c : coord) (v : PyValue).

Lemma assign_value_all_plain ws c v :
  all_plain ws -> assign_value ws c v = Ok (write_plain ws c v).
Proof. intros H. apply assign_value_plain, H. Qed.

Lemma set_value_all_plain ws c v :
  all_plain ws -> set_value (ws_cell ws c) c v = Ok (write_plain ws c v).
Proof. intros H. apply (assign_value_plain ws c v), H. Qed.

Lemma cell_at_write_plain ws c v c' :
  cell_at (write_plain ws c v) c' =
  if decide (c = c') then PlainCell v (style_at ws c) else cell_at ws c'.
Proof. unfold write_plain. rewrite cell_at_put, cell_at_ws_cell. reflexivity. Qed.

Lemma all_plain_write_plain ws c v : all_plain ws -> all_plain (write_plain ws c v).
Proof. intros H. apply all_plain_put; [reflexivity|]. apply all_plain_ws_cell, H. Qed.

Lemma sheet_meta_write_plain ws c v : sheet_meta (write_plain ws c v) = sheet_meta ws.
Proof. unfold write_plain. rewrite sheet_meta_put. apply sheet_meta_ws_cell. Qed.

Lemma set_style_plain ws c st :
  plain_at ws c -> set_style ws c st = put_cell ws c (PlainCell (value_at ws c) st).
Proof.
  unfold plain_at, set_style, value_at. destruct (cell_at ws c); simpl; [reflexivity|discriminate].
Qed.

Lemma cell_at_set_style ws c st c' :
  all_plain ws ->
  cell_at (set_style ws c st) c' =
  if decide (c = c') then PlainCell (value_at ws c) st else cell_at ws c'.
Proof. intros H. rewrite set_style_plain by apply H. apply cell_at_put. Qed.

Lemma all_plain_set_style ws c st : all_plain ws -> all_plain (set_style ws c st).
Proof. intros H. rewrite set_style_plain by apply H. apply all_plain_put; [reflexivity|exact H]. Qed.

Lemma sheet_meta_set_style ws c st : sheet_meta (set_style ws c st) = sheet_meta ws.
Proof. unfold set_style. destruct (cell_at ws c); reflexivity. Qed.

Lemma set_font_with_font ws c f : set_font ws c f = set_style ws c (with_font f (style_at ws c)).
Proof. reflexivity. Qed.

Lemma cell_at_set_font ws c f c' :
  all_plain ws ->
  cell_at (set_font ws c f) c' =
  if decide (c = c') then PlainCell (value_at ws c) (with_font f (style_at ws c))
  else cell_at ws c'.
Proof. intros H. rewrite set_font_with_font. apply cell_at_set_style, H. Qed.

Lemma all_plain_set_font ws c f : all_plain ws -> all_plain (set_font ws c f).
Proof. intros H. apply all_plain_set_style, H. Qed.

Lemma sheet_meta_set_font ws c f : sheet_meta (set_font ws c f) = sheet_meta ws.
Proof. apply sheet_meta_set_style. Qed.

Lemma cell_at_set_freeze_panes ws c c' : cell_at (set_freeze_panes ws c) c' = cell_at ws c'.
Proof. reflexivity. Qed.

Lemma all_plain_set_freeze_panes ws c : all_plain ws -> all_plain (set_freeze_panes ws c).
Proof. intros H c'. exact (H c'). Qed.

Lemma cell_at_copy_cell_style ws src dst c' :
  all_plain ws ->
  cell_at (WorkLog.copy_cell_style ws src dst) c' =
  if decide (dst = c') then
    PlainCell (value_at ws dst)
      (if has_style (style_at ws src) then style_at ws src else style_at ws dst)
  else cell_at ws c'.
Proof.
  intros H. unfold WorkLog.copy_cell_style.
  destruct (has_style (style_at ws src)).
  - rewrite cell_at_set_style by exact H.
    destruct (style_at ws src); reflexivity.
  - destruct (decide (dst = c')) as [<-|]; [|reflexivity].
    specialize (H dst). unfold plain_at, value_at, style_at in *.
    destruct (cell_at ws dst); [reflexivity|discriminate].
Qed.

Lemma all_plain_copy_cell_style ws src dst :
  all_plain ws -> all_plain (WorkLog.copy_cell_style ws src dst).
Proof.
  intros H. unfold WorkLog.copy_cell_style.
  destruct (has_style (style_at ws src)); [apply all_plain_set_style, H|exact H].
Qed.

Lemma sheet_meta_copy_cell_style ws src dst :
  sheet_meta (WorkLog.copy_cell_style ws src dst) = sheet_meta ws.
Proof.
  unfold WorkLog.copy_cell_style.
  destruct (has_style (style_at ws src)); [apply sheet_meta_set_style|reflexivity].
Qed.
End plain_sheets.

Create HintDb plain.
#[local] Hint Resolve all_plain_write_plain all_plain_set_font all_plain_set_style
  all_plain_ws_cell all_plain_set_freeze_panes all_plain_copy_cell_style
  all_plain_touch_row : plain.

(** Reading a cell back through a stack of writes. *)
Section read_back.
Implicit Types (ws : Worksheet) (c : coord) (v : PyValue).

Lemma cell_at_write_plain_eq ws c v :
  cell_at (write_plain ws c v) c = PlainCell v (style_at ws c).
Proof. rewrite cell_at_write_plain. apply decide_True. reflexivity. Qed.

Lemma cell_at_write_plain_ne ws c v c' :
  c <> c' -> cell_at (write_plain ws c v) c' = cell_at ws c'.
Proof. intros H. rewrite cell_at_write_plain. apply decide_False, H. Qed.

Lemma cell_at_set_font_eq ws c f :
  all_plain ws ->
  cell_at (set_font ws c f) c = PlainCell (value_at ws c) (with_font f (style_at ws c)).
Proof. intros H. rewrite cell_at_set_font by exact H. apply decide_True. reflexivity. Qed.

Lemma cell_at_set_font_ne ws c f c' :
  all_plain ws -> c <> c' -> cell_at (set_font ws c f) c' = cell_at ws c'.
Proof. intros H Hne. rewrite cell_at_set_font by exact H. apply decide_False, Hne. Qed.

Lemma cell_at_copy_cell_style_eq ws src dst :
  all_plain ws ->
  cell_at (WorkLog.copy_cell_style ws src dst) dst =
  PlainCell (value_at ws dst)
    (if has_style (style_at ws src) then style_at ws src else style_at ws dst).
Proof. intros H. rewrite cell_at_copy_cell_style by exact H. apply decide_True. reflexivity. Qed.

Lemma cell_at_copy_cell_style_ne ws src dst c' :
  all_plain ws -> dst <> c' -> cell_at (WorkLog.copy_cell_style ws src dst) c' = cell_at ws c'.
Proof.
  intros H Hne. rewrite cell_at_copy_cell_style by exact H. apply decide_False, Hne.
Qed.

Lemma cell_style_write_plain ws c v c' :
  cell_style (cell_at (write_plain ws c v) c') = cell_style (cell_at ws c').
Proof. rewrite cell_at_write_plain. destruct (decide (c = c')) as [->|]; reflexivity. Qed.

Lemma cell_value_set_font ws c f c' :
  all_plain ws -> cell_value (cell_at (set_font ws c f) c') = cell_value (cell_at ws c').
Proof.
  intros H. rewrite cell_at_set_font by exact H.
  destruct (decide (c = c')) as [->|]; reflexivity.
Qed.

Lemma cell_value_copy_cell_style ws src dst c' :
  all_plain ws ->
  cell_value (cell_at (WorkLog.copy_cell_style ws src dst) c') = cell_value (cell_at ws c').
Proof.
  intros H. rewrite cell_at_copy_cell_style by exact H.
  destruct (decide (dst = c')) as [->|]; reflexivity.
Qed.

Lemma cell_value_plain v (st : Style) : cell_value (PlainCell v st) = v.
Proof. reflexivity. Qed.

Lemma cell_style_plain v (st : Style) : cell_style (PlainCell v st) = st.
Proof. reflexivity. Qed.
End read_back.

Ltac coord_ne :=
  let H := fresh in
  intros H; simplify_eq; first [contradiction | lia | congruence].

Ltac read_side := first [solve [auto 12 with plain] | coord_ne].

Ltac sheet_simpl :=
  unfold value_at, style_at;
  repeat first
    [ rewrite cell_style_write_plain
    | rewrite cell_value_set_font by read_side
    | rewrite cell_value_copy_cell_style by read_side
    | rewrite cell_at_write_plain_eq
    | rewrite cell_at_write_plain_ne by read_side
    | rewrite cell_at_set_font_eq by read_side
    | rewrite cell_at_set_font_ne by read_side
    | rewrite cell_at_copy_cell_style_eq by read_side
    | rewrite cell_at_copy_cell_style_ne by read_side
    | rewrite cell_at_ws_cell
    | rewrite cell_at_set_freeze_panes
    | rewrite cell_value_plain
    | rewrite cell_style_plain
    | progress (unfold value_at, style_at) ].

(** ** The record loops of [fill_daily_sheet] *)

Section record_loops.
Implicit Types (ws : Worksheet) (rec : gmap string PyValue).

Lemma bind_Ok {A B} (a : A) (k : A -> result B) : (Ok a ≫= k) = k a.
Proof. reflexivity. Qed.

Lemma for_each_cons {S A} (body : S -> A -> result S) x rest s :
  for_each body (x :: rest) s = body s x ≫= for_each body rest.
Proof. reflexivity. Qed.

Lemma row_add_0 R : row_add R 0 = R.
Proof. unfold row_add. rewrite Nat.add_0_r. apply Pos2Nat.id. Qed.

Lemma row_add_succ R i : row_add (Pos.succ R) i = row_add R (S i).
Proof. unfold row_add. f_equal. lia. Qed.

Lemma row_add_gt R i : (R < row_add (Pos.succ R) i)%positive.
Proof. unfold row_add. lia. Qed.

(** *** automate_excel.py *)

Lemma automate_write_record_spec ws r rec :
  all_plain ws ->
  exists ws', AutomateExcel.write_record ws r rec = Ok ws' /\
    all_plain ws' /\ sheet_meta ws' = sheet_meta ws /\
    (forall r' k, r' <> r -> cell_at ws' (r', k) = cell_at ws (r', k)) /\
    value_at ws' (r, 5%positive) = dict_get rec "Complete" /\
    style_at ws' (r, 5%positive) =
      match AutomateExcel.complete_font (dict_get rec "Complete") with
      | Some f => with_font f (style_at ws (r, 5%positive))
      | None => style_at ws (r, 5%positive)
      end.
Proof.
  intros H. unfold AutomateExcel.write_record.
  repeat (rewrite assign_value_all_plain by auto 10 with plain; rewrite bind_Ok).
  rewrite set_value_all_plain by auto 10 with plain. rewrite bind_Ok.
  destruct (AutomateExcel.complete_font (dict_get rec "Complete")) as [f|].
  - repeat (rewrite assign_value_all_plain by auto 10 with plain; try rewrite bind_Ok).
    eexists. split; [reflexivity|]. split; [auto 12 with plain|]. split.
    { rewrite !sheet_meta_write_plain, sheet_meta_set_font, !sheet_meta_write_plain.
      reflexivity. }
    split; [|split]; [intros r' k Hr'| |]; sheet_simpl; reflexivity.
  - repeat (rewrite assign_value_all_plain by auto 10 with plain; try rewrite bind_Ok).
    eexists. split; [reflexivity|]. split; [auto 12 with plain|]. split.
    { rewrite !sheet_meta_write_plain. reflexivity. }
    split; [|split]; [intros r' k Hr'| |]; sheet_simpl; reflexivity.
Qed.

Lemma automate_write_records_spec (recs : list (gmap string PyValue)) : forall ws R,
  all_plain ws ->
  exists ws', AutomateExcel.write_records ws R recs = Ok (ws', row_add R (length recs)) /\
    all_plain ws' /\ sheet_meta ws' = sheet_meta ws /\
    (forall r' k, (r' < R)%positive -> cell_at ws' (r', k) = cell_at ws (r', k)) /\
    (forall i rec, recs !! i = Some rec ->
       value_at ws' (row_add R i, 5%positive) = dict_get rec "Complete" /\
       style_at ws' (row_add R i, 5%positive) =
         match AutomateExcel.complete_font (dict_get rec "Complete") with
         | Some f => with_font f (style_at ws (row_add R i, 5%positive))
         | None => style_at ws (row_add R i, 5%positive)
         end).
Proof.
  induction recs as [|rec0 rest IH]; intros ws R H; simpl.
  - exists ws. rewrite row_add_0. split; [reflexivity|]. split; [exact H|].
    split; [reflexivity|]. split; [reflexivity|]. intros i rec Hi. inversion Hi.
  - destruct (automate_write_record_spec ws R rec0 H)
      as (ws1 & -> & H1 & Hm1 & Hframe1 & Hv1 & Hs1).
    rewrite bind_Ok.
    destruct (IH ws1 (Pos.succ R) H1) as (ws' & -> & H' & Hm' & Hframe' & Hrec').
    exists ws'. rewrite row_add_succ. split; [reflexivity|]. split; [exact H'|].
    split; [congruence|]. split.
    + intros r' k Hr'. rewrite Hframe' by lia. apply Hframe1. lia.
    + intros [|i] rec Hi; simpl in Hi.
      * injection Hi as <-. rewrite row_add_0.
        unfold value_at, style_at in *. rewrite Hframe' by lia. split; assumption.
      * destruct (Hrec' i rec Hi) as [Hv Hs]. rewrite row_add_succ in Hv, Hs.
        split; [exact Hv|]. rewrite Hs. unfold style_at.
        rewrite Hframe1; [reflexivity|].
        pose proof (row_add_gt R i) as Hgt. rewrite row_add_succ in Hgt. lia.
Qed.

(** *** work_log.py *)

Lemma worklog_write_field_spec rec r ws col key :
  all_plain ws ->
  exists ws', WorkLog.write_field rec r ws (col, key) = Ok ws' /\
    all_plain ws' /\ sheet_meta ws' = sheet_meta ws /\
    (forall c', c' <> (r, col) -> cell_at ws' c' = cell_at ws c') /\
    value_at ws' (r, col) = dict_get rec key /\
    style_at ws' (r, col) = worklog_styled rec key (propagated_style ws r col).
Proof.
  intros H. unfold WorkLog.write_field, worklog_styled, propagated_style.
  rewrite set_value_all_plain by exact H. rewrite bind_Ok.
  destruct (bool_decide (key = "Complete"));
    [destruct (WorkLog.complete_font (dict_get rec key)) as [f|]|].
  all: eexists; split; [reflexivity|]; split; [auto 12 with plain|]; split;
    [rewrite ?sheet_meta_set_font, sheet_meta_copy_cell_style, sheet_meta_ws_cell,
       sheet_meta_write_plain; reflexivity|].
  all: split; [intros c' Hc'|split]; sheet_simpl; try reflexivity.
  all: destruct (has_style _); reflexivity.
Qed.

Lemma worklog_fields_spec rec r (fields : list (positive * string)) : forall ws,
  NoDup (fields.*1) -> all_plain ws ->
  exists ws', for_each (WorkLog.write_field rec r) fields ws = Ok ws' /\
    all_plain ws' /\ sheet_meta ws' = sheet_meta ws /\
    (forall r' k, r' <> r -> cell_at ws' (r', k) = cell_at ws (r', k)) /\
    (forall k, k ∉ fields.*1 -> cell_at ws' (r, k) = cell_at ws (r, k)) /\
    (forall k key, (k, key) ∈ fields ->
       value_at ws' (r, k) = dict_get rec key /\
       style_at ws' (r, k) = worklog_styled rec key (propagated_style ws r k)).
Proof.
  induction fields as [|[k0 key0] rest IH]; intros ws Hnd H.
  - exists ws. split; [reflexivity|]. split; [exact H|]. split; [reflexivity|].
    split; [reflexivity|]. split; [reflexivity|]. intros k key Hin. inversion Hin.
  - rewrite fmap_cons in Hnd. apply NoDup_cons in Hnd as [Hk0 Hnd]. simpl in Hk0.
    rewrite for_each_cons.
    destruct (worklog_write_field_spec rec r ws k0 key0 H)
      as (ws1 & -> & H1 & Hm1 & Hframe1 & Hv1 & Hs1).
    rewrite bind_Ok.
    destruct (IH ws1 Hnd H1) as (ws' & -> & H' & Hm' & Hrows' & Hcols' & Hfld').
    exists ws'. split; [reflexivity|]. split; [exact H'|]. split; [congruence|].
    split; [|split].
    + intros r' k Hr'. rewrite Hrows' by exact Hr'. apply Hframe1. congruence.
    + intros k Hk. rewrite fmap_cons in Hk. apply not_elem_of_cons in Hk as [Hk Hk'].
      simpl in Hk. rewrite Hcols' by exact Hk'. apply Hframe1. congruence.
    + intros k key Hin. apply elem_of_cons in Hin as [[= -> ->]|Hin].
      * unfold value_at, style_at in *. rewrite Hcols' by exact Hk0. split; assumption.
      * destruct (Hfld' k key Hin) as [Hv Hs]. split; [exact Hv|]. rewrite Hs.
        assert (Hk : k <> k0).
        { intros ->. apply Hk0. apply list_elem_of_fmap. exists (k0, key). split; [reflexivity|exact Hin]. }
        unfold propagated_style, style_at. rewrite !Hframe1 by congruence. reflexivity.
Qed.

Lemma worklog_write_record_spec ws r rec :
  all_plain ws ->
  exists ws', WorkLog.write_record ws r rec = Ok ws' /\
    all_plain ws' /\ sheet_meta ws' = sheet_meta ws /\
    (forall r' k, r' <> r -> cell_at ws' (r', k) = cell_at ws (r', k)) /\
    value_at ws' (r, 5%positive) = dict_get rec "Complete" /\
    style_at ws' (r, 5%positive) =
      match WorkLog.complete_font (dict_get rec "Complete") with
      | Some f => with_font f (propagated_style ws r 5)
      | None => propagated_style ws r 5
      end.
Proof.
  intros H. unfold WorkLog.write_record.
  destruct (worklog_fields_spec rec r (WorkLog.enumerate1 WorkLog.headers) ws)
    as (ws' & Hrun & H' & Hm' & Hrows & _ & Hfld); [|exact H|].
  { vm_compute. repeat (constructor; [by (intros Hin; repeat (apply elem_of_cons in Hin as [Hin|Hin]; [discriminate|]); inversion Hin)|]).
    constructor. }
  exists ws'. split; [exact Hrun|]. split; [exact H'|]. split; [exact Hm'|].
  split; [exact Hrows|].
  apply (Hfld 5%positive "Complete"). vm_compute.
  do 4 apply list_elem_of_further. apply list_elem_of_here.
Qed.

Lemma worklog_write_records_spec (recs : list (gmap string PyValue)) : forall ws R,
  all_plain ws ->
  exists ws', WorkLog.write_records ws R recs = Ok (ws', row_add R (length recs)) /\
    all_plain ws' /\ sheet_meta ws' = sheet_meta ws /\
    (forall r' k, (r' < R)%positive -> cell_at ws' (r', k) = cell_at ws (r', k)) /\
    (forall i rec, recs !! i = Some rec ->
       exists ws_i,
         WorkLog.write_records ws R (take i recs) = Ok (ws_i, row_add R i) /\
         value_at ws' (row_add R i, 5%positive) = dict_get rec "Complete" /\
         style_at ws' (row_add R i, 5%positive) =
           match WorkLog.complete_font (dict_get rec "Complete") with
           | Some f => with_font f (propagated_style ws_i (row_add R i) 5)
           | None => propagated_style ws_i (row_add R i) 5
           end).
Proof.
  induction recs as [|rec0 rest IH]; intros ws R H; simpl.
  - exists ws. rewrite row_add_0. split; [reflexivity|]. split; [exact H|].
    split; [reflexivity|]. split; [reflexivity|]. intros i rec Hi. inversion Hi.
  - destruct (worklog_write_record_spec ws R rec0 H)
      as (ws1 & Hrun1 & H1 & Hm1 & Hframe1 & Hv1 & Hs1).
    rewrite Hrun1, bind_Ok.
    destruct (IH ws1 (Pos.succ R) H1) as (ws' & -> & H' & Hm' & Hframe' & Hrec').
    exists ws'. rewrite row_add_succ. split; [reflexivity|]. split; [exact H'|].
    split; [congruence|]. split.
    + intros r' k Hr'. rewrite Hframe' by lia. apply Hframe1. lia.
    + intros [|i] rec Hi; simpl in Hi.
      * injection Hi as <-. exists ws. rewrite row_add_0. split; [reflexivity|].
        unfold value_at, style_at in *. rewrite Hframe' by lia. split; assumption.
      * destruct (Hrec' i rec Hi) as (ws_i & Hrun_i & Hv & Hs).
        exists ws_i. rewrite row_add_succ in Hrun_i, Hv, Hs.
        split; [|split; assumption].
        simpl. rewrite Hrun1, bind_Ok. exact Hrun_i.
Qed.

(** *** [fill_daily_sheet] *)

Lemma style_at_write_plain ws c v c' : style_at (write_plain ws c v) c' = style_at ws c'.
Proof. apply cell_style_write_plain. Qed.

Lemma headers_loop_spec (l : list (positive * string)) : forall ws,
  all_plain ws ->
  exists ws',
    for_each (fun ws '(col_idx, header) => assign_value ws (6%positive, col_idx) (PyStr header))
      l ws = Ok ws' /\
    all_plain ws' /\ (forall c, style_at ws' c = style_at ws c) /\
    sheet_meta ws' = sheet_meta ws /\
    (forall r c, r <> 6%positive -> cell_at ws' (r, c) = cell_at ws (r, c)).
Proof.
  induction l as [|[k h] l IH]; intros ws H.
  - exists ws. split; [reflexivity|]. split; [exact H|]. repeat split.
  - rewrite for_each_cons. cbv beta iota.
    rewrite assign_value_all_plain by exact H. rewrite bind_Ok.
    destruct (IH (write_plain ws (6%positive, k) (PyStr h))) as (ws' & -> & H' & Hs & Hm & Hf).
    { auto with plain. }
    exists ws'. split; [reflexivity|]. split; [exact H'|]. split; [|split].
    + intros c. rewrite Hs. apply style_at_write_plain.
    + rewrite Hm. apply sheet_meta_write_plain.
    + intros r c Hr. rewrite Hf by exact Hr. apply cell_at_write_plain_ne. congruence.
Qed.

Lemma expected_last_row_eq R N :
  (Zpos (row_add R N) - 1)%Z = expected_last_row R N.
Proof. unfold expected_last_row, row_add. destruct N; simpl Nat.eqb; cbv iota; lia. Qed.

Lemma automate_fill_spec today sheet date_obj data is_dataframe R fallback :
  all_plain sheet ->
  exists ws',
    AutomateExcel.fill_daily_sheet today sheet date_obj data is_dataframe R fallback
    = Ok (ws', expected_last_row R
                 (length (AutomateExcel.day_records date_obj data is_dataframe))) /\
    all_plain ws' /\
    (forall i rec,
       AutomateExcel.day_records date_obj data is_dataframe !! i = Some rec ->
       value_at ws' (row_add R i, 5%positive) = dict_get rec "Complete" /\
       style_at ws' (row_add R i, 5%positive) =
         match AutomateExcel.complete_font (dict_get rec "Complete") with
         | Some f => with_font f (style_at sheet (row_add R i, 5%positive))
         | None => style_at sheet (row_add R i, 5%positive)
         end).
Proof.
  intros H. unfold AutomateExcel.fill_daily_sheet.
  set (recs := AutomateExcel.day_records date_obj data is_dataframe).
  assert (Hpre : exists ws0,
    match recs with
    | [] =>
        ws ← assign_value sheet (1%positive, col_B) (PyStr (strftime_mdY today));
        match fallback with
        | Some fd => assign_value ws (3%positive, col_B) (PyStr (strftime_mdY fd))
        | None => Ok ws
        end
    | _ :: _ => assign_value sheet (1%positive, col_B) (PyStr (strftime_mdY date_obj))
    end = Ok ws0 /\ all_plain ws0 /\ forall c, style_at ws0 c = style_at sheet c).
  { destruct recs; [destruct fallback|].
    all: repeat (rewrite assign_value_all_plain by auto with plain; try rewrite bind_Ok).
    all: eexists; split; [reflexivity|]; split; [auto with plain|].
    all: intros c; rewrite !style_at_write_plain; reflexivity. }
  destruct Hpre as (ws0 & -> & H0 & Hs0). rewrite bind_Ok.
  destruct (headers_loop_spec (AutomateExcel.enumerate1 AutomateExcel.headers)
              (set_freeze_panes (ws_cell ws0 (7%positive, col_A)) (7%positive, col_A)))
    as (ws1 & -> & H1 & Hs1 & _ & _); [auto with plain|]. rewrite bind_Ok.
  destruct (automate_write_records_spec recs ws1 R H1) as (ws' & -> & H' & _ & _ & Hrec).
  rewrite bind_Ok. exists ws'. rewrite expected_last_row_eq.
  split; [reflexivity|]. split; [exact H'|].
  intros i rec Hi. destruct (Hrec i rec Hi) as [Hv Hs]. split; [exact Hv|].
  rewrite Hs, Hs1. unfold style_at at 1 2. rewrite cell_at_set_freeze_panes, cell_at_ws_cell.
  fold (style_at ws0 (row_add R i, 5%positive)). rewrite Hs0. reflexivity.
Qed.

Lemma worklog_fill_spec sheet date_obj data R :
  all_plain sheet ->
  exists ws',
    WorkLog.fill_daily_sheet sheet date_obj data R
    = Ok (ws', expected_last_row R (length (WorkLog.day_records date_obj data))) /\
    all_plain ws' /\
    (forall r' k, (r' < R)%positive -> cell_at ws' (r', k) = cell_at sheet (r', k)) /\
    (forall i rec,
       WorkLog.day_records date_obj data !! i = Some rec ->
       exists ws_i,
         WorkLog.write_records sheet R (take i (WorkLog.day_records date_obj data))
         = Ok (ws_i, row_add R i) /\
         value_at ws' (row_add R i, 5%positive) = dict_get rec "Complete" /\
         style_at ws' (row_add R i, 5%positive) =
           match WorkLog.complete_font (dict_get rec "Complete") with
           | Some f => with_font f (propagated_style ws_i (row_add R i) 5)
           | None => propagated_style ws_i (row_add R i) 5
           end).
Proof.
  intros H. unfold WorkLog.fill_daily_sheet.
  destruct (worklog_write_records_spec (WorkLog.day_records date_obj data) sheet R H)
    as (ws' & -> & H' & _ & Hframe & Hrec).
  rewrite bind_Ok. exists ws'. rewrite expected_last_row_eq.
  split; [reflexivity|]. split; [exact H'|]. split; assumption.
Qed.
End record_loops.


(** ** The Total sheet *)

Section total_sheet.
Implicit Types (ws : Worksheet) (items : list (string * (Z * Z))).

Lemma plain_from_weaken n m ws : (n <= m)%positive -> plain_from n ws -> plain_from m ws.
Proof. intros Hnm H r c Hr. apply H. lia. Qed.

Lemma all_plain_plain_from n ws : all_plain ws -> plain_from n ws.
Proof. intros H r c _. apply H. Qed.

Lemma safe_set_cell_write_plain ws c v :
  plain_at ws c -> AutomateExcel.safe_set_cell ws c v = Ok (write_plain ws c v).
Proof. apply safe_set_cell_plain. Qed.

Lemma plain_at_write_plain ws c v c' : plain_at ws c' -> plain_at (write_plain ws c v) c'.
Proof.
  unfold plain_at. rewrite cell_at_write_plain. destruct (decide (c = c')); [reflexivity|auto].
Qed.

Lemma write_summary_rows_spec rate items : forall ws row,
  plain_from row ws -> empty_from row ws ->
  exists ws', AutomateExcel.write_summary_rows ws row rate items = Ok ws' /\
    sheet_meta ws' = sheet_meta ws /\
    (forall r c, (r < row)%positive -> cell_at ws' (r, c) = cell_at ws (r, c)) /\
    (forall k name fr lr,
       filter non_degenerate items !! k = Some (name, (fr, lr)) ->
       summary_row ws' (row_add row k) name fr lr rate) /\
    empty_from (row_add row (length (filter non_degenerate items))) ws'.
Proof.
  induction items as [|[name0 [fr0 lr0]] rest IH]; intros ws row Hpl Hempty.
  - exists ws. split; [reflexivity|]. split; [reflexivity|]. split; [reflexivity|]. split.
    + intros k name fr lr Hk. inversion Hk.
    + simpl. rewrite row_add_0. exact Hempty.
  - simpl AutomateExcel.write_summary_rows. destruct (Z.ltb_spec lr0 fr0) as [Hlt|Hge].
    + rewrite filter_cons_False by (unfold non_degenerate; simpl; lia).
      apply IH; assumption.
    + rewrite filter_cons_True by (unfold non_degenerate; simpl; lia).
      assert (Hp : forall ws0 k, plain_from row ws0 -> plain_at ws0 (row, k)).
      { intros ws0 k H0. apply H0. lia. }
      assert (Hstep : forall ws0 k v, plain_from row ws0 ->
                plain_from row (write_plain ws0 (row, k) v)).
      { intros ws0 k v H0 r c Hr. apply plain_at_write_plain, H0, Hr. }
      repeat (rewrite safe_set_cell_write_plain by auto 8; rewrite bind_Ok).
      set (ws4 := write_plain _ (row, col_E) _).
      destruct (IH ws4 (Pos.succ row)) as (ws' & Hrun & Hmeta & Hframe & Hrows & Hrest).
      { apply (plain_from_weaken row); [lia|]. subst ws4. auto 8. }
      { intros r c Hr. subst ws4. unfold col_B, col_C, col_D, col_E. sheet_simpl; try lia.
        apply Hempty. lia. }
      exists ws'. split; [exact Hrun|]. split; [|split; [|split]].
      * rewrite Hmeta. subst ws4. rewrite !sheet_meta_write_plain. reflexivity.
      * intros r c Hr. rewrite Hframe by lia. subst ws4. sheet_simpl; try lia. reflexivity.
      * intros [|k] name fr lr Hk; simpl in Hk.
        -- injection Hk as <- <- <-. rewrite row_add_0.
           unfold summary_row, value_at. rewrite !Hframe by lia. subst ws4.
           unfold col_B, col_C, col_D, col_E.
           repeat split; sheet_simpl; reflexivity.
        -- rewrite <- row_add_succ. apply Hrows. exact Hk.
      * simpl length. rewrite <- row_add_succ. exact Hrest.
Qed.

Lemma update_total_sheet_spec ws daily_info rate :
  plain_from 4 ws ->
  exists ws', AutomateExcel.update_total_sheet ws daily_info rate = Ok ws' /\
    sheet_meta ws' = sheet_meta ws /\
    (forall r c, (r < 4)%positive -> cell_at ws' (r, c) = cell_at ws (r, c)) /\
    (forall k name fr lr,
       summary_items daily_info !! k = Some (name, (fr, lr)) ->
       summary_row ws' (row_add 4 k) name fr lr rate) /\
    empty_from (row_add 4 (length (summary_items daily_info))) ws'.
Proof.
  intros Hpl. unfold AutomateExcel.update_total_sheet.
  destruct (wipe_rows _ PyNone (set_value_direct_writer PyNone) 4 ws eq_refl Hpl)
    as (ws1 & -> & Hval & Hframe1 & _ & Hplain & Hmeta1).
  rewrite bind_Ok.
  destruct (write_summary_rows_spec rate (sorted_items daily_info) ws1 4)
    as (ws' & Hrun & Hmeta & Hframe & Hrows & Hrest).
  { intros r c Hr. apply Hplain, Hpl, Hr. }
  { exact Hval. }
  exists ws'. split; [exact Hrun|]. split; [congruence|]. split; [|split; assumption].
  intros r c Hr. rewrite Hframe by exact Hr. apply Hframe1, Hr.
Qed.

(** *** The order of the summary rows *)

#[local] Instance item_le_dec : RelDecision item_le.
Proof. intros a b. unfold item_le. apply _. Defined.

#[local] Instance item_le_trans : Transitive item_le.
Proof. intros a b c. unfold item_le. apply (transitivity (R := String.le)). Qed.

#[local] Instance item_le_total : Total item_le.
Proof. intros a b. unfold item_le. apply (total String.le). Qed.

Lemma StronglySorted_filter {A} (R : relation A) (P : A -> Prop)
    `{forall x, Decision (P x)} (l : list A) :
  StronglySorted R l -> StronglySorted R (filter P l).
Proof.
  induction 1 as [|x l Hl IH Hx]; [constructor|].
  destruct (decide (P x)).
  - rewrite filter_cons_True by assumption. constructor; [exact IH|].
    apply Forall_forall. intros y Hy. apply list_elem_of_filter in Hy as [_ Hy].
    rewrite Forall_forall in Hx. apply Hx, Hy.
  - rewrite filter_cons_False by assumption. exact IH.
Qed.

Lemma elem_of_sorted_items daily_info name fr lr :
  (name, (fr, lr)) ∈ sorted_items daily_info <-> daily_info !! name = Some (fr, lr).
Proof.
  unfold sorted_items. rewrite merge_sort_Permutation. apply elem_of_map_to_list.
Qed.

Lemma summary_names_spec (daily_info : gmap string (Z * Z)) :
  let names := (summary_items daily_info).*1 in
  (forall n, n ∈ names <->
             exists fr lr, daily_info !! n = Some (fr, lr) /\ (fr <= lr)%Z) /\
  NoDup names /\
  StronglySorted String.le names.
Proof.
  unfold summary_items. split; [|split].
  - intros n. rewrite list_elem_of_fmap. split.
    + intros ([n' [fr lr]] & -> & Hin). apply list_elem_of_filter in Hin as [Hnd Hin].
      apply elem_of_sorted_items in Hin. exists fr, lr. split; [exact Hin|exact Hnd].
    + intros (fr & lr & Hl & Hle). exists (n, (fr, lr)). split; [reflexivity|].
      apply list_elem_of_filter. split; [exact Hle|]. apply elem_of_sorted_items, Hl.
  - eapply sublist_NoDup; [|apply fmap_sublist, sublist_filter].
    unfold sorted_items. rewrite merge_sort_Permutation. apply NoDup_fst_map_to_list.
  - apply (StronglySorted_fmap _ item_le String.le); [intros x y Hxy; exact Hxy|].
    apply StronglySorted_filter. unfold sorted_items.
    apply StronglySorted_merge_sort; apply _.
Qed.
End total_sheet.

(** ** Completion flags *)

(** Membership in a list that is written out. *)
Ltac list_mem := solve [repeat first [apply list_elem_of_here | apply list_elem_of_further]].

Section flags.
Implicit Types (s w : string) (c : ascii).
#[local] Open Scope string_scope.

Lemma casings_yes s :
  s ∈ casings "yes" <-> s ∈ ["yes"; "Yes"; "yEs"; "YEs"; "yeS"; "YeS"; "yES"; "YES"].
Proof. reflexivity. Qed.

Lemma casings_no s : s ∈ casings "no" <-> s ∈ ["no"; "No"; "nO"; "NO"].
Proof. reflexivity. Qed.

(** Only a letter and its capital lower to that letter. *)
Lemma ascii_lower_inv c (l : ascii) :
  l ∈ ["y"; "e"; "s"; "n"; "o"]%char ->
  ascii_lower c = l -> c = l \/ c = ascii_upper l.
Proof.
  intros Hl H. repeat (apply elem_of_cons in Hl as [->|Hl]); [..|inversion Hl].
  all: destruct c as [[] [] [] [] [] [] [] []]; vm_compute in H; try discriminate H.
  all: vm_compute; auto.
Qed.

Lemma lower_yes s : lower s = "yes" <-> s ∈ casings "yes".
Proof.
  split.
  - destruct s as [|a [|b [|c [|? ?]]]]; try discriminate. simpl. intros [= Ha Hb Hc].
    apply ascii_lower_inv in Ha, Hb, Hc; [|list_mem..].
    destruct Ha as [->| ->], Hb as [->| ->], Hc as [->| ->]; vm_compute; list_mem.
  - rewrite casings_yes. intros H.
    repeat (apply elem_of_cons in H as [->|H]; [reflexivity|]). inversion H.
Qed.

Lemma lower_no s : lower s = "no" <-> s ∈ casings "no".
Proof.
  split.
  - destruct s as [|a [|b [|? ?]]]; try discriminate. simpl. intros [= Ha Hb].
    apply ascii_lower_inv in Ha, Hb; [|list_mem..].
    destruct Ha as [->| ->], Hb as [->| ->]; vm_compute; list_mem.
  - rewrite casings_no. intros H.
    repeat (apply elem_of_cons in H as [->|H]; [reflexivity|]). inversion H.
Qed.

(** *** [str.strip] *)

Lemma app_cons c s t : String c s ++ t = String c (s ++ t).
Proof. reflexivity. Qed.

Lemma app_nil_l t : "" ++ t = t.
Proof. reflexivity. Qed.

Lemma string_app_nil_r s : s ++ "" = s.
Proof. induction s as [|a s IH]; [reflexivity|]. rewrite app_cons, IH. reflexivity. Qed.

Lemma string_app_assoc s1 s2 s3 : (s1 ++ s2) ++ s3 = s1 ++ s2 ++ s3.
Proof.
  induction s1 as [|a s1 IH]; [reflexivity|]. rewrite !app_cons, IH. reflexivity.
Qed.

Lemma rstrip_all_space s : all_space s = true -> rstrip s = "".
Proof.
  induction s as [|a s IH]; simpl; [reflexivity|].
  intros [Ha Hs]%andb_prop. rewrite (IH Hs), Ha. reflexivity.
Qed.

Lemma rstrip_cons_nonspace c s : is_space c = false -> rstrip (String c s) = String c (rstrip s).
Proof. intros H. simpl. rewrite H. destruct (rstrip s); reflexivity. Qed.

Lemma rstrip_cons_nonempty c s : rstrip s <> "" -> rstrip (String c s) = String c (rstrip s).
Proof. intros H. simpl. destruct (rstrip s); [contradiction|reflexivity]. Qed.

Lemma rstrip_app_nonempty pre s : rstrip s <> "" -> rstrip (pre ++ s) = pre ++ rstrip s.
Proof.
  intros H. induction pre as [|a pre IH]; [reflexivity|].
  rewrite !app_cons. rewrite rstrip_cons_nonempty; rewrite IH; [reflexivity|].
  destruct pre; [exact H|discriminate].
Qed.

Lemma lstrip_app_space pre s : all_space pre = true -> lstrip (pre ++ s) = lstrip s.
Proof.
  induction pre as [|a pre IH]; [reflexivity|]. rewrite app_cons. simpl.
  intros [Ha Hs]%andb_prop. rewrite Ha. apply IH, Hs.
Qed.

Lemma lstrip_decompose s : exists pre, s = pre ++ lstrip s /\ all_space pre = true.
Proof.
  induction s as [|a s (pre & Hs & Hpre)]; [exists ""; split; reflexivity|].
  simpl. destruct (is_space a) eqn:Ha.
  - exists (String a pre). rewrite app_cons. simpl. rewrite Ha, Hpre.
    split; [f_equal; exact Hs|reflexivity].
  - exists "". split; reflexivity.
Qed.

Lemma rstrip_decompose s : exists post, s = rstrip s ++ post /\ all_space post = true.
Proof.
  induction s as [|a s (post & Hs & Hpost)]; [exists ""; split; reflexivity|].
  simpl. destruct (rstrip s) eqn:E.
  - rewrite app_nil_l in Hs. subst s. destruct (is_space a) eqn:Ha.
    + exists (String a post). rewrite app_nil_l. simpl. rewrite Ha, Hpost.
      split; reflexivity.
    + exists post. rewrite app_cons, app_nil_l. split; [reflexivity|exact Hpost].
  - exists post. rewrite app_cons. rewrite Hs at 1. split; [reflexivity|exact Hpost].
Qed.

Lemma strip_decompose s :
  exists pre post, s = pre ++ strip s ++ post /\ all_space pre = true /\ all_space post = true.
Proof.
  destruct (rstrip_decompose s) as (post & Hs & Hpost).
  destruct (lstrip_decompose (rstrip s)) as (pre & Hr & Hpre).
  exists pre, post. unfold strip. split; [|split; assumption].
  rewrite <- string_app_assoc, <- Hr. exact Hs.
Qed.

(** Whitespace around a word of letters is what [strip] removes. *)
Lemma strip_padded_word w pre s post :
  w ∈ ["yes"; "no"] -> s ∈ casings w ->
  all_space pre = true -> all_space post = true ->
  strip (pre ++ s ++ post) = s.
Proof.
  intros Hw Hs Hpre Hpost. unfold strip.
  assert (Hr : rstrip (s ++ post) = s /\ s <> "" /\ lstrip s = s).
  { repeat (apply elem_of_cons in Hw as [->|Hw]); [| |inversion Hw].
    - apply casings_yes in Hs.
      repeat (apply elem_of_cons in Hs as [->|Hs]); [..|inversion Hs].
      all: split; [|split; [discriminate|reflexivity]].
      all: rewrite !app_cons, app_nil_l, !rstrip_cons_nonspace by reflexivity.
      all: rewrite rstrip_all_space by exact Hpost; reflexivity.
    - apply casings_no in Hs.
      repeat (apply elem_of_cons in Hs as [->|Hs]); [..|inversion Hs].
      all: split; [|split; [discriminate|reflexivity]].
      all: rewrite !app_cons, app_nil_l, !rstrip_cons_nonspace by reflexivity.
      all: rewrite rstrip_all_space by exact Hpost; reflexivity. }
  destruct Hr as (Hr & Hne & Hl).
  rewrite rstrip_app_nonempty by (rewrite Hr; exact Hne).
  rewrite Hr, lstrip_app_space by exact Hpre. exact Hl.
Qed.

(** *** The font decisions *)

Lemma says_lower w (v : PyValue) :
  w ∈ ["yes"; "no"] -> says w v <-> exists s, v = PyStr s /\ lower s = w.
Proof.
  intros Hw. unfold says.
  repeat (apply elem_of_cons in Hw as [->|Hw]); [| |inversion Hw].
  - split; intros (s & -> & H); exists s; (split; [reflexivity|]); apply lower_yes, H.
  - split; intros (s & -> & H); exists s; (split; [reflexivity|]); apply lower_no, H.
Qed.

Lemma says_padded_lower w (v : PyValue) :
  w ∈ ["yes"; "no"] -> says_padded w v <-> exists s, v = PyStr s /\ lower (strip s) = w.
Proof.
  intros Hw. unfold says_padded. split.
  - intros (pre & s & post & -> & Hpre & Hpost & Hs). eexists. split; [reflexivity|].
    rewrite (strip_padded_word w) by assumption.
    repeat (apply elem_of_cons in Hw as [->|Hw]); [| |inversion Hw].
    + apply lower_yes, Hs.
    + apply lower_no, Hs.
  - intros (s & -> & H). destruct (strip_decompose s) as (pre & post & Hs & Hpre & Hpost).
    exists pre, (strip s), post. split; [congruence|]. split; [exact Hpre|].
    split; [exact Hpost|].
    repeat (apply elem_of_cons in Hw as [->|Hw]); [| |inversion Hw].
    + apply lower_yes, H.
    + apply lower_no, H.
Qed.

Lemma automate_complete_font_spec (v : PyValue) :
  (says "yes" v -> AutomateExcel.complete_font v = Some green) /\
  (says "no" v -> AutomateExcel.complete_font v = Some red) /\
  (~ says "yes" v -> ~ says "no" v -> AutomateExcel.complete_font v = None).
Proof.
  rewrite !says_lower by list_mem. split; [|split].
  - intros (s & -> & H). simpl. rewrite H. reflexivity.
  - intros (s & -> & H). simpl. rewrite H. reflexivity.
  - intros Hy Hn. destruct v as [|s| | | |]; try reflexivity. simpl.
    rewrite bool_decide_eq_false_2 by (intros H; apply Hy; exists s; auto).
    rewrite bool_decide_eq_false_2 by (intros H; apply Hn; exists s; auto).
    reflexivity.
Qed.

Lemma worklog_complete_font_spec (v : PyValue) :
  (says_padded "yes" v -> WorkLog.complete_font v = Some green) /\
  (says_padded "no" v -> WorkLog.complete_font v = Some red) /\
  (~ says_padded "yes" v -> ~ says_padded "no" v -> WorkLog.complete_font v = None).
Proof.
  rewrite !says_padded_lower by list_mem. split; [|split].
  - intros (s & -> & H). simpl. rewrite H. reflexivity.
  - intros (s & -> & H). simpl. rewrite H. reflexivity.
  - intros Hy Hn. destruct v as [|s| | | |]; try reflexivity. simpl.
    rewrite bool_decide_eq_false_2 by (intros H; apply Hy; exists s; auto).
    rewrite bool_decide_eq_false_2 by (intros H; apply Hn; exists s; auto).
    reflexivity.
Qed.
End flags.

(** ** Workbooks: titles and clones *)

Section workbooks.
Implicit Types (wb : Workbook) (ws : Worksheet) (name : string).
#[local] Open Scope string_scope.

Lemma snoc_lookup_last {A} (l : list A) x : (l ++ [x])%list !! length l = Some x.
Proof. apply list_lookup_middle. reflexivity. Qed.

Lemma snoc_insert_last {A} (l : list A) x y : <[length l := y]> (l ++ [x])%list = (l ++ [y])%list.
Proof. rewrite <- (Nat.add_0_r (length l)). rewrite insert_app_r. reflexivity. Qed.

Lemma index_of_Some name (names : list string) i :
  index_of name names = Some i -> names !! i = Some name.
Proof.
  revert i. induction names as [|n names IH]; intros i; simpl; [discriminate|].
  case_bool_decide as Hn.
  - intros [= <-]. simpl. congruence.
  - destruct (index_of name names) as [j|]; [|discriminate].
    intros [= <-]. simpl. apply IH. reflexivity.
Qed.

Lemma index_of_elem name (names : list string) :
  name ∈ names -> exists i, index_of name names = Some i.
Proof.
  induction names as [|n names IH]; intros Hin; [inversion Hin|]. simpl.
  case_bool_decide as Hn; [exists 0%nat; reflexivity|].
  apply elem_of_cons in Hin as [->|Hin]; [contradiction|].
  destruct (IH Hin) as [i ->]. exists (S i). reflexivity.
Qed.

Lemma wb_getitem_elem wb name :
  name ∈ sheetnames wb ->
  exists i ws, wb_getitem wb name = Ok i /\ wb !! i = Some ws /\ title ws = name.
Proof.
  intros Hin. destruct (index_of_elem name _ Hin) as [i Hi].
  pose proof (index_of_Some _ _ _ Hi) as Hl. unfold sheetnames in Hl.
  rewrite list_lookup_fmap in Hl.
  destruct (wb !! i) as [ws|] eqn:E; simpl in Hl; [|discriminate Hl].
  exists i, ws. unfold wb_getitem. rewrite Hi. injection Hl as Hl. auto.
Qed.

Lemma create_sheet_valid wb t :
  has_invalid_char t = false ->
  create_sheet wb t
  = Ok ((wb ++ [mkSheet (avoid_duplicate_name (sheetnames wb) t) ∅ [] None visible])%list,
        length wb).
Proof. intros H. unfold create_sheet. rewrite H. reflexivity. Qed.

Lemma on_sheet_last {A} wb ws (f : Worksheet -> result (Worksheet * A)) ws' a :
  f ws = Ok (ws', a) -> on_sheet (wb ++ [ws])%list (length wb) f = Ok ((wb ++ [ws'])%list, a).
Proof.
  intros H. unfold on_sheet. rewrite snoc_lookup_last, H. simpl.
  rewrite snoc_insert_last. reflexivity.
Qed.

Lemma clone_template_same : WorkLog.clone_template = AutomateExcel.clone_template.
Proof. reflexivity. Qed.

(** The clone: a new last sheet, the sheets before it unchanged. *)
Lemma clone_template_spec wb name :
  AutomateExcel.TEMPLATE_SHEET_NAME ∈ sheetnames wb ->
  has_invalid_char name = false ->
  exists src, src ∈ wb /\ title src = "Template" /\
    AutomateExcel.clone_template wb name
    = Ok ((wb ++ [clone_of src (clone_title wb name)])%list, length wb).
Proof.
  intros Ht Hname. destruct (wb_getitem_elem wb _ Ht) as (i & src & Hget & Hsrc & Htitle).
  exists src. split; [apply list_elem_of_lookup; exists i; exact Hsrc|].
  split; [exact Htitle|].
  unfold AutomateExcel.clone_template. rewrite Hget. simpl.
  unfold copy_worksheet. rewrite Hsrc.
  unfold AutomateExcel.TEMPLATE_SHEET_NAME in Htitle. rewrite Htitle.
  rewrite create_sheet_valid by reflexivity. simpl.
  rewrite snoc_lookup_last, snoc_insert_last. simpl.
  unfold set_title. rewrite snoc_lookup_last, Hname. simpl.
  rewrite snoc_insert_last. unfold sheetnames. rewrite fmap_app. simpl.
  reflexivity.
Qed.

Lemma clone_of_all_plain src t : all_plain (clone_of src t).
Proof.
  intros c. unfold plain_at, cell_at, clone_of. simpl. rewrite lookup_fmap.
  destruct (cells src !! c); reflexivity.
Qed.

(** *** [avoid_duplicate_name] *)

Lemma avoid_duplicate_name_extends (names : list string) v :
  exists suffix, avoid_duplicate_name names v = v ++ suffix.
Proof.
  unfold avoid_duplicate_name.
  destruct (filter _ names); [exists ""; symmetry; apply string_app_nil_r|].
  destruct (findall_counts v _ 0); [exists ""; symmetry; apply string_app_nil_r|].
  eexists. reflexivity.
Qed.

Lemma avoid_duplicate_name_fresh (names : list string) v :
  (forall n, n ∈ names -> lower n <> lower v) -> avoid_duplicate_name names v = v.
Proof.
  intros H. unfold avoid_duplicate_name.
  destruct (filter _ names) as [|n l] eqn:E; [reflexivity|].
  assert (Hn : n ∈ filter (fun n => lower n = lower v) names) by (rewrite E; left).
  apply list_elem_of_filter in Hn as [Hn Hin]. exfalso. exact (H n Hin Hn).
Qed.

Lemma strip_prefix_ci_app v post : strip_prefix_ci v (v ++ post) = Some post.
Proof.
  induction v as [|a v IH]; [reflexivity|]. rewrite app_cons. simpl.
  rewrite bool_decide_eq_true_2 by reflexivity. exact IH.
Qed.

Lemma findall_counts_found v pre post :
  v <> "" -> findall_counts v (pre ++ v ++ post) 0 <> [].
Proof.
  intros Hv. induction pre as [|c pre IH].
  - rewrite app_nil_l. destruct v as [|a v]; [contradiction|].
    rewrite app_cons. unfold findall_counts; fold findall_counts.
    rewrite <- app_cons, strip_prefix_ci_app.
    destruct (span_digits post). discriminate.
  - rewrite app_cons. unfold findall_counts; fold findall_counts.
    destruct (strip_prefix_ci v (String c (pre ++ v ++ post))) as [after|].
    + destruct (span_digits after). discriminate.
    + exact IH.
Qed.

Lemma concat_contains (names : list string) v :
  v ∈ names -> exists pre post, String.concat "," names = pre ++ v ++ post.
Proof.
  induction names as [|n names IH]; intros Hin; [inversion Hin|].
  apply elem_of_cons in Hin as [->|Hin].
  - destruct names as [|m names].
    + exists "", "". simpl. rewrite app_nil_l, string_app_nil_r. reflexivity.
    + exists "". eexists. simpl. rewrite app_nil_l. reflexivity.
  - destruct (IH Hin) as (pre & post & Heq). destruct names as [|m names]; [inversion Hin|].
    exists (n ++ "," ++ pre), post. simpl in *. rewrite Heq.
    rewrite !string_app_assoc. reflexivity.
Qed.

Lemma str_of_nat_nonempty n : str_of_nat n <> "".
Proof. unfold str_of_nat. destruct (Nat.to_uint n); discriminate. Qed.

Lemma string_app_neq v suffix : suffix <> "" -> v ++ suffix <> v.
Proof.
  intros Hs H. apply Hs. induction v as [|a v IH]; [exact H|].
  rewrite app_cons in H. injection H as H. exact (IH H).
Qed.

(** A title that is taken is not kept: a positive count is appended. *)
Lemma avoid_duplicate_name_taken (names : list string) v :
  v <> "" -> v ∈ names ->
  exists suffix, suffix <> "" /\ avoid_duplicate_name names v = v ++ suffix.
Proof.
  intros Hv Hin. unfold avoid_duplicate_name.
  destruct (filter _ names) as [|n l] eqn:E.
  - exfalso. assert (Hf : v ∈ filter (fun n => lower n = lower v) names).
    { apply list_elem_of_filter. split; [reflexivity|exact Hin]. }
    rewrite E in Hf. inversion Hf.
  - destruct (concat_contains names v Hin) as (pre & post & ->).
    pose proof (findall_counts_found v pre post Hv) as Hfound.
    destruct (findall_counts v (pre ++ v ++ post) 0) as [|m ms]; [contradiction|].
    eexists. split; [|reflexivity]. apply str_of_nat_nonempty.
Qed.

Lemma wb_getitem_Ok wb name i :
  wb_getitem wb name = Ok i -> exists ws, wb !! i = Some ws /\ title ws = name.
Proof.
  unfold wb_getitem. destruct (index_of name (sheetnames wb)) as [k|] eqn:E; [|discriminate].
  intros [= <-]. apply index_of_Some in E. unfold sheetnames in E.
  rewrite list_lookup_fmap in E. destruct (wb !! k) as [ws|]; simpl in E; [|discriminate E].
  exists ws. split; [reflexivity|]. congruence.
Qed.



(** The labels of work_log.py keep a sheet of ordinary cells one. *)
Lemma layout_headers_loop (l : list (positive * string)) : forall ws,
  all_plain ws ->
  exists ws',
    for_each (fun ws0 '(col_idx, header) =>
                AutomateExcel.safe_set_cell (ws_cell ws0 (6%positive, col_idx))
                  (6%positive, col_idx) (PyStr header)) l ws = Ok ws' /\
    all_plain ws'.
Proof.
  induction l as [|[k h] l IH]; intros ws H; [exists ws; split; [reflexivity|exact H]|].
  rewrite for_each_cons. cbv beta iota.
  rewrite safe_set_cell_write_plain by (apply all_plain_ws_cell, H).
  rewrite bind_Ok. apply IH. auto with plain.
Qed.

Lemma apply_consistent_layout_all_plain today ws label :
  all_plain ws ->
  exists ws', WorkLog.apply_consistent_layout today ws label = Ok ws' /\ all_plain ws'.
Proof.
  intros H. unfold WorkLog.apply_consistent_layout.
  change WorkLog.safe_set_cell with AutomateExcel.safe_set_cell.
  assert (Hp : forall s c, all_plain s -> plain_at s c) by (intros s c Hs; apply Hs).
  repeat (rewrite safe_set_cell_write_plain by (apply Hp; auto 12 with plain); rewrite bind_Ok).
  match goal with |- context [for_each _ ?l ?s] =>
    destruct (layout_headers_loop l s) as (ws' & -> & H')
  end.
  { auto 12 with plain. }
  rewrite bind_Ok. eexists. split; [reflexivity|]. auto with plain.
Qed.
End workbooks.

(** ** The run without dates and without files *)

Section no_dates_run.
Implicit Types (wb : Workbook) (ws : Worksheet) (s : string).
#[local] Open Scope string_scope.

Lemma string_forall_app P s1 s2 :
  string_forall P (s1 ++ s2) = string_forall P s1 && string_forall P s2.
Proof.
  induction s1 as [|c s1 IH]; [reflexivity|]. rewrite app_cons. simpl.
  rewrite IH. apply andb_assoc.
Qed.

Lemma string_forall_impl (P Q : ascii -> bool) s :
  (forall c, P c = true -> Q c = true) ->
  string_forall P s = true -> string_forall Q s = true.
Proof.
  intros HPQ. induction s as [|c s IH]; [reflexivity|]. simpl.
  intros [Hc Hs]%andb_prop. rewrite (HPQ c Hc), (IH Hs). reflexivity.
Qed.

Lemma digits_string_of_uint d : string_forall is_digit (NilEmpty.string_of_uint d) = true.
Proof. induction d; simpl; try rewrite IHd; reflexivity. Qed.

Lemma digits_str_of_nat n : string_forall is_digit (str_of_nat n) = true.
Proof.
  unfold str_of_nat, NilZero.string_of_uint.
  destruct (Nat.to_uint n) eqn:E; try reflexivity; rewrite <- E; apply digits_string_of_uint.
Qed.

Lemma digits_zfill w n : string_forall is_digit (zfill w (str_of_nat n)) = true.
Proof.
  unfold zfill. rewrite string_forall_app, digits_str_of_nat, andb_true_r.
  induction (w - String.length (str_of_nat n))%nat as [|k IH]; [reflexivity|exact IH].
Qed.

Lemma strftime_chars d : string_forall date_char (strftime_mdY d) = true.
Proof.
  assert (H : forall w n, string_forall date_char (zfill w (str_of_nat n)) = true).
  { intros w n. apply (string_forall_impl is_digit); [|apply digits_zfill].
    intros c Hc. unfold date_char. rewrite Hc. reflexivity. }
  unfold strftime_mdY. rewrite !string_forall_app, !H. reflexivity.
Qed.

Lemma date_char_facts (c : ascii) :
  date_char c = true ->
  invalid_title_char c = false /\ ascii_lower c = c /\ c <> "t"%char /\ c <> "T"%char.
Proof.
  destruct c as [[] [] [] [] [] [] [] []]; vm_compute; intros H; try discriminate H.
  all: repeat split; discriminate.
Qed.

Lemma date_string_valid s : string_forall date_char s = true -> has_invalid_char s = false.
Proof.
  induction s as [|c s IH]; [reflexivity|]. simpl. intros [Hc Hs]%andb_prop.
  destruct (date_char_facts c Hc) as (-> & _). exact (IH Hs).
Qed.

Lemma date_string_lower s : string_forall date_char s = true -> lower s = s.
Proof.
  induction s as [|c s IH]; [reflexivity|]. simpl. intros [Hc Hs]%andb_prop.
  destruct (date_char_facts c Hc) as (_ & -> & _). rewrite (IH Hs). reflexivity.
Qed.

Lemma date_string_not_t s rest :
  string_forall date_char s = true -> s <> String "t" rest /\ s <> String "T" rest.
Proof.
  intros H. split; intros ->; vm_compute in H; discriminate H.
Qed.

Lemma lower_Template_Copy suffix :
  lower ("Template Copy" ++ suffix) = String "t" (lower ("emplate Copy" ++ suffix)).
Proof. reflexivity. Qed.

(** A date that names no sheet yet is the title its clone gets. *)
Lemma clone_title_fresh wb name :
  no_sheet_named wb name -> string_forall date_char name = true ->
  clone_title wb name = name.
Proof.
  intros Hfresh Hchars. unfold clone_title. case_bool_decide; [reflexivity|].
  apply avoid_duplicate_name_fresh. intros n Hn. apply elem_of_app in Hn as [Hn|Hn].
  - apply Hfresh, Hn.
  - apply list_elem_of_singleton in Hn as ->. unfold provisional_title.
    destruct (avoid_duplicate_name_extends (sheetnames wb) "Template Copy") as [suffix ->].
    rewrite (date_string_lower name Hchars), lower_Template_Copy.
    intros Heq. symmetry in Heq. exact (proj1 (date_string_not_t _ _ Hchars) Heq).
Qed.

Lemma total_title_fresh wb name :
  no_sheet_named wb "Total" -> string_forall date_char name = true ->
  ("Total" ∉ (sheetnames wb ++ [name])%list) /\
  avoid_duplicate_name (sheetnames wb ++ [name])%list "Total" = "Total".
Proof.
  intros Hfresh Hchars. split.
  - intros Hin. apply elem_of_app in Hin as [Hin|Hin].
    + exact (Hfresh _ Hin eq_refl).
    + apply list_elem_of_singleton in Hin.
      symmetry in Hin. exact (proj2 (date_string_not_t _ _ Hchars) Hin).
  - apply avoid_duplicate_name_fresh. intros n Hn. apply elem_of_app in Hn as [Hn|Hn].
    + apply Hfresh, Hn.
    + apply list_elem_of_singleton in Hn as ->. rewrite (date_string_lower name Hchars).
      exact (proj1 (date_string_not_t _ _ Hchars)).
Qed.

(** With no record to write, [fill_daily_sheet] stamps the header cells
    and returns the row before the start row. *)
Lemma automate_fill_empty today sheet date_obj R fallback :
  all_plain sheet ->
  exists ws',
    AutomateExcel.fill_daily_sheet today sheet date_obj empty_DataFrame true R fallback
    = Ok (ws', (Zpos R - 1)%Z) /\
    title ws' = title sheet /\
    (forall r c, (7 <= r)%positive -> value_at ws' (r, c) = value_at sheet (r, c)).
Proof.
  intros H. unfold AutomateExcel.fill_daily_sheet.
  change (AutomateExcel.day_records date_obj empty_DataFrame true) with (@nil (gmap string PyValue)).
  cbv iota.
  assert (Hpre : exists ws0,
    (ws ← assign_value sheet (1%positive, col_B) (PyStr (strftime_mdY today));
     match fallback with
     | Some fd => assign_value ws (3%positive, col_B) (PyStr (strftime_mdY fd))
     | None => Ok ws
     end) = Ok ws0 /\ all_plain ws0 /\ sheet_meta ws0 = sheet_meta sheet /\
    forall r c, (7 <= r)%positive -> cell_at ws0 (r, c) = cell_at sheet (r, c)).
  { destruct fallback.
    all: repeat (rewrite assign_value_all_plain by auto with plain; try rewrite bind_Ok).
    all: eexists; split; [reflexivity|]; split; [auto with plain|]; split;
      [rewrite !sheet_meta_write_plain; reflexivity|].
    all: intros r c Hr; unfold col_B; sheet_simpl; try lia; reflexivity. }
  destruct Hpre as (ws0 & -> & H0 & Hm0 & Hf0). rewrite bind_Ok.
  destruct (headers_loop_spec (AutomateExcel.enumerate1 AutomateExcel.headers)
              (set_freeze_panes (ws_cell ws0 (7%positive, col_A)) (7%positive, col_A)))
    as (ws1 & -> & H1 & _ & Hm1 & Hf1); [auto with plain|]. rewrite bind_Ok.
  simpl AutomateExcel.write_records. rewrite bind_Ok.
  exists ws1. split; [reflexivity|]. split.
  - apply sheet_meta_title in Hm1. rewrite Hm1. simpl. rewrite title_ws_cell.
    apply sheet_meta_title, Hm0.
  - intros r c Hr. unfold value_at. rewrite Hf1 by lia.
    rewrite cell_at_set_freeze_panes, cell_at_ws_cell. rewrite Hf0 by exact Hr. reflexivity.
Qed.

Lemma summary_items_degenerate name : summary_items (<[name := (7, 6)%Z]> ∅) = [].
Proof.
  destruct (summary_items _) as [|[n [fr lr]] l] eqn:E; [reflexivity|]. exfalso.
  assert (Hin : (n, (fr, lr)) ∈ summary_items (<[name := (7, 6)%Z]> ∅)) by (rewrite E; left).
  unfold summary_items in Hin. apply list_elem_of_filter in Hin as [Hnd Hin].
  apply elem_of_sorted_items in Hin. apply lookup_insert_Some in Hin as [[_ Heq]|[_ Hempty]].
  - injection Heq as <- <-. unfold non_degenerate in Hnd. simpl in Hnd. lia.
  - rewrite lookup_empty in Hempty. discriminate Hempty.
Qed.

(** The Total sheet of a workbook that has none yet. *)
Lemma create_total_fresh wb daily_info rate :
  "Total" ∉ sheetnames wb ->
  avoid_duplicate_name (sheetnames wb) "Total" = "Total" ->
  summary_items daily_info = [] ->
  exists total,
    AutomateExcel.create_or_update_total_sheet wb daily_info rate = Ok (wb ++ [total])%list /\
    title total = "Total" /\ empty_from 4 total.
Proof.
  intros Hnot Htitle Hitems. unfold AutomateExcel.create_or_update_total_sheet.
  unfold AutomateExcel.TOTAL_SHEET_NAME.
  rewrite bool_decide_eq_false_2 by exact Hnot.
  rewrite create_sheet_valid by reflexivity. rewrite bind_Ok, Htitle. cbv beta iota.
  set (T0 := mkSheet "Total" ∅ [] None visible).
  assert (HT0 : all_plain T0) by (apply all_plainb_sound; reflexivity).
  assert (Hp : forall ws c, all_plain ws -> plain_at ws c) by (intros ws c Hws; apply Hws).
  set (ws4 := write_plain (write_plain (write_plain (write_plain T0
                (3%positive, col_B) (PyStr "Date")) (3%positive, col_C) (PyStr "Hour"))
                (3%positive, col_D) (PyStr "Rate")) (3%positive, col_E) (PyStr "Total Cost")).
  assert (H4 : all_plain ws4) by (subst ws4; auto 8 with plain).
  destruct (update_total_sheet_spec ws4 daily_info rate (all_plain_plain_from 4 ws4 H4))
    as (ws5 & Hrun & Hmeta & _ & _ & Hrest).
  rewrite Hitems in Hrest. simpl length in Hrest. rewrite row_add_0 in Hrest.
  exists (set_freeze_panes (ws_cell ws5 (4%positive, col_A)) (4%positive, col_A)).
  split; [|split].
  - rewrite (on_sheet_last wb T0 _
               (set_freeze_panes (ws_cell ws5 (4%positive, col_A)) (4%positive, col_A)) ()).
    + reflexivity.
    + repeat (rewrite safe_set_cell_write_plain by (apply Hp; subst T0; auto 8 with plain);
              rewrite bind_Ok).
      fold ws4. rewrite Hrun, bind_Ok. reflexivity.
  - simpl. rewrite title_ws_cell. apply sheet_meta_title in Hmeta. rewrite Hmeta.
    subst ws4. rewrite !(sheet_meta_title _ _ (sheet_meta_write_plain _ _ _)). reflexivity.
  - intros r c Hr. unfold value_at. rewrite cell_at_set_freeze_panes, cell_at_ws_cell.
    apply Hrest, Hr.
Qed.

Lemma index_of_app name (names more : list string) :
  name ∈ names -> index_of name (names ++ more)%list = index_of name names.
Proof.
  induction names as [|n names IH]; intros Hin; [inversion Hin|]. simpl.
  case_bool_decide as Hn; [reflexivity|].
  apply elem_of_cons in Hin as [->|Hin]; [contradiction|]. rewrite (IH Hin). reflexivity.
Qed.

(** Hiding the template leaves the sheets appended after it alone. *)
Lemma hide_template wb (more : list Worksheet) :
  "Template" ∈ sheetnames wb ->
  exists i src, (i < length wb)%nat /\ wb !! i = Some src /\
    wb_getitem (wb ++ more)%list "Template" = Ok i /\
    on_sheet (wb ++ more)%list i (fun ws => Ok (set_sheet_state ws hidden, ()))
    = Ok ((<[i := set_sheet_state src hidden]> wb ++ more)%list, ()).
Proof.
  intros Hin. destruct (wb_getitem_elem wb _ Hin) as (i & src & Hget & Hsrc & _).
  exists i, src. assert (Hi : (i < length wb)%nat) by (apply lookup_lt_is_Some; eauto).
  split; [exact Hi|]. split; [exact Hsrc|]. split.
  - unfold wb_getitem in *. unfold sheetnames. rewrite fmap_app.
    rewrite index_of_app by exact Hin. exact Hget.
  - unfold on_sheet. rewrite lookup_app_l by exact Hi. rewrite Hsrc. simpl.
    rewrite insert_app_l by exact Hi. reflexivity.
Qed.
End no_dates_run.

(** C1.  On a sheet without merged-cell objects (the sheets [main] fills
    are such: [cloned_sheet_all_plain], [apply_consistent_layout_all_plain]
    and [wiped]) and for a table whose values openpyxl stores as they are
    (no control character, no text of more than 32767 characters),
    [fill_daily_sheet] of both files returns; with [N] the number of
    records it writes, starting at row [R], the row returned is
    [R + N - 1] when [N > 0] and [R - 1] when [N = 0]. *)
Theorem C1_fill_daily_sheet_returns_last_row :
  forall (today : date) (sheet : Worksheet) (date_obj : date) (data : DataFrame)
         (is_dataframe : bool) (R : positive) (fallback : option date),
    all_plain sheet ->
    table_within_limits data ->
    (exists ws',
       AutomateExcel.fill_daily_sheet today sheet date_obj data is_dataframe R fallback
       = Ok (ws', expected_last_row R
                    (length (AutomateExcel.day_records date_obj data is_dataframe)))) /\
    (exists ws',
       WorkLog.fill_daily_sheet sheet date_obj data R
       = Ok (ws', expected_last_row R (length (WorkLog.day_records date_obj data)))).
Proof.
  intros today sheet date_obj data is_dataframe R fallback H _. split.
  - destruct (automate_fill_spec today sheet date_obj data is_dataframe R fallback H)
      as (ws' & Hrun & _). exists ws'. exact Hrun.
  - destruct (worklog_fill_spec sheet date_obj data R H) as (ws' & Hrun & _).
    exists ws'. exact Hrun.
Qed.

(** C8.  On a sheet that holds no merged-cell object from row 7 down (a
    cloned sheet holds none at all: [cloned_sheet_all_plain], and the labels
    of work_log.py add none: [apply_consistent_layout_all_plain]),
    [clear_sheet_data] with start row 7, in both files, returns a sheet in
    which no cell from row 7 down has a value, while every cell of rows 1
    to 6, every style, the merged ranges, the title, the frozen pane and the
    visibility are as they were. *)
Theorem C8_clear_sheet_data_wipes_below_header :
  forall ws : Worksheet,
    plain_from 7 ws ->
    (exists ws', AutomateExcel.clear_sheet_data ws 7 = Ok ws' /\ wiped 7 ws ws') /\
    (exists ws', WorkLog.clear_sheet_data ws 7 = Ok ws' /\ wiped 7 ws ws').
Proof.
  intros ws H. split.
  - exact (wipe_rows _ PyNone (set_value_direct_writer PyNone) 7 ws eq_refl H).
  - exact (wipe_rows _ PyNone (safe_set_cell_direct_writer PyNone) 7 ws eq_refl H).
Qed.

(** C2.  On a Total sheet that holds no merged-cell object from row 4
    down, [update_total_sheet] (the same function in both files) returns a
    sheet whose summary rows are these: the names in column B of rows 4,
    5, ... are exactly the sheets whose range has [last_row >= first_row],
    each once, in lexicographic order of the names, and no cell below the
    last of these rows holds a value.  A sheet with [last_row < first_row]
    has no row. *)
Theorem C2_update_total_sheet_one_row_per_sheet :
  forall (total_sheet : Worksheet) (daily_info : gmap string (Z * Z)) (rate : PyValue),
    plain_from 4 total_sheet ->
    exists (ws' : Worksheet) (names : list string),
      AutomateExcel.update_total_sheet total_sheet daily_info rate = Ok ws' /\
      WorkLog.update_total_sheet total_sheet daily_info rate = Ok ws' /\
      (forall n, n ∈ names <->
                 exists first_row last_row,
                   daily_info !! n = Some (first_row, last_row) /\
                   (first_row <= last_row)%Z) /\
      NoDup names /\
      StronglySorted String.le names /\
      (forall k n, names !! k = Some n -> value_at ws' (row_add 4 k, col_B) = PyStr n) /\
      empty_from (row_add 4 (length names)) ws'.
Proof.
  intros total_sheet daily_info rate H.
  destruct (update_total_sheet_spec total_sheet daily_info rate H)
    as (ws' & Hrun & _ & _ & Hrows & Hrest).
  destruct (summary_names_spec daily_info) as (Hmem & Hnd & Hsorted).
  exists ws', ((summary_items daily_info).*1).
  split; [exact Hrun|]. split; [rewrite update_total_sheet_same; exact Hrun|].
  split; [exact Hmem|]. split; [exact Hnd|]. split; [exact Hsorted|]. split.
  - intros k n Hk. rewrite list_lookup_fmap in Hk.
    destruct (summary_items daily_info !! k) as [[n' [fr lr]]|] eqn:E; [|discriminate].
    injection Hk as <-. apply (Hrows k n' fr lr E).
  - rewrite length_fmap. exact Hrest.
Qed.

(** C3.  In the sheet [update_total_sheet] returns, the summary row of a
    daily sheet with range [(first_row, last_row)] holds the sheet's name in
    column B, the formula
    [=SUM('<name>'!C<first>:C<last>) + (SUM('<name>'!D<first>:D<last>)/60)]
    in column C, the rate in column D and [=C<row>*D<row>] in column E. *)
Theorem C3_summary_row_contents :
  forall (total_sheet : Worksheet) (daily_info : gmap string (Z * Z)) (rate : PyValue),
    plain_from 4 total_sheet ->
    exists ws' : Worksheet,
      AutomateExcel.update_total_sheet total_sheet daily_info rate = Ok ws' /\
      WorkLog.update_total_sheet total_sheet daily_info rate = Ok ws' /\
      forall (k : nat) (name : string) (first_row last_row : Z),
        summary_items daily_info !! k = Some (name, (first_row, last_row)) ->
        let row := row_add 4 k in
        value_at ws' (row, col_B) = PyStr name /\
        value_at ws' (row, col_C) =
          PyStr ("=SUM('" ++ name ++ "'!C" ++ str_of_Z first_row ++ ":C"
                 ++ str_of_Z last_row ++ ") + (SUM('" ++ name ++ "'!D"
                 ++ str_of_Z first_row ++ ":D" ++ str_of_Z last_row ++ ")/60)") /\
        value_at ws' (row, col_D) = rate /\
        value_at ws' (row, col_E) = PyStr ("=C" ++ str_of_pos row ++ "*D" ++ str_of_pos row).
Proof.
  intros total_sheet daily_info rate H.
  destruct (update_total_sheet_spec total_sheet daily_info rate H)
    as (ws' & Hrun & _ & _ & Hrows & _).
  exists ws'. split; [exact Hrun|]. split; [rewrite update_total_sheet_same; exact Hrun|].
  intros k name first_row last_row Hk. exact (Hrows k name first_row last_row Hk).
Qed.

(** C10, as amended.  For every flag value the font decision of
    work_log.py is the decision of automate_excel.py on the value with
    leading and trailing whitespace stripped; the two decisions are equal
    on every value that is not a string and on every string that
    [str.strip] leaves as it is. *)
Theorem C10_font_decisions_agree_up_to_strip :
  forall v : PyValue,
    WorkLog.complete_font v = AutomateExcel.complete_font (strip_value v) /\
    ((forall s, v = PyStr s -> strip s = s) ->
     WorkLog.complete_font v = AutomateExcel.complete_font v).
Proof.
  intros v. split.
  - destruct v; reflexivity.
  - intros H. destruct v as [|s| | | |]; try reflexivity.
    simpl. rewrite (H s eq_refl). reflexivity.
Qed.

(** C10, as stated, fails: for the flag " yes" work_log.py decides green
    and automate_excel.py decides to leave the font. *)
Lemma C10_padded_flag_decided_differently :
  WorkLog.complete_font (PyStr " yes") = Some green /\
  AutomateExcel.complete_font (PyStr " yes") = None /\
  WorkLog.complete_font (PyStr " yes") <> AutomateExcel.complete_font (PyStr " yes").
Proof. split; [reflexivity|]. split; [reflexivity|]. discriminate. Qed.

(** ** The theorems on the sample data *)

Lemma sample_clone_all_plain : all_plain sample_clone.
Proof. apply all_plainb_sound. vm_compute. reflexivity. Qed.

Lemma empty_fromb_sound n ws : empty_fromb n ws = true -> empty_from n ws.
Proof.
  unfold empty_fromb. rewrite forallb_forall. intros H r c Hr. unfold value_at, cell_at.
  destruct (cells ws !! (r, c)) as [x|] eqn:E; [|reflexivity]. simpl.
  apply elem_of_map_to_list, list_elem_of_In in E. apply H in E. simpl in E.
  apply orb_prop in E as [E|E].
  - apply Pos.ltb_lt in E. lia.
  - apply bool_decide_eq_true_1 in E. exact E.
Qed.

Lemma empty_total_all_plain : all_plain empty_total.
Proof. apply all_plainb_sound. vm_compute. reflexivity. Qed.

(** The template sheet, as loaded, is a normal sheet: B7 is its one
    merged-cell object, inside the range A7:B7 anchored at A7. *)
Lemma sample_template_normal : normal_sheet sample_template.
Proof.
  assert (Hin : forall r, r ∈ merged_ranges sample_template -> r = mkRange 7 1 7 2).
  { intros r Hr. apply elem_of_cons in Hr as [->|Hr]; [reflexivity|inversion Hr]. }
  split.
  - intros c. split.
    + intros Hm. unfold cell_at in Hm.
      destruct (cells sample_template !! c) as [x|] eqn:E; [|discriminate Hm].
      apply elem_of_map_to_list in E.
      let l := eval vm_compute in (map_to_list (cells sample_template)) in
      change (map_to_list (cells sample_template)) with l in E.
      repeat (apply elem_of_cons in E as [E|E]; [injection E as -> ->; try discriminate Hm|]);
        [|inversion E].
      exists (mkRange 7 1 7 2). split; [apply list_elem_of_here|]. split; [reflexivity|discriminate].
    + intros (r & Hr & Hc & Hne). apply Hin in Hr as ->. destruct c as [row col].
      unfold range_contains in Hc. simpl in Hc.
      apply andb_prop in Hc as [Hc H4]. apply andb_prop in Hc as [Hc H3].
      apply andb_prop in Hc as [H1 H2].
      apply Pos.leb_le in H1, H2, H3, H4.
      assert (row = 7%positive) as -> by lia.
      assert (col = 1%positive \/ col = 2%positive) as [->| ->] by lia.
      * exfalso. apply Hne. reflexivity.
      * reflexivity.
  - intros r Hr. apply Hin in Hr as ->. reflexivity.
Qed.

(** C1 on the sample: two records written from row 7 give row 8. *)
Lemma table_within_limitsb_sound df :
  table_within_limitsb df = true -> table_within_limits df.
Proof.
  unfold table_within_limitsb, table_within_limits. intros [Hlen Hall]%andb_prop.
  split; [apply Z.ltb_lt, Hlen|]. intros rec key v Hrec Hv.
  rewrite forallb_forall in Hall. apply list_elem_of_In, Hall in Hrec.
  rewrite forallb_forall in Hrec. apply elem_of_map_to_list, list_elem_of_In in Hv.
  exact (Hrec _ Hv).
Qed.

Lemma sample_data_within_limits : table_within_limits sample_data.
Proof. apply table_within_limitsb_sound. vm_compute. reflexivity. Qed.

Lemma C1_sample_fill :
  (exists ws',
     AutomateExcel.fill_daily_sheet sample_day sample_clone sample_day sample_data true 7 None
     = Ok (ws', 8%Z)) /\
  (exists ws', WorkLog.fill_daily_sheet sample_clone sample_day sample_data 7 = Ok (ws', 8%Z)).
Proof.
  exact (C1_fill_daily_sheet_returns_last_row sample_day sample_clone sample_day sample_data
           true 7 None sample_clone_all_plain sample_data_within_limits).
Defined.

(** C8 on the sample clone. *)
Lemma C8_sample_wipe :
  (exists ws', AutomateExcel.clear_sheet_data sample_clone 7 = Ok ws' /\
               wiped 7 sample_clone ws') /\
  (exists ws', WorkLog.clear_sheet_data sample_clone 7 = Ok ws' /\ wiped 7 sample_clone ws').
Proof.
  exact (C8_clear_sheet_data_wipes_below_header sample_clone
           (all_plain_plain_from 7 sample_clone sample_clone_all_plain)).
Defined.

(** A write addressed to B7 of the loaded template. *)
Lemma sample_write_on_loaded_sheet :
  exists ws',
    AutomateExcel.safe_set_cell sample_template (7, 2)%positive (PyStr "x") = Ok ws' /\
    WorkLog.safe_set_cell sample_template (7, 2)%positive (PyStr "x") = Ok ws' /\
    (non_anchor_member sample_template (7, 2)%positive ->
       exists r, r ∈ merged_ranges sample_template /\
         range_contains r (7, 2)%positive = true /\ (7, 2)%positive <> anchor r /\
         value_at ws' (anchor r) = PyStr "x" /\
         value_at ws' (7, 2)%positive = value_at sample_template (7, 2)%positive /\
         forall c', c' <> anchor r -> cell_at ws' c' = cell_at sample_template c') /\
    (~ non_anchor_member sample_template (7, 2)%positive ->
       value_at ws' (7, 2)%positive = PyStr "x" /\
       forall c', c' <> (7, 2)%positive -> cell_at ws' c' = cell_at sample_template c').
Proof.
  exact (safe_set_cell_on_loaded_sheet sample_template (7, 2)%positive (PyStr "x")
           sample_template_normal).
Defined.

(** C6 fails on the code.  [copy_worksheet] makes of the template, whose
    cells A7:B7 are merged, a sheet that records the range A7:B7 and holds
    ordinary cells only: B7, a non-anchor member of the range, is no
    merged-cell object there.  This is the sheet the scripts write to.
    [safe_set_cell] (both files) addressed to B7 of it writes B7 itself:
    the anchor A7 keeps its value, the value is not redirected. *)
Lemma C6_write_to_clone_not_redirected :
  copy_worksheet template_workbook 0 = Ok ([sample_template; sample_clone], 1%nat) /\
  mkRange 7 1 7 2 ∈ merged_ranges sample_clone /\
  anchor (mkRange 7 1 7 2) = (7, 1)%positive /\
  non_anchor_member sample_clone (7, 2)%positive /\
  isinstance_MergedCell (cell_at sample_clone (7, 2)%positive) = false /\
  value_at sample_clone (7, 1)%positive = PyStr "sample" /\
  value_at sample_clone (7, 2)%positive = PyNone /\
  exists ws',
    AutomateExcel.safe_set_cell sample_clone (7, 2)%positive (PyStr "x") = Ok ws' /\
    WorkLog.safe_set_cell sample_clone (7, 2)%positive (PyStr "x") = Ok ws' /\
    value_at ws' (7, 1)%positive = PyStr "sample" /\
    value_at ws' (7, 2)%positive = PyStr "x".
Proof.
  split; [vm_compute; reflexivity|]. split; [apply list_elem_of_here|].
  split; [reflexivity|]. split.
  { exists (mkRange 7 1 7 2). split; [apply list_elem_of_here|].
    split; [reflexivity|discriminate]. }
  split; [vm_compute; reflexivity|]. split; [vm_compute; reflexivity|].
  split; [vm_compute; reflexivity|].
  eexists. split; [vm_compute; reflexivity|]. split; [vm_compute; reflexivity|].
  split; vm_compute; reflexivity.
Qed.

(** With two overlapping ranges, every merged-cell object lying in a
    recorded range, a write addressed to the merged-cell object C3 raises:
    the anchor B2 of its range is a merged-cell object itself. *)
Example overlapping_ranges_write_raises :
  merged_cells_recorded overlapping_sheet /\
  isinstance_MergedCell (cell_at overlapping_sheet (3, 3)%positive) = true /\
  non_anchor_member overlapping_sheet (3, 3)%positive /\
  AutomateExcel.safe_set_cell overlapping_sheet (3, 3)%positive (PyStr "x")
  = Raise AttributeError /\
  WorkLog.safe_set_cell overlapping_sheet (3, 3)%positive (PyStr "x")
  = Raise AttributeError.
Proof.
  split; [|split; [|split; [|split]]].
  - apply merged_cells_recordedb_sound. vm_compute. reflexivity.
  - vm_compute. reflexivity.
  - exists (mkRange 2 2 3 3). split; [apply list_elem_of_here|]. split; [reflexivity|discriminate].
  - vm_compute. reflexivity.
  - vm_compute. reflexivity.
Qed.

(** C2 and C3 on a fresh Total sheet and three daily sheets, one of them
    empty. *)
Lemma C2_sample_total :
  exists (ws' : Worksheet) (names : list string),
    AutomateExcel.update_total_sheet empty_total sample_ranges sample_rate = Ok ws' /\
    WorkLog.update_total_sheet empty_total sample_ranges sample_rate = Ok ws' /\
    (forall n, n ∈ names <->
               exists first_row last_row,
                 sample_ranges !! n = Some (first_row, last_row) /\
                 (first_row <= last_row)%Z) /\
    NoDup names /\
    StronglySorted String.le names /\
    (forall k n, names !! k = Some n -> value_at ws' (row_add 4 k, col_B) = PyStr n) /\
    empty_from (row_add 4 (length names)) ws'.
Proof.
  exact (C2_update_total_sheet_one_row_per_sheet empty_total sample_ranges sample_rate
           (all_plain_plain_from 4 empty_total empty_total_all_plain)).
Defined.

Lemma C3_sample_total :
  exists ws' : Worksheet,
    AutomateExcel.update_total_sheet empty_total sample_ranges sample_rate = Ok ws' /\
    WorkLog.update_total_sheet empty_total sample_ranges sample_rate = Ok ws' /\
    forall (k : nat) (name : string) (first_row last_row : Z),
      summary_items sample_ranges !! k = Some (name, (first_row, last_row)) ->
      let row := row_add 4 k in
      value_at ws' (row, col_B) = PyStr name /\
      value_at ws' (row, col_C) =
        PyStr ("=SUM('" ++ name ++ "'!C" ++ str_of_Z first_row ++ ":C"
               ++ str_of_Z last_row ++ ") + (SUM('" ++ name ++ "'!D"
               ++ str_of_Z first_row ++ ":D" ++ str_of_Z last_row ++ ")/60)") /\
      value_at ws' (row, col_D) = sample_rate /\
      value_at ws' (row, col_E) = PyStr ("=C" ++ str_of_pos row ++ "*D" ++ str_of_pos row).
Proof.
  exact (C3_summary_row_contents empty_total sample_ranges sample_rate
           (all_plain_plain_from 4 empty_total empty_total_all_plain)).
Defined.

(** What the sample gives: rows 4 and 5 for the two sheets with records,
    in the order of their names, nothing for the empty sheet. *)
Example sample_total_rows :
  exists ws',
    AutomateExcel.update_total_sheet empty_total sample_ranges sample_rate = Ok ws' /\
    value_at ws' (4, col_B)%positive = PyStr "01-02-2024" /\
    value_at ws' (4, col_C)%positive
    = PyStr "=SUM('01-02-2024'!C7:C8) + (SUM('01-02-2024'!D7:D8)/60)" /\
    value_at ws' (4, col_D)%positive = sample_rate /\
    value_at ws' (4, col_E)%positive = PyStr "=C4*D4" /\
    value_at ws' (5, col_B)%positive = PyStr "01-03-2024" /\
    value_at ws' (6, col_B)%positive = PyNone.
Proof. eexists. split; [vm_compute; reflexivity|]. repeat split; vm_compute; reflexivity. Qed.

(** The flag " yes" is neither "yes" nor "no" in any casing, yet
    work_log.py, which strips the flag first, gives its cell a green font,
    which is not the font of the style row. *)
Example worklog_padded_yes_turns_green :
  ~ says "yes" (PyStr " yes") /\ ~ says "no" (PyStr " yes") /\
  WorkLog.day_records sample_day padded_data !! 0%nat = Some (sample_record 1 " yes") /\
  dict_get (sample_record 1 " yes") "Complete" = PyStr " yes" /\
  exists ws',
    WorkLog.fill_daily_sheet sample_clone sample_day padded_data 7 = Ok (ws', 7%Z) /\
    font (style_at ws' (7, col_E)%positive) = green /\
    font (propagated_style sample_clone 7 col_E) <> green.
Proof.
  split; [|split; [|split; [|split]]].
  - intros (s & [= <-] & Hs). apply casings_yes in Hs.
    repeat (apply elem_of_cons in Hs as [Hs|Hs]; [discriminate Hs|]). inversion Hs.
  - intros (s & [= <-] & Hs). apply casings_no in Hs.
    repeat (apply elem_of_cons in Hs as [Hs|Hs]; [discriminate Hs|]). inversion Hs.
  - vm_compute. reflexivity.
  - vm_compute. reflexivity.
  - eexists. split; [vm_compute; reflexivity|]. split; [vm_compute; reflexivity|].
    vm_compute. discriminate.
Qed.

(** C7 fails on the code.  In work_log.py the row whose style is copied
    to every data cell (TEMPLATE_STYLE_ROW, row 7) is itself the first data
    row.  The records of the sample are "Yes", written to row 7, and
    "maybe", written to row 8; "maybe" is neither "yes" nor "no", with or
    without blanks around it, and asks for no colour.  The font of the
    style row of the template is not green, and automate_excel.py leaves
    the style of E8 as the clone has it.  work_log.py gives E8 the green
    font: copy_cell_style copies the font E7 has got from the "Yes". *)
Lemma C7_first_row_colour_leaks :
  WorkLog.day_records sample_day sample_data
  = [sample_record 1 "Yes"; sample_record 2 "maybe"] /\
  ~ says_padded "yes" (PyStr "maybe") /\ ~ says_padded "no" (PyStr "maybe") /\
  WorkLog.complete_font (PyStr "maybe") = None /\
  font (style_at sample_clone (WorkLog.TEMPLATE_STYLE_ROW, col_E)) = mkFont None 3 /\
  font (style_at sample_clone (8, col_E)%positive) <> green /\
  (exists ws',
     AutomateExcel.fill_daily_sheet sample_day sample_clone sample_day sample_data true 7 None
     = Ok (ws', 8%Z) /\
     value_at ws' (8, col_E)%positive = PyStr "maybe" /\
     style_at ws' (8, col_E)%positive = style_at sample_clone (8, col_E)%positive) /\
  (exists ws',
     WorkLog.fill_daily_sheet sample_clone sample_day sample_data 7 = Ok (ws', 8%Z) /\
     value_at ws' (7, col_E)%positive = PyStr "Yes" /\
     font (style_at ws' (7, col_E)%positive) = green /\
     value_at ws' (8, col_E)%positive = PyStr "maybe" /\
     font (style_at ws' (8, col_E)%positive) = green).
Proof.
  assert (Hnone : WorkLog.complete_font (PyStr "maybe") = None) by reflexivity.
  destruct (worklog_complete_font_spec (PyStr "maybe")) as (Hy & Hn & _).
  split; [vm_compute; reflexivity|].
  split; [intros H; apply Hy in H; rewrite Hnone in H; discriminate H|].
  split; [intros H; apply Hn in H; rewrite Hnone in H; discriminate H|].
  split; [exact Hnone|]. split; [vm_compute; reflexivity|].
  split; [vm_compute; discriminate|]. split.
  - eexists. split; [vm_compute; reflexivity|]. split; vm_compute; reflexivity.
  - eexists. split; [vm_compute; reflexivity|]. repeat split; vm_compute; reflexivity.
Qed.

(** C5 fails on the code.  B7 is a non-anchor member of the range A7:B7.
    On the clone the Populator of either file writes the description into
    B7 itself, and A7 gets the number; on a sheet that holds the
    merged-cell object, the wipe of automate_excel.py raises, where the
    wipe of work_log.py redirects to A7. *)
Lemma C5_writes_not_redirected :
  non_anchor_member sample_clone (7, 2)%positive /\
  (exists ws',
     AutomateExcel.fill_daily_sheet sample_day sample_clone sample_day sample_data true 7 None
     = Ok (ws', 8%Z) /\
     value_at ws' (7, 2)%positive = PyStr "filing" /\
     value_at ws' (7, 1)%positive = PyInt 1) /\
  (exists ws',
     WorkLog.fill_daily_sheet sample_clone sample_day sample_data 7 = Ok (ws', 8%Z) /\
     value_at ws' (7, 2)%positive = PyStr "filing" /\
     value_at ws' (7, 1)%positive = PyInt 1) /\
  AutomateExcel.clear_sheet_data sample_template 7 = Raise AttributeError /\
  (exists ws',
     WorkLog.clear_sheet_data sample_template 7 = Ok ws' /\
     value_at ws' (7, 1)%positive = PyNone).
Proof.
  split; [|split; [|split; [|split]]].
  - exists (mkRange 7 1 7 2). split; [apply list_elem_of_here|]. split; [reflexivity|discriminate].
  - eexists. split; [vm_compute; reflexivity|]. split; vm_compute; reflexivity.
  - eexists. split; [vm_compute; reflexivity|]. split; vm_compute; reflexivity.
  - vm_compute. reflexivity.
  - eexists. split; [vm_compute; reflexivity|]. vm_compute. reflexivity.
Qed.

(** C9, as amended.  In a workbook that holds the template sheet and
    already a sheet titled [new_name] (a non-empty title without the
    characters a title may not have), cloning the template under
    [new_name] does not fail, in either file: the clone is appended to the
    workbook, whose other sheets stay as they are; and unless [new_name] is
    itself the provisional title "Template Copy..." of the clone, its title
    is [new_name] followed by a non-empty suffix, never [new_name]. *)
Theorem C9_clone_under_taken_name_succeeds :
  forall (wb : Workbook) (new_name : string),
    AutomateExcel.TEMPLATE_SHEET_NAME ∈ sheetnames wb ->
    new_name ∈ sheetnames wb ->
    new_name <> EmptyString ->
    has_invalid_char new_name = false ->
    exists (wb' : Workbook) (j : nat) (clone : Worksheet),
      AutomateExcel.clone_template wb new_name = Ok (wb', j) /\
      WorkLog.clone_template wb new_name = Ok (wb', j) /\
      wb' = wb ++ [clone] /\ j = length wb /\
      (provisional_title wb <> new_name ->
       title clone <> new_name /\
       exists suffix, suffix <> EmptyString /\ title clone = (new_name ++ suffix)%string).
Proof.
  intros wb new_name Ht Hin Hne Hvalid.
  destruct (clone_template_spec wb new_name Ht Hvalid) as (src & _ & _ & Hrun).
  exists (wb ++ [clone_of src (clone_title wb new_name)]), (length wb),
    (clone_of src (clone_title wb new_name)).
  split; [exact Hrun|]. split; [rewrite clone_template_same; exact Hrun|].
  split; [reflexivity|]. split; [reflexivity|].
  intros Hprov. simpl. unfold clone_title.
  rewrite bool_decide_eq_false_2 by exact Hprov.
  destruct (avoid_duplicate_name_taken (sheetnames wb ++ [provisional_title wb]) new_name Hne)
    as (suffix & Hs & ->).
  { apply elem_of_app. left. exact Hin. }
  split; [apply string_app_neq, Hs|]. exists suffix. split; [exact Hs|reflexivity].
Qed.

(** C4, as amended.  Run without dates and without files, at any rate
    (25.0 included), on a workbook that holds the template sheet, no sheet
    named like today's date and no Total sheet yet, [main] of
    automate_excel.py returns the workbook with two sheets appended: the
    daily sheet, titled with today's date, without a value from row 7 down,
    and the Total sheet, without a value from row 4 down.  The range (7, 6)
    recorded for the daily sheet is degenerate, so the Total sheet gets no
    summary row for it. *)
Theorem C4_no_dates_no_files_run :
  forall (wb : Workbook) (today : date) (rate : PyValue) (parse : PyValue -> option date),
    AutomateExcel.TEMPLATE_SHEET_NAME ∈ sheetnames wb ->
    no_sheet_named wb (strftime_mdY today) ->
    no_sheet_named wb AutomateExcel.TOTAL_SHEET_NAME ->
    exists (wb' : Workbook) (daily total : Worksheet),
      AutomateExcel.main (no_dates_no_files wb today rate parse) = Ok wb' /\
      length wb' = (length wb + 2)%nat /\
      wb' !! length wb = Some daily /\
      wb' !! S (length wb) = Some total /\
      title daily = strftime_mdY today /\ empty_from 7 daily /\
      title total = "Total" /\ empty_from 4 total.
Proof.
  intros wb today rate parse Ht Hday Htotal.
  pose proof (strftime_chars today) as Hchars.
  set (name := strftime_mdY today) in *.
  (* the clone *)
  destruct (clone_template_spec wb name Ht (date_string_valid _ Hchars))
    as (src & _ & _ & Hclone).
  rewrite (clone_title_fresh wb name Hday Hchars) in Hclone.
  (* the wipe and the fill *)
  destruct (wipe_rows _ PyNone (set_value_direct_writer PyNone) 7 (clone_of src name) eq_refl
              (all_plain_plain_from 7 _ (clone_of_all_plain src name)))
    as (ws1 & Hwipe & Hempty1 & _ & _ & Hplain1 & Hmeta1).
  assert (Hall1 : all_plain ws1).
  { intros c. apply Hplain1, clone_of_all_plain. }
  destruct (automate_fill_empty today ws1 today 7 (Some today) Hall1)
    as (daily & Hfill & Htitle & Hvals).
  assert (Hname : title daily = name).
  { rewrite Htitle. apply sheet_meta_title in Hmeta1. rewrite Hmeta1. reflexivity. }
  assert (Hempty : empty_from 7 daily).
  { intros r c Hr. rewrite Hvals by exact Hr. apply Hempty1, Hr. }
  (* the Total sheet *)
  destruct (total_title_fresh wb name Htotal Hchars) as [Hnot Hfresh].
  destruct (create_total_fresh (wb ++ [daily]) (<[name := (7, 6)%Z]> ∅) rate)
    as (total & Hcreate & Htitle_total & Hempty_total).
  { unfold sheetnames. rewrite fmap_app. simpl. rewrite Hname. exact Hnot. }
  { unfold sheetnames. rewrite fmap_app. simpl. rewrite Hname. exact Hfresh. }
  { apply summary_items_degenerate. }
  (* the template is hidden *)
  destruct (hide_template wb [daily; total] Ht) as (i & tmpl & Hi & Htmpl & Hget & Hhide).
  exists (<[i := set_sheet_state tmpl hidden]> wb ++ [daily; total]), daily, total.
  split; [|split; [|split; [|split; [|split; [|split; [|split]]]]]];
    try assumption.
  - unfold AutomateExcel.main, no_dates_no_files.
    cbn [loaded_wb date_range combined_df rate_in today_date].
    rewrite bool_decide_eq_true_2 by exact Ht. cbn [negb].
    unfold AutomateExcel.add_daily_sheet. fold name. rewrite Hclone, bind_Ok. cbv beta iota.
    rewrite (on_sheet_last wb (clone_of src name) _ daily 6%Z).
    2: { unfold AutomateExcel.clear_sheet_data. rewrite Hwipe, bind_Ok. exact Hfill. }
    rewrite bind_Ok. cbv beta iota. rewrite bind_Ok. cbv beta iota.
    unfold AutomateExcel.finish. rewrite Hcreate, bind_Ok.
    rewrite <- app_assoc. simpl app. unfold AutomateExcel.TEMPLATE_SHEET_NAME.
    rewrite Hget, bind_Ok, Hhide, bind_Ok. reflexivity.
  - rewrite length_app, length_insert. simpl. reflexivity.
  - rewrite lookup_app_r by (rewrite length_insert; lia).
    rewrite length_insert, Nat.sub_diag. reflexivity.
  - rewrite lookup_app_r by (rewrite length_insert; lia).
    rewrite length_insert. replace (S (length wb) - length wb)%nat with 1%nat by lia.
    reflexivity.
Qed.

(** C4, as stated, fails.  The run without dates and without files on the
    template workbook ends with the sheets Template, 01-02-2024 and Total,
    and the Total sheet holds no value from row 4 down: it has no summary
    row for the daily sheet. *)
Lemma C4_total_sheet_without_summary_row :
  exists (wb' : Workbook) (total : Worksheet),
    AutomateExcel.main sample_run = Ok wb' /\
    sheetnames wb' = ["Template"; "01-02-2024"; "Total"] /\
    wb' !! 2%nat = Some total /\
    value_at total (3, col_B)%positive = PyStr "Date" /\
    empty_from 4 total.
Proof.
  eexists. eexists. split; [vm_compute; reflexivity|].
  split; [reflexivity|]. split; [reflexivity|]. split; [vm_compute; reflexivity|].
  apply empty_fromb_sound. vm_compute. reflexivity.
Qed.

Lemma template_workbook_has_template :
  AutomateExcel.TEMPLATE_SHEET_NAME ∈ sheetnames template_workbook.
Proof. apply list_elem_of_here. Qed.

Lemma template_workbook_no_sheet_named name :
  lower "Template" <> lower name -> no_sheet_named template_workbook name.
Proof.
  intros H n Hn. apply elem_of_cons in Hn as [->|Hn]; [exact H|inversion Hn].
Qed.

(** C4 on the template workbook. *)
Lemma C4_sample_run :
  exists (wb' : Workbook) (daily total : Worksheet),
    AutomateExcel.main sample_run = Ok wb' /\
    length wb' = 3%nat /\
    wb' !! 1%nat = Some daily /\
    wb' !! 2%nat = Some total /\
    title daily = "01-02-2024" /\ empty_from 7 daily /\
    title total = "Total" /\ empty_from 4 total.
Proof.
  refine (C4_no_dates_no_files_run template_workbook sample_day sample_rate (fun _ => None)
            template_workbook_has_template
            (template_workbook_no_sheet_named _ _)
            (template_workbook_no_sheet_named _ _)); discriminate.
Defined.

Lemma sample_workbook_has_template :
  AutomateExcel.TEMPLATE_SHEET_NAME ∈ sheetnames sample_workbook.
Proof. apply list_elem_of_here. Qed.

Lemma sample_workbook_has_day : "01-02-2024" ∈ sheetnames sample_workbook.
Proof. apply list_elem_of_further, list_elem_of_here. Qed.

(** C9 on a workbook that already holds the sheet 01-02-2024. *)
Lemma C9_sample_clone :
  exists (wb' : Workbook) (j : nat) (clone : Worksheet),
    AutomateExcel.clone_template sample_workbook "01-02-2024" = Ok (wb', j) /\
    WorkLog.clone_template sample_workbook "01-02-2024" = Ok (wb', j) /\
    wb' = sample_workbook ++ [clone] /\ j = length sample_workbook /\
    (provisional_title sample_workbook <> "01-02-2024" ->
     title clone <> "01-02-2024" /\
     exists suffix, suffix <> EmptyString /\ title clone = ("01-02-2024" ++ suffix)%string).
Proof.
  refine (C9_clone_under_taken_name_succeeds sample_workbook "01-02-2024"
            sample_workbook_has_template sample_workbook_has_day _ eq_refl).
  discriminate.
Defined.


(** C9, as stated, fails.  The workbook holds a sheet titled 01-02-2024;
    cloning the template under that name returns, and the clone is titled
    01-02-20241. *)
Lemma C9_taken_name_gets_a_count :
  "01-02-2024" ∈ sheetnames sample_workbook /\
  exists wb' : Workbook,
    AutomateExcel.clone_template sample_workbook "01-02-2024" = Ok (wb', 2%nat) /\
    WorkLog.clone_template sample_workbook "01-02-2024" = Ok (wb', 2%nat) /\
    sheetnames wb' = ["Template"; "01-02-2024"; "01-02-20241"].
Proof.
  split; [exact sample_workbook_has_day|].
  eexists. split; [vm_compute; reflexivity|]. split; [vm_compute; reflexivity|].
  vm_compute. reflexivity.
Qed.
(** * Further properties of the two scripts *)

(** ** The format check and the search for the header line *)

Section file_checks.
Implicit Types (s col line : string) (c : ascii).
#[local] Open Scope string_scope.

Lemma startswith_nil_r col : startswith col "" = is_empty col.
Proof. destruct col; reflexivity. Qed.

(** What [rstrip] makes of a string, one character at a time. *)
Lemma rstrip_cons_cases c s :
  (rstrip s = "" /\ is_space c = true /\ rstrip (String c s) = "") \/
  (rstrip s = "" /\ is_space c = false /\ rstrip (String c s) = String c "") \/
  (rstrip s <> "" /\ rstrip (String c s) = String c (rstrip s)).
Proof.
  simpl. destruct (rstrip s) as [|a r] eqn:E.
  - destruct (is_space c); [left|right; left]; repeat split.
  - right; right. split; [discriminate|reflexivity].
Qed.

Lemma rstrip_fixed_tail c col :
  rstrip (String c col) = String c col ->
  (col = "" /\ is_space c = false) \/ (col <> "" /\ rstrip col = col).
Proof.
  intros H. destruct (rstrip_cons_cases c col) as [(_ & _ & E)|[(E0 & Hc & E)|(Hne & E)]];
    rewrite E in H.
  - discriminate H.
  - injection H as <-. left. split; [reflexivity|exact Hc].
  - injection H as H. right. split; [|exact H]. intros ->. apply Hne. reflexivity.
Qed.

(** Trailing blanks do not matter to a prefix that ends with a
    character that is not blank. *)
Lemma startswith_rstrip s : forall col,
  rstrip col = col -> startswith col (rstrip s) = startswith col s.
Proof.
  induction s as [|c s IH]; intros col Hcol; [reflexivity|].
  destruct col as [|a col]; [reflexivity|].
  assert (Htail : startswith col (rstrip s) = startswith col s).
  { destruct (rstrip_fixed_tail a col Hcol) as [[-> _]|[_ H]]; [reflexivity|apply IH, H]. }
  destruct (rstrip_cons_cases c s) as [(E0 & Hc & E)|[(E0 & Hc & E)|(Hne & E)]]; rewrite E.
  - simpl. rewrite <- Htail, E0, startswith_nil_r.
    destruct (rstrip_fixed_tail a col Hcol) as [[-> Ha]|[Hne _]].
    + case_bool_decide as Hac; [|reflexivity]. congruence.
    + destruct col; [contradiction|]. simpl. rewrite andb_false_r. reflexivity.
  - simpl. rewrite <- Htail, E0. reflexivity.
  - simpl. rewrite Htail. reflexivity.
Qed.

Lemma contains_rstrip col s : rstrip col = col -> contains col (rstrip s) = contains col s.
Proof.
  intros Hcol. induction s as [|c s IH]; [reflexivity|].
  change (contains col (String c s)) with (startswith col (String c s) || contains col s).
  rewrite <- (startswith_rstrip (String c s) col Hcol), <- IH.
  destruct (rstrip_cons_cases c s) as [(E0 & Hc & E)|[(E0 & Hc & E)|(Hne & E)]]; rewrite E.
  - rewrite E0. simpl. destruct (startswith col ""); reflexivity.
  - rewrite E0. reflexivity.
  - reflexivity.
Qed.

(** Leading blanks do not matter to a substring that starts with a
    character that is not blank. *)
Lemma contains_lstrip a col s :
  is_space a = false -> contains (String a col) (lstrip s) = contains (String a col) s.
Proof.
  intros Ha. induction s as [|c s IH]; [reflexivity|].
  simpl lstrip. destruct (is_space c) eqn:Hc; [|reflexivity].
  rewrite IH.
  change (contains (String a col) (String c s))
    with (startswith (String a col) (String c s) || contains (String a col) s).
  simpl startswith. case_bool_decide as Hac; [congruence|reflexivity].
Qed.

Lemma contains_strip a col s :
  is_space a = false -> rstrip (String a col) = String a col ->
  contains (String a col) (strip s) = contains (String a col) s.
Proof.
  intros Ha Hcol. unfold strip. rewrite contains_lstrip by exact Ha.
  apply contains_rstrip, Hcol.
Qed.

(** The test of [check_file_format], made on the stripped line, and the
    test of [read_csv_data], made on the line, agree. *)
Lemma has_required_columns_strip line :
  AutomateExcel.has_required_columns (strip line) = AutomateExcel.has_required_columns line.
Proof.
  unfold AutomateExcel.has_required_columns, AutomateExcel.required_columns.
  cbn [forallb]. rewrite !contains_strip by reflexivity. reflexivity.
Qed.

Lemma has_required_columns_nonblank line :
  AutomateExcel.has_required_columns (strip line) = true -> is_empty (strip line) = false.
Proof. destruct (strip line); [discriminate|reflexivity]. Qed.

Lemma find_header_line_spec (lines : list string) : forall k,
  existsb (fun line => AutomateExcel.has_required_columns (strip line)) lines = true ->
  exists i line,
    AutomateExcel.find_header_line lines k = Some (k + i)%nat /\
    lines !! i = Some line /\
    AutomateExcel.has_required_columns (strip line) = true /\
    forall j l, (j < i)%nat -> lines !! j = Some l ->
                AutomateExcel.has_required_columns (strip l) = false.
Proof.
  induction lines as [|line lines IH]; intros k H; [discriminate H|].
  simpl in H. simpl AutomateExcel.find_header_line.
  destruct (AutomateExcel.has_required_columns (strip line)) eqn:E.
  - rewrite (has_required_columns_nonblank line E).
    rewrite <- has_required_columns_strip, E. simpl.
    exists 0%nat, line. rewrite Nat.add_0_r.
    split; [reflexivity|]. split; [reflexivity|]. split; [exact E|]. intros j l Hj. lia.
  - rewrite <- has_required_columns_strip, E, andb_false_r.
    destruct (IH (S k) H) as (i & l & Hfind & Hl & Hok & Hfirst).
    exists (S i), l. split; [rewrite Hfind; f_equal; lia|]. split; [exact Hl|].
    split; [exact Hok|]. intros [|j] l' Hj Hl'; simpl in Hl'.
    + injection Hl' as <-. exact E.
    + apply (Hfirst j l'); [lia|exact Hl'].
Qed.
End file_checks.

(** After [check_file_format] has accepted a file, the search of
    [read_csv_data] finds a header line, so that its fallback to line 0 is
    never taken: the index it passes on is that of the first line which
    holds the seven column names, the very line the check has accepted.
    The two files search alike. *)
Theorem header_line_found_after_check :
  forall (readlines : string -> option (list string)) (file_path : string)
         (lines : list string),
    readlines file_path = Some lines ->
    AutomateExcel.check_file_format readlines file_path = Ok () ->
    exists (i : nat) (line : string),
      AutomateExcel.find_header_line lines 0 = Some i /\
      AutomateExcel.header_line_index lines = i /\
      WorkLog.header_index lines = i /\
      WorkLog.check_file_format readlines file_path = Ok () /\
      lines !! i = Some line /\
      AutomateExcel.has_required_columns (strip line) = true /\
      forall j l, (j < i)%nat -> lines !! j = Some l ->
                  AutomateExcel.has_required_columns (strip l) = false.
Proof.
  intros readlines file_path lines Hread Hcheck.
  assert (Hsame : WorkLog.check_file_format readlines file_path
                  = AutomateExcel.check_file_format readlines file_path) by reflexivity.
  unfold AutomateExcel.check_file_format in Hcheck. rewrite Hread in Hcheck.
  destruct (existsb _ lines) eqn:E; [|discriminate Hcheck].
  destruct (find_header_line_spec lines 0 E) as (i & line & Hfind & Hl & Hok & Hfirst).
  simpl in Hfind. exists i, line.
  split; [exact Hfind|].
  split; [unfold AutomateExcel.header_line_index; rewrite Hfind; reflexivity|].
  split; [change WorkLog.header_index with AutomateExcel.header_line_index;
          unfold AutomateExcel.header_line_index; rewrite Hfind; reflexivity|].
  split; [rewrite Hsame; unfold AutomateExcel.check_file_format; rewrite Hread, E; reflexivity|].
  split; [exact Hl|]. split; [exact Hok|exact Hfirst].
Qed.

(** Comparisons of numbers whose outcome the context settles. *)
Ltac decide_cmp :=
  repeat match goal with
  | |- context [(?a <? ?b)%nat] =>
      first [rewrite (proj2 (Nat.ltb_lt a b)) by lia | rewrite (proj2 (Nat.ltb_ge a b)) by lia]
  | |- context [(?a =? ?b)%nat] =>
      first [rewrite (proj2 (Nat.eqb_eq a b)) by lia | rewrite (proj2 (Nat.eqb_neq a b)) by lia]
  | |- context [(?a <=? ?b)%nat] =>
      first [rewrite (proj2 (Nat.leb_le a b)) by lia | rewrite (proj2 (Nat.leb_gt a b)) by lia]
  end.

(** ** The prompts *)

Section prompts.
Implicit Types (s : string) (c ch : ascii) (d : date).
#[local] Open Scope string_scope.

Lemma is_empty_true s : is_empty s = true <-> s = "".
Proof. destruct s; simpl; split; (reflexivity || discriminate). Qed.

Lemma is_empty_false s : is_empty s = false <-> s <> "".
Proof. destruct s; simpl; split; try discriminate; try reflexivity; intros H; congruence. Qed.

(** *** Dates *)

Lemma date_leb_ltb (a b : date) : date_leb a b = negb (date_ltb b a).
Proof.
  unfold date_leb, date_ltb.
  destruct (Nat.lt_trichotomy (year a) (year b)) as [Hy|[Hy|Hy]],
    (Nat.lt_trichotomy (month a) (month b)) as [Hm|[Hm|Hm]],
    (Nat.lt_trichotomy (day a) (day b)) as [Hd|[Hd|Hd]];
    decide_cmp; reflexivity.
Qed.

Lemma strptime_mdY_valid s d : strptime_mdY s = Some d -> valid_date d = true.
Proof.
  unfold strptime_mdY. destruct (match_mdY s) as [[[[m dd] y] rest]|]; [|discriminate].
  destruct (negb (is_empty rest)); [discriminate|].
  destruct (valid_date _) eqn:E; [|discriminate]. intros [= <-]. exact E.
Qed.

Lemma prompt_date_range_same :
  WorkLog.prompt_date_range = AutomateExcel.prompt_date_range.
Proof. reflexivity. Qed.

Lemma prompt_file_paths_same :
  WorkLog.prompt_file_paths = AutomateExcel.prompt_file_paths.
Proof. reflexivity. Qed.

(** *** Splitting and stripping *)

Lemma split_on_nonempty sep s : split_on sep s <> [].
Proof.
  induction s as [|c s IH]; simpl; [discriminate|].
  case_bool_decide; [discriminate|]. destruct (split_on sep s); discriminate.
Qed.

Lemma lstrip_char_idem ch s : lstrip_char ch (lstrip_char ch s) = lstrip_char ch s.
Proof.
  induction s as [|c s IH]; simpl; [reflexivity|].
  case_bool_decide as H; [exact IH|]. simpl. rewrite bool_decide_eq_false_2 by exact H.
  reflexivity.
Qed.

Lemma rstrip_char_cons_cases ch c s :
  (rstrip_char ch s = "" /\ c = ch /\ rstrip_char ch (String c s) = "") \/
  (rstrip_char ch s = "" /\ c <> ch /\ rstrip_char ch (String c s) = String c "") \/
  (rstrip_char ch s <> "" /\ rstrip_char ch (String c s) = String c (rstrip_char ch s)).
Proof.
  simpl. destruct (rstrip_char ch s) as [|a r] eqn:E.
  - case_bool_decide; [left|right; left]; repeat split; assumption.
  - right; right. split; [discriminate|reflexivity].
Qed.

Lemma rstrip_char_idem ch s : rstrip_char ch (rstrip_char ch s) = rstrip_char ch s.
Proof.
  induction s as [|c s IH]; [reflexivity|].
  destruct (rstrip_char_cons_cases ch c s) as [(_ & _ & E)|[(_ & Hc & E)|(Hne & E)]]; rewrite E.
  - reflexivity.
  - simpl. rewrite bool_decide_eq_false_2 by exact Hc. reflexivity.
  - simpl. rewrite IH. destruct (rstrip_char ch s); [contradiction|reflexivity].
Qed.

Lemma rstrip_char_lstrip_char ch s :
  rstrip_char ch s = s -> rstrip_char ch (lstrip_char ch s) = lstrip_char ch s.
Proof.
  induction s as [|c s IH]; intros H; [reflexivity|].
  simpl lstrip_char. case_bool_decide as Hc; [|exact H].
  apply IH.
  destruct (rstrip_char_cons_cases ch c s) as [(_ & _ & E)|[(_ & Hc' & E)|(Hne & E)]];
    rewrite E in H.
  - discriminate H.
  - contradiction.
  - injection H as H. exact H.
Qed.

(** Stripping a character leaves nothing more to strip. *)
Lemma strip_char_idem ch s : strip_char ch (strip_char ch s) = strip_char ch s.
Proof.
  unfold strip_char.
  rewrite (rstrip_char_lstrip_char ch (rstrip_char ch s)) by apply rstrip_char_idem.
  apply lstrip_char_idem.
Qed.

Lemma lstrip_app_comma s : exists t, lstrip (s ++ ",") = t ++ ",".
Proof.
  induction s as [|c s IH]; [exists ""; reflexivity|].
  rewrite app_cons. simpl. destruct (is_space c); [exact IH|].
  exists (String c s). reflexivity.
Qed.

Lemma split_on_app_comma t : exists h l, split_on "," (t ++ ",") = h :: (l ++ [""])%list.
Proof.
  induction t as [|c t (h & l & IH)]; [exists "", []; reflexivity|].
  rewrite app_cons. simpl. rewrite IH. case_bool_decide.
  - exists "", (h :: l). reflexivity.
  - exists (String c h), l. reflexivity.
Qed.
End prompts.

(** Whatever is typed, a range that [prompt_date_range] hands to [main]
    is made of dates of the calendar, the start not later than the end; a
    start date alone is a date of the calendar; and no dates means that both
    lines were blank.  The two files prompt alike. *)
Theorem prompt_date_range_sound :
  forall (start_input end_input : string) (r : DateRange),
    AutomateExcel.prompt_date_range start_input end_input = Ok r ->
    WorkLog.prompt_date_range start_input end_input = Ok r /\
    match r with
    | NoDates => strip start_input = EmptyString /\ strip end_input = EmptyString
    | StartOnly sd =>
        strptime_mdY (strip start_input) = Some sd /\ valid_date sd = true /\
        strip end_input = EmptyString
    | Range sd ed =>
        strptime_mdY (strip start_input) = Some sd /\
        strptime_mdY (strip end_input) = Some ed /\
        valid_date sd = true /\ valid_date ed = true /\ date_leb sd ed = true
    end.
Proof.
  intros start_input end_input r H. split; [rewrite prompt_date_range_same; exact H|].
  unfold AutomateExcel.prompt_date_range in H.
  destruct (is_empty (strip start_input)) eqn:E1, (is_empty (strip end_input)) eqn:E2;
    simpl in H.
  - injection H as <-. split; apply is_empty_true; assumption.
  - destruct (strptime_mdY (strip start_input)) as [sd|] eqn:Hs; [|discriminate H].
    apply is_empty_true in E1. rewrite E1 in Hs. discriminate Hs.
  - destruct (strptime_mdY (strip start_input)) as [sd|] eqn:Hs; [|discriminate H].
    injection H as <-. split; [reflexivity|]. split; [exact (strptime_mdY_valid _ _ Hs)|].
    apply is_empty_true, E2.
  - destruct (strptime_mdY (strip start_input)) as [sd|] eqn:Hs; [|discriminate H].
    destruct (strptime_mdY (strip end_input)) as [ed|] eqn:He; [|discriminate H].
    destruct (date_ltb ed sd) eqn:Hlt; [discriminate H|]. injection H as <-.
    split; [reflexivity|]. split; [reflexivity|].
    split; [exact (strptime_mdY_valid _ _ Hs)|]. split; [exact (strptime_mdY_valid _ _ He)|].
    rewrite date_leb_ltb, Hlt. reflexivity.
Qed.

(** An end date typed without a start date ends the run: it is not taken
    as a one-day range. *)
Theorem prompt_date_range_end_date_alone :
  forall start_input end_input : string,
    strip start_input = EmptyString ->
    strip end_input <> EmptyString ->
    AutomateExcel.prompt_date_range start_input end_input = Raise SystemExit /\
    WorkLog.prompt_date_range start_input end_input = Raise SystemExit.
Proof.
  intros start_input end_input Hs He. rewrite prompt_date_range_same.
  assert (H : AutomateExcel.prompt_date_range start_input end_input = Raise SystemExit);
    [|split; exact H].
  unfold AutomateExcel.prompt_date_range. rewrite Hs.
  apply is_empty_false in He. rewrite He. reflexivity.
Qed.

(** The paths [prompt_file_paths] returns all exist and have no double
    quote left at either end; the list is empty for a blank line only.  The
    two files prompt alike. *)
Theorem prompt_file_paths_sound :
  forall (path_exists : string -> bool) (input : string) (file_paths : list string),
    AutomateExcel.prompt_file_paths path_exists input = Ok file_paths ->
    WorkLog.prompt_file_paths path_exists input = Ok file_paths /\
    (file_paths = [] <-> strip input = EmptyString) /\
    (forall fp, fp ∈ file_paths -> path_exists fp = true /\ strip_char dquote fp = fp) /\
    (strip input <> EmptyString ->
     length file_paths = length (split_on "," (strip input))).
Proof.
  intros path_exists input file_paths H.
  split; [rewrite prompt_file_paths_same; exact H|].
  unfold AutomateExcel.prompt_file_paths in H.
  destruct (is_empty (strip input)) eqn:E.
  - injection H as <-. apply is_empty_true in E. split; [split; auto|].
    split; [intros fp Hin; inversion Hin|]. intros Hne. contradiction.
  - destruct (forallb path_exists _) eqn:Hall; [|discriminate H]. injection H as <-.
    apply is_empty_false in E. split; [|split].
    + split; [|intros Hs; contradiction].
      intros Hnil. apply fmap_nil_inv in Hnil. exfalso. exact (split_on_nonempty _ _ Hnil).
    + intros fp Hin. split.
      * rewrite forallb_forall in Hall. apply Hall, list_elem_of_In, Hin.
      * apply list_elem_of_fmap in Hin as (raw & -> & _). apply strip_char_idem.
    + intros _. apply length_fmap.
Qed.

(** A line that ends with a comma names an empty path after the comma:
    as no file has the empty path, the run ends. *)
Theorem prompt_file_paths_trailing_comma :
  forall (path_exists : string -> bool) (s : string),
    path_exists EmptyString = false ->
    AutomateExcel.prompt_file_paths path_exists (s ++ ",") = Raise SystemExit /\
    WorkLog.prompt_file_paths path_exists (s ++ ",") = Raise SystemExit.
Proof.
  intros path_exists s Hex. rewrite prompt_file_paths_same.
  assert (H : AutomateExcel.prompt_file_paths path_exists (s ++ ",") = Raise SystemExit);
    [|split; exact H].
  unfold AutomateExcel.prompt_file_paths, strip.
  rewrite (rstrip_app_nonempty s ",") by discriminate.
  change (rstrip ",") with ",".
  destruct (lstrip_app_comma s) as [t ->].
  replace (is_empty (t ++ ",")) with false by (destruct t; reflexivity).
  destruct (split_on_app_comma t) as (h & l & ->).
  rewrite fmap_cons, fmap_app. simpl forallb.
  rewrite forallb_app. simpl. change (strip_char dquote "") with "".
  rewrite Hex. simpl. rewrite andb_false_r, andb_false_r. reflexivity.
Qed.

(** ** The list of days *)

Section calendar.
Implicit Types (d e : date).

Lemma days_in_month_bounds y m : (28 <= days_in_month y m <= 31)%nat.
Proof.
  unfold days_in_month.
  do 12 (destruct m as [|m]; [destruct (is_leap y); lia|]). lia.
Qed.

Lemma valid_date_calendar d : valid_date d = true -> calendar_day d.
Proof.
  unfold valid_date, calendar_day.
  rewrite !andb_true_iff, !Nat.leb_le. lia.
Qed.

Lemma calendar_day_le_31 d : calendar_day d -> (day d <= 31)%nat.
Proof.
  intros [_ H]. pose proof (days_in_month_bounds (year d) (month d)). lia.
Qed.

Lemma date_leb_day_number d e :
  calendar_day d -> calendar_day e ->
  date_leb d e = true <-> (day_number d <= day_number e)%Z.
Proof.
  intros Hd He. pose proof (calendar_day_le_31 d Hd). pose proof (calendar_day_le_31 e He).
  destruct Hd as [Hd1 Hd2], He as [He1 He2]. unfold date_leb, day_number.
  destruct (Nat.lt_trichotomy (year d) (year e)) as [Hy|[Hy|Hy]],
    (Nat.lt_trichotomy (month d) (month e)) as [Hm|[Hm|Hm]],
    (Nat.lt_trichotomy (day d) (day e)) as [Hdd|[Hdd|Hdd]];
    decide_cmp; simpl; split; intros; try reflexivity; try discriminate; lia.
Qed.

Lemma day_number_inj d e :
  calendar_day d -> calendar_day e -> day_number d = day_number e -> d = e.
Proof.
  intros Hd He. pose proof (calendar_day_le_31 d Hd). pose proof (calendar_day_le_31 e He).
  destruct Hd as [Hd1 Hd2], He as [He1 He2]. unfold day_number.
  destruct d as [y m dd], e as [y' m' dd']; simpl in *. intros Heq.
  assert (y = y') by lia. assert (m = m') by lia. assert (dd = dd') by lia. congruence.
Qed.

Lemma next_day_calendar d : calendar_day d -> calendar_day (next_day d).
Proof.
  intros [Hm Hd]. unfold next_day, calendar_day.
  destruct (Nat.ltb_spec (day d) (days_in_month (year d) (month d)));
    cbn [year month day]; [lia|].
  destruct (Nat.ltb_spec (month d) 12); cbn [year month day].
  - pose proof (days_in_month_bounds (year d) (S (month d))). lia.
  - change (days_in_month (S (year d)) 1) with 31%nat. lia.
Qed.

Lemma next_day_number d : calendar_day d -> (day_number d < day_number (next_day d))%Z.
Proof.
  intros Hd. pose proof (calendar_day_le_31 d Hd). destruct Hd as [Hm Hd].
  unfold next_day, day_number.
  destruct (Nat.ltb_spec (day d) (days_in_month (year d) (month d)));
    cbn [year month day]; [lia|].
  destruct (Nat.ltb_spec (month d) 12); cbn [year month day]; lia.
Qed.

(** No day of the calendar lies between a day and the next. *)
Lemma next_day_least d e :
  calendar_day d -> calendar_day e ->
  (day_number d < day_number e)%Z -> (day_number (next_day d) <= day_number e)%Z.
Proof.
  intros Hd He. pose proof (calendar_day_le_31 d Hd). pose proof (calendar_day_le_31 e He).
  destruct Hd as [Hm Hd], He as [Hm' Hd']. unfold next_day, day_number.
  destruct (Nat.ltb_spec (day d) (days_in_month (year d) (month d)));
    cbn [year month day]; [lia|].
  destruct (decide (year e = year d)) as [Hy|Hy], (decide (month e = month d)) as [Hmo|Hmo];
    try rewrite Hy in *; try rewrite Hmo in *;
    destruct (Nat.ltb_spec (month d) 12); cbn [year month day]; lia.
Qed.

Lemma days_after_succ d i : days_after (next_day d) i = days_after d (S i).
Proof. unfold days_after. symmetry. apply Nat.iter_succ_r. Qed.

Lemma days_after_calendar d i : calendar_day d -> calendar_day (days_after d i).
Proof.
  intros Hd. induction i as [|i IH]; [exact Hd|]. apply next_day_calendar in IH. exact IH.
Qed.

Lemma days_after_number d i j :
  calendar_day d -> (i < j)%nat -> (day_number (days_after d i) < day_number (days_after d j))%Z.
Proof.
  intros Hd Hij. induction j as [|j IH]; [lia|].
  pose proof (next_day_number (days_after d j) (days_after_calendar d j Hd)) as Hstep.
  change (next_day (days_after d j)) with (days_after d (S j)) in Hstep.
  destruct (decide (i = j)) as [->|]; [exact Hstep|].
  assert (i < j)%nat as Hlt by lia. specialize (IH Hlt). lia.
Qed.

(** The loop of [create_date_list], given enough turns. *)
Lemma date_list_from_spec ed : calendar_day ed -> forall fuel cur,
  calendar_day cur -> (day_number cur <= day_number ed)%Z ->
  (day_number ed - day_number cur < Z.of_nat fuel)%Z ->
  exists n, date_list_from fuel cur ed = days_after cur <$> seq 0 (S n) /\
            days_after cur n = ed.
Proof.
  intros Hed. induction fuel as [|fuel IH]; intros cur Hcur Hle Hfuel; [lia|].
  simpl date_list_from.
  rewrite (proj2 (date_leb_day_number cur ed Hcur Hed) Hle).
  pose proof (next_day_number cur Hcur) as Hnext.
  destruct (decide (day_number cur = day_number ed)) as [Heq|Hne].
  - apply day_number_inj in Heq; [|assumption..]. subst cur. exists 0%nat.
    split; [|reflexivity]. simpl. f_equal.
    destruct fuel as [|fuel]; [reflexivity|]. simpl.
    destruct (date_leb (next_day ed) ed) eqn:E; [|reflexivity].
    apply date_leb_day_number in E; [lia|apply next_day_calendar, Hed|exact Hed].
  - destruct (IH (next_day cur)) as (n & Hrun & Hlast).
    + apply next_day_calendar, Hcur.
    + apply next_day_least; [assumption..|lia].
    + lia.
    + exists (S n). rewrite Hrun. split; [|rewrite <- days_after_succ; exact Hlast].
      change (seq 0 (S (S n))) with (0%nat :: seq 1 (S n)). rewrite fmap_cons.
      f_equal. rewrite <- fmap_S_seq, <- list_fmap_compose.
      apply list_fmap_ext. intros i x _. apply days_after_succ.
Qed.

Lemma create_date_list_fuel sd ed :
  calendar_day sd -> calendar_day ed -> (day_number sd <= day_number ed)%Z ->
  (day_number ed - day_number sd < Z.of_nat (372 * S (year ed - year sd)))%Z.
Proof.
  intros Hs He. pose proof (calendar_day_le_31 sd Hs). pose proof (calendar_day_le_31 ed He).
  destruct Hs as [Hm Hd], He as [Hm' Hd']. unfold day_number. lia.
Qed.

Lemma NoDup_days_after d k : calendar_day d -> NoDup (days_after d <$> seq 0 k).
Proof.
  intros Hd. apply NoDup_fmap_2_strong; [|apply NoDup_seq].
  intros i j _ _ Heq. destruct (Nat.lt_trichotomy i j) as [Hlt|[->|Hlt]]; [|reflexivity|].
  - pose proof (days_after_number d i j Hd Hlt) as H. rewrite Heq in H. lia.
  - pose proof (days_after_number d j i Hd Hlt) as H. rewrite Heq in H. lia.
Qed.
End calendar.

(** [create_date_list], the same in both files, on dates of the calendar
    whose last is not the last day [datetime.date] has: when the start is
    later than the end the list is empty; otherwise it is the start date,
    the day after it, and so on up to the end date, each day once. *)
Theorem create_date_list_days :
  forall start_date end_date : date,
    valid_date start_date = true ->
    valid_date end_date = true ->
    valid_date (next_day end_date) = true ->
    WorkLog.create_date_list start_date end_date
    = AutomateExcel.create_date_list start_date end_date /\
    (date_leb start_date end_date = false ->
     AutomateExcel.create_date_list start_date end_date = []) /\
    (date_leb start_date end_date = true ->
     exists n : nat,
       AutomateExcel.create_date_list start_date end_date
       = days_after start_date <$> seq 0 (S n) /\
       days_after start_date n = end_date /\
       NoDup (AutomateExcel.create_date_list start_date end_date)).
Proof.
  intros sd ed Hs He _. apply valid_date_calendar in Hs, He.
  split; [reflexivity|]. split.
  - intros Hgt. unfold AutomateExcel.create_date_list. simpl. rewrite Hgt. reflexivity.
  - intros Hle. apply date_leb_day_number in Hle; [|assumption..].
    destruct (date_list_from_spec ed He (372 * S (year ed - year sd)) sd Hs Hle
                (create_date_list_fuel sd ed Hs He Hle)) as (n & Hrun & Hlast).
    exists n. unfold AutomateExcel.create_date_list. rewrite Hrun.
    split; [reflexivity|]. split; [exact Hlast|]. apply NoDup_days_after, Hs.
Qed.

(** ** The table filtered by dates *)

(** [filter_df_by_date] of automate_excel.py.  The flag it returns tells
    whether the table has rows and a Date column; without them the table
    comes back as it is.  With them, the rows returned are, in their order,
    the rows of the table with the dates parsed whose date lies between the
    start and the end date, both included: a row whose date is not
    understood is dropped. *)
Theorem filter_df_by_date_in_range :
  forall (parse : PyValue -> option date) (df : DataFrame) (start_date end_date : date)
         (out : DataFrame) (has_date_column : bool),
    AutomateExcel.filter_df_by_date parse df start_date end_date = (out, has_date_column) ->
    (has_date_column = true <-> df_empty df = false /\ "Date" ∈ columns df) /\
    (has_date_column = false -> out = df) /\
    (has_date_column = true ->
     columns out = columns df /\
     sublist (records out) (records (parse_date_column parse df)) /\
     forall r, r ∈ records out <->
       r ∈ records (parse_date_column parse df) /\
       exists d, r !! "Date" = Some (PyDate d) /\
                 date_leb start_date d = true /\ date_leb d end_date = true).
Proof.
  intros parse df a b out flag. unfold AutomateExcel.filter_df_by_date, has_column.
  destruct (df_empty df) eqn:E.
  { intros [= <- <-]. split; [split; [discriminate|intros [H _]; discriminate H]|].
    split; [reflexivity|discriminate]. }
  case_bool_decide as Hcol.
  2: { intros [= <- <-]. split; [split; [discriminate|intros [_ H]; contradiction]|].
       split; [reflexivity|discriminate]. }
  intros [= <- <-]. split; [split; auto|]. split; [discriminate|]. intros _.
  split; [reflexivity|]. split; [apply sublist_filter|].
  intros r. unfold AutomateExcel.filter_date_between. cbn [records].
  rewrite list_elem_of_filter. unfold AutomateExcel.date_between. split.
  - intros [Hin Hr]. split; [exact Hr|].
    destruct (r !! "Date") as [[| | | | |d]|]; try contradiction.
    apply andb_True in Hin as [H1 H2]. apply Is_true_true in H1, H2. exists d. auto.
  - intros [Hr (d & -> & H1 & H2)]. split; [|exact Hr]. rewrite H1, H2. exact I.
Qed.

(** ** Merged-cell objects in the way of a write *)

Section merged_cell_errors.
Implicit Types (ws : Worksheet) (c : coord) (v : PyValue).

Lemma merged_is_stored ws c :
  isinstance_MergedCell (cell_at ws c) = true -> exists x, cells ws !! c = Some x.
Proof.
  unfold cell_at. destruct (cells ws !! c) as [x|]; [exists x; reflexivity|discriminate].
Qed.

Lemma ws_cell_stored ws c x : cells ws !! c = Some x -> ws_cell ws c = ws.
Proof. unfold ws_cell. intros ->. reflexivity. Qed.

(** A direct write keeps the kind of every cell object. *)
Lemma set_value_kind ws c v ws' c' :
  set_value ws c v = Ok ws' ->
  isinstance_MergedCell (cell_at ws' c') = isinstance_MergedCell (cell_at ws c').
Proof.
  intros H. apply set_value_inv in H as [Hp ->]. rewrite cell_at_put.
  destruct (decide (c = c')) as [<-|]; [symmetry; exact Hp|reflexivity].
Qed.

(** The wipe of one row: either it reaches a merged-cell object and
    raises, or every cell of the row is an ordinary cell. *)
Lemma wipe_cells_outcome v (l : list coord) : forall ws,
  (for_each (fun ws c => set_value ws c v) l ws = Raise AttributeError /\
   exists c, c ∈ l /\ isinstance_MergedCell (cell_at ws c) = true) \/
  (exists ws', for_each (fun ws c => set_value ws c v) l ws = Ok ws' /\
     (forall c, c ∈ l -> plain_at ws c) /\
     forall c, isinstance_MergedCell (cell_at ws' c) = isinstance_MergedCell (cell_at ws c)).
Proof.
  induction l as [|c l IH]; intros ws.
  - right. exists ws. split; [reflexivity|]. split; [intros c Hc; inversion Hc|reflexivity].
  - rewrite for_each_cons. destruct (isinstance_MergedCell (cell_at ws c)) eqn:Hkind.
    + left. rewrite set_value_merged by exact Hkind. split; [reflexivity|].
      exists c. split; [apply list_elem_of_here|exact Hkind].
    + rewrite set_value_plain by exact Hkind. rewrite bind_Ok.
      pose proof (fun c' => set_value_kind ws c v _ c' (set_value_plain ws c v Hkind))
        as Hsame.
      destruct (IH (put_cell ws c (PlainCell v (style_at ws c))))
        as [[Hrun (c' & Hin & Hm)]|(ws' & Hrun & Hall & Hk)].
      * left. split; [exact Hrun|]. exists c'. split; [apply list_elem_of_further, Hin|].
        rewrite <- Hsame. exact Hm.
      * right. exists ws'. split; [exact Hrun|]. split.
        -- intros c' Hin. apply elem_of_cons in Hin as [->|Hin]; [exact Hkind|].
           unfold plain_at. rewrite <- Hsame. apply Hall, Hin.
        -- intros c'. rewrite Hk. apply Hsame.
Qed.

Lemma wipe_rows_outcome v (rows : list (list coord)) : forall ws,
  (for_each (fun ws row => for_each (fun ws c => set_value ws c v) row (touch_row ws row))
     rows ws = Raise AttributeError /\
   exists c, c ∈ mjoin rows /\ isinstance_MergedCell (cell_at ws c) = true) \/
  (exists ws',
     for_each (fun ws row => for_each (fun ws c => set_value ws c v) row (touch_row ws row))
       rows ws = Ok ws' /\
     (forall c, c ∈ mjoin rows -> plain_at ws c) /\
     forall c, isinstance_MergedCell (cell_at ws' c) = isinstance_MergedCell (cell_at ws c)).
Proof.
  induction rows as [|row rows IH]; intros ws.
  - right. exists ws. split; [reflexivity|]. split; [intros c Hc; inversion Hc|reflexivity].
  - rewrite for_each_cons. change (mjoin (row :: rows)) with (row ++ mjoin rows).
    destruct (wipe_cells_outcome v row (touch_row ws row))
      as [[Hrun (c & Hin & Hm)]|(ws1 & Hrun & Hall & Hk)]; rewrite Hrun.
    + left. split; [reflexivity|]. exists c. split; [apply elem_of_app; left; exact Hin|].
      rewrite cell_at_touch_row in Hm. exact Hm.
    + rewrite bind_Ok.
      assert (Hk1 : forall c, isinstance_MergedCell (cell_at ws1 c)
                              = isinstance_MergedCell (cell_at ws c)).
      { intros c. rewrite Hk, cell_at_touch_row. reflexivity. }
      destruct (IH ws1) as [[Hrun' (c & Hin & Hm)]|(ws' & Hrun' & Hall' & Hk')].
      * left. split; [exact Hrun'|]. exists c. split; [apply elem_of_app; right; exact Hin|].
        rewrite <- Hk1. exact Hm.
      * right. exists ws'. split; [exact Hrun'|]. split.
        -- intros c Hin. apply elem_of_app in Hin as [Hin|Hin].
           ++ specialize (Hall c Hin). unfold plain_at in *.
              rewrite cell_at_touch_row in Hall. exact Hall.
           ++ unfold plain_at. rewrite <- Hk1. apply Hall', Hin.
        -- intros c. rewrite Hk'. apply Hk1.
Qed.

(** The direct wipe from row [n] down raises as soon as a merged-cell
    object is stored in those rows. *)
Lemma direct_wipe_raises (n : positive) ws r k :
  (n <= r)%positive -> isinstance_MergedCell (cell_at ws (r, k)) = true ->
  for_each (fun ws row => for_each (fun ws c => set_value ws c PyNone) row (touch_row ws row))
    (iter_rows ws n (max_row ws)) ws = Raise AttributeError.
Proof.
  intros Hr Hm.
  destruct (wipe_rows_outcome PyNone (iter_rows ws n (max_row ws)) ws)
    as [[Hrun _]|(ws' & _ & Hall & _)]; [exact Hrun|].
  exfalso. destruct (merged_is_stored ws (r, k) Hm) as [x Hx].
  apply stored_within_bounds in Hx as [Hrow Hcol].
  specialize (Hall (r, k)). unfold plain_at in Hall. rewrite Hm in Hall.
  assert (Hin : (r, k) ∈ mjoin (iter_rows ws n (max_row ws))).
  { apply elem_of_iter_rows. lia. }
  specialize (Hall Hin). discriminate Hall.
Qed.
End merged_cell_errors.

(** The wipe of automate_excel.py writes into each cell directly: it
    raises [AttributeError] exactly when a merged-cell object is stored at
    or below the start row, and returns exactly when there is none. *)
Theorem automate_clear_sheet_data_raises_on_merged_cell :
  forall (sheet : Worksheet) (start_row : positive),
    (AutomateExcel.clear_sheet_data sheet start_row = Raise AttributeError <->
     exists r c, (start_row <= r)%positive /\
                 isinstance_MergedCell (cell_at sheet (r, c)) = true) /\
    ((exists ws', AutomateExcel.clear_sheet_data sheet start_row = Ok ws') <->
     plain_from start_row sheet).
Proof.
  intros sheet n.
  assert (Hplain : plain_from n sheet ->
                   exists ws', AutomateExcel.clear_sheet_data sheet n = Ok ws').
  { intros H.
    destruct (wipe_rows _ PyNone (set_value_direct_writer PyNone) n sheet eq_refl H)
      as (ws' & Hrun & _). exists ws'. exact Hrun. }
  assert (Hmerged : (exists r c, (n <= r)%positive /\
                                 isinstance_MergedCell (cell_at sheet (r, c)) = true) ->
                    AutomateExcel.clear_sheet_data sheet n = Raise AttributeError).
  { intros (r & c & Hr & Hm). exact (direct_wipe_raises n sheet r c Hr Hm). }
  assert (Hcases : plain_from n sheet \/
                   exists r c, (n <= r)%positive /\
                               isinstance_MergedCell (cell_at sheet (r, c)) = true).
  { destruct (wipe_rows_outcome PyNone (iter_rows sheet n (max_row sheet)) sheet)
      as [[_ ([r c] & Hin & Hm)]|(ws' & _ & Hall & _)].
    - right. exists r, c. apply elem_of_iter_rows in Hin. split; [lia|exact Hm].
    - left. intros r c Hr. unfold plain_at.
      destruct (isinstance_MergedCell (cell_at sheet (r, c))) eqn:Hm; [|reflexivity].
      destruct (merged_is_stored sheet (r, c) Hm) as [x Hx].
      apply stored_within_bounds in Hx as [Hrow Hcol].
      assert (Hin : (r, c) ∈ mjoin (iter_rows sheet n (max_row sheet))).
      { apply elem_of_iter_rows. lia. }
      specialize (Hall _ Hin). unfold plain_at in Hall. congruence. }
  split; split.
  - intros Hrun. destruct Hcases as [Hp|Hm]; [|exact Hm].
    destruct (Hplain Hp) as [ws' Hok]. congruence.
  - exact Hmerged.
  - intros [ws' Hok]. destruct Hcases as [Hp|Hm]; [exact Hp|].
    rewrite (Hmerged Hm) in Hok. discriminate Hok.
  - exact Hplain.
Qed.

(** [update_total_sheet], in both files, wipes the Total sheet from row
    4 down directly: on a Total sheet that stores a merged-cell object in
    those rows it raises [AttributeError], whatever the daily sheets are. *)
Theorem update_total_sheet_raises_on_merged_cell :
  forall (total_sheet : Worksheet) (daily_info : gmap string (Z * Z)) (rate : PyValue)
         (r c : positive),
    (4 <= r)%positive ->
    isinstance_MergedCell (cell_at total_sheet (r, c)) = true ->
    AutomateExcel.update_total_sheet total_sheet daily_info rate = Raise AttributeError /\
    WorkLog.update_total_sheet total_sheet daily_info rate = Raise AttributeError.
Proof.
  intros total_sheet daily_info rate r c Hr Hm. rewrite update_total_sheet_same.
  assert (H : AutomateExcel.update_total_sheet total_sheet daily_info rate
              = Raise AttributeError); [|split; exact H].
  unfold AutomateExcel.update_total_sheet.
  rewrite (direct_wipe_raises 4 total_sheet r c Hr Hm). reflexivity.
Qed.

(** When the cell addressed is a merged-cell object that no recorded
    range contains, [safe_set_cell] (the same in both files) falls out of
    its loop: it returns without an error and the sheet is as it was, the
    value is dropped. *)
Theorem safe_set_cell_drops_value_outside_ranges :
  forall (ws : Worksheet) (cell_ref : coord) (value : PyValue),
    isinstance_MergedCell (cell_at ws cell_ref) = true ->
    (forall r, r ∈ merged_ranges ws -> range_contains r cell_ref = false) ->
    AutomateExcel.safe_set_cell ws cell_ref value = Ok ws /\
    WorkLog.safe_set_cell ws cell_ref value = Ok ws.
Proof.
  intros ws c v Hm Hout. rewrite safe_set_cell_same.
  assert (H : AutomateExcel.safe_set_cell ws c v = Ok ws); [|split; exact H].
  destruct (merged_is_stored ws c Hm) as [x Hx].
  unfold AutomateExcel.safe_set_cell. rewrite (ws_cell_stored ws c x Hx), Hm.
  apply write_top_left_none, Hout.
Qed.

(** ** The colour of the first data row in work_log.py *)

(** In work_log.py the row whose style is copied to every data cell,
    row 7, is itself the first data row.  On a sheet of ordinary cells
    filled from row 7 with a table of ASCII text that openpyxl stores as it
    is, once the first record has coloured its Complete cell (its flag says
    yes or no), every later record whose flag asks for no colour gets that
    colour all the same. *)
Theorem worklog_first_row_colour_spreads :
  forall (sheet : Worksheet) (date_obj : date) (data_df : DataFrame)
         (first : gmap string PyValue) (rest : list (gmap string PyValue)) (f : Font),
    all_plain sheet ->
    table_within_limits data_df ->
    table_ascii data_df ->
    WorkLog.day_records date_obj data_df = first :: rest ->
    WorkLog.complete_font (dict_get first "Complete") = Some f ->
    exists (ws' : Worksheet) (last_row : Z),
      WorkLog.fill_daily_sheet sheet date_obj data_df 7 = Ok (ws', last_row) /\
      font (style_at ws' (7, col_E)%positive) = f /\
      forall (i : nat) (rec : gmap string PyValue),
        rest !! i = Some rec ->
        WorkLog.complete_font (dict_get rec "Complete") = None ->
        value_at ws' (row_add 8 i, col_E) = dict_get rec "Complete" /\
        font (style_at ws' (row_add 8 i, col_E)) = f.
Proof.
  intros sheet date_obj data_df first rest f Hplain _ _ Hrecs Hfont.
  assert (Hf : f <> default_font).
  { revert Hfont. unfold WorkLog.complete_font.
    destruct (dict_get first "Complete"); try discriminate.
    repeat case_bool_decide; intros [= <-]; discriminate. }
  unfold WorkLog.fill_daily_sheet. rewrite Hrecs. simpl WorkLog.write_records.
  destruct (worklog_write_record_spec sheet 7 first Hplain)
    as (ws1 & Hrun1 & H1 & _ & _ & _ & Hs1).
  rewrite Hrun1, bind_Ok. rewrite Hfont in Hs1.
  destruct (worklog_write_records_spec rest ws1 8 H1) as (ws' & Hrun & H' & _ & Hframe & Hrec).
  change (Pos.succ 7) with 8%positive. rewrite Hrun, bind_Ok.
  assert (H7 : forall ws2, (forall r k, (r < 8)%positive -> cell_at ws2 (r, k) = cell_at ws1 (r, k)) ->
                           style_at ws2 (7, 5)%positive
                           = with_font f (propagated_style sheet 7 5)).
  { intros ws2 Hsame. unfold style_at. rewrite Hsame by lia. exact Hs1. }
  eexists ws', _. split; [reflexivity|]. split.
  - unfold col_E. rewrite (H7 ws' Hframe). reflexivity.
  - intros i rec Hi Hnone. destruct (Hrec i rec Hi) as (ws_i & Hrun_i & Hv & Hs).
    split; [exact Hv|]. unfold col_E. rewrite Hs, Hnone. unfold propagated_style.
    destruct (worklog_write_records_spec (take i rest) ws1 8 H1)
      as (ws_i' & Hrun_i' & _ & _ & Hframe_i & _).
    rewrite Hrun_i in Hrun_i'. injection Hrun_i' as <- _.
    change WorkLog.TEMPLATE_STYLE_ROW with 7%positive.
    rewrite (H7 ws_i Hframe_i).
    replace (has_style (with_font f (propagated_style sheet 7 5))) with true; [reflexivity|].
    symmetry. unfold has_style. apply negb_true_iff, bool_decide_eq_false_2.
    intros Heq. apply Hf. apply (f_equal font) in Heq. exact Heq.
Qed.

(** ** Lists of writes into ordinary cells *)

Section plain_writes.
Implicit Types (ws : Worksheet) (c : coord) (v : PyValue) (l : list (coord * PyValue)).

Lemma write_all_cons ws c v l : write_all ws ((c, v) :: l) = write_all (write_plain ws c v) l.
Proof. reflexivity. Qed.

Lemma write_all_app ws l1 l2 : write_all ws (l1 ++ l2) = write_all (write_all ws l1) l2.
Proof. apply foldl_app. Qed.

Lemma write_all_spec l : forall ws,
  all_plain ws ->
  all_plain (write_all ws l) /\
  sheet_meta (write_all ws l) = sheet_meta ws /\
  (forall c, style_at (write_all ws l) c = style_at ws c) /\
  (forall c, c ∉ l.*1 -> cell_at (write_all ws l) c = cell_at ws c) /\
  (NoDup (l.*1) -> forall c v, (c, v) ∈ l -> value_at (write_all ws l) c = v).
Proof.
  induction l as [|[c v] l IH]; intros ws H.
  - split; [exact H|]. split; [reflexivity|]. split; [reflexivity|]. split; [reflexivity|].
    intros _ c v Hin. inversion Hin.
  - rewrite write_all_cons.
    destruct (IH (write_plain ws c v)) as (H1 & Hm & Hs & Hf & Hv); [auto with plain|].
    split; [exact H1|]. split; [rewrite Hm; apply sheet_meta_write_plain|].
    split; [intros c'; rewrite Hs; apply style_at_write_plain|]. split.
    + intros c' Hc'. rewrite fmap_cons in Hc'. apply not_elem_of_cons in Hc' as [Hne Hc'].
      rewrite Hf by exact Hc'. apply cell_at_write_plain_ne. simpl in Hne. congruence.
    + intros Hnd c' v' Hin. rewrite fmap_cons in Hnd. apply NoDup_cons in Hnd as [Hc Hnd].
      apply elem_of_cons in Hin as [[= -> ->]|Hin].
      * unfold value_at. rewrite Hf by exact Hc. rewrite cell_at_write_plain_eq. reflexivity.
      * apply Hv; assumption.
Qed.

Lemma ws_cell_idem ws c : ws_cell (ws_cell ws c) c = ws_cell ws c.
Proof.
  unfold ws_cell at 1. destruct (cells (ws_cell ws c) !! c) eqn:E; [reflexivity|].
  exfalso. unfold ws_cell in E. destruct (cells ws !! c) eqn:E'; [congruence|].
  simpl in E. rewrite lookup_insert_eq in E. discriminate E.
Qed.

Lemma write_plain_ws_cell ws c v : write_plain (ws_cell ws c) c v = write_plain ws c v.
Proof.
  unfold write_plain. rewrite ws_cell_idem. unfold style_at. rewrite cell_at_ws_cell.
  reflexivity.
Qed.

(** The loop that writes the header row, in automate_excel.py ... *)
Lemma automate_headers_loop (l : list (positive * string)) : forall ws,
  all_plain ws ->
  for_each (fun ws '(col_idx, header) => assign_value ws (6%positive, col_idx) (PyStr header))
    l ws
  = Ok (write_all ws ((fun kh : positive * string => ((6%positive, kh.1), PyStr kh.2)) <$> l)).
Proof.
  induction l as [|[k h] l IH]; intros ws H; [reflexivity|].
  rewrite for_each_cons. cbv beta iota. rewrite assign_value_all_plain by exact H.
  rewrite bind_Ok, IH by auto with plain. reflexivity.
Qed.

(** ... and in work_log.py. *)
Lemma worklog_headers_loop (l : list (positive * string)) : forall ws,
  all_plain ws ->
  for_each (fun ws '(col_idx, header) =>
              let cell_ref := (6%positive, col_idx) in
              WorkLog.safe_set_cell (ws_cell ws cell_ref) cell_ref (PyStr header)) l ws
  = Ok (write_all ws ((fun kh : positive * string => ((6%positive, kh.1), PyStr kh.2)) <$> l)).
Proof.
  induction l as [|[k h] l IH]; intros ws H; [reflexivity|].
  rewrite for_each_cons. cbv beta iota zeta.
  change WorkLog.safe_set_cell with AutomateExcel.safe_set_cell.
  rewrite safe_set_cell_write_plain by (apply all_plain_ws_cell, H).
  rewrite write_plain_ws_cell, bind_Ok, IH by auto with plain. reflexivity.
Qed.

Lemma apply_consistent_layout_spec today ws date_label :
  all_plain ws ->
  WorkLog.apply_consistent_layout today ws date_label
  = Ok (set_freeze_panes
          (write_all ws (label_cells (strftime_mdY today) date_label ++ header_cells))
          (7%positive, col_A)).
Proof.
  intros H. unfold WorkLog.apply_consistent_layout.
  change WorkLog.safe_set_cell with AutomateExcel.safe_set_cell.
  assert (Hp : forall s c, all_plain s -> plain_at s c) by (intros s c Hs; apply Hs).
  repeat (rewrite safe_set_cell_write_plain by (apply Hp; auto 12 with plain); rewrite bind_Ok).
  change AutomateExcel.safe_set_cell with WorkLog.safe_set_cell.
  rewrite worklog_headers_loop by auto 12 with plain. rewrite bind_Ok, write_all_app.
  reflexivity.
Qed.

Lemma NoDup_layout_cells a b : NoDup ((label_cells a b ++ header_cells).*1).
Proof. apply (bool_decide_unpack (NoDup _)). vm_compute. exact I. Qed.

Lemma NoDup_header_cells : NoDup (header_cells.*1).
Proof. apply (bool_decide_unpack (NoDup _)). vm_compute. exact I. Qed.

Lemma elem_of_header_cells c :
  c ∈ header_cells.*1 <-> c.1 = 6%positive /\ (c.2 <= 7)%positive.
Proof.
  change (header_cells.*1)
    with [(6, 1)%positive; (6, 2)%positive; (6, 3)%positive; (6, 4)%positive;
          (6, 5)%positive; (6, 6)%positive; (6, 7)%positive].
  destruct c as [r k]. simpl. split.
  - intros H. repeat (apply elem_of_cons in H as [[= -> ->]|H]; [split; [reflexivity|lia]|]).
    inversion H.
  - intros [-> Hk].
    assert (k = 1 \/ k = 2 \/ k = 3 \/ k = 4 \/ k = 5 \/ k = 6 \/ k = 7)%positive
      as [->|[->|[->|[->|[->|[->| ->]]]]]] by lia; list_mem.
Qed.
End plain_writes.

(** ** Every field of every record *)

Section full_records.
Implicit Types (ws : Worksheet) (rec : gmap string PyValue).

Lemma column_cases (k : positive) :
  (k <= 7)%positive ->
  (k = 1 \/ k = 2 \/ k = 3 \/ k = 4 \/ k = 5 \/ k = 6 \/ k = 7)%positive.
Proof. lia. Qed.

Lemma field_of_columns rec :
  field_of rec 1 = dict_get rec "Number" /\
  field_of rec 2 = dict_get rec "Daily Work Description" /\
  field_of rec 3 = dict_get rec "Hr" /\
  field_of rec 4 = dict_get rec "Min" /\
  field_of rec 5 = dict_get rec "Complete" /\
  field_of rec 6 = dict_get rec "Follow up" /\
  field_of rec 7 = dict_get rec "Supervisor Comments".
Proof. repeat split; reflexivity. Qed.

Lemma data_cell_succ R n r k :
  data_cell R (S n) r k <-> (r = R /\ (k <= 7)%positive) \/ data_cell (Pos.succ R) n r k.
Proof. unfold data_cell. lia. Qed.

Lemma data_cell_0 R r k : ~ data_cell R 0 r k.
Proof. unfold data_cell. lia. Qed.

Lemma data_cell_row_add R n i k :
  (i < n)%nat -> (k <= 7)%positive -> data_cell R n (row_add R i) k.
Proof. unfold data_cell, row_add. lia. Qed.

(** *** automate_excel.py *)

Lemma automate_write_record_full ws r rec :
  all_plain ws ->
  exists ws', AutomateExcel.write_record ws r rec = Ok ws' /\
    all_plain ws' /\ sheet_meta ws' = sheet_meta ws /\
    (forall r' k, r' <> r \/ (7 < k)%positive -> cell_at ws' (r', k) = cell_at ws (r', k)) /\
    (forall k, (k <= 7)%positive -> value_at ws' (r, k) = field_of rec k) /\
    (forall r' k, k <> 5%positive -> style_at ws' (r', k) = style_at ws (r', k)).
Proof.
  intros H. unfold AutomateExcel.write_record.
  destruct (field_of_columns rec) as (F1 & F2 & F3 & F4 & F5 & F6 & F7).
  repeat (rewrite assign_value_all_plain by auto 10 with plain; rewrite bind_Ok).
  rewrite set_value_all_plain by auto 10 with plain. rewrite bind_Ok.
  destruct (AutomateExcel.complete_font (dict_get rec "Complete")) as [f|].
  - repeat (rewrite assign_value_all_plain by auto 10 with plain; try rewrite bind_Ok).
    eexists. split; [reflexivity|]. split; [auto 12 with plain|]. split.
    { rewrite !sheet_meta_write_plain, sheet_meta_set_font, !sheet_meta_write_plain.
      reflexivity. }
    split; [|split].
    + intros r' k Hr'. sheet_simpl; try reflexivity; intros Heq; simplify_eq; lia.
    + intros k Hk.
      destruct (column_cases k Hk) as [->|[->|[->|[->|[->|[->| ->]]]]]];
        rewrite ?F1, ?F2, ?F3, ?F4, ?F5, ?F6, ?F7; sheet_simpl; reflexivity.
    + intros r' k Hk. sheet_simpl; try reflexivity; intros Heq; simplify_eq.
  - repeat (rewrite assign_value_all_plain by auto 10 with plain; try rewrite bind_Ok).
    eexists. split; [reflexivity|]. split; [auto 12 with plain|]. split.
    { rewrite !sheet_meta_write_plain. reflexivity. }
    split; [|split].
    + intros r' k Hr'. sheet_simpl; try reflexivity; intros Heq; simplify_eq; lia.
    + intros k Hk.
      destruct (column_cases k Hk) as [->|[->|[->|[->|[->|[->| ->]]]]]];
        rewrite ?F1, ?F2, ?F3, ?F4, ?F5, ?F6, ?F7; sheet_simpl; reflexivity.
    + intros r' k Hk. sheet_simpl; reflexivity.
Qed.

Lemma automate_write_records_full (recs : list (gmap string PyValue)) : forall ws R,
  all_plain ws ->
  exists ws', AutomateExcel.write_records ws R recs = Ok (ws', row_add R (length recs)) /\
    all_plain ws' /\ sheet_meta ws' = sheet_meta ws /\
    (forall r k, ~ data_cell R (length recs) r k -> cell_at ws' (r, k) = cell_at ws (r, k)) /\
    (forall i rec k, recs !! i = Some rec -> (k <= 7)%positive ->
       value_at ws' (row_add R i, k) = field_of rec k) /\
    (forall r k, k <> 5%positive -> style_at ws' (r, k) = style_at ws (r, k)).
Proof.
  induction recs as [|rec0 rest IH]; intros ws R H; simpl AutomateExcel.write_records.
  - exists ws. rewrite row_add_0. split; [reflexivity|]. split; [exact H|].
    split; [reflexivity|]. split; [reflexivity|]. split; [|reflexivity].
    intros i rec k Hi. inversion Hi.
  - destruct (automate_write_record_full ws R rec0 H)
      as (ws1 & -> & H1 & Hm1 & Hframe1 & Hv1 & Hs1).
    rewrite bind_Ok.
    destruct (IH ws1 (Pos.succ R) H1) as (ws' & -> & H' & Hm' & Hframe' & Hrec' & Hs').
    exists ws'. simpl length. rewrite row_add_succ. split; [reflexivity|]. split; [exact H'|].
    split; [congruence|]. split; [|split].
    + intros r k Hout. rewrite data_cell_succ in Hout.
      rewrite Hframe' by tauto. apply Hframe1.
      destruct (decide (r = R)) as [->|]; [right|left; assumption].
      destruct (decide (k <= 7)%positive); [exfalso; apply Hout; left; auto|lia].
    + intros [|i] rec k Hi Hk; simpl in Hi.
      * injection Hi as <-. rewrite row_add_0. unfold value_at.
        rewrite Hframe' by (unfold data_cell; lia). apply Hv1, Hk.
      * rewrite <- row_add_succ. apply Hrec'; assumption.
    + intros r k Hk. rewrite Hs' by exact Hk. apply Hs1, Hk.
Qed.

(** *** work_log.py *)

Lemma worklog_write_record_full ws r rec :
  all_plain ws ->
  exists ws', WorkLog.write_record ws r rec = Ok ws' /\
    all_plain ws' /\ sheet_meta ws' = sheet_meta ws /\
    (forall r' k, r' <> r \/ (7 < k)%positive -> cell_at ws' (r', k) = cell_at ws (r', k)) /\
    (forall k, (k <= 7)%positive -> value_at ws' (r, k) = field_of rec k).
Proof.
  intros H. unfold WorkLog.write_record.
  destruct (worklog_fields_spec rec r (WorkLog.enumerate1 WorkLog.headers) ws)
    as (ws' & Hrun & H' & Hm' & Hrows & Hcols & Hfld); [|exact H|].
  { apply (bool_decide_unpack (NoDup _)). vm_compute. exact I. }
  exists ws'. split; [exact Hrun|]. split; [exact H'|]. split; [exact Hm'|]. split.
  - intros r' k [Hr|Hk]; [apply Hrows, Hr|].
    destruct (decide (r' = r)) as [->|Hne]; [|apply Hrows, Hne]. apply Hcols.
    change ((WorkLog.enumerate1 WorkLog.headers).*1)
      with [1; 2; 3; 4; 5; 6; 7]%positive.
    intros Hin. repeat (apply elem_of_cons in Hin as [->|Hin]; [lia|]). inversion Hin.
  - intros k Hk.
    destruct (column_cases k Hk) as [->|[->|[->|[->|[->|[->| ->]]]]]];
      (eapply Hfld; change (WorkLog.enumerate1 WorkLog.headers)
         with [(1%positive, "Number"); (2%positive, "Daily Work Description");
               (3%positive, "Hr"); (4%positive, "Min"); (5%positive, "Complete");
               (6%positive, "Follow up"); (7%positive, "Supervisor Comments")];
       list_mem).
Qed.

Lemma worklog_write_records_full (recs : list (gmap string PyValue)) : forall ws R,
  all_plain ws ->
  exists ws', WorkLog.write_records ws R recs = Ok (ws', row_add R (length recs)) /\
    all_plain ws' /\ sheet_meta ws' = sheet_meta ws /\
    (forall r k, ~ data_cell R (length recs) r k -> cell_at ws' (r, k) = cell_at ws (r, k)) /\
    (forall i rec k, recs !! i = Some rec -> (k <= 7)%positive ->
       value_at ws' (row_add R i, k) = field_of rec k).
Proof.
  induction recs as [|rec0 rest IH]; intros ws R H; simpl WorkLog.write_records.
  - exists ws. rewrite row_add_0. split; [reflexivity|]. split; [exact H|].
    split; [reflexivity|]. split; [reflexivity|].
    intros i rec k Hi. inversion Hi.
  - destruct (worklog_write_record_full ws R rec0 H)
      as (ws1 & -> & H1 & Hm1 & Hframe1 & Hv1).
    rewrite bind_Ok.
    destruct (IH ws1 (Pos.succ R) H1) as (ws' & -> & H' & Hm' & Hframe' & Hrec').
    exists ws'. simpl length. rewrite row_add_succ. split; [reflexivity|]. split; [exact H'|].
    split; [congruence|]. split.
    + intros r k Hout. rewrite data_cell_succ in Hout.
      rewrite Hframe' by tauto. apply Hframe1.
      destruct (decide (r = R)) as [->|]; [right|left; assumption].
      destruct (decide (k <= 7)%positive); [exfalso; apply Hout; left; auto|lia].
    + intros [|i] rec k Hi Hk; simpl in Hi.
      * injection Hi as <-. rewrite row_add_0. unfold value_at.
        rewrite Hframe' by (unfold data_cell; lia). apply Hv1, Hk.
      * rewrite <- row_add_succ. apply Hrec'; assumption.
Qed.
End full_records.

(** ** [fill_daily_sheet], cell by cell *)

Section fills.
Implicit Types (ws sheet : Worksheet) (rec : gmap string PyValue).

Lemma sheet_meta_inv ws ws' :
  sheet_meta ws' = sheet_meta ws ->
  title ws' = title ws /\ merged_ranges ws' = merged_ranges ws /\
  freeze_panes ws' = freeze_panes ws /\ sheet_state ws' = sheet_state ws.
Proof. unfold sheet_meta. intros [= -> -> -> ->]. repeat split. Qed.

Lemma stamp_cells_coords today date_obj fallback b c :
  c ∈ (stamp_cells today date_obj fallback b).*1 ->
  c = (1, col_B)%positive \/ c = (3, col_B)%positive.
Proof.
  unfold stamp_cells. destruct b; [destruct fallback|]; simpl; intros H;
    repeat (apply elem_of_cons in H as [->|H]; [auto|]); inversion H.
Qed.

Lemma NoDup_stamp_cells today date_obj fallback b :
  NoDup ((stamp_cells today date_obj fallback b).*1).
Proof.
  unfold stamp_cells. destruct b; [destruct fallback|]; simpl;
    apply (bool_decide_unpack (NoDup _)); vm_compute; exact I.
Qed.

(** The stamps of automate_excel.py (lines 307-313). *)
Lemma automate_stamps today sheet date_obj fallback (recs : list (gmap string PyValue)) :
  all_plain sheet ->
  match recs with
  | [] =>
      ws ← assign_value sheet (1%positive, col_B) (PyStr (strftime_mdY today));
      match fallback with
      | Some fd => assign_value ws (3%positive, col_B) (PyStr (strftime_mdY fd))
      | None => Ok ws
      end
  | _ :: _ => assign_value sheet (1%positive, col_B) (PyStr (strftime_mdY date_obj))
  end
  = Ok (write_all sheet (stamp_cells today date_obj fallback (bool_decide (recs = [])))).
Proof.
  intros H. destruct recs as [|rec0 rest]; [destruct fallback|].
  all: repeat (rewrite assign_value_all_plain by auto with plain; try rewrite bind_Ok).
  all: reflexivity.
Qed.

Lemma automate_fill_full today sheet date_obj data is_dataframe R fallback :
  all_plain sheet -> (7 <= R)%positive ->
  let recs := AutomateExcel.day_records date_obj data is_dataframe in
  exists ws',
    AutomateExcel.fill_daily_sheet today sheet date_obj data is_dataframe R fallback
    = Ok (ws', expected_last_row R (length recs)) /\
    sheet_written (stamp_cells today date_obj fallback (bool_decide (recs = [])) ++ header_cells)
      R recs sheet ws' /\
    freeze_panes ws' = Some (7%positive, col_A) /\
    (forall r k, k <> 5%positive -> style_at ws' (r, k) = style_at sheet (r, k)).
Proof.
  intros H HR recs. unfold AutomateExcel.fill_daily_sheet. fold recs.
  rewrite (automate_stamps today sheet date_obj fallback recs H), bind_Ok.
  set (stamps := stamp_cells today date_obj fallback (bool_decide (recs = []))).
  destruct (write_all_spec stamps sheet H) as (H0 & Hm0 & Hs0 & Hf0 & Hv0).
  set (ws0 := write_all sheet stamps) in *.
  set (wsF := set_freeze_panes (ws_cell ws0 (7%positive, col_A)) (7%positive, col_A)).
  assert (HF : all_plain wsF) by (subst wsF; auto with plain).
  rewrite (automate_headers_loop _ wsF HF), bind_Ok.
  destruct (write_all_spec header_cells wsF HF) as (H1 & Hm1 & Hs1 & Hf1 & Hv1).
  fold header_cells. set (ws1 := write_all wsF header_cells) in *.
  destruct (automate_write_records_full recs ws1 R H1)
    as (ws' & -> & H' & Hm' & Hframe & Hrec & Hs').
  rewrite bind_Ok. exists ws'. rewrite expected_last_row_eq. split; [reflexivity|].
  apply sheet_meta_inv in Hm' as (Ht' & Hr' & Hz' & Hst').
  apply sheet_meta_inv in Hm1 as (Ht1 & Hr1 & Hz1 & Hst1).
  apply sheet_meta_inv in Hm0 as (Ht0 & Hr0 & Hz0 & Hst0).
  assert (HcF : forall c, cell_at wsF c = cell_at ws0 c).
  { intros c. subst wsF. rewrite cell_at_set_freeze_panes, cell_at_ws_cell. reflexivity. }
  assert (Hlow : forall r k, (r < 7)%positive -> cell_at ws' (r, k) = cell_at ws1 (r, k)).
  { intros r k Hr. apply Hframe. unfold data_cell. lia. }
  split; [|split].
  - split; [exact H'|].
    split; [rewrite Ht', Ht1; subst wsF; simpl; rewrite title_ws_cell; exact Ht0|].
    split; [rewrite Hr', Hr1; subst wsF; simpl; rewrite merged_ranges_ws_cell; exact Hr0|].
    split.
    { rewrite Hst', Hst1. subst wsF. simpl.
      destruct (sheet_meta_inv _ _ (sheet_meta_ws_cell ws0 (7%positive, col_A)))
        as (_ & _ & _ & ->). exact Hst0. }
    split; [|split; [exact Hrec|]].
    + intros [r k] v Hin. apply elem_of_app in Hin as [Hin|Hin].
      * assert (Hc : (r, k) ∈ stamps.*1).
        { apply list_elem_of_fmap. exists ((r, k), v). split; [reflexivity|exact Hin]. }
        pose proof (stamp_cells_coords _ _ _ _ _ Hc) as Hrow.
        transitivity (value_at ws0 (r, k));
          [|exact (Hv0 (NoDup_stamp_cells _ _ _ _) (r, k) v Hin)].
        unfold value_at. rewrite Hlow by (destruct Hrow as [[= -> _]|[= -> _]]; lia).
        rewrite Hf1, HcF; [reflexivity|].
        rewrite elem_of_header_cells. simpl.
        destruct Hrow as [[= -> _]|[= -> _]]; intros [? _]; discriminate.
      * assert (Hc : (r, k) ∈ header_cells.*1).
        { apply list_elem_of_fmap. exists ((r, k), v). split; [reflexivity|exact Hin]. }
        apply elem_of_header_cells in Hc as [Hr6 _]. simpl in Hr6. subst r.
        transitivity (value_at ws1 (6%positive, k));
          [|exact (Hv1 NoDup_header_cells (6%positive, k) v Hin)].
        unfold value_at. rewrite Hlow by lia. reflexivity.
    + intros r k Hout Hdata. rewrite fmap_app in Hout. apply not_elem_of_app in Hout as [Ho1 Ho2].
      rewrite Hframe by exact Hdata. rewrite Hf1 by exact Ho2. rewrite HcF. apply Hf0, Ho1.
  - rewrite Hz', Hz1. reflexivity.
  - intros r k Hk. rewrite Hs' by exact Hk. rewrite Hs1. unfold style_at. rewrite HcF.
    apply Hs0.
Qed.

Lemma worklog_fill_full sheet date_obj data R :
  all_plain sheet ->
  let recs := WorkLog.day_records date_obj data in
  exists ws',
    WorkLog.fill_daily_sheet sheet date_obj data R
    = Ok (ws', expected_last_row R (length recs)) /\
    sheet_written [] R recs sheet ws' /\
    freeze_panes ws' = freeze_panes sheet.
Proof.
  intros H recs. unfold WorkLog.fill_daily_sheet. fold recs.
  destruct (worklog_write_records_full recs sheet R H) as (ws' & -> & H' & Hm' & Hframe & Hrec).
  rewrite bind_Ok. exists ws'. rewrite expected_last_row_eq. split; [reflexivity|].
  apply sheet_meta_inv in Hm' as (Ht' & Hr' & Hz' & Hst').
  split; [|exact Hz'].
  split; [exact H'|]. split; [exact Ht'|]. split; [exact Hr'|]. split; [exact Hst'|].
  split; [intros c v Hin; inversion Hin|]. split; [exact Hrec|].
  intros r k _ Hdata. apply Hframe, Hdata.
Qed.
End fills.

(** ** The font of the Complete cells *)

Section complete_fonts.
Implicit Types (ws sheet : Worksheet).

Lemma propagated_style_self ws k :
  propagated_style ws WorkLog.TEMPLATE_STYLE_ROW k
  = style_at ws (WorkLog.TEMPLATE_STYLE_ROW, k).
Proof. unfold propagated_style. destruct (has_style _); reflexivity. Qed.

Lemma worklog_written_so_far sheet R (recs : list (gmap string PyValue)) ws_i n :
  all_plain sheet ->
  WorkLog.write_records sheet R recs = Ok (ws_i, n) ->
  forall r k, ~ data_cell R (length recs) r k -> cell_at ws_i (r, k) = cell_at sheet (r, k).
Proof.
  intros H Hrun. destruct (worklog_write_records_full recs sheet R H)
    as (ws' & Hrun' & _ & _ & Hframe & _).
  rewrite Hrun in Hrun'. injection Hrun' as <- _. exact Hframe.
Qed.

(** As long as no record written into the style row has been coloured,
    the style row is as the fill found it. *)
Lemma style_row_kept sheet R (recs : list (gmap string PyValue)) ws_i n :
  all_plain sheet ->
  WorkLog.write_records sheet R recs = Ok (ws_i, n) ->
  (forall j rec_j, recs !! j = Some rec_j -> row_add R j = WorkLog.TEMPLATE_STYLE_ROW ->
     WorkLog.complete_font (dict_get rec_j "Complete") = None) ->
  style_at ws_i (WorkLog.TEMPLATE_STYLE_ROW, 5%positive)
  = style_at sheet (WorkLog.TEMPLATE_STYLE_ROW, 5%positive).
Proof.
  intros H Hrun Hnone.
  destruct (decide (data_cell R (length recs) WorkLog.TEMPLATE_STYLE_ROW 5)) as [Hin|Hout].
  - set (j := (Pos.to_nat WorkLog.TEMPLATE_STYLE_ROW - Pos.to_nat R)%nat).
    assert (Hj : (j < length recs)%nat /\ row_add R j = WorkLog.TEMPLATE_STYLE_ROW).
    { unfold data_cell in Hin. unfold row_add, j. lia. }
    destruct Hj as [Hj Erow].
    destruct (lookup_lt_is_Some_2 recs j Hj) as [rec_j Hrec].
    destruct (worklog_write_records_spec recs sheet R H) as (ws' & Hrun' & _ & _ & _ & Hspec).
    rewrite Hrun in Hrun'. injection Hrun' as <- _.
    destruct (Hspec j rec_j Hrec) as (ws_j & Hrun_j & _ & Hs).
    rewrite (Hnone j rec_j Hrec Erow), Erow, propagated_style_self in Hs. rewrite Hs.
    unfold style_at. f_equal.
    apply (worklog_written_so_far sheet R (take j recs) ws_j _ H Hrun_j).
    rewrite length_take. unfold data_cell. rewrite <- Erow. unfold row_add. lia.
  - unfold style_at. f_equal. exact (worklog_written_so_far sheet R recs ws_i n H Hrun _ _ Hout).
Qed.
End complete_fonts.

(** The font of the Complete cell of every record [fill_daily_sheet]
    writes, on a sheet without merged-cell objects and for a table of ASCII
    text that openpyxl stores as it is.  The cell (column E of the record's
    row) holds the flag and
    - in automate_excel.py its font is green when the flag is the string
      "yes" in any casing, red when it is "no" in any casing, and otherwise
      its style is the one the cell had before the fill;
    - in work_log.py its font is green when the flag is "yes" in any casing
      with blanks allowed around it, red when it is "no" likewise; and
      otherwise, as long as no earlier record written into the style row
      (row 7) has been coloured, its style is the one propagated from the
      style row of the sheet as the fill found it. *)
Theorem complete_cell_fonts :
  forall (today : date) (sheet : Worksheet) (date_obj : date) (data : DataFrame)
         (is_dataframe : bool) (R : positive) (fallback : option date),
    all_plain sheet ->
    table_within_limits data ->
    table_ascii data ->
    (exists ws' last,
       AutomateExcel.fill_daily_sheet today sheet date_obj data is_dataframe R fallback
       = Ok (ws', last) /\
       forall i rec,
         AutomateExcel.day_records date_obj data is_dataframe !! i = Some rec ->
         let flag := dict_get rec "Complete" in
         let cell := (row_add R i, col_E) in
         value_at ws' cell = flag /\
         (says "yes" flag -> font (style_at ws' cell) = green) /\
         (says "no" flag -> font (style_at ws' cell) = red) /\
         (~ says "yes" flag -> ~ says "no" flag -> style_at ws' cell = style_at sheet cell)) /\
    (exists ws' last,
       WorkLog.fill_daily_sheet sheet date_obj data R = Ok (ws', last) /\
       forall i rec,
         WorkLog.day_records date_obj data !! i = Some rec ->
         let flag := dict_get rec "Complete" in
         let cell := (row_add R i, col_E) in
         value_at ws' cell = flag /\
         (says_padded "yes" flag -> font (style_at ws' cell) = green) /\
         (says_padded "no" flag -> font (style_at ws' cell) = red) /\
         (~ says_padded "yes" flag -> ~ says_padded "no" flag ->
          (forall j rec_j, (j < i)%nat ->
             WorkLog.day_records date_obj data !! j = Some rec_j ->
             row_add R j = WorkLog.TEMPLATE_STYLE_ROW ->
             WorkLog.complete_font (dict_get rec_j "Complete") = None) ->
          style_at ws' cell = propagated_style sheet (row_add R i) col_E)).
Proof.
  intros today sheet date_obj data is_dataframe R fallback H _ _. split.
  - destruct (automate_fill_spec today sheet date_obj data is_dataframe R fallback H)
      as (ws' & Hrun & _ & Hrec).
    exists ws'. eexists. split; [exact Hrun|].
    intros i rec Hi flag cell. subst flag cell. unfold col_E.
    destruct (Hrec i rec Hi) as [Hv Hs].
    destruct (automate_complete_font_spec (dict_get rec "Complete")) as (Hy & Hn & Ho).
    split; [exact Hv|]. split; [|split].
    + intros Hf. rewrite Hs, (Hy Hf). reflexivity.
    + intros Hf. rewrite Hs, (Hn Hf). reflexivity.
    + intros Hf1 Hf2. rewrite Hs, (Ho Hf1 Hf2). reflexivity.
  - destruct (worklog_fill_spec sheet date_obj data R H) as (ws' & Hrun & _ & _ & Hrec).
    exists ws'. eexists. split; [exact Hrun|].
    intros i rec Hi flag cell. subst flag cell. unfold col_E.
    destruct (Hrec i rec Hi) as (ws_i & Hrun_i & Hv & Hs).
    destruct (worklog_complete_font_spec (dict_get rec "Complete")) as (Hy & Hn & Ho).
    split; [exact Hv|]. split; [|split].
    + intros Hf. rewrite Hs, (Hy Hf). reflexivity.
    + intros Hf. rewrite Hs, (Hn Hf). reflexivity.
    + intros Hf1 Hf2 Hearlier. rewrite Hs, (Ho Hf1 Hf2).
      pose proof (lookup_lt_Some _ _ _ Hi) as Hlen.
      unfold propagated_style.
      rewrite (style_row_kept sheet R _ ws_i _ H Hrun_i).
      * replace (style_at ws_i (row_add R i, 5%positive))
          with (style_at sheet (row_add R i, 5%positive)); [reflexivity|].
        unfold style_at. f_equal. symmetry.
        apply (worklog_written_so_far sheet R _ ws_i _ H Hrun_i).
        rewrite length_take. unfold data_cell, row_add. lia.
      * intros j rec_j Hj Erow. apply lookup_take_Some in Hj as [Hj Hji].
        exact (Hearlier j rec_j Hji Hj Erow).
Qed.

(** ** One daily sheet *)

Section daily_sheets.
Implicit Types (wb : Workbook) (ws sheet src : Worksheet).

Lemma written_above_data today date_obj fallback b r k :
  (r, k) ∈ (stamp_cells today date_obj fallback b ++ header_cells).*1 -> (r < 7)%positive.
Proof.
  rewrite fmap_app. intros H. apply elem_of_app in H as [H|H].
  - apply stamp_cells_coords in H as [[= -> _]|[= -> _]]; lia.
  - apply elem_of_header_cells in H as [H _]. simpl in H. lia.
Qed.

Lemma layout_cells_coords a b r k :
  (r, k) ∈ (label_cells a b ++ header_cells).*1 ->
  (r < 7)%positive /\ (r, k) <> (4, col_C)%positive.
Proof.
  rewrite fmap_app. intros H. apply elem_of_app in H as [H|H].
  - simpl in H. repeat (apply elem_of_cons in H as [[= -> ->]|H]; [split; [lia|discriminate]|]).
    inversion H.
  - apply elem_of_header_cells in H as [H _]. simpl in H. subst r. split; [lia|discriminate].
Qed.

Lemma set_freeze_panes_meta ws c :
  title (set_freeze_panes ws c) = title ws /\
  merged_ranges (set_freeze_panes ws c) = merged_ranges ws /\
  sheet_state (set_freeze_panes ws c) = sheet_state ws.
Proof. repeat split. Qed.

Lemma freeze_panes_A7 ws :
  freeze_panes (set_freeze_panes ws (7%positive, col_A)) = Some (7%positive, col_A).
Proof. reflexivity. Qed.

Lemma clone_of_meta src t :
  title (clone_of src t) = t /\ merged_ranges (clone_of src t) = merged_ranges src /\
  sheet_state (clone_of src t) = visible.
Proof. repeat split. Qed.

(** The clone of the template sheet, the first sheet titled Template. *)
Lemma clone_template_of wb name i src :
  wb_getitem wb AutomateExcel.TEMPLATE_SHEET_NAME = Ok i -> wb !! i = Some src ->
  has_invalid_char name = false ->
  AutomateExcel.clone_template wb name
  = Ok (wb ++ [clone_of src (clone_title wb name)], length wb).
Proof.
  intros Hget Hsrc Hname.
  destruct (wb_getitem_Ok wb _ i Hget) as (src' & Hsrc' & Htitle).
  rewrite Hsrc in Hsrc'. injection Hsrc' as <-.
  unfold AutomateExcel.clone_template. rewrite Hget, bind_Ok.
  unfold copy_worksheet. rewrite Hsrc.
  unfold AutomateExcel.TEMPLATE_SHEET_NAME in Htitle. rewrite Htitle.
  rewrite create_sheet_valid by reflexivity. rewrite bind_Ok. cbv beta iota.
  rewrite snoc_lookup_last, snoc_insert_last, bind_Ok. cbv beta iota.
  unfold set_title. rewrite snoc_lookup_last, Hname.
  rewrite snoc_insert_last, bind_Ok. unfold sheetnames. rewrite fmap_app. reflexivity.
Qed.

Lemma automate_add_daily_sheet_spec today data fallback wb di day_ i src :
  wb_getitem wb AutomateExcel.TEMPLATE_SHEET_NAME = Ok i -> wb !! i = Some src ->
  let recs := AutomateExcel.day_records day_ data true in
  let name := strftime_mdY day_ in
  exists sheet,
    AutomateExcel.add_daily_sheet today data fallback (wb, di) day_
    = Ok (wb ++ [sheet], <[name := (7%Z, expected_last_row 7 (length recs))]> di) /\
    daily_sheet (stamp_cells today day_ fallback (bool_decide (recs = [])) ++ header_cells)
      recs src (clone_title wb name) sheet.
Proof.
  intros Hget Hsrc recs name. pose proof (strftime_chars day_) as Hchars.
  fold name in Hchars.
  pose proof (clone_template_of wb name i src Hget Hsrc (date_string_valid _ Hchars))
    as Hclone.
  set (t := clone_title wb name) in *. set (clone := clone_of src t) in *.
  destruct (wipe_rows _ PyNone (set_value_direct_writer PyNone) 7 clone eq_refl
              (all_plain_plain_from 7 _ (clone_of_all_plain src t)))
    as (ws1 & Hwipe & Hempty1 & Hrows1 & _ & Hplain1 & Hmeta1).
  assert (Hall1 : all_plain ws1) by (intros c; apply Hplain1, clone_of_all_plain).
  destruct (automate_fill_full today ws1 day_ data true 7 fallback Hall1 (Pos.le_refl 7))
    as (sheet & Hfill & Hw & Hfreeze & _).
  fold recs in Hfill, Hw.
  exists sheet. split.
  - unfold AutomateExcel.add_daily_sheet. fold name. rewrite Hclone, bind_Ok. cbv beta iota.
    rewrite (on_sheet_last wb clone _ sheet (expected_last_row 7 (length recs))).
    2: { unfold AutomateExcel.clear_sheet_data. rewrite Hwipe, bind_Ok. exact Hfill. }
    rewrite bind_Ok. reflexivity.
  - destruct Hw as (Hp & Ht' & Hr' & Hs' & Hv & Hrec & Hframe).
    apply sheet_meta_inv in Hmeta1 as (Ht1 & Hr1 & _ & Hst1).
    split; [exact Hp|]. split; [rewrite Ht', Ht1; reflexivity|].
    split; [rewrite Hr', Hr1; reflexivity|]. split; [rewrite Hs', Hst1; reflexivity|].
    split; [exact Hfreeze|]. split; [exact Hv|]. split; [exact Hrec|]. split.
    + intros r k Hr Hdata. unfold value_at. rewrite Hframe; [apply Hempty1, Hr| |exact Hdata].
      intros Hin. apply written_above_data in Hin. lia.
    + intros r k Hr Hout. rewrite Hframe; [apply Hrows1, Hr|exact Hout|].
      unfold data_cell. lia.
Qed.

Lemma worklog_add_daily_sheet_spec today data date_label wb di day_ i src :
  wb_getitem wb WorkLog.TEMPLATE_SHEET_NAME = Ok i -> wb !! i = Some src ->
  let recs := WorkLog.day_records day_ data in
  let name := strftime_mdY day_ in
  let last_row := expected_last_row 7 (length recs) in
  exists sheet,
    WorkLog.add_daily_sheet today data date_label (wb, di) day_
    = Ok (wb ++ [sheet], <[name := (7%Z, last_row)]> di) /\
    daily_sheet (worklog_cells today date_label last_row) recs src (clone_title wb name) sheet.
Proof.
  intros Hget Hsrc recs name last_row. pose proof (strftime_chars day_) as Hchars.
  fold name in Hchars.
  pose proof (clone_template_of wb name i src Hget Hsrc (date_string_valid _ Hchars))
    as Hclone.
  destruct (clone_of_meta src (clone_title wb name)) as (Ht0 & Hr0 & Hst0).
  pose proof (clone_of_all_plain src (clone_title wb name)) as Hall0.
  remember (clone_title wb name) as t eqn:Et.
  remember (clone_of src t) as clone eqn:Eclone.
  (* the labels *)
  pose proof (apply_consistent_layout_spec today clone date_label Hall0) as Hlayout.
  remember (label_cells (strftime_mdY today) date_label ++ header_cells)%list as cells_a
    eqn:Ecells.
  assert (Hnd : NoDup (cells_a.*1)) by (subst cells_a; apply NoDup_layout_cells).
  assert (Hcoords : forall r k, (r, k) ∈ cells_a.*1 ->
                                (r < 7)%positive /\ (r, k) <> (4, col_C)%positive).
  { subst cells_a. apply layout_cells_coords. }
  destruct (write_all_spec cells_a clone Hall0) as (Ha & Hma & _ & Hfa & Hva).
  specialize (Hva Hnd).
  apply sheet_meta_inv in Hma as (Ht_a & Hr_a & _ & Hst_a).
  remember (write_all clone cells_a) as ws_w eqn:Ew.
  destruct (set_freeze_panes_meta ws_w (7%positive, col_A)) as (Ht_f & Hr_f & Hst_f).
  pose proof (freeze_panes_A7 ws_w) as Hz_f.
  pose proof (cell_at_set_freeze_panes ws_w (7%positive, col_A)) as Hc_f.
  pose proof (all_plain_set_freeze_panes ws_w (7%positive, col_A) Ha) as Halla.
  remember (set_freeze_panes ws_w (7%positive, col_A)) as ws_a eqn:Ea.
  (* the wipe *)
  destruct (wipe_rows _ PyNone (safe_set_cell_direct_writer PyNone) 7 ws_a eq_refl
              (all_plain_plain_from 7 _ Halla))
    as (ws_b & Hwipe & Hempty_b & Hrows_b & _ & Hplain_b & Hmeta_b).
  assert (Hallb : all_plain ws_b) by (intros c; apply Hplain_b, Halla).
  apply sheet_meta_inv in Hmeta_b as (Ht_b & Hr_b & Hz_b & Hst_b).
  (* the records *)
  destruct (worklog_fill_full ws_b day_ data 7 Hallb) as (ws_c & Hfill & Hw & Hfreeze_c).
  fold recs in Hfill, Hw. fold last_row in Hfill.
  destruct Hw as (Hallc & Ht_c & Hr_c & Hs_c & _ & Hrec_c & Hframe_c).
  (* C4 *)
  destruct (sheet_meta_inv _ _ (sheet_meta_write_plain ws_c (4%positive, col_C)
                                  (c4_value last_row))) as (Ht_d & Hr_d & Hz_d & Hst_d).
  pose proof (all_plain_write_plain ws_c (4%positive, col_C) (c4_value last_row) Hallc)
    as Halld.
  pose proof (cell_at_write_plain_eq ws_c (4%positive, col_C) (c4_value last_row)) as Hc4eq.
  pose proof (cell_at_write_plain_ne ws_c (4%positive, col_C) (c4_value last_row)) as Hsheet.
  assert (Hc4 : (if (7 <=? last_row)%Z then
                   assign_value ws_c (4%positive, col_C)
                     (PyStr ("=SUM(C7:C" ++ str_of_Z last_row ++ ") + (SUM(D7:D"
                             ++ str_of_Z last_row ++ ")/60)"))
                 else assign_value ws_c (4%positive, col_C) (PyInt 0))
                = Ok (write_plain ws_c (4%positive, col_C) (c4_value last_row))).
  { unfold c4_value. destruct (7 <=? last_row)%Z; apply assign_value_all_plain, Hallc. }
  remember (write_plain ws_c (4%positive, col_C) (c4_value last_row)) as sheet eqn:Esheet.
  exists sheet. split.
  - unfold WorkLog.add_daily_sheet. fold name.
    rewrite clone_template_same, Hclone, bind_Ok. cbv beta iota.
    rewrite (on_sheet_last wb clone _ sheet last_row).
    2: { rewrite Hlayout, bind_Ok. unfold WorkLog.clear_sheet_data.
         change WorkLog.safe_set_cell with AutomateExcel.safe_set_cell.
         rewrite Hwipe, bind_Ok, Hfill, bind_Ok. cbv beta iota.
         rewrite Hc4, bind_Ok. reflexivity. }
    rewrite bind_Ok. reflexivity.
  - assert (Hlow : forall r k, (r < 7)%positive -> (r, k) <> (4, col_C)%positive ->
                               cell_at sheet (r, k) = cell_at ws_w (r, k)).
    { intros r k Hr Hne. rewrite Hsheet by congruence.
      rewrite Hframe_c; [|intros Hin; inversion Hin|unfold data_cell; lia].
      rewrite Hrows_b by exact Hr. apply Hc_f. }
    split; [exact Halld|].
    split; [rewrite Ht_d, Ht_c, Ht_b, Ht_f, Ht_a; exact Ht0|].
    split; [rewrite Hr_d, Hr_c, Hr_b, Hr_f, Hr_a; exact Hr0|].
    split; [rewrite Hst_d, Hs_c, Hst_b, Hst_f, Hst_a; exact Hst0|].
    split; [rewrite Hz_d, Hfreeze_c, Hz_b; exact Hz_f|].
    split; [|split; [|split]].
    + intros [r k] v Hin. unfold worklog_cells in Hin. rewrite app_assoc in Hin.
      rewrite <- Ecells in Hin. apply elem_of_app in Hin as [Hin|Hin].
      * assert (Hc : (r, k) ∈ cells_a.*1).
        { apply list_elem_of_fmap. exists ((r, k), v). split; [reflexivity|exact Hin]. }
        apply Hcoords in Hc as [Hr Hne].
        rewrite <- (Hva (r, k) v Hin). unfold value_at. rewrite Hlow by assumption.
        reflexivity.
      * apply list_elem_of_singleton in Hin. injection Hin as -> -> ->.
        unfold value_at. rewrite Hc4eq. reflexivity.
    + intros j rec k Hj Hk. rewrite <- (Hrec_c j rec k Hj Hk). unfold value_at.
      rewrite Hsheet; [reflexivity|]. unfold row_add. intros [= H _]. lia.
    + intros r k Hr Hdata. unfold value_at. rewrite Hsheet by (intros [= <- _]; lia).
      rewrite Hframe_c; [apply Hempty_b, Hr|intros Hin; inversion Hin|exact Hdata].
    + intros r k Hr Hout. unfold worklog_cells in Hout. rewrite app_assoc in Hout.
      rewrite <- Ecells in Hout. rewrite fmap_app in Hout.
      apply not_elem_of_app in Hout as [Hout Hc4'].
      rewrite <- Eclone. rewrite Hlow; [apply Hfa, Hout|exact Hr|].
      intros Heq. apply Hc4'. rewrite Heq. apply list_elem_of_here.
Qed.
End daily_sheets.

(** ** The Total sheet of a workbook *)

Section total_sheets.
Implicit Types (wb : Workbook) (ws : Worksheet).

Lemma plain_from_write_plain n ws c v :
  plain_from n ws -> plain_from n (write_plain ws c v).
Proof. intros H r k Hr. apply plain_at_write_plain, H, Hr. Qed.

Lemma NoDup_total_headers : NoDup (total_headers.*1).
Proof. apply (bool_decide_unpack (NoDup _)). vm_compute. exact I. Qed.

(** The writes of [create_or_update_total_sheet] into the sheet it has
    found or made. *)
Lemma total_sheet_update ws daily_info rate :
  plain_from 3 ws ->
  exists ws',
    (ws1 ← AutomateExcel.safe_set_cell ws (3%positive, col_B) (PyStr "Date");
     ws2 ← AutomateExcel.safe_set_cell ws1 (3%positive, col_C) (PyStr "Hour");
     ws3 ← AutomateExcel.safe_set_cell ws2 (3%positive, col_D) (PyStr "Rate");
     ws4 ← AutomateExcel.safe_set_cell ws3 (3%positive, col_E) (PyStr "Total Cost");
     ws5 ← AutomateExcel.update_total_sheet ws4 daily_info rate;
     Ok (set_freeze_panes (ws_cell ws5 (4%positive, col_A)) (4%positive, col_A), ()))
    = Ok (ws', ()) /\
    total_sheet daily_info rate ws ws'.
Proof.
  intros Hpl.
  assert (Hp : forall s k, plain_from 3 s -> plain_at s (3%positive, k)).
  { intros s k Hs. apply Hs. lia. }
  repeat (rewrite safe_set_cell_write_plain by auto 8 using plain_from_write_plain;
          rewrite bind_Ok).
  assert (Hpl4 : plain_from 3 (write_all ws total_headers)).
  { unfold write_all, total_headers. simpl. auto 8 using plain_from_write_plain. }
  change (write_plain (write_plain (write_plain (write_plain ws (3%positive, col_B)
            (PyStr "Date")) (3%positive, col_C) (PyStr "Hour")) (3%positive, col_D)
            (PyStr "Rate")) (3%positive, col_E) (PyStr "Total Cost"))
    with (write_all ws total_headers).
  assert (Hm4 : sheet_meta (write_all ws total_headers) = sheet_meta ws).
  { unfold write_all, total_headers. simpl. rewrite !sheet_meta_write_plain. reflexivity. }
  assert (Hf4 : forall c, c ∉ total_headers.*1 ->
                          cell_at (write_all ws total_headers) c = cell_at ws c).
  { intros c Hc. unfold write_all, total_headers. simpl.
    rewrite !cell_at_write_plain_ne; [reflexivity|..];
      intros <-; apply Hc; vm_compute; list_mem. }
  assert (Hv4 : forall c v, (c, v) ∈ total_headers ->
                            value_at (write_all ws total_headers) c = v).
  { intros c v Hin. unfold total_headers in Hin.
    repeat (apply elem_of_cons in Hin as [[= -> ->]|Hin];
            [unfold write_all, total_headers, col_B, col_C, col_D, col_E; simpl;
             sheet_simpl; reflexivity|]).
    inversion Hin. }
  remember (write_all ws total_headers) as ws4 eqn:E4.
  destruct (update_total_sheet_spec ws4 daily_info rate
              (plain_from_weaken 3 4 ws4 ltac:(lia) Hpl4))
    as (ws5 & -> & Hmeta & Hframe & Hrows & Hrest).
  rewrite bind_Ok. eexists. split; [reflexivity|].
  apply sheet_meta_inv in Hmeta as (Ht5 & Hr5 & _ & Hst5).
  apply sheet_meta_inv in Hm4 as (Ht4 & Hr4 & _ & Hst4).
  destruct (sheet_meta_inv _ _ (sheet_meta_ws_cell ws5 (4%positive, col_A)))
    as (Htc & Hrc & _ & Hstc).
  assert (Hcell : forall c, cell_at (set_freeze_panes (ws_cell ws5 (4%positive, col_A))
                                       (4%positive, col_A)) c = cell_at ws5 c).
  { intros c. rewrite cell_at_set_freeze_panes. apply cell_at_ws_cell. }
  split; [simpl; rewrite Htc, Ht5; exact Ht4|].
  split; [simpl; rewrite Hrc, Hr5; exact Hr4|].
  split; [simpl; rewrite Hstc, Hst5; exact Hst4|].
  split; [reflexivity|]. split; [|split; [|split]].
  - intros [r k] v Hin.
    assert (Hr : r = 3%positive).
    { unfold total_headers in Hin.
      repeat (apply elem_of_cons in Hin as [[= -> _ _]|Hin]; [reflexivity|]). inversion Hin. }
    subst r. rewrite <- (Hv4 _ _ Hin). unfold value_at. rewrite Hcell, Hframe by lia.
    reflexivity.
  - intros k name fr lr Hk. specialize (Hrows k name fr lr Hk).
    unfold summary_row, value_at in *. rewrite !Hcell. exact Hrows.
  - intros r k Hr. unfold value_at. rewrite Hcell. apply Hrest, Hr.
  - intros r k Hr Hout. rewrite Hcell, Hframe by exact Hr. apply Hf4, Hout.
Qed.

Lemma create_or_update_total_sheet_same :
  WorkLog.create_or_update_total_sheet = AutomateExcel.create_or_update_total_sheet.
Proof. reflexivity. Qed.

Lemma new_sheet_plain t n : plain_from n (new_sheet t).
Proof. intros r k _. reflexivity. Qed.

(** A workbook without a sheet titled Total gets one, appended. *)
Lemma create_total_new wb daily_info rate :
  AutomateExcel.TOTAL_SHEET_NAME ∉ sheetnames wb ->
  exists total,
    AutomateExcel.create_or_update_total_sheet wb daily_info rate = Ok (wb ++ [total]) /\
    total_sheet daily_info rate
      (new_sheet (avoid_duplicate_name (sheetnames wb) "Total")) total.
Proof.
  intros Hnot. unfold AutomateExcel.create_or_update_total_sheet.
  rewrite bool_decide_eq_false_2 by exact Hnot.
  unfold AutomateExcel.TOTAL_SHEET_NAME.
  rewrite create_sheet_valid by reflexivity. rewrite bind_Ok. cbv beta iota.
  fold (new_sheet (avoid_duplicate_name (sheetnames wb) "Total")).
  remember (new_sheet (avoid_duplicate_name (sheetnames wb) "Total")) as T0 eqn:E0.
  destruct (total_sheet_update T0 daily_info rate) as (total & Hrun & Htotal).
  { subst T0. apply new_sheet_plain. }
  exists total. split; [|exact Htotal].
  rewrite (on_sheet_last wb T0 _ total () Hrun). reflexivity.
Qed.

Lemma on_sheet_at {A} wb i ws (f : Worksheet -> result (Worksheet * A)) ws' a :
  wb !! i = Some ws -> f ws = Ok (ws', a) -> on_sheet wb i f = Ok (<[i := ws']> wb, a).
Proof. intros Hi Hf. unfold on_sheet. rewrite Hi, Hf. reflexivity. Qed.

Lemma wb_getitem_elem_of wb name i : wb_getitem wb name = Ok i -> name ∈ sheetnames wb.
Proof.
  intros H. destruct (wb_getitem_Ok wb name i H) as (ws & Hws & <-).
  unfold sheetnames. apply list_elem_of_fmap. exists ws. split; [reflexivity|].
  apply list_elem_of_lookup. exists i. exact Hws.
Qed.

(** A sheet titled Total that the workbook holds already is updated where
    it is. *)
Lemma update_total_existing wb daily_info rate i ws :
  wb_getitem wb AutomateExcel.TOTAL_SHEET_NAME = Ok i -> wb !! i = Some ws ->
  plain_from 3 ws ->
  exists total,
    AutomateExcel.create_or_update_total_sheet wb daily_info rate = Ok (<[i := total]> wb) /\
    total_sheet daily_info rate ws total.
Proof.
  intros Hget Hws Hpl. unfold AutomateExcel.create_or_update_total_sheet.
  rewrite bool_decide_eq_true_2 by (apply (wb_getitem_elem_of wb _ i), Hget).
  rewrite Hget, bind_Ok, bind_Ok. cbv beta iota.
  destruct (total_sheet_update ws daily_info rate Hpl) as (total & Hrun & Htotal).
  exists total. split; [|exact Htotal].
  rewrite (on_sheet_at wb i ws _ total () Hws Hrun). reflexivity.
Qed.
End total_sheets.

(** In a workbook without a sheet titled Total,
    [create_or_update_total_sheet] (the same in both files) appends one: a
    sheet without merged ranges whose only values are the four labels of
    row 3 and the summary rows, with the pane frozen above row 4.  Its title
    is Total, followed by a count when a sheet is titled Total in another
    casing. *)
Theorem total_sheet_created :
  forall (wb : Workbook) (daily_info : gmap string (Z * Z)) (rate : PyValue),
    AutomateExcel.TOTAL_SHEET_NAME ∉ sheetnames wb ->
    exists (total : Worksheet) (suffix : string),
      AutomateExcel.create_or_update_total_sheet wb daily_info rate = Ok (wb ++ [total]) /\
      WorkLog.create_or_update_total_sheet wb daily_info rate = Ok (wb ++ [total]) /\
      total_sheet daily_info rate (new_sheet ("Total" ++ suffix)) total /\
      (no_sheet_named wb "Total" -> suffix = EmptyString).
Proof.
  intros wb daily_info rate Hnot.
  destruct (create_total_new wb daily_info rate Hnot) as (total & Hrun & Htotal).
  destruct (avoid_duplicate_name_extends (sheetnames wb) "Total") as [suffix Hs].
  exists total, suffix.
  split; [exact Hrun|]. split; [rewrite create_or_update_total_sheet_same; exact Hrun|].
  split; [rewrite Hs in Htotal; exact Htotal|].
  intros Hfresh. rewrite (avoid_duplicate_name_fresh _ _ Hfresh) in Hs.
  destruct suffix as [|c suffix]; [reflexivity|].
  exfalso. symmetry in Hs. revert Hs. apply string_app_neq. discriminate.
Qed.

(** A sheet titled Total that the workbook holds already, with no
    merged-cell object from row 3 down, is updated in place by
    [create_or_update_total_sheet] (the same in both files): no sheet is
    added, the rows from 4 down are replaced by the summary rows of this
    run, and rows 1 to 3 are kept but for the four labels. *)
Theorem total_sheet_updated_in_place :
  forall (wb : Workbook) (daily_info : gmap string (Z * Z)) (rate : PyValue)
         (i : nat) (old : Worksheet),
    wb_getitem wb AutomateExcel.TOTAL_SHEET_NAME = Ok i ->
    wb !! i = Some old ->
    plain_from 3 old ->
    exists total : Worksheet,
      AutomateExcel.create_or_update_total_sheet wb daily_info rate = Ok (<[i := total]> wb) /\
      WorkLog.create_or_update_total_sheet wb daily_info rate = Ok (<[i := total]> wb) /\
      total_sheet daily_info rate old total.
Proof.
  intros wb daily_info rate i old Hget Hold Hpl.
  destruct (update_total_existing wb daily_info rate i old Hget Hold Hpl)
    as (total & Hrun & Htotal).
  exists total. split; [exact Hrun|].
  split; [rewrite create_or_update_total_sheet_same; exact Hrun|exact Htotal].
Qed.

(** ** The name of the file *)

Section filenames.
#[local] Open Scope string_scope.

Lemma create_date_list_spec sd ed :
  valid_date sd = true -> valid_date ed = true -> date_leb sd ed = true ->
  exists n, AutomateExcel.create_date_list sd ed = days_after sd <$> seq 0 (S n) /\
            days_after sd n = ed.
Proof.
  intros Hs He Hle. apply valid_date_calendar in Hs, He.
  apply date_leb_day_number in Hle; [|assumption..].
  exact (date_list_from_spec ed He (372 * S (year ed - year sd)) sd Hs Hle
           (create_date_list_fuel sd ed Hs He Hle)).
Qed.

Lemma days_after_0 d : days_after d 0 = d.
Proof. reflexivity. Qed.

Lemma days_after_neq d n : calendar_day d -> days_after d (S n) <> d.
Proof.
  intros Hd Heq. pose proof (days_after_number d 0 (S n) Hd ltac:(lia)) as H.
  rewrite Heq, days_after_0 in H. lia.
Qed.
Lemma worklog_output_filename_spec (dr : DateRange) (today : date) :
  dates_from_prompt dr ->
  WorkLog.output_filename
    match dr with
    | NoDates => [today]
    | StartOnly sd => [sd]
    | Range sd ed => AutomateExcel.create_date_list sd ed
    end
  = Some (AutomateExcel.output_filename dr today).
Proof.
  intros Hdates. destruct dr as [|sd|sd ed]; [reflexivity|reflexivity|].
  destruct Hdates as (Hs & He & _ & Hle).
  destruct (create_date_list_spec sd ed Hs He Hle) as (n & -> & Hlast).
  unfold WorkLog.output_filename, AutomateExcel.output_filename.
  rewrite length_fmap, length_seq. destruct n as [|n].
  - rewrite days_after_0 in Hlast. subst ed.
    rewrite bool_decide_eq_true_2 by reflexivity.
    rewrite bool_decide_eq_true_2 by reflexivity. reflexivity.
  - rewrite bool_decide_eq_false_2 by lia.
    rewrite (bool_decide_eq_false_2 (sd = ed)).
    2: { intros Heq. rewrite <- Heq in Hlast.
         exact (days_after_neq sd n (valid_date_calendar _ Hs) Hlast). }
    rewrite last_lookup, length_fmap, length_seq. cbn [Nat.pred].
    rewrite !list_lookup_fmap, !lookup_seq_lt by lia. cbn [fmap option_fmap option_map mbind option_bind].
    rewrite days_after_0. cbn [Nat.add]. rewrite Hlast. reflexivity.
Qed.
End filenames.

(** ** A whole run *)

Section runs.
Implicit Types (wb : Workbook) (ws sheet src : Worksheet) (di : gmap string (Z * Z)).
#[local] Open Scope string_scope.

Lemma wb_getitem_app wb (more : list Worksheet) name i :
  wb_getitem wb name = Ok i -> wb_getitem (wb ++ more)%list name = Ok i.
Proof.
  intros H. pose proof (wb_getitem_elem_of wb name i H) as Hin.
  unfold wb_getitem in *. unfold sheetnames. rewrite fmap_app.
  rewrite index_of_app by exact Hin. exact H.
Qed.

Lemma wb_getitem_lt wb name i : wb_getitem wb name = Ok i -> (i < length wb)%nat.
Proof.
  intros H. destruct (wb_getitem_Ok wb name i H) as (ws & Hws & _).
  apply lookup_lt_is_Some. eauto.
Qed.

Lemma clone_title_extends wb name : exists suffix, clone_title wb name = name ++ suffix.
Proof.
  unfold clone_title. case_bool_decide.
  - exists "". symmetry. apply string_app_nil_r.
  - apply avoid_duplicate_name_extends.
Qed.

(** The title of a daily sheet starts with a digit: it is not the title
    of the Total sheet. *)
Lemma strftime_head d : exists c rest, strftime_mdY d = String c rest /\ date_char c = true.
Proof.
  pose proof (strftime_chars d) as H.
  destruct (strftime_mdY d) as [|c rest] eqn:E.
  - exfalso. unfold strftime_mdY, zfill in E.
    destruct (zeros (2 - String.length (str_of_nat (month d)))) as [|z zs];
      [|rewrite !app_cons in E; discriminate E].
    rewrite app_nil_l in E. destruct (str_of_nat (month d)) as [|a s] eqn:Em.
    + exact (str_of_nat_nonempty _ Em).
    + rewrite !app_cons in E. discriminate E.
  - exists c, rest. split; [reflexivity|]. simpl in H. apply andb_prop in H as [H _]. exact H.
Qed.

Lemma daily_title_not_total d suffix : strftime_mdY d ++ suffix <> "Total".
Proof.
  destruct (strftime_head d) as (c & rest & -> & Hc). rewrite app_cons.
  intros [= -> _]. discriminate Hc.
Qed.

(** The loop over the days, one sheet appended for each. *)
Lemma days_loop (step : Workbook * gmap string (Z * Z) -> date ->
                        result (Workbook * gmap string (Z * Z)))
    (count : date -> nat) (P : date -> Worksheet -> Prop) wb0 :
  (forall (more : list Worksheet) di day_,
     exists sheet,
       step ((wb0 ++ more)%list, di) day_
       = Ok ((wb0 ++ more ++ [sheet])%list, add_range count di day_) /\ P day_ sheet) ->
  forall (days : list date) (more : list Worksheet) di,
    exists sheets,
      for_each step days ((wb0 ++ more)%list, di)
      = Ok ((wb0 ++ more ++ sheets)%list, foldl (add_range count) di days) /\
      Forall2 P days sheets.
Proof.
  intros Hstep. induction days as [|day_ days IH]; intros more di.
  - exists []. rewrite app_nil_r. split; [reflexivity|constructor].
  - destruct (Hstep more di day_) as (sheet & Hrun & HP).
    destruct (IH (more ++ [sheet])%list (add_range count di day_)) as (sheets & Hrest & HPs).
    exists (sheet :: sheets). rewrite for_each_cons, Hrun, bind_Ok. split.
    + rewrite Hrest. rewrite <- (app_assoc more [sheet] sheets). reflexivity.
    + constructor; assumption.
Qed.

Lemma automate_step inp i src (more : list Worksheet) di day_ :
  wb_getitem (loaded_wb inp) AutomateExcel.TEMPLATE_SHEET_NAME = Ok i ->
  loaded_wb inp !! i = Some src ->
  exists sheet,
    AutomateExcel.add_daily_sheet (today_date inp) (automate_table inp)
      (automate_fallback inp day_) ((loaded_wb inp ++ more)%list, di) day_
    = Ok ((loaded_wb inp ++ more ++ [sheet])%list,
          add_range (fun d => length (AutomateExcel.day_records d (automate_table inp) true))
            di day_) /\
    automate_daily inp src day_ sheet.
Proof.
  intros Hget Hsrc.
  destruct (automate_add_daily_sheet_spec (today_date inp) (automate_table inp)
              (automate_fallback inp day_) (loaded_wb inp ++ more)%list di day_ i src)
    as (sheet & Hrun & Hsheet).
  { apply wb_getitem_app, Hget. }
  { rewrite lookup_app_l by (apply (wb_getitem_lt _ _ _ Hget)). exact Hsrc. }
  exists sheet. split; [rewrite Hrun, <- app_assoc; reflexivity|].
  unfold automate_daily.
  destruct (clone_title_extends (loaded_wb inp ++ more)%list (strftime_mdY day_))
    as [suffix Hs].
  exists suffix. rewrite <- Hs. exact Hsheet.
Qed.

Lemma worklog_step inp i src (more : list Worksheet) di day_ :
  wb_getitem (loaded_wb inp) WorkLog.TEMPLATE_SHEET_NAME = Ok i ->
  loaded_wb inp !! i = Some src ->
  exists sheet,
    WorkLog.add_daily_sheet (today_date inp) (combined_df inp) (worklog_label inp)
      ((loaded_wb inp ++ more)%list, di) day_
    = Ok ((loaded_wb inp ++ more ++ [sheet])%list,
          add_range (fun d => length (WorkLog.day_records d (combined_df inp))) di day_) /\
    worklog_daily inp src day_ sheet.
Proof.
  intros Hget Hsrc.
  destruct (worklog_add_daily_sheet_spec (today_date inp) (combined_df inp)
              (worklog_label inp) (loaded_wb inp ++ more)%list di day_ i src)
    as (sheet & Hrun & Hsheet).
  { apply wb_getitem_app, Hget. }
  { rewrite lookup_app_l by (apply (wb_getitem_lt _ _ _ Hget)). exact Hsrc. }
  exists sheet. split; [rewrite Hrun, <- app_assoc; reflexivity|].
  unfold worklog_daily.
  destruct (clone_title_extends (loaded_wb inp ++ more)%list (strftime_mdY day_))
    as [suffix Hs].
  exists suffix. rewrite <- Hs. exact Hsheet.
Qed.

Lemma daily_titles_not_total (P : date -> Worksheet -> Prop) (days : list date)
    (sheets : list Worksheet) :
  (forall d s, P d s -> exists suffix, title s = strftime_mdY d ++ suffix) ->
  Forall2 P days sheets -> "Total" ∉ sheetnames sheets.
Proof.
  intros HP H. induction H as [|d s days sheets Hds _ IH]; [intros Hin; inversion Hin|].
  unfold sheetnames. rewrite fmap_cons. intros Hin.
  apply elem_of_cons in Hin as [Heq|Hin]; [|exact (IH Hin)].
  destruct (HP d s Hds) as [suffix Hs]. rewrite Hs in Heq. symmetry in Heq.
  exact (daily_title_not_total d suffix Heq).
Qed.

Lemma automate_daily_title inp src d s :
  automate_daily inp src d s -> exists suffix, title s = strftime_mdY d ++ suffix.
Proof. intros [suffix (_ & Ht & _)]. exists suffix. exact Ht. Qed.

Lemma worklog_daily_title inp src d s :
  worklog_daily inp src d s -> exists suffix, title s = strftime_mdY d ++ suffix.
Proof. intros [suffix (_ & Ht & _)]. exists suffix. exact Ht. Qed.

(** The end of a run: the Total sheet is appended and the template
    hidden. *)
Lemma finish_spec wb0 (sheets : list Worksheet) di rate i src :
  wb_getitem wb0 AutomateExcel.TEMPLATE_SHEET_NAME = Ok i -> wb0 !! i = Some src ->
  "Total" ∉ sheetnames wb0 -> "Total" ∉ sheetnames sheets ->
  exists total suffix,
    AutomateExcel.finish (wb0 ++ sheets)%list di rate
    = Ok (<[i := set_sheet_state src hidden]> wb0 ++ sheets ++ [total])%list /\
    total_sheet di rate (new_sheet ("Total" ++ suffix)) total.
Proof.
  intros Hget Hsrc Hnot0 Hnot1.
  destruct (create_total_new (wb0 ++ sheets)%list di rate) as (total & Hrun & Htotal).
  { unfold sheetnames. rewrite fmap_app. intros Hin.
    apply elem_of_app in Hin as [Hin|Hin]; [exact (Hnot0 Hin)|exact (Hnot1 Hin)]. }
  destruct (avoid_duplicate_name_extends (sheetnames (wb0 ++ sheets)%list) "Total")
    as [suffix Hs].
  rewrite Hs in Htotal. exists total, suffix. split; [|exact Htotal].
  unfold AutomateExcel.finish. rewrite Hrun, bind_Ok.
  rewrite <- app_assoc.
  rewrite (wb_getitem_app wb0 (sheets ++ [total])%list _ i Hget), bind_Ok.
  pose proof (wb_getitem_lt _ _ _ Hget) as Hi.
  rewrite (on_sheet_at (wb0 ++ sheets ++ [total])%list i src _ (set_sheet_state src hidden) ()).
  - rewrite bind_Ok. rewrite insert_app_l by exact Hi. reflexivity.
  - rewrite lookup_app_l by exact Hi. exact Hsrc.
  - reflexivity.
Qed.

Lemma bind_Ok_pair {A B C} (a : A) (b : B) (k : A * B -> result C) :
  (Ok (a, b) ≫= k) = k (a, b).
Proof. reflexivity. Qed.

Lemma automate_main_spec inp i src :
  wb_getitem (loaded_wb inp) AutomateExcel.TEMPLATE_SHEET_NAME = Ok i ->
  loaded_wb inp !! i = Some src ->
  AutomateExcel.TOTAL_SHEET_NAME ∉ sheetnames (loaded_wb inp) ->
  exists sheets total suffix,
    AutomateExcel.main inp
    = Ok (<[i := set_sheet_state src hidden]> (loaded_wb inp) ++ sheets ++ [total])%list /\
    Forall2 (automate_daily inp src) (run_days inp) sheets /\
    total_sheet
      (daily_ranges (fun d => length (AutomateExcel.day_records d (automate_table inp) true))
         (run_days inp))
      (rate_in inp) (new_sheet ("Total" ++ suffix)) total.
Proof.
  intros Hget Hsrc Hnot.
  pose proof (wb_getitem_elem_of _ _ _ Hget) as Ht.
  set (count := fun d => length (AutomateExcel.day_records d (automate_table inp) true)).
  assert (Hloop : exists sheets,
    for_each (fun st day_ =>
                AutomateExcel.add_daily_sheet (today_date inp) (automate_table inp)
                  (automate_fallback inp day_) st day_)
      (run_days inp) (loaded_wb inp, ∅)
    = Ok ((loaded_wb inp ++ sheets)%list, daily_ranges count (run_days inp)) /\
    Forall2 (automate_daily inp src) (run_days inp) sheets).
  { destruct (days_loop
                (fun st day_ =>
                   AutomateExcel.add_daily_sheet (today_date inp) (automate_table inp)
                     (automate_fallback inp day_) st day_)
                count (automate_daily inp src) (loaded_wb inp)
                (fun more di day_ => automate_step inp i src more di day_ Hget Hsrc)
                (run_days inp) [] ∅) as (sheets & Hrun & HP).
    rewrite app_nil_r in Hrun. exists sheets. split; [exact Hrun|exact HP]. }
  destruct Hloop as (sheets & Hrun & HP).
  destruct (finish_spec (loaded_wb inp) sheets (daily_ranges count (run_days inp))
              (rate_in inp) i src Hget Hsrc Hnot
              (daily_titles_not_total _ _ _ (automate_daily_title inp src) HP))
    as (total & suffix & Hfinish & Htotal).
  exists sheets, total, suffix. split; [|split; [exact HP|exact Htotal]].
  rewrite <- Hfinish. clear Hfinish Htotal HP.
  unfold AutomateExcel.main. rewrite bool_decide_eq_true_2 by exact Ht. cbn [negb].
  subst count. unfold daily_ranges, run_days, automate_table, automate_fallback in *.
  destruct (date_range inp) as [|sd|sd ed].
  - rewrite for_each_cons in Hrun. cbv beta in Hrun.
    destruct (AutomateExcel.add_daily_sheet _ _ _ _ _) as [[wb1 di1]|e]; [|discriminate Hrun].
    rewrite bind_Ok in Hrun. injection Hrun as -> ->. reflexivity.
  - rewrite for_each_cons in Hrun. cbv beta in Hrun.
    destruct (AutomateExcel.add_daily_sheet _ _ _ _ _) as [[wb1 di1]|e]; [|discriminate Hrun].
    rewrite bind_Ok in Hrun. injection Hrun as -> ->. reflexivity.
  - rewrite Hrun. reflexivity.
Qed.

Lemma worklog_main_spec inp i src :
  wb_getitem (loaded_wb inp) WorkLog.TEMPLATE_SHEET_NAME = Ok i ->
  loaded_wb inp !! i = Some src ->
  WorkLog.TOTAL_SHEET_NAME ∉ sheetnames (loaded_wb inp) ->
  dates_from_prompt (date_range inp) ->
  exists sheets total suffix,
    WorkLog.main inp
    = Ok (<[i := set_sheet_state src hidden]> (loaded_wb inp) ++ sheets ++ [total])%list /\
    Forall2 (worklog_daily inp src) (run_days inp) sheets /\
    total_sheet
      (daily_ranges (fun d => length (WorkLog.day_records d (combined_df inp))) (run_days inp))
      (rate_in inp) (new_sheet ("Total" ++ suffix)) total.
Proof.
  intros Hget Hsrc Hnot Hdates.
  pose proof (wb_getitem_elem_of _ _ _ Hget) as Ht.
  pose proof (worklog_output_filename_spec (date_range inp) (today_date inp) Hdates) as Hname.
  set (count := fun d => length (WorkLog.day_records d (combined_df inp))).
  destruct (days_loop
              (WorkLog.add_daily_sheet (today_date inp) (combined_df inp) (worklog_label inp))
              count (worklog_daily inp src) (loaded_wb inp)
              (fun more di day_ => worklog_step inp i src more di day_ Hget Hsrc)
              (run_days inp) [] ∅) as (sheets & Hrun & HP).
  rewrite app_nil_r in Hrun. fold (daily_ranges count (run_days inp)) in Hrun.
  destruct (finish_spec (loaded_wb inp) sheets (daily_ranges count (run_days inp))
              (rate_in inp) i src Hget Hsrc Hnot
              (daily_titles_not_total _ _ _ (worklog_daily_title inp src) HP))
    as (total & suffix & Hfinish & Htotal).
  exists sheets, total, suffix. split; [|split; [exact HP|exact Htotal]].
  rewrite <- Hfinish. clear Hfinish Htotal HP.
  unfold WorkLog.main. rewrite bool_decide_eq_true_2 by exact Ht. cbn [negb].
  subst count. unfold daily_ranges, run_days, worklog_label in *.
  change WorkLog.create_date_list with AutomateExcel.create_date_list.
  destruct (date_range inp) as [|sd|sd ed]; cbv beta iota; rewrite Hrun, Hname; reflexivity.
Qed.
End runs.

(** ** The sheets and the workbook of a run *)

(** [apply_consistent_layout] of work_log.py, on a sheet of ordinary
    cells and with a label openpyxl stores as it is: it returns; the seven
    label cells and the seven header cells hold their texts, B1 today's date
    and B3 the label; the pane is frozen above row 7; every other cell,
    every style, the title, the merged ranges and the visibility are as
    before. *)
Theorem apply_consistent_layout_contents :
  forall (today : date) (ws : Worksheet) (date_label : string),
    all_plain ws ->
    storable (PyStr date_label) = true ->
    exists ws' : Worksheet,
      WorkLog.apply_consistent_layout today ws date_label = Ok ws' /\
      all_plain ws' /\
      title ws' = title ws /\ merged_ranges ws' = merged_ranges ws /\
      sheet_state ws' = sheet_state ws /\
      freeze_panes ws' = Some (7%positive, col_A) /\
      (forall c v, (c, v) ∈ label_cells (strftime_mdY today) date_label ++ header_cells ->
                   value_at ws' c = v) /\
      (forall c, c ∉ (label_cells (strftime_mdY today) date_label ++ header_cells).*1 ->
                 cell_at ws' c = cell_at ws c) /\
      (forall c, style_at ws' c = style_at ws c).
Proof.
  intros today ws date_label H _.
  pose proof (apply_consistent_layout_spec today ws date_label H) as Hrun.
  pose proof (NoDup_layout_cells (strftime_mdY today) date_label) as Hnd.
  remember (label_cells (strftime_mdY today) date_label ++ header_cells) as cells_a eqn:Ec.
  destruct (write_all_spec cells_a ws H) as (Ha & Hm & Hs & Hf & Hv).
  apply sheet_meta_inv in Hm as (Ht & Hr & _ & Hst).
  remember (write_all ws cells_a) as ws_w eqn:Ew.
  destruct (set_freeze_panes_meta ws_w (7%positive, col_A)) as (Ht_f & Hr_f & Hst_f).
  pose proof (freeze_panes_A7 ws_w) as Hz_f.
  pose proof (cell_at_set_freeze_panes ws_w (7%positive, col_A)) as Hc_f.
  pose proof (all_plain_set_freeze_panes ws_w (7%positive, col_A) Ha) as Hall.
  remember (set_freeze_panes ws_w (7%positive, col_A)) as ws' eqn:E'.
  exists ws'. split; [exact Hrun|]. split; [exact Hall|].
  split; [rewrite Ht_f; exact Ht|]. split; [rewrite Hr_f; exact Hr|].
  split; [rewrite Hst_f; exact Hst|]. split; [exact Hz_f|].
  split; [|split].
  - intros c v Hin. rewrite <- (Hv Hnd c v Hin). unfold value_at. rewrite Hc_f. reflexivity.
  - intros c Hc. rewrite Hc_f. apply Hf, Hc.
  - intros c. rewrite <- Hs. unfold style_at. rewrite Hc_f. reflexivity.
Qed.

(** [fill_daily_sheet] of automate_excel.py, on a sheet of ordinary
    cells, from a start row not above row 7 and with a table within the
    limits of openpyxl: it returns the last row written; B1 holds today's
    date when there is no record and the date of the sheet otherwise; B3
    holds the fallback date when there is no record and a fallback date is
    given; row 6 holds the seven column names; the pane is frozen above row
    7; the [i]-th record fills columns A to G of row [start_row + i], field
    by field; no other cell changes, and no style but that of column E. *)
Theorem automate_fill_daily_sheet_contents :
  forall (today : date) (sheet : Worksheet) (date_obj : date) (data_rows : DataFrame)
         (is_dataframe : bool) (start_row : positive) (fallback_date : option date),
    all_plain sheet ->
    (7 <= start_row)%positive ->
    table_within_limits data_rows ->
    let recs := AutomateExcel.day_records date_obj data_rows is_dataframe in
    exists ws' : Worksheet,
      AutomateExcel.fill_daily_sheet today sheet date_obj data_rows is_dataframe start_row
        fallback_date
      = Ok (ws', expected_last_row start_row (length recs)) /\
      sheet_written
        (stamp_cells today date_obj fallback_date (bool_decide (recs = [])) ++ header_cells)
        start_row recs sheet ws' /\
      freeze_panes ws' = Some (7%positive, col_A) /\
      (forall r k, k <> col_E -> style_at ws' (r, k) = style_at sheet (r, k)).
Proof.
  intros today sheet date_obj data_rows is_dataframe start_row fallback_date H HR _.
  exact (automate_fill_full today sheet date_obj data_rows is_dataframe start_row
           fallback_date H HR).
Qed.

(** [fill_daily_sheet] of work_log.py, on a sheet of ordinary cells and
    with a table within the limits of openpyxl: it returns the last row
    written; the [i]-th record fills columns A to G of row [start_row + i],
    field by field; no other cell changes, nor the title, the merged
    ranges, the visibility or the frozen pane. *)
Theorem worklog_fill_daily_sheet_contents :
  forall (sheet : Worksheet) (date_obj : date) (data_df : DataFrame) (start_row : positive),
    all_plain sheet ->
    table_within_limits data_df ->
    let recs := WorkLog.day_records date_obj data_df in
    exists ws' : Worksheet,
      WorkLog.fill_daily_sheet sheet date_obj data_df start_row
      = Ok (ws', expected_last_row start_row (length recs)) /\
      sheet_written [] start_row recs sheet ws' /\
      freeze_panes ws' = freeze_panes sheet.
Proof.
  intros sheet date_obj data_df start_row H _.
  exact (worklog_fill_full sheet date_obj data_df start_row H).
Qed.

(** One turn of the loop of [main] in automate_excel.py (clone, wipe,
    fill, record the range), in a workbook whose first sheet titled Template
    is [src], with a table within the limits of openpyxl: it returns, the
    new sheet is appended, and the range recorded under the date is row 7 to
    the last row written.  The sheet is titled with the date, followed by a
    count when that title was taken; it is a daily sheet made from [src]. *)
Theorem automate_daily_sheet_made :
  forall (today : date) (data_rows : DataFrame) (fallback_date : option date)
         (wb : Workbook) (daily_info : gmap string (Z * Z)) (day_ : date)
         (i : nat) (src : Worksheet),
    wb_getitem wb AutomateExcel.TEMPLATE_SHEET_NAME = Ok i ->
    wb !! i = Some src ->
    table_within_limits data_rows ->
    let recs := AutomateExcel.day_records day_ data_rows true in
    exists (sheet : Worksheet) (suffix : string),
      AutomateExcel.add_daily_sheet today data_rows fallback_date (wb, daily_info) day_
      = Ok (wb ++ [sheet],
            <[strftime_mdY day_ := (7%Z, expected_last_row 7 (length recs))]> daily_info) /\
      daily_sheet
        (stamp_cells today day_ fallback_date (bool_decide (recs = [])) ++ header_cells)
        recs src (strftime_mdY day_ ++ suffix)%string sheet /\
      (no_sheet_named wb (strftime_mdY day_) -> suffix = EmptyString).
Proof.
  intros today data_rows fallback_date wb daily_info day_ i src Hget Hsrc _ recs.
  destruct (automate_add_daily_sheet_spec today data_rows fallback_date wb daily_info day_
              i src Hget Hsrc) as (sheet & Hrun & Hsheet).
  fold recs in Hrun, Hsheet.
  destruct (clone_title_extends wb (strftime_mdY day_)) as [suffix Hs].
  rewrite Hs in Hsheet. exists sheet, suffix.
  split; [exact Hrun|]. split; [exact Hsheet|].
  intros Hfresh. rewrite (clone_title_fresh wb _ Hfresh (strftime_chars day_)) in Hs.
  destruct suffix as [|c suffix]; [reflexivity|].
  exfalso. symmetry in Hs. revert Hs. apply string_app_neq. discriminate.
Qed.

(** One turn of the loop of [main] in work_log.py (clone, labels, wipe,
    fill, C4, record the range), under the same conditions: it returns, the
    new sheet is appended and the range recorded; the sheet is a daily sheet
    made from [src] that holds the labels, the header row and, in C4, the
    formula summing columns C and D from row 7 to the last row written, or
    0 when no record was written. *)
Theorem worklog_daily_sheet_made :
  forall (today : date) (data_df : DataFrame) (date_label : string)
         (wb : Workbook) (daily_info : gmap string (Z * Z)) (day_ : date)
         (i : nat) (src : Worksheet),
    wb_getitem wb WorkLog.TEMPLATE_SHEET_NAME = Ok i ->
    wb !! i = Some src ->
    table_within_limits data_df ->
    storable (PyStr date_label) = true ->
    let recs := WorkLog.day_records day_ data_df in
    let last_row := expected_last_row 7 (length recs) in
    exists (sheet : Worksheet) (suffix : string),
      WorkLog.add_daily_sheet today data_df date_label (wb, daily_info) day_
      = Ok (wb ++ [sheet], <[strftime_mdY day_ := (7%Z, last_row)]> daily_info) /\
      daily_sheet (worklog_cells today date_label last_row) recs src
        (strftime_mdY day_ ++ suffix)%string sheet /\
      (no_sheet_named wb (strftime_mdY day_) -> suffix = EmptyString).
Proof.
  intros today data_df date_label wb daily_info day_ i src Hget Hsrc _ _ recs last_row.
  destruct (worklog_add_daily_sheet_spec today data_df date_label wb daily_info day_
              i src Hget Hsrc) as (sheet & Hrun & Hsheet).
  fold recs in Hrun, Hsheet. fold last_row in Hrun, Hsheet.
  destruct (clone_title_extends wb (strftime_mdY day_)) as [suffix Hs].
  rewrite Hs in Hsheet. exists sheet, suffix.
  split; [exact Hrun|]. split; [exact Hsheet|].
  intros Hfresh. rewrite (clone_title_fresh wb _ Hfresh (strftime_chars day_)) in Hs.
  destruct suffix as [|c suffix]; [reflexivity|].
  exfalso. symmetry in Hs. revert Hs. apply string_app_neq. discriminate.
Qed.

(** A run of [main] in automate_excel.py, in each of its three
    scenarios, for dates [prompt_date_range] can have returned (the end of
    a range before 9999-12-31, where the list of the days overflows), today
    and the days of the run having years of four digits.  When the loaded
    workbook holds a sheet titled Template, [src] being the first, and no
    sheet titled Total, and the table and the rate are within the limits of
    openpyxl, [main] returns, whatever merged-cell objects the template
    holds: the workbook it saves is the loaded one with the template
    hidden, then one daily sheet for each day of the run in the order of
    the days, then the Total sheet, which summarises the ranges recorded for
    the days. *)
Theorem automate_main_run :
  forall (inp : Inputs) (i : nat) (src : Worksheet),
    wb_getitem (loaded_wb inp) AutomateExcel.TEMPLATE_SHEET_NAME = Ok i ->
    loaded_wb inp !! i = Some src ->
    AutomateExcel.TOTAL_SHEET_NAME ∉ sheetnames (loaded_wb inp) ->
    dates_from_prompt (date_range inp) ->
    four_digit_date (today_date inp) ->
    Forall four_digit_date (run_days inp) ->
    table_within_limits (combined_df inp) ->
    storable (rate_in inp) = true ->
    exists (sheets : list Worksheet) (total : Worksheet) (suffix : string),
      AutomateExcel.main inp
      = Ok (<[i := set_sheet_state src hidden]> (loaded_wb inp) ++ sheets ++ [total]) /\
      Forall2 (automate_daily inp src) (run_days inp) sheets /\
      total_sheet
        (daily_ranges
           (fun d => length (AutomateExcel.day_records d (automate_table inp) true))
           (run_days inp))
        (rate_in inp) (new_sheet ("Total" ++ suffix)) total.
Proof.
  intros inp i src Hget Hsrc Hnot _ _ _ _ _.
  exact (automate_main_spec inp i src Hget Hsrc Hnot).
Qed.

(** A run of [main] in work_log.py, under the same conditions (the
    dates are dates [prompt_date_range] can have returned, so that the list
    of the days does not overflow and is not empty when the name of the
    file is made from its first day): it returns the loaded workbook with
    the template hidden, then one daily sheet for each day of the run, each
    with the labels, the header row and its C4 formula, then the Total
    sheet. *)
Theorem worklog_main_run :
  forall (inp : Inputs) (i : nat) (src : Worksheet),
    wb_getitem (loaded_wb inp) WorkLog.TEMPLATE_SHEET_NAME = Ok i ->
    loaded_wb inp !! i = Some src ->
    WorkLog.TOTAL_SHEET_NAME ∉ sheetnames (loaded_wb inp) ->
    dates_from_prompt (date_range inp) ->
    four_digit_date (today_date inp) ->
    Forall four_digit_date (run_days inp) ->
    table_within_limits (combined_df inp) ->
    storable (rate_in inp) = true ->
    exists (sheets : list Worksheet) (total : Worksheet) (suffix : string),
      WorkLog.main inp
      = Ok (<[i := set_sheet_state src hidden]> (loaded_wb inp) ++ sheets ++ [total]) /\
      Forall2 (worklog_daily inp src) (run_days inp) sheets /\
      total_sheet
        (daily_ranges (fun d => length (WorkLog.day_records d (combined_df inp)))
           (run_days inp))
        (rate_in inp) (new_sheet ("Total" ++ suffix)) total.
Proof.
  intros inp i src Hget Hsrc Hnot Hdates _ _ _ _.
  exact (worklog_main_spec inp i src Hget Hsrc Hnot Hdates).
Qed.

(** For the dates [prompt_date_range] can return, [main] of work_log.py,
    which takes the name of the file from the first and the last day of its
    list of days, gives the file the name [main] of automate_excel.py gives
    it from the dates typed; in particular its [date_list[0]] never
    fails. *)
Theorem output_filenames_agree :
  forall inp : Inputs,
    dates_from_prompt (date_range inp) ->
    WorkLog.output_filename (run_days inp)
    = Some (AutomateExcel.output_filename (date_range inp) (today_date inp)).
Proof.
  intros inp Hdates. exact (worklog_output_filename_spec _ (today_date inp) Hdates).
Qed.

(** ** Dates that were not parsed *)

Section unparsed_dates.

Lemma filter_nil_not {A} (P : A -> Prop) `{forall x, Decision (P x)} (l : list A) :
  (forall x, x ∈ l -> ~ P x) -> filter P l = [].
Proof.
  induction l as [|x l IH]; intros H0; [reflexivity|].
  rewrite filter_cons_False by (apply H0; left). apply IH.
  intros y Hy. apply H0. right. exact Hy.
Qed.

Lemma day_records_unparsed date_obj df :
  has_column "Date" df = true -> dates_unparsed df ->
  AutomateExcel.day_records date_obj df true = [].
Proof.
  intros Hcol Hraw. unfold AutomateExcel.day_records.
  destruct (df_empty df) eqn:E; [reflexivity|]. cbn [andb negb]. rewrite Hcol.
  unfold filter_date_eq. cbn [records]. apply filter_nil_not.
  intros rec Hrec Heq. specialize (Hraw rec).
  destruct (rec !! "Date") as [[| | | | |d]|]; try exact Heq.
  exact (Hraw d Hrec eq_refl).
Qed.
End unparsed_dates.

(** In the scenario without dates, [main] of automate_excel.py does not
    parse the Date column, which the two other scenarios do before they
    compare it with a date.  So when the table has a Date column as
    [read_csv] reads it, none of its values being a date, no record at all is
    written, whatever the dates say: the run returns with a daily sheet
    that holds no value from row 7 down and a Total sheet without a summary
    row. *)
Theorem automate_no_dates_run_writes_no_dated_record :
  forall (inp : Inputs) (i : nat) (src : Worksheet),
    date_range inp = NoDates ->
    wb_getitem (loaded_wb inp) AutomateExcel.TEMPLATE_SHEET_NAME = Ok i ->
    loaded_wb inp !! i = Some src ->
    AutomateExcel.TOTAL_SHEET_NAME ∉ sheetnames (loaded_wb inp) ->
    table_within_limits (combined_df inp) ->
    storable (rate_in inp) = true ->
    "Date" ∈ columns (combined_df inp) ->
    dates_unparsed (combined_df inp) ->
    AutomateExcel.day_records (today_date inp) (combined_df inp) true = [] /\
    exists (sheet total : Worksheet),
      AutomateExcel.main inp
      = Ok (<[i := set_sheet_state src hidden]> (loaded_wb inp) ++ [sheet; total]) /\
      empty_from 7 sheet /\ empty_from 4 total.
Proof.
  intros inp i src Hdr Hget Hsrc Hnot _ _ Hcol Hraw.
  assert (Hrecs : AutomateExcel.day_records (today_date inp) (combined_df inp) true = []).
  { apply day_records_unparsed; [|exact Hraw].
    unfold has_column. apply bool_decide_eq_true_2, Hcol. }
  split; [exact Hrecs|].
  destruct (automate_main_spec inp i src Hget Hsrc Hnot)
    as (sheets & total & suffix & Hrun & Hdaily & Htotal).
  assert (Htable : automate_table inp = combined_df inp).
  { unfold automate_table. rewrite Hdr. reflexivity. }
  unfold run_days in Hdaily, Htotal. rewrite Hdr in Hdaily, Htotal.
  rewrite Htable in Htotal.
  apply Forall2_cons_inv_l in Hdaily as (sheet & rest & Hsheet & Hrest & ->).
  apply Forall2_nil_inv_l in Hrest as ->.
  exists sheet, total. split; [exact Hrun|]. split.
  - destruct Hsheet as (sfx & Hd). rewrite Htable, Hrecs in Hd.
    destruct Hd as (_ & _ & _ & _ & _ & _ & _ & Hempty & _).
    intros r k Hr. apply Hempty; [exact Hr|apply data_cell_0].
  - destruct Htotal as (_ & _ & _ & _ & _ & _ & Hempty & _).
    unfold daily_ranges in Hempty. cbn [foldl] in Hempty. unfold add_range in Hempty.
    rewrite Hrecs in Hempty. change (expected_last_row 7 (length [])) with 6%Z in Hempty.
    rewrite summary_items_degenerate in Hempty. exact Hempty.
Qed.

(** ** Dates written and read back *)

Section round_trip.
Implicit Types (s R : string) (d : date).
#[local] Open Scope string_scope.

Lemma head_bind_cons {A B} (x : A) (l : list A) (f : A -> list B) y (ys : list B) :
  f x = y :: ys -> head ((x :: l) ≫= f) = Some y.
Proof. intros H. simpl. rewrite H. reflexivity. Qed.

Lemma list_bind_cons {A B} (x : A) (l : list A) (f : A -> list B) :
  ((x :: l) ≫= f) = (f x ++ (l ≫= f))%list.
Proof. reflexivity. Qed.

Lemma bind_singleton {A B} (x : A) (f : A -> list B) : ([x] ≫= f) = f x.
Proof. simpl. apply app_nil_r. Qed.

(** A month and a day of two digits are matched whole, first. *)
Lemma directive_m_two_digits m R :
  (1 <= m <= 12)%nat ->
  exists tl, directive_m (zfill 2 (str_of_nat m) ++ R) = (zfill 2 (str_of_nat m), R) :: tl.
Proof.
  intros Hm.
  assert (m = 1 \/ m = 2 \/ m = 3 \/ m = 4 \/ m = 5 \/ m = 6 \/ m = 7 \/ m = 8 \/ m = 9 \/
          m = 10 \/ m = 11 \/ m = 12)%nat as H by lia.
  repeat (destruct H as [->|H]; [eexists; reflexivity|]). subst m. eexists. reflexivity.
Qed.

Lemma directive_d_two_digits n R :
  (1 <= n <= 31)%nat ->
  exists tl, directive_d (zfill 2 (str_of_nat n) ++ R) = (zfill 2 (str_of_nat n), R) :: tl.
Proof.
  intros Hn. do 32 (destruct n as [|n]; [try lia; eexists; reflexivity|]). lia.
Qed.

Lemma int_of_text_two_digits n :
  (1 <= n <= 31)%nat -> int_of_text (zfill 2 (str_of_nat n)) = n.
Proof. intros Hn. do 32 (destruct n as [|n]; [try lia; reflexivity|]). lia. Qed.

Lemma directive_Y_digits a b c e R :
  is_digit a = true -> is_digit b = true -> is_digit c = true -> is_digit e = true ->
  directive_Y (String a (String b (String c (String e R))))
  = [(String a (String b (String c (String e ""))), R)].
Proof.
  intros Ha Hb Hc He. unfold directive_Y, then_, one_of. simpl.
  rewrite Ha. simpl. rewrite Hb. simpl. rewrite Hc. simpl. rewrite He. reflexivity.
Qed.

Lemma one_of_dash R : one_of (char_is "-") (String "-" R) = [("-", R)].
Proof. reflexivity. Qed.

(** A string of digits and dashes is one [strip] leaves as it is. *)
Lemma date_char_not_space c : date_char c = true -> is_space c = false.
Proof.
  destruct c as [[] [] [] [] [] [] [] []]; vm_compute; intros H; try discriminate H;
    reflexivity.
Qed.

Lemma rstrip_date_string s : string_forall date_char s = true -> rstrip s = s.
Proof.
  induction s as [|c s IH]; [reflexivity|]. simpl string_forall.
  intros [Hc Hs]%andb_prop. rewrite rstrip_cons_nonspace by (apply date_char_not_space, Hc).
  rewrite (IH Hs). reflexivity.
Qed.

Lemma strip_date_string s : string_forall date_char s = true -> strip s = s.
Proof.
  intros H. unfold strip. rewrite (rstrip_date_string s H).
  destruct s as [|c s]; [reflexivity|]. simpl in H. apply andb_prop in H as [Hc _].
  simpl. rewrite (date_char_not_space c Hc). reflexivity.
Qed.
(** The years from 1000 to 9999 are printed with four digits. *)
Lemma to_little_uint_succ (n : nat) (acc : Decimal.uint) :
  Nat.to_little_uint n (Decimal.Little.succ acc)
  = Decimal.Little.succ (Nat.to_little_uint n acc).
Proof.
  revert acc. induction n as [|n IH]; intros acc; [reflexivity|].
  cbn [Nat.to_little_uint]. apply IH.
Qed.

Lemma to_little_uint_add (j n : nat) :
  Nat.to_little_uint (j + n) Decimal.zero
  = Nat.iter j Decimal.Little.succ (Nat.to_little_uint n Decimal.zero).
Proof.
  induction j as [|j IH]; [reflexivity|].
  change (S j + n)%nat with (S (j + n)). cbn [Nat.to_little_uint Nat.iter nat_rect].
  rewrite to_little_uint_succ, IH. reflexivity.
Qed.

Lemma four_digits_from_sound (k : nat) : forall (u : Decimal.uint) (j : nat),
  four_digits_from k u = true -> (j < k)%nat ->
  String.length (NilZero.string_of_uint (Decimal.rev (Nat.iter j Decimal.Little.succ u)))
  = 4%nat.
Proof.
  induction k as [|k IH]; intros u j H Hj; [lia|].
  cbn [four_digits_from] in H. apply andb_prop in H as [H0 H].
  destruct j as [|j].
  - apply Nat.eqb_eq, H0.
  - rewrite Nat.iter_succ_r. apply IH; [exact H|lia].
Qed.

Lemma four_digits_1000_9999 :
  four_digits_from (9 * 1000) (Nat.to_little_uint 1000 Decimal.zero) = true.
Proof. vm_compute. reflexivity. Qed.

Lemma year_length (y : nat) :
  (1000 <= Z.of_nat y <= 9999)%Z -> String.length (str_of_nat y) = 4%nat.
Proof.
  intros Hy. assert (Hj : exists j, y = (j + 1000)%nat /\ (Z.of_nat j < 9000)%Z).
  { exists (Z.to_nat (Z.of_nat y - 1000)). split; [|lia].
    apply Nat2Z.inj. rewrite Nat2Z.inj_add, Z2Nat.id by lia.
    change (Z.of_nat 1000) with 1000%Z. lia. }
  destruct Hj as (j & -> & Hj). unfold str_of_nat, Nat.to_uint.
  rewrite to_little_uint_add.
  apply (four_digits_from_sound (9 * 1000)); [exact four_digits_1000_9999|].
  apply Nat2Z.inj_lt. rewrite Nat2Z.inj_mul. change (Z.of_nat 9) with 9%Z.
  change (Z.of_nat 1000) with 1000%Z. lia.
Qed.

Lemma digit_not_space c : is_digit c = true -> is_space c = false.
Proof.
  intros H. apply date_char_not_space. unfold date_char. rewrite H. reflexivity.
Qed.

(** [int] reads back the number [str] has printed. *)
Lemma int_of_text_str_of_nat (n : nat) : int_of_text (str_of_nat n) = n.
Proof.
  unfold int_of_text. rewrite strip_date_string.
  - unfold int_of_digits, str_of_nat. rewrite NilZero.usu.
    + apply DecimalNat.Unsigned.of_to.
    + intros H. pose proof (DecimalNat.Unsigned.to_of (Nat.to_uint n)) as E.
      rewrite DecimalNat.Unsigned.of_to, H in E. discriminate E.
  - apply (string_forall_impl is_digit); [|apply digits_str_of_nat].
    intros c Hc. unfold date_char. rewrite Hc. reflexivity.
Qed.

Lemma year_four_digits (y : nat) :
  (1000 <= Z.of_nat y <= 9999)%Z ->
  exists a b c e,
    zfill 4 (str_of_nat y) = String a (String b (String c (String e ""))) /\
    is_digit a = true /\ is_digit b = true /\ is_digit c = true /\ is_digit e = true /\
    int_of_text (String a (String b (String c (String e "")))) = y.
Proof.
  intros Hy. pose proof (year_length y Hy) as Hlen.
  pose proof (digits_str_of_nat y) as Hdig. pose proof (int_of_text_str_of_nat y) as Hint.
  unfold zfill. rewrite Hlen. cbn [Nat.sub zeros]. rewrite app_nil_l.
  destruct (str_of_nat y) as [|a [|b [|c [|e [|? ?]]]]]; try discriminate Hlen.
  cbn [string_forall] in Hdig.
  apply andb_prop in Hdig as [Ha Hdig]. apply andb_prop in Hdig as [Hb Hdig].
  apply andb_prop in Hdig as [Hc Hdig]. apply andb_prop in Hdig as [He _].
  exists a, b, c, e. split; [reflexivity|]. repeat (split; [assumption|]). exact Hint.
Qed.

Lemma valid_date_bounds d :
  valid_date d = true ->
  (1 <= month d <= 12)%nat /\ (1 <= day d <= 31)%nat /\ (Z.of_nat (year d) <= 9999)%Z.
Proof.
  intros H. pose proof (valid_date_calendar d H) as Hc.
  pose proof (calendar_day_le_31 d Hc). destruct Hc as [Hm Hd].
  unfold valid_date in H. rewrite !andb_true_iff, Z.leb_le in H. lia.
Qed.

(** A date printed as [%m-%d-%Y] is read back as the same date. *)
Lemma strptime_strftime d :
  valid_date d = true -> (1000 <= Z.of_nat (year d))%Z ->
  strptime_mdY (strftime_mdY d) = Some d.
Proof.
  intros Hv Hy. destruct (valid_date_bounds d Hv) as (Hm & Hd & Hy').
  destruct (year_four_digits (year d) (conj Hy Hy')) as (a & b & c & e & HY & Ha & Hb & Hc & He & Hint).
  unfold strftime_mdY. rewrite HY.
  set (mm := zfill 2 (str_of_nat (month d))). set (dd := zfill 2 (str_of_nat (day d))).
  set (Y := String a (String b (String c (String e "")))) in *.
  assert (Hmatch : match_mdY (mm ++ "-" ++ dd ++ "-" ++ Y) = Some (mm, dd, Y, "")).
  { unfold match_mdY.
    destruct (directive_m_two_digits (month d) ("-" ++ dd ++ "-" ++ Y) Hm) as [tl1 E1].
    destruct (directive_d_two_digits (day d) ("-" ++ Y) Hd) as [tl2 E2].
    fold mm in E1. fold dd in E2. rewrite E1. eapply head_bind_cons. cbv beta iota.
    rewrite app_cons, app_nil_l, one_of_dash, bind_singleton. cbv beta iota.
    rewrite E2, list_bind_cons. cbv beta iota.
    rewrite app_cons, app_nil_l, one_of_dash, bind_singleton. cbv beta iota.
    subst Y. rewrite (directive_Y_digits a b c e "" Ha Hb Hc He), bind_singleton.
    reflexivity. }
  unfold strptime_mdY. rewrite Hmatch. cbn [is_empty negb].
  subst mm dd. rewrite !int_of_text_two_digits by lia. subst Y. rewrite Hint.
  replace (mkdate (year d) (month d) (day d)) with d by (destruct d; reflexivity).
  rewrite Hv. reflexivity.
Qed.

Lemma strftime_inj d e :
  valid_date d = true -> (1000 <= Z.of_nat (year d))%Z ->
  valid_date e = true -> (1000 <= Z.of_nat (year e))%Z ->
  strftime_mdY d = strftime_mdY e -> d = e.
Proof.
  intros Hd Hyd He Hye Heq.
  pose proof (strptime_strftime d Hd Hyd) as H1. rewrite Heq in H1.
  rewrite (strptime_strftime e He Hye) in H1. congruence.
Qed.

End round_trip.

(** The dates the program writes (the titles of the daily sheets, B1,
    B3, the name of the file) are read back by [prompt_date_range] as the
    dates they are: for dates of the calendar with a year of four digits,
    typing the start date and the end date as the program prints them
    gives that range when the start is not later than the end, and ends the
    run otherwise. *)
Theorem prompt_date_range_reads_printed_dates :
  forall start_date end_date : date,
    valid_date start_date = true -> (1000 <= Z.of_nat (year start_date))%Z ->
    valid_date end_date = true -> (1000 <= Z.of_nat (year end_date))%Z ->
    strptime_mdY (strftime_mdY start_date) = Some start_date /\
    AutomateExcel.prompt_date_range (strftime_mdY start_date) EmptyString
    = Ok (StartOnly start_date) /\
    AutomateExcel.prompt_date_range (strftime_mdY start_date) (strftime_mdY end_date)
    = (if date_leb start_date end_date then Ok (Range start_date end_date)
       else Raise SystemExit) /\
    WorkLog.prompt_date_range (strftime_mdY start_date) (strftime_mdY end_date)
    = AutomateExcel.prompt_date_range (strftime_mdY start_date) (strftime_mdY end_date).
Proof.
  intros sd ed Hs Hys He Hye.
  pose proof (strptime_strftime sd Hs Hys) as Rs.
  pose proof (strptime_strftime ed He Hye) as Re.
  pose proof (strip_date_string _ (strftime_chars sd)) as Ss.
  pose proof (strip_date_string _ (strftime_chars ed)) as Se.
  assert (Ns : is_empty (strftime_mdY sd) = false).
  { destruct (strftime_head sd) as (c & rest & -> & _). reflexivity. }
  assert (Ne : is_empty (strftime_mdY ed) = false).
  { destruct (strftime_head ed) as (c & rest & -> & _). reflexivity. }
  split; [exact Rs|]. split; [|split; [|reflexivity]].
  - unfold AutomateExcel.prompt_date_range. rewrite Ss. change (strip "") with "".
    rewrite Ns. cbn [is_empty andb negb]. rewrite Rs. reflexivity.
  - unfold AutomateExcel.prompt_date_range. rewrite Ss, Se, Ns, Ne. cbn [andb negb].
    rewrite Rs, Re, date_leb_ltb. destruct (date_ltb ed sd); reflexivity.
Qed.

(** ** The titles of the daily sheets *)

Section titles.
Implicit Types (wb : Workbook) (di : gmap string (Z * Z)) (d : date).
#[local] Open Scope string_scope.

Lemma four_digit_date_inj d e :
  four_digit_date d -> four_digit_date e -> strftime_mdY d = strftime_mdY e -> d = e.
Proof. intros [Hd Hyd] [He Hye]. exact (strftime_inj d e Hd Hyd He Hye). Qed.

Lemma daily_ranges_snoc count (days : list date) d :
  daily_ranges count (days ++ [d]) = add_range count (daily_ranges count days) d.
Proof. unfold daily_ranges. rewrite foldl_app. reflexivity. Qed.

(** The ranges recorded in a run: one for each day, under the day. *)
Lemma daily_ranges_lookup count (days : list date) name r :
  Forall four_digit_date days ->
  daily_ranges count days !! name = Some r <->
  exists d, d ∈ days /\ name = strftime_mdY d /\ r = (7%Z, expected_last_row 7 (count d)).
Proof.
  revert name r. induction days as [|d days IH] using rev_ind; intros name r Hdays.
  - unfold daily_ranges. simpl. rewrite lookup_empty. split; [discriminate|].
    intros (d & Hin & _). inversion Hin.
  - apply Forall_app in Hdays as [Hdays Hd]. rewrite Forall_singleton in Hd.
    rewrite daily_ranges_snoc. unfold add_range.
    destruct (decide (strftime_mdY d = name)) as [<-|Hne].
    + rewrite lookup_insert_eq. split.
      * intros [= <-]. exists d. split; [apply elem_of_app; right; left|]. split; reflexivity.
      * intros (e & Hin & Hname & ->).
        assert (He : four_digit_date e).
        { apply elem_of_app in Hin as [Hin|Hin].
          - rewrite Forall_forall in Hdays. apply Hdays, Hin.
          - apply list_elem_of_singleton in Hin as ->. exact Hd. }
        rewrite (four_digit_date_inj d e Hd He Hname). reflexivity.
    + rewrite lookup_insert_ne by exact Hne. rewrite (IH name r Hdays). split.
      * intros (e & Hin & Hname & Hr). exists e. split; [apply elem_of_app; left; exact Hin|].
        split; assumption.
      * intros (e & Hin & Hname & Hr). exists e. split; [|split; assumption].
        apply elem_of_app in Hin as [Hin|Hin]; [exact Hin|].
        apply list_elem_of_singleton in Hin as ->. exfalso. apply Hne. symmetry. exact Hname.
Qed.

(** The rows of the Total sheet after a run: one for each day with a
    record, under the day. *)
Lemma summary_items_days count (days : list date) name first_row last_row :
  Forall four_digit_date days ->
  (name, (first_row, last_row)) ∈ summary_items (daily_ranges count days) <->
  exists d, d ∈ days /\ name = strftime_mdY d /\ first_row = 7%Z /\
            last_row = (6 + Z.of_nat (count d))%Z /\ (0 < count d)%nat.
Proof.
  intros Hdays. unfold summary_items. rewrite list_elem_of_filter, elem_of_sorted_items.
  rewrite (daily_ranges_lookup count days name (first_row, last_row) Hdays).
  unfold non_degenerate, expected_last_row. cbn [fst snd]. split.
  - intros [Hle (d & Hin & Hname & Hr)]. exists d. split; [exact Hin|]. split; [exact Hname|].
    injection Hr as -> ->. destruct (Nat.eqb_spec (count d) 0) as [E|E]; lia.
  - intros (d & Hin & Hname & -> & -> & Hpos). split; [lia|].
    exists d. split; [exact Hin|]. split; [exact Hname|].
    destruct (Nat.eqb_spec (count d) 0) as [E|E]; [lia|]. f_equal. f_equal. lia.
Qed.

(** The Total sheet of a run, read from its cells. *)
Lemma total_rows_of_days count (days : list date) (rate : PyValue) (old total : Worksheet) :
  Forall four_digit_date days ->
  total_sheet (daily_ranges count days) rate old total ->
  (forall name,
     (exists row, (4 <= row)%positive /\ value_at total (row, col_B) = PyStr name) <->
     (exists d, d ∈ days /\ name = strftime_mdY d /\ (0 < count d)%nat)) /\
  (forall d, d ∈ days -> (0 < count d)%nat ->
     exists k, summary_row total (row_add 4 k) (strftime_mdY d) 7
                 (6 + Z.of_nat (count d)) rate).
Proof.
  intros Hdays (_ & _ & _ & _ & _ & Hrows & Hempty & _).
  assert (Hday : forall d, d ∈ days -> (0 < count d)%nat ->
            exists k, summary_row total (row_add 4 k) (strftime_mdY d) 7
                        (6 + Z.of_nat (count d)) rate).
  { intros d Hd Hpos.
    assert (Hin : (strftime_mdY d, (7%Z, (6 + Z.of_nat (count d))%Z))
                  ∈ summary_items (daily_ranges count days)).
    { apply summary_items_days; [exact Hdays|]. exists d. repeat split; assumption. }
    apply list_elem_of_lookup in Hin as [k Hk]. exists k. exact (Hrows k _ _ _ Hk). }
  split; [|exact Hday].
  intros name. split.
  - intros (row & Hrow & Hval).
    set (k := (Pos.to_nat row - 4)%nat).
    assert (Erow : row = row_add 4 k) by (unfold row_add, k; lia).
    destruct (summary_items (daily_ranges count days) !! k) as [[n [fr lr]]|] eqn:Ek.
    + destruct (Hrows k n fr lr Ek) as (Hb & _). rewrite <- Erow, Hval in Hb.
      injection Hb as <-. apply list_elem_of_lookup_2 in Ek.
      apply summary_items_days in Ek; [|exact Hdays].
      destruct Ek as (d & Hd & Hname & _ & _ & Hpos). exists d. repeat split; assumption.
    + apply lookup_ge_None in Ek. rewrite (Hempty row col_B) in Hval; [discriminate Hval|].
      unfold row_add. lia.
  - intros (d & Hd & -> & Hpos). destruct (Hday d Hd Hpos) as (k & Hb & _).
    exists (row_add 4 k). split; [unfold row_add; lia|exact Hb].
Qed.

Lemma no_sheet_named_snoc wb (sheet : Worksheet) d e :
  no_sheet_named wb (strftime_mdY d) -> title sheet = strftime_mdY e ->
  four_digit_date d -> four_digit_date e -> d <> e ->
  no_sheet_named (wb ++ [sheet]) (strftime_mdY d).
Proof.
  intros Hwb Ht Hd He Hne n Hn. unfold sheetnames in Hn. rewrite fmap_app in Hn.
  apply elem_of_app in Hn as [Hn|Hn]; [exact (Hwb n Hn)|].
  apply list_elem_of_singleton in Hn as ->. rewrite Ht.
  rewrite !date_string_lower by apply strftime_chars.
  intros Heq. apply Hne. symmetry. exact (four_digit_date_inj e d He Hd Heq).
Qed.

(** The loop over the days on a workbook without sheets titled as the
    days: each sheet is titled with its day. *)
Lemma days_loop_titles (step : Workbook * gmap string (Z * Z) -> date ->
                               result (Workbook * gmap string (Z * Z)))
    (count : date -> nat) wb0 :
  (forall (more : list Worksheet) di day_,
     exists sheet,
       step ((wb0 ++ more)%list, di) day_
       = Ok ((wb0 ++ more ++ [sheet])%list, add_range count di day_) /\
       title sheet = clone_title (wb0 ++ more)%list (strftime_mdY day_)) ->
  forall (days : list date) (more : list Worksheet) di,
    Forall four_digit_date days -> NoDup days ->
    (forall d, d ∈ days -> no_sheet_named (wb0 ++ more)%list (strftime_mdY d)) ->
    exists sheets,
      for_each step days ((wb0 ++ more)%list, di)
      = Ok ((wb0 ++ more ++ sheets)%list, foldl (add_range count) di days) /\
      title <$> sheets = strftime_mdY <$> days.
Proof.
  intros Hstep. induction days as [|day_ days IH]; intros more di Hdays Hnd Hfresh.
  - exists []. rewrite app_nil_r. split; reflexivity.
  - destruct (Hstep more di day_) as (sheet & Hrun & Ht).
    rewrite clone_title_fresh in Ht by (apply Hfresh; left) || apply strftime_chars.
    apply Forall_cons in Hdays as [Hday Hdays]. apply NoDup_cons in Hnd as [Hnotin Hnd].
    destruct (IH (more ++ [sheet])%list (add_range count di day_) Hdays Hnd)
      as (sheets & Hrest & Hts).
    { intros d Hd. rewrite app_assoc. apply (no_sheet_named_snoc _ sheet d day_).
      - apply Hfresh. right. exact Hd.
      - exact Ht.
      - rewrite Forall_forall in Hdays. apply Hdays, Hd.
      - exact Hday.
      - intros ->. exact (Hnotin Hd). }
    exists (sheet :: sheets). rewrite for_each_cons, Hrun, bind_Ok. split.
    + rewrite Hrest. rewrite <- (app_assoc more [sheet] sheets). reflexivity.
    + rewrite !fmap_cons, Ht, Hts. reflexivity.
Qed.

Lemma bind_for_each_nil {S A B} (m : result S) (body : S -> A -> result S)
    (k : S -> result B) :
  ((m ≫= for_each body []) ≫= k) = (m ≫= k).
Proof. destruct m; reflexivity. Qed.

(** [main] is the loop over the days of the run, then the Total sheet. *)
Lemma automate_main_loop inp :
  AutomateExcel.TEMPLATE_SHEET_NAME ∈ sheetnames (loaded_wb inp) ->
  AutomateExcel.main inp
  = for_each (fun st day_ =>
                AutomateExcel.add_daily_sheet (today_date inp) (automate_table inp)
                  (automate_fallback inp day_) st day_)
      (run_days inp) (loaded_wb inp, ∅)
    ≫= (fun '(wb, di) => AutomateExcel.finish wb di (rate_in inp)).
Proof.
  intros Ht. unfold AutomateExcel.main. rewrite bool_decide_eq_true_2 by exact Ht.
  cbn [negb]. unfold run_days, automate_table, automate_fallback.
  destruct (date_range inp) as [|sd|sd ed]; cbv beta zeta.
  - rewrite for_each_cons, bind_for_each_nil. reflexivity.
  - rewrite for_each_cons, bind_for_each_nil. reflexivity.
  - reflexivity.
Qed.

Lemma worklog_main_loop inp :
  WorkLog.TEMPLATE_SHEET_NAME ∈ sheetnames (loaded_wb inp) ->
  dates_from_prompt (date_range inp) ->
  WorkLog.main inp
  = for_each (WorkLog.add_daily_sheet (today_date inp) (combined_df inp) (worklog_label inp))
      (run_days inp) (loaded_wb inp, ∅)
    ≫= (fun '(wb, di) => AutomateExcel.finish wb di (rate_in inp)).
Proof.
  intros Ht Hdates. unfold WorkLog.main. rewrite bool_decide_eq_true_2 by exact Ht.
  pose proof (worklog_output_filename_spec (date_range inp) (today_date inp) Hdates) as Hname.
  cbn [negb]. unfold run_days, worklog_label.
  change WorkLog.create_date_list with AutomateExcel.create_date_list.
  destruct (date_range inp) as [|sd|sd ed]; cbv beta iota; rewrite Hname; reflexivity.
Qed.

Lemma automate_step_title inp i (src : Worksheet) (more : list Worksheet) di day_ :
  wb_getitem (loaded_wb inp) AutomateExcel.TEMPLATE_SHEET_NAME = Ok i ->
  loaded_wb inp !! i = Some src ->
  exists sheet,
    AutomateExcel.add_daily_sheet (today_date inp) (automate_table inp)
      (automate_fallback inp day_) ((loaded_wb inp ++ more)%list, di) day_
    = Ok ((loaded_wb inp ++ more ++ [sheet])%list,
          add_range (fun d => length (AutomateExcel.day_records d (automate_table inp) true))
            di day_) /\
    title sheet = clone_title (loaded_wb inp ++ more)%list (strftime_mdY day_).
Proof.
  intros Hget Hsrc.
  destruct (automate_add_daily_sheet_spec (today_date inp) (automate_table inp)
              (automate_fallback inp day_) (loaded_wb inp ++ more)%list di day_ i src)
    as (sheet & Hrun & Hsheet).
  { apply wb_getitem_app, Hget. }
  { rewrite lookup_app_l by (apply (wb_getitem_lt _ _ _ Hget)). exact Hsrc. }
  exists sheet. split; [rewrite Hrun, <- app_assoc; reflexivity|].
  destruct Hsheet as (_ & Htitle & _). exact Htitle.
Qed.

Lemma worklog_step_title inp i (src : Worksheet) (more : list Worksheet) di day_ :
  wb_getitem (loaded_wb inp) WorkLog.TEMPLATE_SHEET_NAME = Ok i ->
  loaded_wb inp !! i = Some src ->
  exists sheet,
    WorkLog.add_daily_sheet (today_date inp) (combined_df inp) (worklog_label inp)
      ((loaded_wb inp ++ more)%list, di) day_
    = Ok ((loaded_wb inp ++ more ++ [sheet])%list,
          add_range (fun d => length (WorkLog.day_records d (combined_df inp))) di day_) /\
    title sheet = clone_title (loaded_wb inp ++ more)%list (strftime_mdY day_).
Proof.
  intros Hget Hsrc.
  destruct (worklog_add_daily_sheet_spec (today_date inp) (combined_df inp)
              (worklog_label inp) (loaded_wb inp ++ more)%list di day_ i src)
    as (sheet & Hrun & Hsheet).
  { apply wb_getitem_app, Hget. }
  { rewrite lookup_app_l by (apply (wb_getitem_lt _ _ _ Hget)). exact Hsrc. }
  exists sheet. split; [rewrite Hrun, <- app_assoc; reflexivity|].
  destruct Hsheet as (_ & Htitle & _). exact Htitle.
Qed.

Lemma run_days_NoDup inp : dates_from_prompt (date_range inp) -> NoDup (run_days inp).
Proof.
  unfold dates_from_prompt, run_days. destruct (date_range inp) as [|sd|sd ed].
  - intros _. apply NoDup_singleton.
  - intros _. apply NoDup_singleton.
  - intros (Hs & He & _ & Hle).
    destruct (create_date_list_spec sd ed Hs He Hle) as (n & -> & _).
    apply NoDup_days_after, valid_date_calendar, Hs.
Qed.

Lemma title_not_total (days : list date) (sheets : list Worksheet) :
  title <$> sheets = strftime_mdY <$> days -> "Total" ∉ sheetnames sheets.
Proof.
  unfold sheetnames. intros ->. intros Hin. apply list_elem_of_fmap in Hin as (d & Heq & _).
  symmetry in Heq. rewrite <- (string_app_nil_r (strftime_mdY d)) in Heq.
  exact (daily_title_not_total d "" Heq).
Qed.
End titles.

(** The titles of the daily sheets in a run of [main] of
    automate_excel.py.  When the days of the run are dates of the calendar
    with a year of four digits and the loaded workbook has no sheet titled
    as one of them (in any casing), every daily sheet is titled with its day
    as [%m-%d-%Y] prints it, without a count after it, and no two of them
    have the same title; column B of the Total sheet [main] returns holds
    a name from row 4 on exactly when the name is a day of the run with at
    least one record, and every such day has its summary row there, with
    the range from row 7 to row 6 plus the number of the records of the
    day: the formulas of the Total sheet name the sheet of the day. *)
Theorem automate_daily_sheets_titled_by_day :
  forall (inp : Inputs) (i : nat) (src : Worksheet),
    wb_getitem (loaded_wb inp) AutomateExcel.TEMPLATE_SHEET_NAME = Ok i ->
    loaded_wb inp !! i = Some src ->
    AutomateExcel.TOTAL_SHEET_NAME ∉ sheetnames (loaded_wb inp) ->
    dates_from_prompt (date_range inp) ->
    Forall four_digit_date (run_days inp) ->
    (forall d, d ∈ run_days inp -> no_sheet_named (loaded_wb inp) (strftime_mdY d)) ->
    table_within_limits (combined_df inp) ->
    storable (rate_in inp) = true ->
    let count := fun d => length (AutomateExcel.day_records d (automate_table inp) true) in
    exists (sheets : list Worksheet) (total : Worksheet),
      AutomateExcel.main inp
      = Ok (<[i := set_sheet_state src hidden]> (loaded_wb inp) ++ sheets ++ [total]) /\
      title <$> sheets = strftime_mdY <$> run_days inp /\
      NoDup (title <$> sheets) /\
      (forall name,
         (exists row, (4 <= row)%positive /\ value_at total (row, col_B) = PyStr name) <->
         (exists d, d ∈ run_days inp /\ name = strftime_mdY d /\ (0 < count d)%nat)) /\
      (forall d, d ∈ run_days inp -> (0 < count d)%nat ->
         exists k, summary_row total (row_add 4 k) (strftime_mdY d) 7
                     (6 + Z.of_nat (count d)) (rate_in inp)).
Proof.
  intros inp i src Hget Hsrc Hnot Hprompt Hdays Hfresh _ _ count.
  pose proof (wb_getitem_elem_of _ _ _ Hget) as Ht.
  pose proof (run_days_NoDup inp Hprompt) as Hnd.
  destruct (days_loop_titles
              (fun st day_ =>
                 AutomateExcel.add_daily_sheet (today_date inp) (automate_table inp)
                   (automate_fallback inp day_) st day_)
              count (loaded_wb inp)
              (fun more di day_ => automate_step_title inp i src more di day_ Hget Hsrc)
              (run_days inp) [] ∅ Hdays Hnd) as (sheets & Hrun & Htitles).
  { intros d Hd. rewrite app_nil_r. exact (Hfresh d Hd). }
  rewrite app_nil_r in Hrun. cbn [app] in Hrun.
  destruct (finish_spec (loaded_wb inp) sheets (foldl (add_range count) ∅ (run_days inp))
              (rate_in inp) i src Hget Hsrc Hnot (title_not_total _ _ Htitles))
    as (total & suffix & Hfinish & Htotal).
  exists sheets, total. split; [|split; [exact Htitles|split]].
  - rewrite (automate_main_loop inp Ht), Hrun, bind_Ok_pair. exact Hfinish.
  - rewrite Htitles. apply (NoDup_fmap_2_strong _); [|exact Hnd].
    intros d e Hd He. rewrite Forall_forall in Hdays.
    apply four_digit_date_inj; [apply Hdays, Hd|apply Hdays, He].
  - exact (total_rows_of_days count (run_days inp) (rate_in inp) _ total Hdays Htotal).
Qed.

(** The same for [main] of work_log.py: every daily sheet is titled
    with its day, no two alike; column B of the Total sheet [main] returns
    holds a name from row 4 on exactly when the name is a day of the run
    with at least one record, and every such day has its summary row
    there. *)
Theorem worklog_daily_sheets_titled_by_day :
  forall (inp : Inputs) (i : nat) (src : Worksheet),
    wb_getitem (loaded_wb inp) WorkLog.TEMPLATE_SHEET_NAME = Ok i ->
    loaded_wb inp !! i = Some src ->
    WorkLog.TOTAL_SHEET_NAME ∉ sheetnames (loaded_wb inp) ->
    dates_from_prompt (date_range inp) ->
    Forall four_digit_date (run_days inp) ->
    (forall d, d ∈ run_days inp -> no_sheet_named (loaded_wb inp) (strftime_mdY d)) ->
    table_within_limits (combined_df inp) ->
    storable (rate_in inp) = true ->
    let count := fun d => length (WorkLog.day_records d (combined_df inp)) in
    exists (sheets : list Worksheet) (total : Worksheet),
      WorkLog.main inp
      = Ok (<[i := set_sheet_state src hidden]> (loaded_wb inp) ++ sheets ++ [total]) /\
      title <$> sheets = strftime_mdY <$> run_days inp /\
      NoDup (title <$> sheets) /\
      (forall name,
         (exists row, (4 <= row)%positive /\ value_at total (row, col_B) = PyStr name) <->
         (exists d, d ∈ run_days inp /\ name = strftime_mdY d /\ (0 < count d)%nat)) /\
      (forall d, d ∈ run_days inp -> (0 < count d)%nat ->
         exists k, summary_row total (row_add 4 k) (strftime_mdY d) 7
                     (6 + Z.of_nat (count d)) (rate_in inp)).
Proof.
  intros inp i src Hget Hsrc Hnot Hprompt Hdays Hfresh _ _ count.
  pose proof (wb_getitem_elem_of _ _ _ Hget) as Ht.
  pose proof (run_days_NoDup inp Hprompt) as Hnd.
  destruct (days_loop_titles
              (WorkLog.add_daily_sheet (today_date inp) (combined_df inp) (worklog_label inp))
              count (loaded_wb inp)
              (fun more di day_ => worklog_step_title inp i src more di day_ Hget Hsrc)
              (run_days inp) [] ∅ Hdays Hnd) as (sheets & Hrun & Htitles).
  { intros d Hd. rewrite app_nil_r. exact (Hfresh d Hd). }
  rewrite app_nil_r in Hrun. cbn [app] in Hrun.
  destruct (finish_spec (loaded_wb inp) sheets (foldl (add_range count) ∅ (run_days inp))
              (rate_in inp) i src Hget Hsrc Hnot (title_not_total _ _ Htitles))
    as (total & suffix & Hfinish & Htotal).
  exists sheets, total. split; [|split; [exact Htitles|split]].
  - rewrite (worklog_main_loop inp Ht Hprompt), Hrun, bind_Ok_pair. exact Hfinish.
  - rewrite Htitles. apply (NoDup_fmap_2_strong _); [|exact Hnd].
    intros d e Hd He. rewrite Forall_forall in Hdays.
    apply four_digit_date_inj; [apply Hdays, Hd|apply Hdays, He].
  - exact (total_rows_of_days count (run_days inp) (rate_in inp) _ total Hdays Htotal).
Qed.

(** ** A run without records *)

Section empty_table.
Implicit Types (di : gmap string (Z * Z)) (d : date).
#[local] Open Scope string_scope.

Lemma daily_ranges_values count (days : list date) name r :
  daily_ranges count days !! name = Some r ->
  exists d, d ∈ days /\ r = (7%Z, expected_last_row 7 (count d)).
Proof.
  revert name r. induction days as [|d days IH] using rev_ind; intros name r.
  - unfold daily_ranges. simpl. rewrite lookup_empty. discriminate.
  - rewrite daily_ranges_snoc. unfold add_range. intros H.
    apply lookup_insert_Some in H as [[_ <-]|[_ H]].
    + exists d. split; [apply elem_of_app; right; left|reflexivity].
    + destruct (IH name r H) as (e & Hin & Hr). exists e.
      split; [apply elem_of_app; left; exact Hin|exact Hr].
Qed.

Lemma summary_items_no_records count (days : list date) :
  (forall d, count d = 0%nat) -> summary_items (daily_ranges count days) = [].
Proof.
  intros Hcount.
  destruct (summary_items _) as [|[n [fr lr]] l] eqn:E; [reflexivity|]. exfalso.
  assert (Hin : (n, (fr, lr)) ∈ summary_items (daily_ranges count days)) by (rewrite E; left).
  unfold summary_items in Hin. apply list_elem_of_filter in Hin as [Hnd Hin].
  apply elem_of_sorted_items in Hin.
  destruct (daily_ranges_values count days n (fr, lr) Hin) as (d & _ & Hr).
  rewrite Hcount in Hr. injection Hr as -> ->. unfold non_degenerate in Hnd.
  cbn in Hnd. lia.
Qed.

Lemma no_records_df_empty (df : DataFrame) : records df = [] -> df_empty df = true.
Proof. unfold df_empty. intros ->. destruct (columns df); reflexivity. Qed.

Lemma automate_table_no_records inp :
  records (combined_df inp) = [] -> automate_table inp = combined_df inp.
Proof.
  intros H. unfold automate_table. rewrite (no_records_df_empty _ H).
  destruct (date_range inp); reflexivity.
Qed.

Lemma automate_day_records_none d (df : DataFrame) :
  records df = [] -> AutomateExcel.day_records d df true = [].
Proof.
  intros H. unfold AutomateExcel.day_records. rewrite (no_records_df_empty _ H). reflexivity.
Qed.

Lemma worklog_day_records_none d (df : DataFrame) :
  records df = [] -> WorkLog.day_records d df = [].
Proof.
  intros H. unfold WorkLog.day_records. rewrite (no_records_df_empty _ H). exact H.
Qed.

Lemma Forall2_sheets {A} (P : A -> Worksheet -> Prop) (Q : Worksheet -> Prop)
    (days : list A) (sheets : list Worksheet) :
  (forall x s, P x s -> Q s) -> Forall2 P days sheets ->
  length sheets = length days /\ Forall Q sheets.
Proof.
  intros HPQ H. induction H as [|x s days sheets Hxs _ [IHl IHq]].
  - split; [reflexivity|constructor].
  - split; [simpl; rewrite IHl; reflexivity|constructor; [exact (HPQ x s Hxs)|exact IHq]].
Qed.
End empty_table.

(** A run on a table without rows, as when no file is given, in any of
    the three scenarios, for dates [prompt_date_range] can have returned:
    each program returns with one daily sheet for each day of the run, none
    holding a value from row 7 down, and a Total sheet without a summary
    row; in work_log.py C4 of each daily sheet holds the number 0 instead
    of a formula. *)
Theorem run_without_records :
  forall (inp : Inputs) (i : nat) (src : Worksheet),
    wb_getitem (loaded_wb inp) AutomateExcel.TEMPLATE_SHEET_NAME = Ok i ->
    loaded_wb inp !! i = Some src ->
    AutomateExcel.TOTAL_SHEET_NAME ∉ sheetnames (loaded_wb inp) ->
    dates_from_prompt (date_range inp) ->
    records (combined_df inp) = [] ->
    storable (rate_in inp) = true ->
    (exists (sheets : list Worksheet) (total : Worksheet),
       AutomateExcel.main inp
       = Ok (<[i := set_sheet_state src hidden]> (loaded_wb inp) ++ sheets ++ [total]) /\
       length sheets = length (run_days inp) /\
       Forall (empty_from 7) sheets /\ empty_from 4 total) /\
    (exists (sheets : list Worksheet) (total : Worksheet),
       WorkLog.main inp
       = Ok (<[i := set_sheet_state src hidden]> (loaded_wb inp) ++ sheets ++ [total]) /\
       length sheets = length (run_days inp) /\
       Forall (fun s => empty_from 7 s /\ value_at s (4, col_C)%positive = PyInt 0) sheets /\
       empty_from 4 total).
Proof.
  intros inp i src Hget Hsrc Hnot Hdates Hrecs _. split.
  - destruct (automate_main_spec inp i src Hget Hsrc Hnot)
      as (sheets & total & suffix & Hrun & Hdaily & Htotal).
    exists sheets, total. split; [exact Hrun|].
    assert (Hd1 : forall d s, automate_daily inp src d s -> empty_from 7 s).
    { intros d s (sfx & Hd). rewrite (automate_table_no_records inp Hrecs) in Hd.
      rewrite (automate_day_records_none d _ Hrecs) in Hd.
      destruct Hd as (_ & _ & _ & _ & _ & _ & _ & Hempty & _).
      intros r k Hr. apply Hempty; [exact Hr|apply data_cell_0]. }
    destruct (Forall2_sheets _ _ _ _ Hd1 Hdaily) as [Hlen Hempty].
    split; [exact Hlen|]. split; [exact Hempty|].
    destruct Htotal as (_ & _ & _ & _ & _ & _ & Hempty4 & _).
    rewrite summary_items_no_records in Hempty4; [exact Hempty4|].
    intros d. rewrite (automate_table_no_records inp Hrecs).
    rewrite (automate_day_records_none d _ Hrecs). reflexivity.
  - destruct (worklog_main_spec inp i src Hget Hsrc Hnot Hdates)
      as (sheets & total & suffix & Hrun & Hdaily & Htotal).
    exists sheets, total. split; [exact Hrun|].
    assert (Hd1 : forall d s, worklog_daily inp src d s ->
                    empty_from 7 s /\ value_at s (4, col_C)%positive = PyInt 0).
    { intros d s (sfx & Hd). rewrite (worklog_day_records_none d _ Hrecs) in Hd.
      destruct Hd as (_ & _ & _ & _ & _ & Hw & _ & Hempty & _). split.
      - intros r k Hr. apply Hempty; [exact Hr|apply data_cell_0].
      - apply (Hw (4, col_C)%positive (PyInt 0)). unfold worklog_cells.
        rewrite !elem_of_app. right. right. left. }
    destruct (Forall2_sheets _ _ _ _ Hd1 Hdaily) as [Hlen Hempty].
    split; [exact Hlen|]. split; [exact Hempty|].
    destruct Htotal as (_ & _ & _ & _ & _ & _ & Hempty4 & _).
    rewrite summary_items_no_records in Hempty4; [exact Hempty4|].
    intros d. rewrite (worklog_day_records_none d _ Hrecs). reflexivity.
Qed.

(** ** The wipe of work_log.py on a sheet with merged cells *)

Section safe_clear.
Implicit Types (ws : Worksheet) (c : coord) (v : PyValue).

Lemma write_top_left_find ws c v (ranges : list CellRange) :
  AutomateExcel.write_top_left ws c v ranges
  = match List.find (fun r => range_contains r c) ranges with
    | Some r => set_value (ws_cell ws (anchor r)) (anchor r) v
    | None => Ok ws
    end.
Proof.
  induction ranges as [|r ranges IH]; [reflexivity|].
  simpl. destruct (range_contains r c); [reflexivity|exact IH].
Qed.

Lemma with_value_kind v x :
  isinstance_MergedCell (with_value v x) = isinstance_MergedCell x.
Proof. destruct x; reflexivity. Qed.

Lemma with_value_idem v x : with_value v (with_value v x) = with_value v x.
Proof. destruct x; reflexivity. Qed.

Lemma with_value_style v x : cell_style (with_value v x) = cell_style x.
Proof. destruct x; reflexivity. Qed.

Lemma with_value_None x : cell_value (with_value PyNone x) = PyNone.
Proof. destruct x; reflexivity. Qed.

(** One call of [safe_set_cell] on a sheet whose ranges have ordinary
    top-left cells. *)
Lemma safe_set_cell_target ws c v :
  anchors_plain ws ->
  exists ws1,
    AutomateExcel.safe_set_cell ws c v = Ok ws1 /\
    (forall c', cell_at ws1 c' =
                if decide (c' = write_target ws c) then with_value v (cell_at ws c')
                else cell_at ws c') /\
    sheet_meta ws1 = sheet_meta ws.
Proof.
  intros Hanchors. unfold write_target.
  destruct (isinstance_MergedCell (cell_at ws c)) eqn:Hkind.
  - unfold AutomateExcel.safe_set_cell. rewrite cell_at_ws_cell, Hkind.
    rewrite merged_ranges_ws_cell, write_top_left_find.
    destruct (List.find _ (merged_ranges ws)) as [r|] eqn:Efind.
    + apply List.find_some in Efind as [Hin _]. apply list_elem_of_In in Hin.
      pose proof (Hanchors r Hin) as Hpl.
      rewrite set_value_plain by (apply plain_at_ws_cell, plain_at_ws_cell, Hpl).
      eexists. split; [reflexivity|]. split.
      * intros c'. rewrite cell_at_put, !cell_at_ws_cell. unfold style_at.
        rewrite !cell_at_ws_cell.
        destruct (decide (anchor r = c')) as [<-|Hne], (decide (_ = anchor r)) as [E|E];
          try congruence.
        unfold plain_at in Hpl. destruct (cell_at ws (anchor r)); [reflexivity|discriminate].
      * rewrite sheet_meta_put, !sheet_meta_ws_cell. reflexivity.
    + eexists. split; [reflexivity|]. split; [|apply sheet_meta_ws_cell].
      intros c'. rewrite cell_at_ws_cell. destruct (decide (c' = c)) as [->|]; [|reflexivity].
      destruct (cell_at ws c); [discriminate Hkind|reflexivity].
  - rewrite safe_set_cell_plain by exact Hkind. eexists. split; [reflexivity|]. split.
    + intros c'. rewrite cell_at_put, cell_at_ws_cell. unfold style_at.
      destruct (decide (c = c')) as [<-|Hne], (decide (_ = c)) as [E|E]; try congruence.
      destruct (cell_at ws c); [reflexivity|discriminate].
    + rewrite sheet_meta_put. apply sheet_meta_ws_cell.
Qed.

(** Sheets with the same kinds of cell objects and the same ranges. *)
Lemma write_target_same ws ws1 :
  (forall c, isinstance_MergedCell (cell_at ws1 c) = isinstance_MergedCell (cell_at ws c)) ->
  merged_ranges ws1 = merged_ranges ws ->
  forall c, write_target ws1 c = write_target ws c.
Proof. intros Hk Hr c. unfold write_target. rewrite Hk, Hr. reflexivity. Qed.

Lemma anchors_plain_same ws ws1 :
  (forall c, isinstance_MergedCell (cell_at ws1 c) = isinstance_MergedCell (cell_at ws c)) ->
  merged_ranges ws1 = merged_ranges ws ->
  anchors_plain ws -> anchors_plain ws1.
Proof.
  intros Hk Hr H r Hin. unfold plain_at. rewrite Hk. apply H. rewrite <- Hr. exact Hin.
Qed.

Lemma blanked_kinds v (P : coord -> Prop) {Hdec : forall c, Decision (P c)} ws ws1 :
  (forall c', cell_at ws1 c' =
              if decide (P c') then with_value v (cell_at ws c') else cell_at ws c') ->
  forall c, isinstance_MergedCell (cell_at ws1 c) = isinstance_MergedCell (cell_at ws c).
Proof.
  intros H c. rewrite H. destruct (decide (P c)); [apply with_value_kind|reflexivity].
Qed.

Lemma safe_cells v (l : list coord) : forall ws,
  anchors_plain ws ->
  exists ws',
    for_each (fun ws c => AutomateExcel.safe_set_cell ws c v) l ws = Ok ws' /\
    (forall c', cell_at ws' c' =
                if decide (c' ∈ write_target ws <$> l) then with_value v (cell_at ws c')
                else cell_at ws c') /\
    sheet_meta ws' = sheet_meta ws.
Proof.
  induction l as [|c l IH]; intros ws Hanchors.
  - exists ws. split; [reflexivity|]. split; [|reflexivity].
    intros c'. destruct (decide (c' ∈ _)) as [H|]; [inversion H|reflexivity].
  - destruct (safe_set_cell_target ws c v Hanchors) as (ws1 & Hrun & Hcell & Hmeta).
    pose proof (blanked_kinds v (fun c' => c' = write_target ws c) ws ws1 Hcell) as Hk.
    pose proof (sheet_meta_merged_ranges _ _ Hmeta) as Hr.
    destruct (IH ws1 (anchors_plain_same ws ws1 Hk Hr Hanchors))
      as (ws' & Hrest & Hcell' & Hmeta').
    exists ws'. rewrite for_each_cons, Hrun, bind_Ok. split; [exact Hrest|].
    split; [|congruence].
    intros c'. rewrite Hcell', Hcell, fmap_cons.
    rewrite (list_fmap_ext (write_target ws1) (write_target ws) l)
      by (intros ? c2 _; apply (write_target_same ws ws1 Hk Hr)).
    destruct (decide (c' ∈ write_target ws <$> l)) as [H1|H1],
      (decide (c' = write_target ws c)) as [H2|H2],
      (decide (c' ∈ write_target ws c :: (write_target ws <$> l))) as [H3|H3];
      try reflexivity; try apply with_value_idem;
      exfalso; apply H3 || (apply elem_of_cons in H3 as [H3|H3]; contradiction);
      apply elem_of_cons; auto.
Qed.

Lemma write_target_touch_row ws row c :
  write_target (touch_row ws row) c = write_target ws c.
Proof.
  apply write_target_same; [intros c'; rewrite cell_at_touch_row; reflexivity|].
  apply merged_ranges_touch_row.
Qed.

Lemma safe_rows v (rows : list (list coord)) : forall ws,
  anchors_plain ws ->
  exists ws',
    for_each (fun ws row => for_each (fun ws c => AutomateExcel.safe_set_cell ws c v) row
                              (touch_row ws row)) rows ws = Ok ws' /\
    (forall c', cell_at ws' c' =
                if decide (c' ∈ write_target ws <$> mjoin rows)
                then with_value v (cell_at ws c') else cell_at ws c') /\
    sheet_meta ws' = sheet_meta ws.
Proof.
  induction rows as [|row rows IH]; intros ws Hanchors.
  - exists ws. split; [reflexivity|]. split; [|reflexivity].
    intros c'. destruct (decide (c' ∈ _)) as [H|]; [inversion H|reflexivity].
  - destruct (safe_cells v row (touch_row ws row)) as (ws1 & Hrun & Hcell & Hmeta).
    { apply (anchors_plain_same ws); [intros c; apply f_equal, cell_at_touch_row| |exact Hanchors].
      apply merged_ranges_touch_row. }
    rewrite sheet_meta_touch_row in Hmeta.
    assert (Hcell1 : forall c', cell_at ws1 c' =
              if decide (c' ∈ write_target ws <$> row) then with_value v (cell_at ws c')
              else cell_at ws c').
    { intros c'. rewrite Hcell, cell_at_touch_row.
      rewrite (list_fmap_ext (write_target (touch_row ws row)) (write_target ws) row)
        by (intros ? c2 _; apply write_target_touch_row).
      reflexivity. }
    clear Hcell.
    pose proof (blanked_kinds v (fun c' => c' ∈ write_target ws <$> row) ws ws1 Hcell1) as Hk.
    pose proof (sheet_meta_merged_ranges _ _ Hmeta) as Hr.
    destruct (IH ws1 (anchors_plain_same ws ws1 Hk Hr Hanchors))
      as (ws' & Hrest & Hcell' & Hmeta').
    exists ws'. rewrite for_each_cons, Hrun, bind_Ok. split; [exact Hrest|].
    split; [|congruence].
    intros c'. rewrite Hcell', Hcell1.
    rewrite (list_fmap_ext (write_target ws1) (write_target ws) (mjoin rows))
      by (intros ? c2 _; apply (write_target_same ws ws1 Hk Hr)).
    change (mjoin (row :: rows)) with (row ++ mjoin rows). rewrite fmap_app.
    destruct (decide (c' ∈ write_target ws <$> mjoin rows)) as [H1|H1],
      (decide (c' ∈ write_target ws <$> row)) as [H2|H2],
      (decide (c' ∈ (write_target ws <$> row) ++ (write_target ws <$> mjoin rows)))
        as [H3|H3];
      try reflexivity; try apply with_value_idem;
      exfalso; apply H3 || (apply elem_of_app in H3 as [H3|H3]; contradiction);
      apply elem_of_app; auto.
Qed.

Lemma anchors_plainb_sound ws : anchors_plainb ws = true -> anchors_plain ws.
Proof.
  unfold anchors_plainb. rewrite forallb_forall. intros H r Hin.
  apply list_elem_of_In, H in Hin. unfold plain_at.
  destruct (isinstance_MergedCell _); [discriminate Hin|reflexivity].
Qed.
End safe_clear.

(** [clear_sheet_data] of work_log.py on a sheet that stores
    merged-cell objects, the top-left cell of every recorded range being an
    ordinary cell (a sheet as [load_workbook] builds it): it returns; no
    cell from [start_row] down holds a value; for every coordinate it visits
    the cell [safe_set_cell] writes to holds no value, and such a cell may
    lie above [start_row]: the top-left cell of a range that reaches into
    the rows wiped loses its value.  A cell that is written to for no
    coordinate visited is as before; the styles, the kinds of the cell
    objects, the title, the merged ranges, the pane and the visibility are
    unchanged. *)
Theorem worklog_clear_sheet_data_on_merged_cells :
  forall (ws : Worksheet) (start_row : positive),
    anchors_plain ws ->
    exists ws',
      WorkLog.clear_sheet_data ws start_row = Ok ws' /\
      empty_from start_row ws' /\
      (forall r k, (start_row <= r <= max_row ws)%positive -> (k <= max_column ws)%positive ->
         value_at ws' (write_target ws (r, k)) = PyNone) /\
      (forall c,
         (forall r k, (start_row <= r <= max_row ws)%positive -> (k <= max_column ws)%positive ->
            c <> write_target ws (r, k)) ->
         cell_at ws' c = cell_at ws c) /\
      (forall c, style_at ws' c = style_at ws c /\
                 isinstance_MergedCell (cell_at ws' c) = isinstance_MergedCell (cell_at ws c)) /\
      sheet_meta ws' = sheet_meta ws.
Proof.
  intros ws n Hanchors.
  destruct (safe_rows PyNone (iter_rows ws n (max_row ws)) ws Hanchors)
    as (ws' & Hrun & Hcell & Hmeta).
  exists ws'. split; [exact Hrun|].
  assert (Hvisit : forall r k, (n <= r <= max_row ws)%positive -> (k <= max_column ws)%positive ->
            write_target ws (r, k) ∈ write_target ws <$> mjoin (iter_rows ws n (max_row ws))).
  { intros r k Hr Hk. apply list_elem_of_fmap. exists (r, k). split; [reflexivity|].
    apply elem_of_iter_rows. lia. }
  split; [|split; [|split; [|split; [|exact Hmeta]]]].
  - intros r k Hr. unfold value_at. rewrite Hcell.
    destruct (decide (_ ∈ _)) as [|Hout]; [apply with_value_None|].
    destruct (cells ws !! (r, k)) as [x|] eqn:E.
    + apply stored_within_bounds in E.
      destruct (isinstance_MergedCell (cell_at ws (r, k))) eqn:Hkind.
      * destruct (cell_at ws (r, k)); [discriminate Hkind|reflexivity].
      * exfalso. apply Hout. specialize (Hvisit r k). unfold write_target in Hvisit at 1.
        rewrite Hkind in Hvisit. apply Hvisit; lia.
    + unfold cell_at. rewrite E. reflexivity.
  - intros r k Hr Hk. unfold value_at. rewrite Hcell.
    rewrite decide_True by (apply Hvisit; assumption). apply with_value_None.
  - intros c Hc. rewrite Hcell. rewrite decide_False; [reflexivity|].
    intros Hin. apply list_elem_of_fmap in Hin as ([r k] & Heq & Hin).
    apply elem_of_iter_rows in Hin. apply (Hc r k); [lia|lia|exact Heq].
  - intros c. unfold style_at. rewrite Hcell.
    destruct (decide (_ ∈ _)); [split; [apply with_value_style|apply with_value_kind]|].
    split; reflexivity.
Qed.

(** ** The theorems of this part on sample data *)

Lemma sample_header_line :
  exists (i : nat) (line : string),
    AutomateExcel.find_header_line sample_lines 0 = Some i /\
    AutomateExcel.header_line_index sample_lines = i /\
    WorkLog.header_index sample_lines = i /\
    WorkLog.check_file_format sample_readlines "log.csv" = Ok () /\
    sample_lines !! i = Some line /\
    AutomateExcel.has_required_columns (strip line) = true /\
    forall j l, (j < i)%nat -> sample_lines !! j = Some l ->
                AutomateExcel.has_required_columns (strip l) = false.
Proof.
  exact (header_line_found_after_check sample_readlines "log.csv" sample_lines eq_refl eq_refl).
Defined.

Lemma sample_date_range :
  WorkLog.prompt_date_range "01-02-2024" " 01-05-2024 "
  = Ok (Range (mkdate 2024 1 2) (mkdate 2024 1 5)) /\
  strptime_mdY (strip "01-02-2024") = Some (mkdate 2024 1 2) /\
  strptime_mdY (strip " 01-05-2024 ") = Some (mkdate 2024 1 5) /\
  valid_date (mkdate 2024 1 2) = true /\ valid_date (mkdate 2024 1 5) = true /\
  date_leb (mkdate 2024 1 2) (mkdate 2024 1 5) = true.
Proof.
  exact (prompt_date_range_sound "01-02-2024" " 01-05-2024 "
           (Range (mkdate 2024 1 2) (mkdate 2024 1 5)) eq_refl).
Defined.

Lemma sample_end_date_alone :
  AutomateExcel.prompt_date_range "  " "01-05-2024" = Raise SystemExit /\
  WorkLog.prompt_date_range "  " "01-05-2024" = Raise SystemExit.
Proof.
  apply (prompt_date_range_end_date_alone "  " "01-05-2024"); [reflexivity|discriminate].
Defined.

Lemma sample_file_paths :
  WorkLog.prompt_file_paths sample_path_exists sample_paths_line = Ok ["log.csv"; "log.csv"] /\
  (["log.csv"; "log.csv"] = [] <-> strip sample_paths_line = EmptyString) /\
  (forall fp, fp ∈ ["log.csv"; "log.csv"] ->
              sample_path_exists fp = true /\ strip_char dquote fp = fp) /\
  (strip sample_paths_line <> EmptyString ->
   length ["log.csv"; "log.csv"] = length (split_on "," (strip sample_paths_line))).
Proof.
  exact (prompt_file_paths_sound sample_path_exists sample_paths_line ["log.csv"; "log.csv"]
           eq_refl).
Defined.

Lemma sample_trailing_comma :
  AutomateExcel.prompt_file_paths sample_path_exists "log.csv," = Raise SystemExit /\
  WorkLog.prompt_file_paths sample_path_exists "log.csv," = Raise SystemExit.
Proof. exact (prompt_file_paths_trailing_comma sample_path_exists "log.csv" eq_refl). Defined.

(** Four days, the leap day among them. *)
Lemma sample_date_list :
  WorkLog.create_date_list (mkdate 2024 2 27) (mkdate 2024 3 1)
  = AutomateExcel.create_date_list (mkdate 2024 2 27) (mkdate 2024 3 1) /\
  (date_leb (mkdate 2024 2 27) (mkdate 2024 3 1) = false ->
   AutomateExcel.create_date_list (mkdate 2024 2 27) (mkdate 2024 3 1) = []) /\
  (date_leb (mkdate 2024 2 27) (mkdate 2024 3 1) = true ->
   exists n : nat,
     AutomateExcel.create_date_list (mkdate 2024 2 27) (mkdate 2024 3 1)
     = days_after (mkdate 2024 2 27) <$> seq 0 (S n) /\
     days_after (mkdate 2024 2 27) n = mkdate 2024 3 1 /\
     NoDup (AutomateExcel.create_date_list (mkdate 2024 2 27) (mkdate 2024 3 1))).
Proof.
  exact (create_date_list_days (mkdate 2024 2 27) (mkdate 2024 3 1) eq_refl eq_refl eq_refl).
Defined.

Example sample_date_list_value :
  AutomateExcel.create_date_list (mkdate 2024 2 27) (mkdate 2024 3 1)
  = [mkdate 2024 2 27; mkdate 2024 2 28; mkdate 2024 2 29; mkdate 2024 3 1].
Proof. vm_compute. reflexivity. Qed.

Lemma sample_filter_df :
  (true = true <-> df_empty sample_data = false /\ "Date" ∈ columns sample_data) /\
  (true = false -> sample_data = sample_data) /\
  (true = true ->
   columns sample_data = columns sample_data /\
   sublist (records sample_data) (records (parse_date_column sample_parse sample_data)) /\
   forall r, r ∈ records sample_data <->
     r ∈ records (parse_date_column sample_parse sample_data) /\
     exists d, r !! "Date" = Some (PyDate d) /\
               date_leb (mkdate 2024 1 1) d = true /\ date_leb d (mkdate 2024 1 31) = true).
Proof.
  apply (filter_df_by_date_in_range sample_parse sample_data (mkdate 2024 1 1)
           (mkdate 2024 1 31) sample_data true).
  vm_compute. reflexivity.
Defined.

Lemma table_asciib_sound df : table_asciib df = true -> table_ascii df.
Proof.
  unfold table_asciib, table_ascii. intros Hall rec key v Hrec Hv.
  rewrite forallb_forall in Hall. apply list_elem_of_In, Hall in Hrec.
  rewrite forallb_forall in Hrec. apply elem_of_map_to_list, list_elem_of_In in Hv.
  exact (Hrec _ Hv).
Qed.

Lemma sample_data_ascii : table_ascii sample_data.
Proof. apply table_asciib_sound. vm_compute. reflexivity. Qed.

Lemma template_workbook_no_total :
  AutomateExcel.TOTAL_SHEET_NAME ∉ sheetnames template_workbook.
Proof. intros H. apply elem_of_cons in H as [H|H]; [discriminate H|inversion H]. Qed.

Lemma sample_total_with_merged_cell :
  AutomateExcel.update_total_sheet sample_template sample_ranges sample_rate
  = Raise AttributeError /\
  WorkLog.update_total_sheet sample_template sample_ranges sample_rate = Raise AttributeError.
Proof.
  apply (update_total_sheet_raises_on_merged_cell sample_template sample_ranges sample_rate
           7 2); [lia|reflexivity].
Defined.

Lemma sample_dropped_write :
  AutomateExcel.safe_set_cell stray_merged_sheet (2, 2)%positive (PyStr "x")
  = Ok stray_merged_sheet /\
  WorkLog.safe_set_cell stray_merged_sheet (2, 2)%positive (PyStr "x") = Ok stray_merged_sheet.
Proof.
  apply (safe_set_cell_drops_value_outside_ranges stray_merged_sheet (2, 2)%positive
           (PyStr "x")); [reflexivity|].
  intros r Hr. inversion Hr.
Defined.

(** The sample: "Yes" in row 7 turns the "maybe" of row 8 green. *)
Lemma sample_colour_spreads :
  exists (ws' : Worksheet) (last_row : Z),
    WorkLog.fill_daily_sheet sample_clone sample_day sample_data 7 = Ok (ws', last_row) /\
    font (style_at ws' (7, col_E)%positive) = green /\
    forall (i : nat) (rec : gmap string PyValue),
      [sample_record 2 "maybe"] !! i = Some rec ->
      WorkLog.complete_font (dict_get rec "Complete") = None ->
      value_at ws' (row_add 8 i, col_E) = dict_get rec "Complete" /\
      font (style_at ws' (row_add 8 i, col_E)) = green.
Proof.
  apply (worklog_first_row_colour_spreads sample_clone sample_day sample_data
           (sample_record 1 "Yes") [sample_record 2 "maybe"] green sample_clone_all_plain
           sample_data_within_limits sample_data_ascii).
  - vm_compute. reflexivity.
  - reflexivity.
Defined.

Lemma sample_layout :
  exists ws' : Worksheet,
    WorkLog.apply_consistent_layout sample_day sample_clone "01-02-2024" = Ok ws' /\
    all_plain ws' /\
    title ws' = title sample_clone /\ merged_ranges ws' = merged_ranges sample_clone /\
    sheet_state ws' = sheet_state sample_clone /\
    freeze_panes ws' = Some (7%positive, col_A) /\
    (forall c v, (c, v) ∈ label_cells (strftime_mdY sample_day) "01-02-2024" ++ header_cells ->
                 value_at ws' c = v) /\
    (forall c, c ∉ (label_cells (strftime_mdY sample_day) "01-02-2024" ++ header_cells).*1 ->
               cell_at ws' c = cell_at sample_clone c) /\
    (forall c, style_at ws' c = style_at sample_clone c).
Proof.
  exact (apply_consistent_layout_contents sample_day sample_clone "01-02-2024"
           sample_clone_all_plain eq_refl).
Defined.

Lemma sample_automate_fill :
  let recs := AutomateExcel.day_records sample_day sample_data true in
  exists ws' : Worksheet,
    AutomateExcel.fill_daily_sheet sample_day sample_clone sample_day sample_data true 7 None
    = Ok (ws', expected_last_row 7 (length recs)) /\
    sheet_written
      (stamp_cells sample_day sample_day None (bool_decide (recs = [])) ++ header_cells)
      7 recs sample_clone ws' /\
    freeze_panes ws' = Some (7%positive, col_A) /\
    (forall r k, k <> col_E -> style_at ws' (r, k) = style_at sample_clone (r, k)).
Proof.
  apply (automate_fill_daily_sheet_contents sample_day sample_clone sample_day sample_data
           true 7 None sample_clone_all_plain); [lia|exact sample_data_within_limits].
Defined.

Lemma sample_worklog_fill :
  let recs := WorkLog.day_records sample_day sample_data in
  exists ws' : Worksheet,
    WorkLog.fill_daily_sheet sample_clone sample_day sample_data 7
    = Ok (ws', expected_last_row 7 (length recs)) /\
    sheet_written [] 7 recs sample_clone ws' /\
    freeze_panes ws' = freeze_panes sample_clone.
Proof.
  exact (worklog_fill_daily_sheet_contents sample_clone sample_day sample_data 7
           sample_clone_all_plain sample_data_within_limits).
Defined.

Lemma sample_automate_daily_sheet :
  let recs := AutomateExcel.day_records sample_day sample_data true in
  exists (sheet : Worksheet) (suffix : string),
    AutomateExcel.add_daily_sheet sample_day sample_data None (template_workbook, ∅) sample_day
    = Ok (template_workbook ++ [sheet],
          <[strftime_mdY sample_day := (7%Z, expected_last_row 7 (length recs))]> ∅) /\
    daily_sheet
      (stamp_cells sample_day sample_day None (bool_decide (recs = [])) ++ header_cells)
      recs sample_template (strftime_mdY sample_day ++ suffix)%string sheet /\
    (no_sheet_named template_workbook (strftime_mdY sample_day) -> suffix = EmptyString).
Proof.
  exact (automate_daily_sheet_made sample_day sample_data None template_workbook ∅ sample_day
           0 sample_template eq_refl eq_refl sample_data_within_limits).
Defined.

Lemma sample_worklog_daily_sheet :
  let recs := WorkLog.day_records sample_day sample_data in
  let last_row := expected_last_row 7 (length recs) in
  exists (sheet : Worksheet) (suffix : string),
    WorkLog.add_daily_sheet sample_day sample_data "01-02-2024" (template_workbook, ∅)
      sample_day
    = Ok (template_workbook ++ [sheet], <[strftime_mdY sample_day := (7%Z, last_row)]> ∅) /\
    daily_sheet (worklog_cells sample_day "01-02-2024" last_row) recs sample_template
      (strftime_mdY sample_day ++ suffix)%string sheet /\
    (no_sheet_named template_workbook (strftime_mdY sample_day) -> suffix = EmptyString).
Proof.
  exact (worklog_daily_sheet_made sample_day sample_data "01-02-2024" template_workbook ∅
           sample_day 0 sample_template eq_refl eq_refl sample_data_within_limits eq_refl).
Defined.

Lemma sample_total_created :
  exists (total : Worksheet) (suffix : string),
    AutomateExcel.create_or_update_total_sheet template_workbook sample_ranges sample_rate
    = Ok (template_workbook ++ [total]) /\
    WorkLog.create_or_update_total_sheet template_workbook sample_ranges sample_rate
    = Ok (template_workbook ++ [total]) /\
    total_sheet sample_ranges sample_rate (new_sheet ("Total" ++ suffix)) total /\
    (no_sheet_named template_workbook "Total" -> suffix = EmptyString).
Proof.
  exact (total_sheet_created template_workbook sample_ranges sample_rate
           template_workbook_no_total).
Defined.

Lemma sample_total_updated :
  exists total : Worksheet,
    AutomateExcel.create_or_update_total_sheet workbook_with_total sample_ranges sample_rate
    = Ok (<[1%nat := total]> workbook_with_total) /\
    WorkLog.create_or_update_total_sheet workbook_with_total sample_ranges sample_rate
    = Ok (<[1%nat := total]> workbook_with_total) /\
    total_sheet sample_ranges sample_rate empty_total total.
Proof.
  exact (total_sheet_updated_in_place workbook_with_total sample_ranges sample_rate 1
           empty_total eq_refl eq_refl (all_plain_plain_from 3 empty_total empty_total_all_plain)).
Defined.

Lemma sample_range_days_four_digits : Forall four_digit_date (run_days sample_range_run).
Proof.
  repeat constructor; vm_compute; intros H; discriminate H.
Qed.

Lemma sample_range_from_prompt : dates_from_prompt (date_range sample_range_run).
Proof. repeat split; reflexivity. Qed.

Lemma sample_today_four_digits : four_digit_date (today_date sample_range_run).
Proof. split; vm_compute; [reflexivity|intros H; discriminate H]. Qed.

Lemma sample_automate_run :
  exists (sheets : list Worksheet) (total : Worksheet) (suffix : string),
    AutomateExcel.main sample_range_run
    = Ok (<[0%nat := set_sheet_state sample_template hidden]> (loaded_wb sample_range_run)
          ++ sheets ++ [total]) /\
    Forall2 (automate_daily sample_range_run sample_template) (run_days sample_range_run)
      sheets /\
    total_sheet
      (daily_ranges
         (fun d => length (AutomateExcel.day_records d (automate_table sample_range_run) true))
         (run_days sample_range_run))
      (rate_in sample_range_run) (new_sheet ("Total" ++ suffix)) total.
Proof.
  exact (automate_main_run sample_range_run 0 sample_template eq_refl eq_refl
           template_workbook_no_total sample_range_from_prompt sample_today_four_digits
           sample_range_days_four_digits sample_data_within_limits eq_refl).
Defined.

Lemma sample_worklog_run :
  exists (sheets : list Worksheet) (total : Worksheet) (suffix : string),
    WorkLog.main sample_range_run
    = Ok (<[0%nat := set_sheet_state sample_template hidden]> (loaded_wb sample_range_run)
          ++ sheets ++ [total]) /\
    Forall2 (worklog_daily sample_range_run sample_template) (run_days sample_range_run)
      sheets /\
    total_sheet
      (daily_ranges (fun d => length (WorkLog.day_records d (combined_df sample_range_run)))
         (run_days sample_range_run))
      (rate_in sample_range_run) (new_sheet ("Total" ++ suffix)) total.
Proof.
  exact (worklog_main_run sample_range_run 0 sample_template eq_refl eq_refl
           template_workbook_no_total sample_range_from_prompt sample_today_four_digits
           sample_range_days_four_digits sample_data_within_limits eq_refl).
Defined.

(** What the run over three days gives: three daily sheets, and a Total
    sheet with one row, for the one day that has records. *)
Example sample_range_run_outcome :
  exists wb' total,
    AutomateExcel.main sample_range_run = Ok wb' /\
    sheetnames wb' = ["Template"; "01-01-2024"; "01-02-2024"; "01-03-2024"; "Total"] /\
    wb' !! 4%nat = Some total /\
    value_at total (4, col_B)%positive = PyStr "01-02-2024" /\
    value_at total (4, col_C)%positive
    = PyStr "=SUM('01-02-2024'!C7:C8) + (SUM('01-02-2024'!D7:D8)/60)" /\
    value_at total (5, col_B)%positive = PyNone.
Proof.
  eexists. eexists. split; [vm_compute; reflexivity|].
  split; [reflexivity|]. split; [reflexivity|]. repeat split; vm_compute; reflexivity.
Qed.

Lemma sample_output_filenames :
  WorkLog.output_filename (run_days sample_range_run)
  = Some (AutomateExcel.output_filename (date_range sample_range_run)
            (today_date sample_range_run)).
Proof.
  apply (output_filenames_agree sample_range_run). repeat split; reflexivity.
Defined.

Example sample_output_filename :
  WorkLog.output_filename (run_days sample_range_run)
  = Some "01-01-2024_to_01-03-2024.xlsx".
Proof. vm_compute. reflexivity. Qed.

Lemma raw_data_unparsed : dates_unparsed raw_data.
Proof.
  intros rec d Hrec. unfold raw_data in Hrec. cbn [records] in Hrec.
  repeat (apply elem_of_cons in Hrec as [->|Hrec]; [unfold raw_record;
          rewrite lookup_insert_eq; discriminate|]).
  inversion Hrec.
Qed.

Lemma raw_data_within_limits : table_within_limits raw_data.
Proof. apply table_within_limitsb_sound. vm_compute. reflexivity. Qed.

(** The run of 2 January 2024 without dates: the two records of the
    table are of that very day, and none is written. *)
Lemma sample_no_dates_run_writes_nothing :
  AutomateExcel.day_records (today_date raw_no_dates_run) (combined_df raw_no_dates_run) true
  = [] /\
  exists (sheet total : Worksheet),
    AutomateExcel.main raw_no_dates_run
    = Ok (<[0%nat := set_sheet_state sample_template hidden]> (loaded_wb raw_no_dates_run)
          ++ [sheet; total]) /\
    empty_from 7 sheet /\ empty_from 4 total.
Proof.
  apply (automate_no_dates_run_writes_no_dated_record raw_no_dates_run 0 sample_template
           eq_refl eq_refl eq_refl template_workbook_no_total raw_data_within_limits eq_refl).
  - cbn. list_mem.
  - exact raw_data_unparsed.
Defined.

Lemma sample_printed_dates_read_back :
  strptime_mdY (strftime_mdY (mkdate 2024 1 1)) = Some (mkdate 2024 1 1) /\
  AutomateExcel.prompt_date_range (strftime_mdY (mkdate 2024 1 1)) EmptyString
  = Ok (StartOnly (mkdate 2024 1 1)) /\
  AutomateExcel.prompt_date_range (strftime_mdY (mkdate 2024 1 1))
    (strftime_mdY (mkdate 2024 1 3))
  = (if date_leb (mkdate 2024 1 1) (mkdate 2024 1 3)
     then Ok (Range (mkdate 2024 1 1) (mkdate 2024 1 3)) else Raise SystemExit) /\
  WorkLog.prompt_date_range (strftime_mdY (mkdate 2024 1 1)) (strftime_mdY (mkdate 2024 1 3))
  = AutomateExcel.prompt_date_range (strftime_mdY (mkdate 2024 1 1))
      (strftime_mdY (mkdate 2024 1 3)).
Proof.
  apply (prompt_date_range_reads_printed_dates (mkdate 2024 1 1) (mkdate 2024 1 3));
    [reflexivity|vm_compute; intros H; discriminate H
    |reflexivity|vm_compute; intros H; discriminate H].
Defined.

Lemma template_workbook_fresh_day (d : date) :
  no_sheet_named template_workbook (strftime_mdY d).
Proof.
  apply template_workbook_no_sheet_named.
  rewrite (date_string_lower _ (strftime_chars d)). intros H.
  exact (proj1 (date_string_not_t _ _ (strftime_chars d)) (eq_sym H)).
Qed.

Lemma sample_automate_titles :
  exists (sheets : list Worksheet) (total : Worksheet),
    AutomateExcel.main sample_range_run
    = Ok (<[0%nat := set_sheet_state sample_template hidden]> (loaded_wb sample_range_run)
          ++ sheets ++ [total]) /\
    title <$> sheets = strftime_mdY <$> run_days sample_range_run /\
    NoDup (title <$> sheets) /\
    (forall name,
       (exists row, (4 <= row)%positive /\ value_at total (row, col_B) = PyStr name) <->
       (exists d, d ∈ run_days sample_range_run /\ name = strftime_mdY d /\
                  (0 < length (AutomateExcel.day_records d (automate_table sample_range_run)
                                 true))%nat)) /\
    (forall d, d ∈ run_days sample_range_run ->
       (0 < length (AutomateExcel.day_records d (automate_table sample_range_run) true))%nat ->
       exists k, summary_row total (row_add 4 k) (strftime_mdY d) 7
                   (6 + Z.of_nat (length (AutomateExcel.day_records d
                                            (automate_table sample_range_run) true)))
                   (rate_in sample_range_run)).
Proof.
  exact (automate_daily_sheets_titled_by_day sample_range_run 0 sample_template eq_refl
           eq_refl template_workbook_no_total sample_range_from_prompt
           sample_range_days_four_digits (fun d _ => template_workbook_fresh_day d)
           sample_data_within_limits eq_refl).
Defined.

Lemma sample_worklog_titles :
  exists (sheets : list Worksheet) (total : Worksheet),
    WorkLog.main sample_range_run
    = Ok (<[0%nat := set_sheet_state sample_template hidden]> (loaded_wb sample_range_run)
          ++ sheets ++ [total]) /\
    title <$> sheets = strftime_mdY <$> run_days sample_range_run /\
    NoDup (title <$> sheets) /\
    (forall name,
       (exists row, (4 <= row)%positive /\ value_at total (row, col_B) = PyStr name) <->
       (exists d, d ∈ run_days sample_range_run /\ name = strftime_mdY d /\
                  (0 < length (WorkLog.day_records d (combined_df sample_range_run)))%nat)) /\
    (forall d, d ∈ run_days sample_range_run ->
       (0 < length (WorkLog.day_records d (combined_df sample_range_run)))%nat ->
       exists k, summary_row total (row_add 4 k) (strftime_mdY d) 7
                   (6 + Z.of_nat (length (WorkLog.day_records d
                                            (combined_df sample_range_run))))
                   (rate_in sample_range_run)).
Proof.
  exact (worklog_daily_sheets_titled_by_day sample_range_run 0 sample_template eq_refl
           eq_refl template_workbook_no_total sample_range_from_prompt
           sample_range_days_four_digits (fun d _ => template_workbook_fresh_day d)
           sample_data_within_limits eq_refl).
Defined.

Lemma sample_run_without_records :
  (exists (sheets : list Worksheet) (total : Worksheet),
     AutomateExcel.main empty_range_run
     = Ok (<[0%nat := set_sheet_state sample_template hidden]> (loaded_wb empty_range_run)
           ++ sheets ++ [total]) /\
     length sheets = length (run_days empty_range_run) /\
     Forall (empty_from 7) sheets /\ empty_from 4 total) /\
  (exists (sheets : list Worksheet) (total : Worksheet),
     WorkLog.main empty_range_run
     = Ok (<[0%nat := set_sheet_state sample_template hidden]> (loaded_wb empty_range_run)
           ++ sheets ++ [total]) /\
     length sheets = length (run_days empty_range_run) /\
     Forall (fun s => empty_from 7 s /\ value_at s (4, col_C)%positive = PyInt 0) sheets /\
     empty_from 4 total).
Proof.
  exact (run_without_records empty_range_run 0 sample_template eq_refl eq_refl
           template_workbook_no_total sample_range_from_prompt eq_refl eq_refl).
Defined.

(** The run over three days without a file gives three daily sheets. *)
Example empty_range_run_days : length (run_days empty_range_run) = 3%nat.
Proof. vm_compute. reflexivity. Qed.

Lemma sample_clear_with_merged_cells :
  exists ws',
    WorkLog.clear_sheet_data straddling_sheet 7 = Ok ws' /\
    empty_from 7 ws' /\
    (forall r k, (7 <= r <= max_row straddling_sheet)%positive ->
       (k <= max_column straddling_sheet)%positive ->
       value_at ws' (write_target straddling_sheet (r, k)) = PyNone) /\
    (forall c,
       (forall r k, (7 <= r <= max_row straddling_sheet)%positive ->
          (k <= max_column straddling_sheet)%positive ->
          c <> write_target straddling_sheet (r, k)) ->
       cell_at ws' c = cell_at straddling_sheet c) /\
    (forall c, style_at ws' c = style_at straddling_sheet c /\
               isinstance_MergedCell (cell_at ws' c)
               = isinstance_MergedCell (cell_at straddling_sheet c)) /\
    sheet_meta ws' = sheet_meta straddling_sheet.
Proof.
  apply (worklog_clear_sheet_data_on_merged_cells straddling_sheet 7).
  apply anchors_plainb_sound. reflexivity.
Defined.

(** The header cell A6, merged with A7, is wiped by the wipe from row 7;
    the same wipe of automate_excel.py raises. *)
Example straddling_header_wiped :
  value_at straddling_sheet (6, 1)%positive = PyStr "Number" /\
  (exists ws', WorkLog.clear_sheet_data straddling_sheet 7 = Ok ws' /\
               value_at ws' (6, 1)%positive = PyNone) /\
  AutomateExcel.clear_sheet_data straddling_sheet 7 = Raise AttributeError.
Proof.
  split; [reflexivity|]. split; [|vm_compute; reflexivity].
  eexists. split; [vm_compute; reflexivity|]. vm_compute. reflexivity.
Qed.

Lemma sample_complete_cell_fonts :
  (exists ws' last,
     AutomateExcel.fill_daily_sheet sample_day sample_clone sample_day sample_data true 7 None
     = Ok (ws', last) /\
     forall i rec,
       AutomateExcel.day_records sample_day sample_data true !! i = Some rec ->
       let flag := dict_get rec "Complete" in
       let cell := (row_add 7 i, col_E) in
       value_at ws' cell = flag /\
       (says "yes" flag -> font (style_at ws' cell) = green) /\
       (says "no" flag -> font (style_at ws' cell) = red) /\
       (~ says "yes" flag -> ~ says "no" flag ->
        style_at ws' cell = style_at sample_clone cell)) /\
  (exists ws' last,
     WorkLog.fill_daily_sheet sample_clone sample_day sample_data 7 = Ok (ws', last) /\
     forall i rec,
       WorkLog.day_records sample_day sample_data !! i = Some rec ->
       let flag := dict_get rec "Complete" in
       let cell := (row_add 7 i, col_E) in
       value_at ws' cell = flag /\
       (says_padded "yes" flag -> font (style_at ws' cell) = green) /\
       (says_padded "no" flag -> font (style_at ws' cell) = red) /\
       (~ says_padded "yes" flag -> ~ says_padded "no" flag ->
        (forall j rec_j, (j < i)%nat ->
           WorkLog.day_records sample_day sample_data !! j = Some rec_j ->
           row_add 7 j = WorkLog.TEMPLATE_STYLE_ROW ->
           WorkLog.complete_font (dict_get rec_j "Complete") = None) ->
        style_at ws' cell = propagated_style sample_clone (row_add 7 i) col_E)).
Proof.
  exact (complete_cell_fonts sample_day sample_clone sample_day sample_data true 7 None
           sample_clone_all_plain sample_data_within_limits sample_data_ascii).
Defined.
